(* ===== verification/_CoqProject ===== *)
-Q . S2P
Prelude.v
Varint.v
Skip.v
Records.v
Protoreflect.v
Unmarshal.v
Marshal.v
Bar.v
Hello.v
Runtime.v
FooReflect.v
ImportMessage.v
FastReflection.v
GoTag.v
GoStruct.v
GoEnum.v
GoMsgText.v
CosmosProto.v
GoFileDesc.v
FileInfo.v
Generate.v
