(* ===== verification/Prelude.v ===== *)
(** * A verification development for cosmos-proto's generated wire codec

    ** The program

    cosmos-proto is a protoc plugin ("pulsar") that emits, for every
    message type, a binary protobuf codec and a "fast reflection" accessor
    layer.  src/ holds the generator and three files it generated:
    - src/generator/gen.go: the protoc-gen-go style emitter: the message
      struct and its getters ([genMsgStruct], [genField], [getType],
      [genGetters]), the struct tags ([structTags], [tag.Marshal],
      [DefValMarshal], [marshalBytes]) and naming helpers;
    - src/features/fastreflection/has.go and get.go: the emitters of the
      fast-reflection methods [Has] and [Get];
    - src/proto/foo.pulsar.go: messages [Bar {string baz = 1}] and
      [Hello {string world = 1; bool universe = 2}] with the gogo-style
      codec ([sov], [soz], [encodeVarint], [Size], [MarshalToSizedBuffer],
      [Marshal], [MarshalTo], [Unmarshal], [skip]), their accessors and the
      [GetMethods] fast-path table whose closures call that codec;
    - src/internal/testprotos/test3/test_import.pulsar.go: the fast
      reflection of the empty [ImportMessage], whose [ProtoMethods] carry
      size, marshal and unmarshal closures honouring [DiscardUnknown];
    - src/cosmos_proto/cosmos.pulsar.go: four extension descriptors (a
      table, a serialized [FileDescriptorProto], [init]).

    The codec's parts interact as the Go code does: [Marshal] allocates
    [Size()] bytes and calls [MarshalToSizedBuffer], which writes fields
    back to front with [encodeVarint]; every [Unmarshal] runs the same
    loop (read a tag, check it, switch on the field number) and hands
    unknown fields to [skip], which measures one record, groups included.

    ** Files, in dependency order
    - [Prelude] (this file): Go integers as [Z] with their wrap-around
      ([u64], [int64], [int32]); byte slices as [list Z] with Go's indexing
      ([at_]), slicing ([slice]) and in-place writes ([put]); the error
      values of the generated code ([goerr]); the result type [res] with the
      notations [x <- c ;; k] (errors) and [x <-? c ;; k] (panics, as
      [option]) in [go_scope]; the shared lemmas, hint database [go], the
      rewrite database [go_rw] and the tactics [go_norm], [len_pos], [buf_lia];
      Section [Sequences]: runs of a transition relation ([star]), infinite
      runs ([infseq]), final states ([irred]), liveness by a variant
      ([variant_no_infseq]) and uniqueness of final states of a
      deterministic relation.
    - [Varint] (Module [Varint]): [sov], [soz], [zigzag], [encodeVarint]
      and its loop, the varint loop inlined by every [Unmarshal]
      ([readVarint]) and by [skip] ([skipVarint]), and the reference
      encoding [varint] they are proved against.
    - [Skip] (Module [Skip]): [skip] as [skip_loop] over its state (index,
      group depth) and, the same loop, as the transition relation
      [skip_sem] on [skip_state] (loop head or [return]); the grammar of wire records [wrec] with nested groups,
      their encoding [enc_wrec], and the theorems on groups, errors and
      termination.
    - [Records] (Module [Records]): [skip] reads only the bytes of its
      record ([skip_prefix], [skip_extend]), and [records_ok], the spec's
      invariant of the unknown-field buffer, with [skip] as recognizer.
    - [Protoreflect]: the protoreflect values the accessors take and
      return ([FieldDescriptor], [Value]) and Go panics ([gopanic], [pres]).
    - [Unmarshal] (Module [Unmarshal]): the class [MessageSwitch] states
      what a message supplies to the loop (its name, unknown-field storage
      and the [switch fieldNum] body); Section [Loop] defines the loop body
      [unmarshal_body] and the loop once, as [unmarshal_loop] and as the
      transition relation [unmarshal_sem],
      Section [Lemmas] proves it against the interface [MessageSwitchLaws],
      Section [Fields] proves that a sequence of field encodings and unknown
      records decodes into their effects in order, Section [Invariant]
      that the unknown-field buffer stays well-formed, Section [Liveness]
      that every run of the loop returns.
    - [Marshal] (Module [Marshal]): the back-to-front steps shared by the
      [MarshalToSizedBuffer]s (unknown fields, a length-delimited string
      field) and the generic [Marshal] ([make] + [MarshalToSizedBuffer]).
    - [Bar], [Hello] (Modules of the same names): the message as a Record,
      each method of foo.pulsar.go as a definition ([Size],
      [MarshalToSizedBuffer], [Marshal], [MarshalTo], the [switch] of
      [Unmarshal] as an instance of [MessageSwitch], [Unmarshal], the
      getters, [Get] (which switches on the short name), and the
      [GetMethods] closures); the methods that delegate to the runtime
      through a value receiver are in FooReflect.
    - [Runtime] (stdpp; Module [Runtime]): the protobuf runtime's
      reflection of a message as the class [ProtoMessage] with the contract
      of spec section 4.2 as the class [ProtoMessageLaws]; memory as a
      [gmap] from addresses to messages ([heap]), Go pointers as
      [option positive]; a value-receiver call copies [*p] to a fresh cell
      ([receiver]) and the runtime acts there ([update]); the generic
      bodies [x.ProtoReflect().M(args)] ([vr_Has], [vr_Clear], ...).
    - [FooReflect] (stdpp): Module [FooRuntime], the runtime of
      [cosmos.proto.Bar] and [cosmos.proto.Hello] ([Bar_Set],
      [Hello_Has], [Hello_Clear], ...) with its laws discharged;
      Modules [BarReflect] and [HelloReflect], one definition per
      delegating method of foo.pulsar.go ([ProtoReflect], [Descriptor],
      [Type], [New], [Interface], [Range], [Has], [Clear], [Set],
      [Mutable], [NewField], [WhichOneof], [GetUnknown], [SetUnknown],
      [IsValid], [ProtoMethods]).
    - [ImportMessage] (Module [ImportMessage]): every method of the fast
      reflection of test_import.pulsar.go and its [ProtoMethods] closures.
    - [FastReflection] (stdpp; Module [FastReflection]): what has.go and
      get.go print for a message, as a small syntax of the printed
      statements ([HasBody], [GetBody]; the [protoreflect.ValueOf...]
      constructor [genFieldGetter]'s kind switch prints is kept by name,
      [Ctor]), the generators as functions from
      a message description to that syntax, the meaning of the printed code
      on a message state (a [gmap] from Go field names to values), and the
      presence/value contract the printed methods should meet.
    - [GoTag] (Module [GoTag]): the struct tags of gen.go and the C
      escaping of [marshalBytes] with its inverse [unescape]; also the
      helpers that compare printed lines with the Go files up to gofmt's
      spaces ([squash], [printed]).
    - [GoStruct] (Module [GoStruct]): what [genMsgStruct] prints, as
      declarations ([Decl]: members, oneof interfaces and wrappers, getters)
      with the Go types as printed strings, a type check of the printed
      getters ([well_typed]), and [genFunctionSignature], [fileVarName],
      [appendDeprecationSuffix].
    - [GoEnum] (Module [GoEnum]): what [genEnum] and
      [genEnumReflectMethods] print, one [Line] per [g.P] call, the
      entries of the [E_name] and [E_value] map literals kept with the
      constants they denote, and the [needRawDesc] flag [genEnum] sets.
    - [GoMsgText] (Module [GoMsgText]): the global [FILENAME] of
      [GenerateProtocGenGo], [genPackage], [genTopLevelVars] and, per
      message, [genMsgStruct] as the lines it prints: the struct from
      GoStruct's declarations, [genReset], [genString], [genProtoMessage],
      [genProtoReflect] and the getters.
    - [CosmosProto] (Module [CosmosProto]): the tables of cosmos.pulsar.go
      as data, [init] as a step on the package variables (Section [Init],
      [Build] a parameter), and a reader of the serialized descriptor.
    - [GoFileDesc] (stdpp; Module [GoFileDesc]): [genReflectFileDescriptor]
      and [genFileDescriptor]: the computation of the [goTypes] and
      [depIdxs] tables ([type_tables], its [seen] map a [gmap]), every
      printed line (the [TypeBuilder] call in [builder_lines]), the hex
      dump of the serialized descriptor, and the descriptor bytes of
      foo.pulsar.go and test_import.pulsar.go.
    - [FileInfo] (stdpp; Module [FileInfo]): [newFileInfo] and the info
      types of gen.go: a protogen message as a tree ([Message], with the
      induction principle [Message_ind]), [walkMessages] and the init
      closures as state passing with addresses from a counter, the address
      maps as [gmap]s, [newMessageInfo] with [isTrackedMessage] as a
      fuelled loop over a [protowire] record of functions (Section
      [Protowire]); code that returns, panics or runs out of fuel is the
      small monad [run] with notation [x <-! c ;; k] in [run_scope].
    - [Generate] (stdpp; Module [Generate]): the driver
      [GenerateProtocGenGo] as the composition of the emitters above:
      [FILENAME], [genPackage], [genTopLevelVars], the enum loop
      ([genEnums], whose [needRawDesc] flag is the [f] handed on), the
      message loop [genMsgStructs] with [genProtoMessageFunctions] (outside
      src/) a Section variable, and [genReflectFileDescriptor]; what it
      reads of [file] and [newFileInfo(file)] is the record [GenFile].

    ** What the theorems show
    - Codec: for [Bar] and [Hello], [Marshal] succeeds, returns [Size()]
      bytes, and [Unmarshal] of them rebuilds the message with its unknown
      fields; the exact bytes of the spec's examples; [encodeVarint] and
      the varint loop are inverse; [skip] measures any well-formed record,
      groups nested included.
    - Error paths: wrong wire types, end-group where a field is expected,
      field number 0, varint overflow, an unmatched end-group and an
      unterminated group each give the error of the code.
    - Invariant: the unknown-field buffer of a message stays a sequence of
      complete records through [Unmarshal], on every input and every exit.
    - Termination: the loops of [Unmarshal] and [skip] are bounded by the
      input length, and any larger bound gives the same result.
    - Liveness: as transition systems, the loops of [Unmarshal] (for every
      message switch satisfying the laws) and of [skip] have no infinite
      run, and every run that stops has returned what the fuelled model
      returns; the variant is [len(dAtA) - iNdEx], as each iteration that
      goes on consumes at least its tag byte.
    - Fast reflection: outside oneofs the printed [Has] refines the
      presence contract; the printed [Get] of a singular field returns
      what the contract returns: the constructor get.go's kind switch
      prints builds the value [kindToValueConstructor] gives the kind, and
      a oneof member reads as its value exactly when it is populated; the failures of the generators are proved as theorems
      (findings in PROJECT.json): [Has] of a oneof member, proto2 optional
      scalars, [Get] of lists and maps.
    - Delegating methods (FooReflect): on the heap, the writes of [Bar]
      and [Hello] through value receivers ([Set], [Clear], [SetUnknown])
      leave every cell the caller can reach unchanged; [Interface] returns
      the address of a copy that no write through it connects to the
      caller; [IsValid] panics on nil where the message of nil reports
      false (a finding).  Runtime.v proves the generic facts they rest on
      (reads through the copy, [Range] against the contract).
    - newFileInfo (FileInfo): its three lists are the flattened ordering
      (the file's declarations, then those of each message in pre-order),
      the messages being every message of the file once (a permutation of
      the pre-order walk); the address maps invert the lists; under
      [protowire]'s contract it never runs out of fuel.
    - Driver (Generate): when an enum prints its [EnumDescriptor] method,
      which calls [<rawDesc>GZIP()], and the descriptor marshals, the
      output of [GenerateProtocGenGo] defines that function: the flag the
      enum loop sets reaches [genFileDescriptor].
    - Code defects of foo.pulsar.go: the value receivers of [Set]/[Clear],
      [Get] switching on the short name, the fast-path [Unmarshal]
      rejecting the empty encoding (Examples), and the tenth varint byte:
      after nine continuation bytes any byte below 0x80 is accepted and
      only its lowest bit kept, for every input; [int32(wire >> 3)]
      truncating the field number (an Example).
    - Fast path and unknown fields: the [GetMethods] closures of [Bar]
      read back what they write; the [unmarshal] closure of
      [ImportMessage] keeps or drops well-formed unknown records as
      [DiscardUnknown] says; a repeated field keeps its last value; the
      error paths (wrong wire type, field number 0, an unterminated group)
      hold for every input of their shape.
    - Tags: the tags built for foo.proto's fields are the ones in
      foo.pulsar.go, and [marshalBytes] is printable and inverted by C
      unescaping.
    - Structs: [getType] makes pointers exactly of optional scalars; without
      oneofs every printed getter type-checks against its member; with a
      oneof whose members differ in type the wrappers get the first
      member's type and the getters do not compile (a finding);
      [genFunctionSignature]'s argument list is a join.
    - Enums: the [E_name] literal [genEnum] prints never repeats a key
      (aliases are commented out), [E_name] and [E_value] are inverse on
      the first value of each number, and the output for [ImportEnum] is
      the code of test_import.pulsar.go.
    - Message text: on foo.proto the package variables and the whole text
      of [Bar] and [Hello] up to [genProtoMessageFunctions] are the code
      of foo.pulsar.go; [FILENAME] keeps every byte but [/], so a prefix
      with [-] prints a name that is no Go identifier (a finding).
    - File descriptors: in the tables [genReflectFileDescriptor] prints
      every Go type is listed once and every dependency index points at
      its type; the [[]byte] literal of [genFileDescriptor] reads back to
      the descriptor, 16 bytes a line but the last; on foo.pulsar.go,
      test_import.pulsar.go and cosmos.pulsar.go the model prints their
      descriptor code.
    - cosmos.pulsar.go: [rawDesc] is well-formed, the extension table agrees
      with it and its tags are [Marshal]'s; [init] builds once.

    ** Fuel and bounds
    Each loop that Go writes as [for] takes a fuel argument.  The
    [Unmarshal] and [skip] loops get [length dAtA]: each iteration consumes
    at least one byte, so that many iterations reach the end
    ([unmarshal_terminates], [skip_terminates] prove more fuel changes
    nothing).  The varint read loop gets 11: Go stops at [shift >= 64],
    after 10 bytes.  [encodeVarint] gets 10, the length of the longest
    uint64 varint.  [itoa] gets 20 digits, enough for every int64.
    [isTrackedMessage]'s loop gets [len(b) + 1]: under [protowire]'s
    contract each round consumes at least the tag's byte
    ([newFileInfo_returns]).
    [iNdEx] and the lengths the decoders add to it are Go [int]s: every
    such sum is taken [int64], so an overflowing length is a negative index
    and the code's [< 0] checks catch it in the model as in Go.

    ** Not modelled
    Nil receivers of [Size]/[Marshal] (the code handles nil only through
    the runtime); the protobuf runtime itself ([protoimpl], descriptors):
    its reflection of a message is the interface of Runtime.v with the
    spec's contract as laws, and what its [TypeBuilder.Build] does with
    the descriptor tables is a parameter, as are the [protowire]
    decoders [isTrackedMessage] calls (with their contract);
    [genProtoMessageFunctions], which is outside src/ (a parameter of the
    driver), and the link between the protogen file FileInfo reads and
    the inputs each emitter reads in its own terms ([GenFile]); [String] and [ProtoMessage] of [Bar] and [Hello], which
    only print or mark; comments; the float rendering of
    [strconv.FormatFloat] (taken as given in [FloatVal]); [strconv.Quote]
    and [strings.ToLower] beyond ASCII. *)

From Stdlib Require Import ZArith List Lia.
From Stdlib Require String.
Import ListNotations.
Open Scope Z_scope.

(** ** Go integers *)

(** [uint64(x)]: reduction modulo 2^64. *)
Definition u64 (x : Z) : Z := x mod 2 ^ 64.

(** [int64(x)] / Go's 64-bit [int]: two's-complement reinterpretation. *)
Definition int64 (x : Z) : Z :=
  let y := x mod 2 ^ 64 in if y <? 2 ^ 63 then y else y - 2 ^ 64.

(** [int32(x)]: truncation to the low 32 bits, signed. *)
Definition int32 (x : Z) : Z :=
  let y := x mod 2 ^ 32 in if y <? 2 ^ 31 then y else y - 2 ^ 32.

(** ** Byte slices *)

(** A Go [[]byte] (and a Go [string], which is a byte sequence). *)
Definition bytes := list Z.

Definition is_byte (b : Z) : bool := ((0 <=? b) && (b <? 256))%bool.
Definition bytes_ok (bs : bytes) : bool := forallb is_byte bs.

(** [len(s)] *)
Definition len {A} (l : list A) : Z := Z.of_nat (length l).

(** [d[i]] for an index the code has already bounds-checked. *)
Definition at_ (d : bytes) (i : Z) : Z := nth (Z.to_nat i) d 0.

(** [d[a:b]] for bounds the code has already checked. *)
Definition slice (d : bytes) (a b : Z) : bytes :=
  firstn (Z.to_nat (b - a)) (skipn (Z.to_nat a) d).

(** ** Errors of the generated code *)

Inductive goerr :=
| ErrIntOverflow                         (* proto: integer overflow *)
| ErrUnexpectedEOF                       (* io.ErrUnexpectedEOF *)
| ErrInvalidLength                       (* proto: negative length ... *)
| ErrUnexpectedEndOfGroup                (* proto: unexpected end of group *)
| ErrIllegalWireType (wt : Z)            (* proto: illegal wireType %d *)
| ErrEndGroupForNonGroup (msg : String.string)  (* proto: M: wiretype end group for non-group *)
| ErrIllegalTag (msg : String.string) (fieldNum wire : Z) (* proto: M: illegal tag *)
| ErrWrongWireType (field : String.string) (wt : Z)       (* proto: wrong wireType *)
| ErrNew (msg : String.string).         (* errors.New(msg) *)

(** Fallible code returns [inl err] or [inr value]; code that can panic
    (index out of range) returns [None]. *)
Definition res (A : Type) : Type := (goerr + A)%type.

Declare Scope go_scope.
Delimit Scope go_scope with go.
Notation "x <- c ;; k" :=
  (match c with inl e => inl e | inr x => k end)
  (at level 64, c at next level, right associativity) : go_scope.
Notation "' p <- c ;; k" :=
  (match c with inl e => inl e | inr p => k end)
  (at level 64, p pattern, c at next level, right associativity) : go_scope.
Notation "x <-? c ;; k" :=
  (match c with None => None | Some x => k end)
  (at level 64, c at next level, right associativity) : go_scope.
Notation "' p <-? c ;; k" :=
  (match c with None => None | Some p => k end)
  (at level 64, p pattern, c at next level, right associativity) : go_scope.
Open Scope go_scope.

(** ** Shared lemmas *)

Create HintDb go.
Create Rewrite HintDb go_rw.

Lemma len_app {A} (l1 l2 : list A) : len (l1 ++ l2) = len l1 + len l2.
Proof. unfold len. rewrite length_app. lia. Qed.

Lemma len_cons {A} (x : A) l : len (x :: l) = 1 + len l.
Proof. unfold len. simpl length. lia. Qed.

Lemma len_nil {A} : len (@nil A) = 0.
Proof. reflexivity. Qed.

Lemma len_nonneg {A} (l : list A) : 0 <= len l.
Proof. unfold len. lia. Qed.

#[export] Hint Rewrite @len_app @len_cons @len_nil : go_rw.

Lemma u64_small x : 0 <= x < 2 ^ 64 -> u64 x = x.
Proof. intros. unfold u64. apply Z.mod_small. lia. Qed.

Lemma int64_small x : 0 <= x < 2 ^ 63 -> int64 x = x.
Proof.
  intros. unfold int64. rewrite Z.mod_small by lia.
  destruct (Z.ltb_spec x (2 ^ 63)); lia.
Qed.

Lemma int32_small x : 0 <= x < 2 ^ 31 -> int32 x = x.
Proof.
  intros. unfold int32. rewrite Z.mod_small by lia.
  destruct (Z.ltb_spec x (2 ^ 31)); lia.
Qed.

Lemma int64_nonneg_iff x : 0 <= int64 x <-> x mod 2 ^ 64 < 2 ^ 63.
Proof.
  unfold int64. pose proof (Z.mod_pos_bound x (2 ^ 64)).
  destruct (Z.ltb_spec (x mod 2 ^ 64) (2 ^ 63)); lia.
Qed.

Lemma at_app_len (pre post : bytes) b : at_ (pre ++ b :: post) (len pre) = b.
Proof.
  unfold at_, len. rewrite Nat2Z.id, app_nth2 by lia.
  rewrite Nat.sub_diag. reflexivity.
Qed.

Lemma at_app_r (pre post : bytes) i :
  len pre <= i -> at_ (pre ++ post) i = at_ post (i - len pre).
Proof.
  unfold at_, len. intros H. rewrite app_nth2 by lia.
  f_equal. lia.
Qed.

Lemma slice_app (pre x post : bytes) :
  slice (pre ++ x ++ post) (len pre) (len pre + len x) = x.
Proof.
  unfold slice, len.
  replace (Z.to_nat (Z.of_nat (length pre) + Z.of_nat (length x)
                     - Z.of_nat (length pre))) with (length x) by lia.
  rewrite Nat2Z.id, skipn_app, skipn_all, Nat.sub_diag. simpl.
  rewrite firstn_app, Nat.sub_diag, firstn_all. simpl. apply app_nil_r.
Qed.

Lemma slice_suffix (pre post : bytes) :
  slice (pre ++ post) (len pre) (len pre + len post) = post.
Proof. rewrite <- (app_nil_r post) at 1. rewrite slice_app. reflexivity. Qed.

(** [d[i:]] as the code passes it to [skip]. *)
Lemma skipn_app_len (pre post : bytes) :
  skipn (Z.to_nat (len pre)) (pre ++ post) = post.
Proof.
  unfold len. rewrite Nat2Z.id, skipn_app, skipn_all, Nat.sub_diag. reflexivity.
Qed.

Lemma bytes_ok_app (a b : bytes) :
  bytes_ok (a ++ b) = (bytes_ok a && bytes_ok b)%bool.
Proof. unfold bytes_ok. apply forallb_app. Qed.

Lemma bytes_ok_cons x (a : bytes) :
  bytes_ok (x :: a) = (is_byte x && bytes_ok a)%bool.
Proof. reflexivity. Qed.

#[export] Hint Rewrite bytes_ok_app bytes_ok_cons : go_rw.

Lemma is_byte_spec b : is_byte b = true <-> 0 <= b < 256.
Proof.
  unfold is_byte. rewrite Bool.andb_true_iff, Z.leb_le, Z.ltb_lt. reflexivity.
Qed.

(** [go_norm] pushes [len] and [bytes_ok] through list constructors. *)
Ltac go_norm := autorewrite with go_rw in *.

(** ** Writes into a byte slice *)

(** [put d i xs] overwrites [length xs] bytes of [d] from index [i]. *)
Definition put (d : bytes) (i : nat) (xs : bytes) : bytes :=
  firstn i d ++ xs ++ skipn (i + length xs) d.

(** [dAtA[i] = b]: panics (None) when [i] is out of range. *)
Definition store (d : bytes) (i b : Z) : option bytes :=
  if ((0 <=? i) && (i <? len d))%bool then Some (put d (Z.to_nat i) [b]) else None.

(** [copy(dAtA[i:], src)]: the slice expression panics unless
    [0 <= i <= len dAtA]; [copy] moves [min(len src, len dAtA - i)] bytes. *)
Definition copy_at (d : bytes) (i : Z) (src : bytes) : option bytes :=
  if ((0 <=? i) && (i <=? len d))%bool
  then Some (put d (Z.to_nat i) (firstn (Z.to_nat (len d - i)) src))
  else None.

Lemma length_put d i xs :
  (i + length xs <= length d)%nat -> length (put d i xs) = length d.
Proof.
  intros H. unfold put. rewrite !length_app, length_firstn, length_skipn. lia.
Qed.

(** Writing [xs] and then, just before it, [ys] writes [ys ++ xs]. *)
Lemma put_put_before d i ys xs :
  (i + length ys + length xs <= length d)%nat ->
  put (put d (i + length ys) xs) i ys = put d i (ys ++ xs).
Proof.
  intros H. unfold put.
  assert (Hl : length (firstn (i + length ys) d) = (i + length ys)%nat)
    by (rewrite length_firstn; lia).
  rewrite firstn_app, firstn_firstn, Hl.
  replace (i - (i + length ys))%nat with 0%nat by lia.
  rewrite Nat.min_l by lia. simpl. rewrite app_nil_r.
  rewrite skipn_app, Hl.
  replace (i + length ys - (i + length ys))%nat with 0%nat by lia.
  rewrite skipn_all2 by (rewrite length_firstn; lia). simpl.
  rewrite length_app, <- !app_assoc, Nat.add_assoc. reflexivity.
Qed.

(** Writing [ys] and then, just after it, [xs] writes [ys ++ xs]. *)
Lemma put_put_after d i ys xs :
  (i + length ys + length xs <= length d)%nat ->
  put (put d i ys) (i + length ys) xs = put d i (ys ++ xs).
Proof.
  intros H. unfold put.
  assert (Hl : length (firstn i d) = i) by (rewrite length_firstn; lia).
  rewrite firstn_app, Hl, firstn_all2 by lia.
  rewrite firstn_app, length_app, (firstn_all2 ys) by lia.
  replace (i + length ys - i - length ys)%nat with 0%nat by lia.
  rewrite firstn_O, app_nil_r.
  rewrite skipn_app, Hl, skipn_all2 by lia.
  rewrite skipn_app, skipn_all2 by lia.
  rewrite skipn_skipn, <- !app_assoc. simpl. rewrite ?length_app.
  do 4 f_equal. lia.
Qed.

Lemma put_all d xs : length xs = length d -> put d 0 xs = xs.
Proof.
  intros H. unfold put. simpl. rewrite skipn_all2 by lia. apply app_nil_r.
Qed.

Lemma store_put d i b :
  0 <= i < len d -> store d i b = Some (put d (Z.to_nat i) [b]).
Proof.
  intros H. unfold store.
  destruct (Z.leb_spec 0 i), (Z.ltb_spec i (len d)); simpl; try lia; reflexivity.
Qed.

Lemma copy_at_put d i src :
  0 <= i -> i + len src <= len d -> copy_at d i src = Some (put d (Z.to_nat i) src).
Proof.
  intros H1 H2. unfold copy_at. pose proof (len_nonneg src).
  destruct (Z.leb_spec 0 i), (Z.leb_spec i (len d)); simpl; try lia.
  rewrite firstn_all2 by (unfold len in *; lia). reflexivity.
Qed.

(** ** Bit-level facts *)

(** Or-ing a value into bits above [a] is addition. *)
Lemma lor_add_shift a b s :
  0 <= s -> 0 <= a < 2 ^ s -> Z.lor a (b * 2 ^ s) = a + b * 2 ^ s.
Proof.
  intros Hs Ha. apply Z.bits_inj'. intros n Hn. rewrite Z.lor_spec.
  assert (Hp : 2 ^ s <> 0) by (apply Z.pow_nonzero; lia).
  destruct (Z.ltb_spec n s).
  - rewrite Z.mul_pow2_bits_low, Bool.orb_false_r by lia.
    rewrite <- (Z.mod_pow2_bits_low (a + b * 2 ^ s) s n) by lia.
    rewrite Z.mod_add, Z.mod_small by lia. reflexivity.
  - assert (Ha0 : Z.testbit a n = false).
    { destruct (Z.eq_dec a 0) as [->|]; [apply Z.testbit_0_l|].
      apply Z.bits_above_log2; [lia|].
      assert (Z.log2 a < s) by (apply Z.log2_lt_pow2; lia). lia. }
    rewrite Ha0, Z.mul_pow2_bits by lia. simpl.
    replace n with (n - s + s) at 2 by lia.
    rewrite <- Z.div_pow2_bits by lia.
    rewrite Z.div_add, Z.div_small by lia. reflexivity.
Qed.

Lemma lor_bound a b n :
  0 <= n -> 0 <= a < 2 ^ n -> 0 <= b < 2 ^ n -> 0 <= Z.lor a b < 2 ^ n.
Proof.
  intros Hn Ha Hb. split; [apply Z.lor_nonneg; lia|].
  destruct (Z.eq_dec (Z.lor a b) 0) as [E|E]; [rewrite E; lia|].
  assert (0 < n).
  { destruct (Z.eq_dec n 0) as [->|]; [|lia]. simpl in *.
    assert (a = 0) by lia. assert (b = 0) by lia. subst. contradiction. }
  apply Z.log2_lt_pow2; [pose proof (Z.lor_nonneg a b); lia|].
  rewrite Z.log2_lor by lia.
  assert (Z.log2 a < n).
  { destruct (Z.eq_dec a 0) as [->|]; [simpl; lia|]. apply Z.log2_lt_pow2; lia. }
  assert (Z.log2 b < n).
  { destruct (Z.eq_dec b 0) as [->|]; [simpl; lia|]. apply Z.log2_lt_pow2; lia. }
  lia.
Qed.

Lemma land127 b : Z.land b 127 = b mod 128.
Proof. change 127 with (Z.ones 7). rewrite Z.land_ones by lia. reflexivity. Qed.

Lemma u64_range x : 0 <= u64 x < 2 ^ 64.
Proof. unfold u64. apply Z.mod_pos_bound. lia. Qed.

(** Exclusive-or with [2^n - 1] complements an [n]-bit value. *)
Lemma lxor_ones a n :
  0 <= n -> 0 <= a < 2 ^ n -> Z.lxor a (Z.ones n) = Z.ones n - a.
Proof.
  intros Hn Ha. rewrite Z.ones_equiv.
  replace (Z.pred (2 ^ n) - a) with ((Z.lnot a) mod 2 ^ n).
  2:{ unfold Z.lnot. rewrite <- (Z.mod_add _ 1 (2 ^ n)) by lia.
      rewrite Z.mod_small; lia. }
  rewrite <- Z.ones_equiv. apply Z.bits_inj'. intros m Hm.
  rewrite Z.lxor_spec. destruct (Z.ltb_spec m n).
  - rewrite Z.ones_spec_low, Z.mod_pow2_bits_low, Z.lnot_spec by lia.
    destruct (Z.testbit a m); reflexivity.
  - rewrite Z.ones_spec_high, Z.mod_pow2_bits_high by lia.
    destruct (Z.eq_dec a 0) as [->|]; [rewrite Z.testbit_0_l; reflexivity|].
    rewrite Z.bits_above_log2; [reflexivity|lia|].
    assert (Z.log2 a < n) by (apply Z.log2_lt_pow2; lia). lia.
Qed.

Lemma int64_range x : - 2 ^ 63 <= int64 x < 2 ^ 63.
Proof.
  unfold int64. pose proof (Z.mod_pos_bound x (2 ^ 64)).
  destruct (Z.ltb_spec (x mod 2 ^ 64) (2 ^ 63)); lia.
Qed.

(** A non-negative [int64] conversion of an unsigned 64-bit value did not wrap. *)
Lemma int64_nonneg_id x : 0 <= x < 2 ^ 64 -> 0 <= int64 x -> int64 x = x.
Proof.
  unfold int64. intros Hx. rewrite Z.mod_small by lia.
  destruct (Z.ltb_spec x (2 ^ 63)); lia.
Qed.

Lemma put_nil d i : put d i [] = d.
Proof. unfold put. simpl. rewrite Nat.add_0_r. apply firstn_skipn. Qed.

(** Back-to-front writing: [x] written just before the suffix [s] that
    starts at [i] extends it to [x ++ s]. *)
Lemma put_prepend d i j s x :
  0 <= j -> j + len x = i -> i + len s <= len d ->
  put (put d (Z.to_nat i) s) (Z.to_nat j) x = put d (Z.to_nat j) (x ++ s).
Proof.
  intros Hj Hi Hd. unfold len in *.
  replace (Z.to_nat i) with (Z.to_nat j + length x)%nat by lia.
  apply put_put_before. lia.
Qed.

Lemma len_put d i xs : (i + length xs <= length d)%nat -> len (put d i xs) = len d.
Proof. intros H. unfold len. rewrite length_put by assumption. reflexivity. Qed.

(** [s == nil] for a slice; an empty slice is modelled as nil (every use in
    the code adds or copies [len(s)] bytes, which is 0 for both). *)
Definition is_nil {A} (l : list A) : bool := match l with [] => true | _ => false end.

Lemma len_put_Z d i xs :
  0 <= i -> i + len xs <= len d -> len (put d (Z.to_nat i) xs) = len d.
Proof. intros H1 H2. apply len_put. unfold len in *. lia. Qed.

Lemma put_all_Z d xs : len xs = len d -> put d (Z.to_nat 0) xs = xs.
Proof. intros H. apply put_all. unfold len in H. lia. Qed.

(** [len_pos] records [0 <= len x] for every length in sight. *)
Ltac len_pos :=
  repeat match goal with
  | |- context [len ?x] =>
      assert_fails (assert (0 <= len x) by assumption); pose proof (len_nonneg x)
  | _ : context [len ?x] |- _ =>
      assert_fails (assert (0 <= len x) by assumption); pose proof (len_nonneg x)
  end.

(** Reading a [uint64] as a Go [int] keeps it zero exactly when it was. *)
Lemma int64_eqb0 v : 0 <= v < 2 ^ 64 -> (int64 v =? 0) = (v =? 0).
Proof.
  intros H. unfold int64. rewrite Z.mod_small by lia.
  destruct (Z.ltb_spec v (2 ^ 63)); [reflexivity|].
  destruct (Z.eqb_spec (v - 2 ^ 64) 0), (Z.eqb_spec v 0); lia.
Qed.

(** [buf_lia] closes the index arithmetic of back-to-front writes: it
    measures each [put] (recursively discharging its bounds) and hands the
    rest, with the hypotheses in context, to [lia]. *)
Ltac buf_lia := repeat (rewrite len_put_Z by buf_lia); go_norm; len_pos; lia.

(** ** Transition sequences

    The Go [for] loops are also given as transition relations on loop
    states (Skip.v, Unmarshal.v).  These are the operators on such a
    relation: finite runs ([star]), the existence of an infinite run
    ([infseq], a set of states closed under taking one more step), and
    final states ([irred]). *)
Section Sequences.
Context {A : Type} (R : A -> A -> Prop).

Inductive star : A -> A -> Prop :=
| star_refl a : star a a
| star_step a b c : R a b -> star b c -> star a c.

Definition infseq (a : A) : Prop :=
  exists X : A -> Prop, X a /\ forall a1, X a1 -> exists a2, R a1 a2 /\ X a2.

Definition irred (a : A) : Prop := forall b, ~ R a b.

Lemma star_one a b : R a b -> star a b.
Proof. eauto using star. Qed.

Lemma star_trans a b c : star a b -> star b c -> star a c.
Proof. induction 1; eauto using star. Qed.

(** Liveness by a variant: if every step from a state satisfying [P]
    leads to a state satisfying [P] of smaller measure, no run from such a
    state is infinite. *)
Lemma variant_no_infseq (P : A -> Prop) (mu : A -> nat) :
  (forall a b, P a -> R a b -> P b /\ (mu b < mu a)%nat) ->
  forall a, P a -> ~ infseq a.
Proof.
  intros Hv a Pa [X [Xa HX]].
  remember (mu a) as n eqn:En. revert a Pa Xa En.
  induction n as [n IH] using (well_founded_induction Wf_nat.lt_wf).
  intros a Pa Xa ->. destruct (HX a Xa) as [b [Rab Xb]].
  destruct (Hv a b Pa Rab) as [Pb Hlt]. exact (IH (mu b) Hlt b Pb Xb eq_refl).
Qed.

Section Deterministic.
Hypothesis R_functional : forall a b c, R a b -> R a c -> b = c.

Lemma star_star_inv a b : star a b -> forall c, star a c -> star b c \/ star c b.
Proof.
  induction 1 as [a|a b c Rab Hbc IH]; intros c' Hc; [now left|].
  inversion Hc as [|a0 b' c0 Rab' Hbc']; subst; [right; eauto using star|].
  apply IH. rewrite (R_functional _ _ _ Rab Rab'). exact Hbc'.
Qed.

(** In a deterministic system every run that stops, stops at the state
    the run to a final state reaches. *)
Lemma star_irred_unique a b c : star a b -> irred b -> star a c -> irred c -> b = c.
Proof.
  intros Hab Ib Hac Ic.
  destruct (star_star_inv a b Hab c Hac) as [H|H];
    inversion H as [|x y z Rxy]; subst; auto;
    [destruct (Ib y Rxy)|destruct (Ic y Rxy)].
Qed.
End Deterministic.
End Sequences.

(** A sum of two Go [int]s that is not negative did not wrap. *)
Lemma int64_add_id i k :
  0 <= i < 2 ^ 63 -> 0 <= k < 2 ^ 63 -> 0 <= int64 (i + k) -> int64 (i + k) = i + k.
Proof. intros. apply int64_nonneg_id; lia. Qed.

(** Replace [int64 (i + k)] by [i + k] everywhere, once [lia] shows the
    sum did not wrap. *)
Ltac int64_add_simpl i k :=
  let Hx := fresh "Hx" in
  assert (Hx : int64 (i + k) = i + k) by (apply int64_add_id; lia);
  rewrite Hx in *; clear Hx.
