(* ===== verification/Varint.v ===== *)
(** * Varint: base-128 integers of the wire format

    Models [sov], [soz] and [encodeVarint] of src/proto/foo.pulsar.go, and
    the varint-reading loops that every generated [Unmarshal] and [skip]
    inline ([for shift := uint(0); ; shift += 7 { ... }]).  The forward
    encoding [varint] is the reference the back-to-front writer and the
    reader are proved against. *)

From Stdlib Require Import ZArith List Lia.
From S2P Require Import Prelude.
Import ListNotations.
Open Scope Z_scope.
Open Scope go_scope.

Module Varint.

(** ** Code *)

(** [bits.Len64(x)]: number of significant bits ([Len64(0) = 0]). *)
Definition Len64 (x : Z) : Z := if x =? 0 then 0 else Z.log2 x + 1.

(** [func sov(x uint64) (n int) { return (bits.Len64(x|1) + 6) / 7 }] *)
Definition sov (x : Z) : Z := (Len64 (Z.lor x 1) + 6) / 7.

(** [func soz(x uint64) (n int) {
       return sov(uint64((x << 1) ^ uint64((int64(x) >> 63)))) }] *)
Definition soz (x : Z) : Z :=
  sov (Z.lxor (u64 (Z.shiftl x 1)) (u64 (Z.shiftr (int64 x) 63))).

(** The loop of [encodeVarint]:
    [for v >= 1<<7 { dAtA[offset] = uint8(v&0x7f | 0x80); v >>= 7; offset++ }
     dAtA[offset] = uint8(v)].  [fuel] bounds the iterations (ten suffice
    for a [uint64], [encodeVarint_terminates]); running out is reported
    as a panic, which that lemma rules out. *)
Fixpoint encodeVarint_loop (fuel : nat) (d : bytes) (offset v : Z) : option bytes :=
  match fuel with
  | O => None
  | S f =>
      if 2 ^ 7 <=? v then
        d' <-? store d offset (Z.lor (Z.land v 127) 128) ;;
        encodeVarint_loop f d' (offset + 1) (Z.shiftr v 7)
      else store d offset v
  end.

(** [func encodeVarint(dAtA []byte, offset int, v uint64) int]: writes the
    varint so that it ends just before [offset], returns its start. *)
Definition encodeVarint (d : bytes) (offset v : Z) : option (bytes * Z) :=
  let base := offset - sov v in
  d' <-? encodeVarint_loop 10 d base v ;; Some (d', base).

(** The loop that reads a varint at [iNdEx] (tags, lengths, values):
    [if shift >= 64 { return ErrIntOverflow }
     if iNdEx >= l { return io.ErrUnexpectedEOF }
     b := dAtA[iNdEx]; iNdEx++
     wire |= uint64(b&0x7F) << shift
     if b < 0x80 { break }].
    [fuel] only makes the recursion structural: the [shift >= 64] guard
    stops the loop at the eleventh byte, before eleven units of fuel run
    out. *)
Fixpoint varint_loop (fuel : nat) (d : bytes) (l i shift acc : Z) : res (Z * Z) :=
  match fuel with
  | O => inl ErrIntOverflow
  | S f =>
      if 64 <=? shift then inl ErrIntOverflow
      else if l <=? i then inl ErrUnexpectedEOF
      else
        let b := at_ d i in
        let acc := Z.lor acc (u64 (Z.shiftl (Z.land b 127) shift)) in
        if b <? 128 then inr (acc, i + 1)
        else varint_loop f d l (i + 1) (shift + 7) acc
  end.

(** A varint read from [iNdEx]: the value and the new [iNdEx]. *)
Definition readVarint (d : bytes) (l i : Z) : res (Z * Z) :=
  varint_loop 11 d l i 0 0.

(** [skip]'s wire-type-0 loop, which only advances past the varint:
    [iNdEx++; if dAtA[iNdEx-1] < 0x80 { break }]. *)
Fixpoint skipVarint_loop (fuel : nat) (d : bytes) (l i shift : Z) : res Z :=
  match fuel with
  | O => inl ErrIntOverflow
  | S f =>
      if 64 <=? shift then inl ErrIntOverflow
      else if l <=? i then inl ErrUnexpectedEOF
      else if at_ d i <? 128 then inr (i + 1)
      else skipVarint_loop f d l (i + 1) (shift + 7)
  end.

Definition skipVarint (d : bytes) (l i : Z) : res Z := skipVarint_loop 11 d l i 0.

(** ** Reference encoding *)

(** Little-endian base 128, continuation bit on every byte but the last. *)
Fixpoint uvarint (n : nat) (v : Z) : bytes :=
  match n with
  | O => []
  | S n => if v <? 128 then [v] else (v mod 128 + 128) :: uvarint n (v / 128)
  end.

Definition varint (v : Z) : bytes := uvarint 10 v.

(** Zig-zag of a signed value, as the spec states it arithmetically. *)
Definition zigzag (v : Z) : Z := if 0 <=? v then 2 * v else - 2 * v - 1.

(** ** Size *)

Lemma Len64_lor1 x : 0 <= x -> Len64 (Z.lor x 1) = Z.log2 x + 1.
Proof.
  intros Hx. unfold Len64.
  destruct (Z.eqb_spec (Z.lor x 1) 0) as [E|E].
  - apply Z.lor_eq_0_iff in E. lia.
  - rewrite Z.log2_lor by lia. simpl. pose proof (Z.log2_nonneg x). lia.
Qed.

Lemma sov_log2 x : 0 <= x -> sov x = (Z.log2 x + 7) / 7.
Proof. intros Hx. unfold sov. rewrite Len64_lor1 by lia. f_equal. lia. Qed.

Lemma sov_small x : 0 <= x < 128 -> sov x = 1.
Proof.
  intros Hx. rewrite sov_log2 by lia.
  assert (Z.log2 x <= 6).
  { destruct (Z.eq_dec x 0) as [->|]; [simpl; lia|].
    assert (Z.log2 x < 7) by (apply Z.log2_lt_pow2; lia). lia. }
  pose proof (Z.log2_nonneg x). Z.div_mod_to_equations. lia.
Qed.

Lemma sov_step x : 128 <= x -> sov x = 1 + sov (x / 128).
Proof.
  intros Hx. rewrite !sov_log2 by (try apply Z.div_pos; lia).
  assert (Hl : 7 <= Z.log2 x) by (apply Z.log2_le_pow2; lia).
  replace (x / 128) with (Z.shiftr x 7) by (rewrite Z.shiftr_div_pow2; reflexivity || lia).
  rewrite Z.log2_shiftr by lia. rewrite Z.max_r by lia.
  replace (Z.log2 x + 7) with ((Z.log2 x - 7 + 7) + 1 * 7) by lia.
  rewrite Z.div_add by lia. lia.
Qed.

Lemma uvarint_length n x :
  0 <= x < 2 ^ (7 * Z.of_nat (S n)) -> len (uvarint (S n) x) = sov x.
Proof.
  revert x. induction n as [|n IH]; intros x Hx.
  - simpl in Hx. simpl. destruct (Z.ltb_spec x 128); [|lia].
    rewrite sov_small by lia. reflexivity.
  - cbn [uvarint]. destruct (Z.ltb_spec x 128) as [Hs|Hs].
    + rewrite sov_small by lia. reflexivity.
    + rewrite len_cons, sov_step by lia. f_equal. apply IH.
      split; [apply Z.div_pos; lia|].
      apply Z.div_lt_upper_bound; [lia|].
      replace (7 * Z.of_nat (S (S n))) with (7 + 7 * Z.of_nat (S n)) in Hx by lia.
      rewrite Z.pow_add_r in Hx by lia. lia.
Qed.

(** ** Theorems *)

(** Size: [sov] is exactly the length of the encoding. *)
Lemma varint_length x : 0 <= x < 2 ^ 64 -> len (varint x) = sov x.
Proof.
  intros Hx. apply (uvarint_length 9). split; [lia|].
  apply Z.lt_le_trans with (2 ^ 64); [lia|]. apply Z.pow_le_mono_r; lia.
Qed.

Lemma sov_range x : 0 <= x < 2 ^ 64 -> 1 <= sov x <= 10.
Proof.
  intros Hx. rewrite sov_log2 by lia.
  assert (Z.log2 x <= 63).
  { destruct (Z.eq_dec x 0) as [->|]; [simpl; lia|].
    assert (Z.log2 x < 64) by (apply Z.log2_lt_pow2; lia). lia. }
  pose proof (Z.log2_nonneg x). Z.div_mod_to_equations. lia.
Qed.

(** The byte the writer and the reference emit for one 7-bit group. *)
Lemma cont_byte x : 0 <= x -> Z.lor (Z.land x 127) 128 = x mod 128 + 128.
Proof.
  intros Hx. rewrite land127.
  replace (Z.lor (x mod 128) 128) with (Z.lor (x mod 128) (1 * 2 ^ 7)) by reflexivity.
  rewrite lor_add_shift by (try pose proof (Z.mod_pos_bound x 128); lia). lia.
Qed.

Lemma encodeVarint_loop_S f d off v :
  encodeVarint_loop (S f) d off v =
  if 2 ^ 7 <=? v then
    d' <-? store d off (Z.lor (Z.land v 127) 128) ;;
    encodeVarint_loop f d' (off + 1) (Z.shiftr v 7)
  else store d off v.
Proof. reflexivity. Qed.

Lemma uvarint_S n v :
  uvarint (S n) v = if v <? 128 then [v] else (v mod 128 + 128) :: uvarint n (v / 128).
Proof. reflexivity. Qed.

Lemma encodeVarint_loop_put n : forall d off x,
  0 <= x < 2 ^ (7 * Z.of_nat (S n)) -> 0 <= off ->
  off + len (uvarint (S n) x) <= len d ->
  encodeVarint_loop (S n) d off x = Some (put d (Z.to_nat off) (uvarint (S n) x)).
Proof.
  induction n as [|n IH]; intros d off x Hx Hoff Hd;
    rewrite encodeVarint_loop_S; rewrite uvarint_S in Hd |- *;
    change (2 ^ 7) with 128.
  - simpl in Hx. destruct (Z.ltb_spec x 128); [|lia]. go_norm.
    destruct (Z.leb_spec 128 x); [lia|]. apply store_put. lia.
  - destruct (Z.ltb_spec x 128) as [Hs|Hs].
    + destruct (Z.leb_spec 128 x); [lia|]. go_norm. apply store_put. lia.
    + destruct (Z.leb_spec 128 x); [|lia]. go_norm.
      pose proof (len_nonneg (uvarint (S n) (x / 128))).
      rewrite cont_byte, store_put by lia.
      rewrite Z.shiftr_div_pow2 by lia. change (2 ^ 7) with 128.
      rewrite IH.
      * f_equal. replace (Z.to_nat (off + 1)) with (Z.to_nat off + length [(x mod 128 + 128)%Z])%nat
          by (simpl; lia).
        apply put_put_after. unfold len in *. cbn [length]. lia.
      * split; [apply Z.div_pos; lia|]. apply Z.div_lt_upper_bound; [lia|].
        replace (7 * Z.of_nat (S (S n))) with (7 + 7 * Z.of_nat (S n)) in Hx by lia.
        rewrite Z.pow_add_r in Hx by lia. lia.
      * lia.
      * unfold len in *. rewrite length_put by (simpl; lia). lia.
Qed.

(** [encodeVarint(dAtA, offset, v)] writes exactly [varint v] into the
    [sov v] bytes before [offset] and returns their start, provided they
    lie inside the buffer. *)
Lemma encodeVarint_put d off v :
  0 <= v < 2 ^ 64 -> sov v <= off <= len d ->
  encodeVarint d off v = Some (put d (Z.to_nat (off - sov v)) (varint v), off - sov v).
Proof.
  intros Hv Hoff. unfold encodeVarint, varint.
  rewrite (encodeVarint_loop_put 9); [reflexivity| | |].
  - split; [lia|]. apply Z.lt_le_trans with (2 ^ 64); [lia|]. apply Z.pow_le_mono_r; lia.
  - pose proof (sov_range v Hv). lia.
  - fold (varint v). rewrite varint_length by lia. lia.
Qed.

Lemma varint_loop_S f d l i shift acc :
  varint_loop (S f) d l i shift acc =
  if 64 <=? shift then inl ErrIntOverflow
  else if l <=? i then inl ErrUnexpectedEOF
  else
    let b := at_ d i in
    let acc := Z.lor acc (u64 (Z.shiftl (Z.land b 127) shift)) in
    if b <? 128 then inr (acc, i + 1)
    else varint_loop f d l (i + 1) (shift + 7) acc.
Proof. reflexivity. Qed.

(** One 7-bit group enters the accumulator by addition. *)
Lemma acc_step acc b shift :
  0 <= shift -> 0 <= acc < 2 ^ shift -> b mod 128 * 2 ^ shift < 2 ^ 64 ->
  Z.lor acc (u64 (Z.shiftl (Z.land b 127) shift)) = acc + b mod 128 * 2 ^ shift.
Proof.
  intros Hs Ha Hb. pose proof (Z.mod_pos_bound b 128).
  rewrite land127, Z.shiftl_mul_pow2, u64_small by nia.
  apply lor_add_shift; lia.
Qed.

Lemma cont_mod x : (x mod 128 + 128) mod 128 = x mod 128.
Proof.
  rewrite Zplus_mod_idemp_l. replace (x + 128) with (x + 1 * 128) by lia.
  apply Z.mod_add. lia.
Qed.

Lemma varint_loop_uvarint n : forall x pre post l fuel shift acc,
  0 <= x < 2 ^ (7 * Z.of_nat (S n)) ->
  0 <= shift < 64 -> 0 <= acc < 2 ^ shift -> x * 2 ^ shift < 2 ^ 64 ->
  (length (uvarint (S n) x) <= fuel)%nat ->
  len pre + len (uvarint (S n) x) <= l ->
  varint_loop fuel (pre ++ uvarint (S n) x ++ post) l (len pre) shift acc
  = inr (acc + x * 2 ^ shift, len pre + len (uvarint (S n) x)).
Proof.
  induction n as [|n IH]; intros x pre post l fuel shift acc Hx Hs Ha Hb Hf Hl;
    destruct fuel as [|fuel]; try (rewrite uvarint_S in Hf; destruct (x <? 128); simpl in Hf; lia);
    rewrite varint_loop_S; rewrite uvarint_S in Hl |- *;
    destruct (Z.leb_spec 64 shift); try lia;
    destruct (Z.leb_spec l (len pre));
    try (exfalso; go_norm; destruct (x <? 128); go_norm; [lia|];
     try match type of Hl with context [len (uvarint ?k ?y)] =>
       pose proof (len_nonneg (uvarint k y)) end; lia).
  - simpl in Hx. destruct (Z.ltb_spec x 128); [|lia]. cbv zeta. cbn [app].
    rewrite at_app_len, acc_step, Z.mod_small by (rewrite ?Z.mod_small; lia).
    destruct (Z.ltb_spec x 128); [|lia]. go_norm; f_equal; f_equal; lia.
  - cbv zeta. pose proof (Z.mod_pos_bound x 128) as Hm. pose proof (Z.mod_le x 128).
    destruct (Z.ltb_spec x 128) as [Hs'|Hs']; cbn [app]; rewrite at_app_len.
    + rewrite acc_step, Z.mod_small by (rewrite ?Z.mod_small; lia).
      destruct (Z.ltb_spec x 128); [|lia]. go_norm; f_equal; f_equal; lia.
    + rewrite acc_step, cont_mod by (rewrite ?cont_mod; nia).
      destruct (Z.ltb_spec (x mod 128 + 128) 128) as [Hc|Hc]; [lia|].
      replace (pre ++ x mod 128 + 128 :: uvarint (S n) (x / 128) ++ post)
        with ((pre ++ [x mod 128 + 128]) ++ uvarint (S n) (x / 128) ++ post)
        by (rewrite <- app_assoc; reflexivity).
      assert (H7 : 2 ^ (shift + 7) = 2 ^ shift * 128) by (rewrite Z.pow_add_r; lia).
      assert (Hsh : shift + 7 < 64).
      { apply (Z.pow_lt_mono_r_iff 2); try lia; rewrite H7; nia. }
      pose proof (Z.div_mod x 128) as Hd.
      assert (Hq : 0 <= x / 128) by (apply Z.div_pos; lia).
      replace (len pre + 1) with (len (pre ++ [x mod 128 + 128])) by (go_norm; lia).
      rewrite IH; go_norm.
      * f_equal. f_equal; [rewrite H7; nia|lia].
      * split; [lia|]. apply Z.div_lt_upper_bound; [lia|].
        replace (7 * Z.of_nat (S (S n))) with (7 + 7 * Z.of_nat (S n)) in Hx by lia.
        rewrite Z.pow_add_r in Hx by lia. lia.
      * lia.
      * rewrite H7. nia.
      * rewrite H7. nia.
      * rewrite uvarint_S in Hf. replace (x <? 128) with false in Hf
          by (symmetry; apply Z.ltb_ge; lia). cbn [length] in Hf. lia.
      * lia.
Qed.

(** Decoding: reading the encoding of a [uint64] at [iNdEx] yields it and
    advances past exactly its bytes. *)
Lemma readVarint_varint pre x post l :
  0 <= x < 2 ^ 64 -> len pre + len (varint x) <= l ->
  readVarint (pre ++ varint x ++ post) l (len pre) = inr (x, len pre + len (varint x)).
Proof.
  intros Hx Hl. unfold readVarint, varint in *.
  rewrite (varint_loop_uvarint 9); [f_equal; f_equal; lia| |lia|lia|lia| |lia].
  - split; [lia|]. apply Z.lt_le_trans with (2 ^ 64); [lia|]. apply Z.pow_le_mono_r; lia.
  - fold (varint x). pose proof (varint_length x Hx) as E. pose proof (sov_range x Hx).
    unfold len in E. lia.
Qed.

(** Every successful read returns a [uint64], consumes between one and
    ten bytes, and stays within [l]. *)
Lemma varint_loop_range fuel : forall d l i shift acc v i',
  varint_loop fuel d l i shift acc = inr (v, i') ->
  0 <= shift -> 0 <= acc < 2 ^ 64 ->
  0 <= v < 2 ^ 64 /\ i < i' <= l /\ 7 * (i' - i) <= 70 - shift.
Proof.
  induction fuel as [|fuel IH]; intros d l i shift acc v i' H Hs Ha; [discriminate|].
  rewrite varint_loop_S in H. cbv zeta in H.
  destruct (Z.leb_spec 64 shift); [discriminate|].
  destruct (Z.leb_spec l i); [discriminate|].
  assert (Hacc : 0 <= Z.lor acc (u64 (Z.shiftl (Z.land (at_ d i) 127) shift)) < 2 ^ 64)
    by (apply lor_bound; [lia|lia|apply u64_range]).
  destruct (at_ d i <? 128).
  - injection H as <- <-. lia.
  - apply IH in H; lia.
Qed.

Lemma readVarint_range d l i v i' :
  readVarint d l i = inr (v, i') -> 0 <= v < 2 ^ 64 /\ i < i' <= l /\ i' <= i + 10.
Proof. intros H. apply varint_loop_range in H; lia. Qed.

Lemma varint_loop_overflow cs : forall pre post l fuel shift acc,
  Forall (fun b => 128 <= b) cs -> 0 <= shift -> 64 <= shift + 7 * len cs ->
  len pre + len cs <= l -> (length cs < fuel)%nat ->
  varint_loop fuel (pre ++ cs ++ post) l (len pre) shift acc = inl ErrIntOverflow.
Proof.
  induction cs as [|b cs IH]; intros pre post l fuel shift acc Hc Hs H64 Hl Hf;
    (destruct fuel as [|fuel]; [reflexivity|]); rewrite varint_loop_S.
  - go_norm. destruct (Z.leb_spec 64 shift); [reflexivity|lia].
  - inversion Hc as [|? ? Hb Hc']; subst. go_norm.
    destruct (Z.leb_spec 64 shift); [reflexivity|].
    pose proof (len_nonneg cs).
    destruct (Z.leb_spec l (len pre)); [lia|]. cbv zeta. cbn [app].
    rewrite at_app_len. destruct (Z.ltb_spec b 128); [lia|].
    replace (pre ++ b :: cs ++ post) with ((pre ++ [b]) ++ cs ++ post)
      by (rewrite <- app_assoc; reflexivity).
    replace (len pre + 1) with (len (pre ++ [b])) by (go_norm; lia).
    apply IH; go_norm; simpl in Hf; lia || assumption.
Qed.

(** C11: Ten bytes that all carry the continuation bit are rejected with
    [ErrIntOverflow], whatever follows them: the loop gives up when
    [shift] reaches 70 without reading an eleventh byte. *)
Theorem readVarint_overflow pre cs post :
  Forall (fun b => 128 <= b) cs -> len cs = 10 ->
  readVarint (pre ++ cs ++ post) (len (pre ++ cs ++ post)) (len pre) = inl ErrIntOverflow.
Proof.
  intros Hc Hl. unfold readVarint. apply varint_loop_overflow; go_norm;
    try pose proof (len_nonneg post); unfold len in *; lia || assumption.
Qed.

(** A run of continuation bytes ending in a last byte: two last bytes
    whose 7-bit groups land on the same [uint64] bits give the same
    result, and the read succeeds just past the last byte. *)
Lemma varint_loop_last cs : forall pre b b' post l fuel shift acc,
  Forall (fun c => 128 <= c) cs -> 0 <= shift -> shift + 7 * len cs < 64 ->
  len pre + len cs < l -> (length cs < fuel)%nat -> b < 128 -> b' < 128 ->
  u64 (Z.shiftl (Z.land b 127) (shift + 7 * len cs)) =
    u64 (Z.shiftl (Z.land b' 127) (shift + 7 * len cs)) ->
  varint_loop fuel (pre ++ cs ++ b :: post) l (len pre) shift acc =
    varint_loop fuel (pre ++ cs ++ b' :: post) l (len pre) shift acc /\
  exists v, varint_loop fuel (pre ++ cs ++ b :: post) l (len pre) shift acc =
    inr (v, len pre + len cs + 1).
Proof.
  induction cs as [|c cs IH]; intros pre b b' post l fuel shift acc Hc Hs H64 Hl Hf Hb Hb' Hg;
    (destruct fuel as [|fuel]; [cbn in Hf; lia|]); rewrite !varint_loop_S; go_norm.
  - destruct (Z.leb_spec 64 shift); [lia|]. destruct (Z.leb_spec l (len pre)); [lia|]. cbv zeta. cbn [app]. rewrite !at_app_len. replace (shift + 7 * 0) with shift in Hg by lia.
    destruct (Z.ltb_spec b 128), (Z.ltb_spec b' 128); try lia.
    rewrite Hg. split; [reflexivity|]. eexists. f_equal. f_equal. lia.
  - pose proof (Forall_inv Hc) as Hc1. pose proof (Forall_inv_tail Hc) as Hc'. cbn in Hc1.
    pose proof (len_nonneg cs). destruct (Z.leb_spec 64 shift); [lia|].
    destruct (Z.leb_spec l (len pre)); [lia|]. cbv zeta. cbn [app].
    rewrite !at_app_len.
    destruct (Z.ltb_spec c 128); [lia|].
    replace (pre ++ c :: cs ++ b :: post) with ((pre ++ [c]) ++ cs ++ b :: post)
      by (rewrite <- app_assoc; reflexivity).
    replace (pre ++ c :: cs ++ b' :: post) with ((pre ++ [c]) ++ cs ++ b' :: post)
      by (rewrite <- app_assoc; reflexivity).
    replace (len pre + 1) with (len (pre ++ [c])) by (go_norm; lia).
    destruct (IH (pre ++ [c]) b b' post l fuel (shift + 7)
                (Z.lor acc (u64 (Z.shiftl (Z.land c 127) shift)))) as [E [v Ev]];
      go_norm; try (cbn in Hf; lia); try assumption.
    + replace (shift + 7 + 7 * len cs) with (shift + 7 * (1 + len cs)) by lia. exact Hg.
    + split; [exact E|]. exists v. rewrite Ev. f_equal. f_equal. lia.
Qed.

(** Above bit 63 a [uint64] keeps nothing: [x << 63] wraps to the lowest
    bit of [x]. *)
Lemma u64_shiftl_63 x : u64 (Z.shiftl x 63) = u64 (Z.shiftl (x mod 2) 63).
Proof.
  unfold u64. rewrite !Z.shiftl_mul_pow2 by lia.
  rewrite (Z.div_mod x 2) at 1 by lia.
  replace ((2 * (x / 2) + x mod 2) * 2 ^ 63) with (x mod 2 * 2 ^ 63 + x / 2 * 2 ^ 64)
    by (change (2 ^ 64) with (2 * 2 ^ 63); ring).
  apply Z.mod_add. lia.
Qed.

Lemma land1 b : Z.land b 1 = b mod 2.
Proof. exact (Z.land_ones b 1 ltac:(lia)). Qed.

(** C12: The tenth byte is read at [shift = 63], where [uint64(b&0x7F) << 63]
    keeps only the lowest bit of the group: after any nine continuation
    bytes, a tenth byte [b] below 0x80 is accepted and decodes exactly as
    [b & 1] would, so its six other bits are dropped without an error
    (the ten bytes [80 .. 80 02], which encode 2^64, decode as 2^64 mod
    2^64 = 0). *)
Theorem readVarint_tenth_byte_truncated pre cs b post :
  Forall (fun c => 128 <= c) cs -> len cs = 9 -> 0 <= b < 128 ->
  readVarint (pre ++ cs ++ b :: post) (len (pre ++ cs ++ b :: post)) (len pre) =
    readVarint (pre ++ cs ++ Z.land b 1 :: post) (len (pre ++ cs ++ Z.land b 1 :: post)) (len pre) /\
  exists v, readVarint (pre ++ cs ++ b :: post) (len (pre ++ cs ++ b :: post)) (len pre) =
    inr (v, len pre + 10).
Proof.
  intros Hc Hl Hb. unfold readVarint.
  assert (E : len (pre ++ cs ++ Z.land b 1 :: post) = len (pre ++ cs ++ b :: post)) by (go_norm; lia).
  rewrite E. pose proof (len_nonneg post). pose proof (len_nonneg pre).
  assert (Hn : length cs = 9%nat) by (unfold len in Hl; lia).
  destruct (varint_loop_last cs pre b (Z.land b 1) post (len (pre ++ cs ++ b :: post)) 11 0 0)
    as [Eq [v Ev]]; go_norm; try lia; try assumption.
  - rewrite land1. pose proof (Z.mod_pos_bound b 2). lia.
  - rewrite Hl. replace (0 + 7 * 9) with 63 by lia. rewrite u64_shiftl_63, (u64_shiftl_63 (Z.land (Z.land b 1) 127)).
    rewrite !land127, land1. pose proof (Z.mod_pos_bound b 2).
    rewrite (Z.mod_small (b mod 2)), (Z.mod_small b) by lia. rewrite ?Z.mod_mod by lia. reflexivity.
  - split; [exact Eq|]. exists v. rewrite Ev. f_equal. f_equal. lia.
Qed.

(** [soz] sizes the zig-zag image of an [int64] (the value is passed as its
    [uint64] bit pattern). *)
Theorem soz_zigzag v :
  - 2 ^ 63 <= v < 2 ^ 63 -> soz (u64 v) = sov (zigzag v).
Proof.
  intros Hv. unfold soz, zigzag.
  assert (Hi : int64 (u64 v) = v).
  { unfold int64, u64. rewrite Z.mod_mod by lia.
    destruct (Z.leb_spec 0 v).
    - rewrite Z.mod_small by lia. destruct (Z.ltb_spec v (2 ^ 63)); lia.
    - rewrite <- (Z.mod_add v 1) by lia. rewrite Z.mod_small by lia.
      destruct (Z.ltb_spec (v + 1 * 2 ^ 64) (2 ^ 63)); lia. }
  rewrite Hi, Z.shiftl_mul_pow2, Z.shiftr_div_pow2 by lia.
  destruct (Z.leb_spec 0 v).
  - rewrite Z.div_small by lia. rewrite u64_small with (x := v) by lia.
    change (u64 0) with 0. rewrite Z.lxor_0_r, u64_small by lia. f_equal. lia.
  - replace (v / 2 ^ 63) with (-1) by (Z.div_mod_to_equations; lia).
    change (u64 (-1)) with (Z.ones 64).
    assert (Hu : u64 (u64 v * 2 ^ 1) = 2 * v + 2 ^ 64).
    { unfold u64. rewrite Z.mul_mod_idemp_l by lia.
      rewrite <- (Z.mod_add _ 1) by lia. rewrite Z.mod_small by lia. lia. }
    rewrite Hu, lxor_ones by lia. f_equal. rewrite Z.ones_equiv. lia.
Qed.

(** C5: [encodeVarint] writes [v] just before [offset], and [readVarint]
    started where it wrote reads [v] back and stops at [offset]: the
    encoder and the decoder of the generated code agree on every
    [uint64]. *)
Theorem encodeVarint_readVarint d offset v :
  0 <= v < 2 ^ 64 -> sov v <= offset <= len d ->
  exists d', encodeVarint d offset v = Some (d', offset - sov v) /\ len d' = len d /\
             readVarint d' (len d') (offset - sov v) = inr (v, offset).
Proof.
  intros Hv Ho. pose proof (varint_length v Hv) as Hl. pose proof (sov_range v Hv).
  rewrite encodeVarint_put by assumption. eexists. split; [reflexivity|].
  assert (Hpre : len (firstn (Z.to_nat (offset - sov v)) d) = offset - sov v).
  { unfold len in *. rewrite length_firstn. lia. }
  split; [apply len_put_Z; lia|].
  rewrite len_put_Z by lia. unfold put.
  pose proof (readVarint_varint (firstn (Z.to_nat (offset - sov v)) d) v
                (skipn (Z.to_nat (offset - sov v) + length (varint v)) d) (len d) Hv) as R.
  rewrite Hpre in R. rewrite R by lia. f_equal. f_equal. lia.
Qed.

(** ** Witnesses *)

Lemma encodeVarint_readVarint_witness :
  exists d', encodeVarint (repeat 0 4) 3 300 = Some (d', 3 - sov 300) /\ len d' = len (repeat 0 4) /\
             readVarint d' (len d') (3 - sov 300) = inr (300, 3).
Proof. apply encodeVarint_readVarint; [lia | split; vm_compute; intro H; discriminate H]. Defined.

Lemma readVarint_overflow_witness :
  readVarint ([] ++ repeat 255 10 ++ [1]) (len ([] ++ repeat 255 10 ++ [1])) (len (@nil Z))
  = inl ErrIntOverflow.
Proof. apply readVarint_overflow; [repeat constructor; lia | reflexivity]. Defined.

(** [80 .. 80 02], the ten bytes of 2^64, read as [80 .. 80 00]: 0. *)
Lemma readVarint_tenth_byte_truncated_witness :
  readVarint ([] ++ repeat 128 9 ++ [2]) (len ([] ++ repeat 128 9 ++ [2])) (len (@nil Z)) =
    readVarint ([] ++ repeat 128 9 ++ [0]) (len ([] ++ repeat 128 9 ++ [0])) (len (@nil Z)) /\
  readVarint ([] ++ repeat 128 9 ++ [0]) 10 0 = inr (0, 10).
Proof.
  split; [|vm_compute; reflexivity].
  apply (readVarint_tenth_byte_truncated [] (repeat 128 9) 2 []); [repeat constructor; lia | reflexivity | lia].
Defined.

Lemma soz_zigzag_witness : soz (u64 (-1)) = sov (zigzag (-1)).
Proof. apply soz_zigzag. lia. Defined.

End Varint.
