(* ===== verification/Skip.v ===== *)
(** * Skip: measuring an unknown wire record

    Models [func skip(dAtA []byte) (n int, err error)] of
    src/proto/foo.pulsar.go (lines 914-992) as one loop iteration
    [skip_step] and the loop [skip_loop], and gives the grammar of wire
    records ([wrec], legacy groups nested to any depth) with their canonical
    encoding [enc_wrec].  The theorems show that [skip] measures exactly one
    well-formed record, that group depth is tracked, and which malformed
    inputs are rejected with which error. *)

From Stdlib Require Import ZArith List Lia.
From S2P Require Import Prelude Varint.
Import ListNotations.
Open Scope Z_scope.
Open Scope go_scope.

Module Skip.
Import Varint.Varint.

(** ** Code *)

(** One iteration of [skip]'s loop from [iNdEx = i] at group depth
    [depth]: the tag, then the [switch wireType].  The length of wire type 2
    is accumulated in a Go [int]; its bits are those of the [uint64] that
    [readVarint] accumulates, so it is [int64] of that value; [iNdEx] is a
    Go [int] too, so each [iNdEx += ...] is taken [int64].  The returned
    index is checked against 0 by the loop ([if iNdEx < 0]). *)
Definition skip_step (d : bytes) (l i depth : Z) : res (Z * Z) :=
  ' (wire, i) <- readVarint d l i ;;
  let wireType := Z.land wire 7 in
  if wireType =? 0 then
    i <- skipVarint d l i ;; inr (i, depth)
  else if wireType =? 1 then inr (int64 (i + 8), depth)
  else if wireType =? 2 then
    ' (length, i) <- readVarint d l i ;;
    let length := int64 length in
    if length <? 0 then inl ErrInvalidLength
    else inr (int64 (i + length), depth)
  else if wireType =? 3 then inr (i, depth + 1)
  else if wireType =? 4 then
    if depth =? 0 then inl ErrUnexpectedEndOfGroup else inr (i, depth - 1)
  else if wireType =? 5 then inr (int64 (i + 4), depth)
  else inl (ErrIllegalWireType wireType).

(** [for iNdEx < l { ...; if iNdEx < 0 {..}; if depth == 0 { return iNdEx, nil } }
     return 0, io.ErrUnexpectedEOF].  Every iteration consumes at least the
    tag byte, so [length d] units of fuel suffice ([skip_loop_fuel]); when
    fuel runs out the model answers as the loop does when [iNdEx] reaches
    [l]. *)
Fixpoint skip_loop (fuel : nat) (d : bytes) (l i depth : Z) : res Z :=
  match fuel with
  | O => inl ErrUnexpectedEOF
  | S f =>
      if i <? l then
        ' (i, depth) <- skip_step d l i depth ;;
        if i <? 0 then inl ErrInvalidLength
        else if depth =? 0 then inr i
        else skip_loop f d l i depth
      else inl ErrUnexpectedEOF
  end.

Definition skip (d : bytes) : res Z := skip_loop (length d) d (len d) 0 0.

(** The same loop as a transition system: a state is the loop head with
    [iNdEx] and [depth], or a [return] with its result.  One step is one
    iteration: the loop condition, the body [skip_step], the checks after
    the [switch].  [skip] starts at [SLoop 0 0]. *)
Inductive skip_state :=
| SLoop (i depth : Z)
| SRet (r : res Z).

Inductive skip_sem (d : bytes) : skip_state -> skip_state -> Prop :=
| skip_sem_exit i depth :
    len d <= i -> skip_sem d (SLoop i depth) (SRet (inl ErrUnexpectedEOF))
| skip_sem_err i depth e :
    i < len d -> skip_step d (len d) i depth = inl e ->
    skip_sem d (SLoop i depth) (SRet (inl e))
| skip_sem_neg i depth i' depth' :
    i < len d -> skip_step d (len d) i depth = inr (i', depth') -> i' < 0 ->
    skip_sem d (SLoop i depth) (SRet (inl ErrInvalidLength))
| skip_sem_done i depth i' :
    i < len d -> skip_step d (len d) i depth = inr (i', 0) -> 0 <= i' ->
    skip_sem d (SLoop i depth) (SRet (inr i'))
| skip_sem_next i depth i' depth' :
    i < len d -> skip_step d (len d) i depth = inr (i', depth') -> 0 <= i' -> depth' <> 0 ->
    skip_sem d (SLoop i depth) (SLoop i' depth').

(** ** Wire records *)

(** A record: field number and payload; a legacy group holds records. *)
Local Set Warnings "-register-all".
Inductive wrec :=
| WVarint (num v : Z)
| WFixed64 (num : Z) (b : bytes)
| WBytes (num : Z) (b : bytes)
| WGroup (num : Z) (body : list wrec)
| WFixed32 (num : Z) (b : bytes).

Definition wrec_num (r : wrec) : Z :=
  match r with
  | WVarint n _ | WFixed64 n _ | WBytes n _ | WGroup n _ | WFixed32 n _ => n
  end.

(** [Tag = varint((field_number << 3) | wire_type)]. *)
Definition tag (num wt : Z) : bytes := varint (Z.lor (Z.shiftl num 3) wt).

Fixpoint enc_wrec (r : wrec) : bytes :=
  match r with
  | WVarint n v => tag n 0 ++ varint v
  | WFixed64 n b => tag n 1 ++ b
  | WBytes n b => tag n 2 ++ varint (len b) ++ b
  | WGroup n body => tag n 3 ++ flat_map enc_wrec body ++ tag n 4
  | WFixed32 n b => tag n 5 ++ b
  end.

Definition enc_wrecs (rs : list wrec) : bytes := flat_map enc_wrec rs.

(** Field numbers of the wire format: 1 .. 2^29 - 1. *)
Definition num_ok (n : Z) : bool := (1 <=? n) && (n <? 2 ^ 29).

Fixpoint wrec_ok (r : wrec) : bool :=
  match r with
  | WVarint n v => num_ok n && (0 <=? v) && (v <? 2 ^ 64)
  | WFixed64 n b => num_ok n && (len b =? 8)
  | WBytes n b => num_ok n
  | WGroup n body => num_ok n && forallb wrec_ok body
  | WFixed32 n b => num_ok n && (len b =? 4)
  end.

(** Number of tags in a record: the iterations [skip] spends on it. *)
Fixpoint ntags (r : wrec) : nat :=
  match r with
  | WGroup _ body => 2 + list_sum (map ntags body)
  | _ => 1
  end.

(** Induction on records that sees inside groups. *)
Section wrec_rect.
Variable P : wrec -> Prop.
Hypothesis HV : forall n v, P (WVarint n v).
Hypothesis H64 : forall n b, P (WFixed64 n b).
Hypothesis HB : forall n b, P (WBytes n b).
Hypothesis HG : forall n body, Forall P body -> P (WGroup n body).
Hypothesis H32 : forall n b, P (WFixed32 n b).

Fixpoint wrec_ind' (r : wrec) : P r :=
  match r with
  | WVarint n v => HV n v
  | WFixed64 n b => H64 n b
  | WBytes n b => HB n b
  | WGroup n body =>
      HG n body
        ((fix go (rs : list wrec) : Forall P rs :=
            match rs with
            | [] => Forall_nil _
            | r :: rs => Forall_cons _ (wrec_ind' r) (go rs)
            end) body)
  | WFixed32 n b => H32 n b
  end.
End wrec_rect.

(** ** Lemmas on the loops *)

Lemma skipVarint_loop_varint_loop fuel : forall d l i shift acc,
  skipVarint_loop fuel d l i shift =
  match varint_loop fuel d l i shift acc with inl e => inl e | inr (_, i') => inr i' end.
Proof.
  induction fuel as [|fuel IH]; intros; [reflexivity|].
  cbn [skipVarint_loop varint_loop].
  destruct (64 <=? shift), (l <=? i); try reflexivity.
  destruct (at_ d i <? 128); [reflexivity|apply IH].
Qed.

Lemma skipVarint_range d l i i' :
  skipVarint d l i = inr i' -> i < i' <= l.
Proof.
  unfold skipVarint. rewrite (skipVarint_loop_varint_loop _ _ _ _ _ 0).
  destruct (varint_loop 11 d l i 0 0) as [|[v i2]] eqn:E; [discriminate|].
  intros [= <-]. apply (readVarint_range d l i v). exact E.
Qed.

Lemma skipVarint_varint pre v post l :
  0 <= v < 2 ^ 64 -> len pre + len (varint v) <= l ->
  skipVarint (pre ++ varint v ++ post) l (len pre) = inr (len pre + len (varint v)).
Proof.
  intros. unfold skipVarint. rewrite (skipVarint_loop_varint_loop _ _ _ _ _ 0).
  fold (readVarint (pre ++ varint v ++ post) l (len pre)).
  rewrite readVarint_varint by assumption. reflexivity.
Qed.

Lemma tag_value n wt :
  0 <= n -> 0 <= wt < 8 -> Z.lor (Z.shiftl n 3) wt = n * 8 + wt.
Proof.
  intros. rewrite Z.lor_comm, Z.shiftl_mul_pow2, lor_add_shift by lia.
  change (2 ^ 3) with 8. lia.
Qed.

Lemma tag_wiretype n wt : 0 <= n -> 0 <= wt < 8 -> Z.land (n * 8 + wt) 7 = wt.
Proof.
  intros. change 7 with (Z.ones 3). rewrite Z.land_ones by lia.
  change (2 ^ 3) with 8. rewrite Z.add_comm, Z.mod_add, Z.mod_small; lia.
Qed.

Lemma len_varint_pos v : 0 < len (varint v).
Proof. unfold varint, len. simpl. destruct (v <? 128); simpl; lia. Qed.

Lemma len_tag_pos n wt : 0 < len (tag n wt).
Proof. apply len_varint_pos. Qed.

Lemma readVarint_tag pre n wt post l :
  num_ok n = true -> 0 <= wt < 8 -> len pre + len (tag n wt) <= l ->
  readVarint (pre ++ tag n wt ++ post) l (len pre) = inr (n * 8 + wt, len pre + len (tag n wt)).
Proof.
  unfold num_ok, tag. rewrite Bool.andb_true_iff, Z.leb_le, Z.ltb_lt.
  intros Hn Hwt Hl. rewrite tag_value in * by lia.
  apply readVarint_varint; [|assumption]. split; [lia|].
  apply Z.lt_le_trans with (2 ^ 29 * 8); [lia|]. lia.
Qed.

Lemma num_ok_range n : num_ok n = true -> 1 <= n < 2 ^ 29.
Proof. unfold num_ok. rewrite Bool.andb_true_iff, Z.leb_le, Z.ltb_lt. tauto. Qed.

(** A record that is not a group is one iteration of the loop. *)
Lemma skip_step_leaf r pre post l depth :
  wrec_ok r = true -> (forall n body, r <> WGroup n body) ->
  len pre + len (enc_wrec r) <= l -> l < 2 ^ 63 ->
  skip_step (pre ++ enc_wrec r ++ post) l (len pre) depth
  = inr (len pre + len (enc_wrec r), depth).
Proof.
  intros Hok Hng Hl H63. pose proof (len_nonneg pre).
  destruct r as [n v|n b|n b|n body|n b]; [| | |now destruct (Hng n body)|];
    cbn [wrec_ok enc_wrec] in Hok, Hl |- *; repeat rewrite Bool.andb_true_iff in Hok;
    unfold skip_step; rewrite <- app_assoc; go_norm.
  - destruct Hok as [[Hn Hv0] Hv1]. apply Z.leb_le in Hv0. apply Z.ltb_lt in Hv1.
    pose proof (num_ok_range n Hn).
    pose proof (len_varint_pos v). rewrite readVarint_tag by (auto; lia). rewrite tag_wiretype by lia. cbn -[skipVarint readVarint int64 len app tag varint].
    rewrite app_assoc. replace (len pre + len (tag n 0)) with (len (pre ++ tag n 0)) by (go_norm; lia).
    rewrite skipVarint_varint by (go_norm; lia). go_norm. f_equal. f_equal. lia.
  - destruct Hok as [Hn Hb]. apply Z.eqb_eq in Hb. pose proof (num_ok_range n Hn).
    rewrite readVarint_tag by (auto; lia). rewrite tag_wiretype by lia. cbn -[skipVarint readVarint int64 len app tag varint].
    rewrite int64_small by (go_norm; len_pos; lia). f_equal. f_equal. lia.
  - pose proof (len_nonneg b). pose proof (num_ok_range n Hok). pose proof (len_varint_pos (len b)). pose proof (len_tag_pos n 2).
    rewrite readVarint_tag by (auto; lia). rewrite tag_wiretype by lia. cbn -[skipVarint readVarint int64 len app tag varint].
    rewrite app_assoc. replace (len pre + len (tag n 2)) with (len (pre ++ tag n 2)) by (go_norm; lia).
    rewrite <- (app_assoc (varint (len b))), readVarint_varint by (go_norm; lia).
    rewrite int64_small by lia. destruct (Z.ltb_spec (len b) 0); [lia|].
    rewrite int64_small by (go_norm; lia). go_norm. f_equal. f_equal. lia.
  - destruct Hok as [Hn Hb]. apply Z.eqb_eq in Hb. pose proof (num_ok_range n Hn).
    rewrite readVarint_tag by (auto; lia). rewrite tag_wiretype by lia. cbn -[skipVarint readVarint int64 len app tag varint].
    rewrite int64_small by (go_norm; len_pos; lia). f_equal. f_equal. lia.
Qed.

Lemma skip_step_start pre n post l depth :
  num_ok n = true -> len pre + len (tag n 3) <= l ->
  skip_step (pre ++ tag n 3 ++ post) l (len pre) depth
  = inr (len pre + len (tag n 3), depth + 1).
Proof.
  intros Hn Hl. unfold skip_step. pose proof (num_ok_range n Hn).
  rewrite readVarint_tag by (auto; lia). rewrite tag_wiretype by lia. reflexivity.
Qed.

Lemma skip_step_end pre n post l depth :
  num_ok n = true -> len pre + len (tag n 4) <= l ->
  skip_step (pre ++ tag n 4 ++ post) l (len pre) depth
  = if depth =? 0 then inl ErrUnexpectedEndOfGroup
    else inr (len pre + len (tag n 4), depth - 1).
Proof.
  intros Hn Hl. unfold skip_step. pose proof (num_ok_range n Hn).
  rewrite readVarint_tag by (auto; lia). rewrite tag_wiretype by lia. reflexivity.
Qed.

(** ** Traversal *)

Lemma skip_loop_S f d l i depth :
  skip_loop (S f) d l i depth =
  if i <? l then
    ' (i, depth) <- skip_step d l i depth ;;
    if i <? 0 then inl ErrInvalidLength
    else if depth =? 0 then inr i
    else skip_loop f d l i depth
  else inl ErrUnexpectedEOF.
Proof. reflexivity. Qed.

(** Inside a group ([depth >= 1]), the loop crosses the bytes [x] in [k]
    iterations, wherever [x] sits in the input, and comes back to the same
    depth. *)
Definition skips_over (x : bytes) (k : nat) : Prop :=
  forall d pre post fuel depth,
    d = pre ++ x ++ post -> 1 <= depth -> len d < 2 ^ 63 ->
    skip_loop (k + fuel) d (len d) (len pre) depth
    = skip_loop fuel d (len d) (len pre + len x) depth.

Lemma skips_over_nil : skips_over [] 0.
Proof. intros d pre post fuel depth _ _ _. simpl. f_equal. go_norm. lia. Qed.

Lemma skips_over_app x y kx ky :
  skips_over x kx -> skips_over y ky -> skips_over (x ++ y) (kx + ky).
Proof.
  intros Hx Hy d pre post fuel depth Hd H1 H63.
  rewrite <- Nat.add_assoc, (Hx d pre (y ++ post))
    by (subst; first [assumption | rewrite <- ?app_assoc; reflexivity]).
  rewrite <- len_app, (Hy d (pre ++ x) post)
    by (subst; first [assumption | rewrite <- ?app_assoc; reflexivity]).
  go_norm. f_equal. lia.
Qed.

Lemma len_enc_wrec_pos r : 0 < len (enc_wrec r).
Proof.
  destruct r as [n v|n b|n b|n body|n b]; cbn [enc_wrec]; rewrite len_app;
    match goal with |- 0 < len (tag ?n ?w) + len ?rest =>
      pose proof (len_tag_pos n w); pose proof (len_nonneg rest) end; lia.
Qed.

Lemma skips_over_leaf r :
  wrec_ok r = true -> (forall n body, r <> WGroup n body) -> skips_over (enc_wrec r) 1.
Proof.
  intros Hok Hng d pre post fuel depth -> H1 H63. rewrite Nat.add_1_l, skip_loop_S.
  pose proof (len_enc_wrec_pos r).
  pose proof (len_nonneg pre). pose proof (len_nonneg post).
  destruct (Z.ltb_spec (len pre) (len (pre ++ enc_wrec r ++ post))); [|go_norm; lia].
  rewrite skip_step_leaf by (auto; go_norm; lia).
  destruct (Z.ltb_spec (len pre + len (enc_wrec r)) 0); [lia|].
  destruct (Z.eqb_spec depth 0); [lia|]. reflexivity.
Qed.

Lemma skips_over_seq (rs : list wrec) :
  Forall (fun r => skips_over (enc_wrec r) (ntags r)) rs ->
  skips_over (enc_wrecs rs) (list_sum (map ntags rs)).
Proof.
  induction 1 as [|r rs Hr _ IH]; [apply skips_over_nil|].
  cbn [map list_sum enc_wrecs flat_map]. apply skips_over_app; assumption.
Qed.

(** A group: the start tag raises the depth, the body is crossed at the
    raised depth, the end tag lowers it again. *)
Lemma skips_over_group n body :
  num_ok n = true -> skips_over (enc_wrecs body) (list_sum (map ntags body)) ->
  skips_over (enc_wrec (WGroup n body)) (ntags (WGroup n body)).
Proof.
  intros Hn Hb d pre post fuel depth Hd H1 H63.
  cbn [enc_wrec ntags] in *. fold (enc_wrecs body) in *.
  pose proof (len_nonneg pre). pose proof (len_nonneg post).
  pose proof (len_nonneg (enc_wrecs body)).
  pose proof (len_tag_pos n 3). pose proof (len_tag_pos n 4).
  replace (2 + list_sum (map ntags body) + fuel)%nat
    with (S (list_sum (map ntags body) + S fuel)) by lia.
  rewrite skip_loop_S.
  destruct (Z.ltb_spec (len pre) (len d)); [|subst; go_norm; lia].
  assert (Hd1 : d = pre ++ tag n 3 ++ (enc_wrecs body ++ tag n 4 ++ post))
    by (subst; rewrite <- ?app_assoc; reflexivity).
  rewrite Hd1 at 1. rewrite skip_step_start by (auto; subst; go_norm; lia).
  destruct (Z.ltb_spec (len pre + len (tag n 3)) 0); [lia|].
  destruct (Z.eqb_spec (depth + 1) 0); [lia|].
  rewrite <- len_app, (Hb d (pre ++ tag n 3) (tag n 4 ++ post)) by
    (subst; first [lia | assumption | rewrite <- ?app_assoc; reflexivity]).
  rewrite skip_loop_S.
  destruct (Z.ltb_spec (len (pre ++ tag n 3) + len (enc_wrecs body)) (len d));
    [|subst; go_norm; lia].
  replace (len (pre ++ tag n 3) + len (enc_wrecs body))
    with (len (pre ++ tag n 3 ++ enc_wrecs body)) by (go_norm; lia).
  assert (Hd' : d = (pre ++ tag n 3 ++ enc_wrecs body) ++ tag n 4 ++ post)
    by (subst; rewrite <- ?app_assoc; reflexivity).
  rewrite Hd' at 1. rewrite skip_step_end by (auto; subst; go_norm; lia).
  destruct (Z.eqb_spec (depth + 1) 0); [lia|].
  go_norm.
  destruct (Z.ltb_spec (len pre + (len (tag n 3) + len (enc_wrecs body)) + len (tag n 4)) 0);
    [lia|].
  destruct (Z.eqb_spec (depth + 1 - 1) 0); [lia|].
  replace (depth + 1 - 1) with depth by lia. f_equal. lia.
Qed.

Lemma skips_over_wrec r : wrec_ok r = true -> skips_over (enc_wrec r) (ntags r).
Proof.
  induction r as [n v|n b|n b|n body IH|n b] using wrec_ind'; intros Hok;
    try (apply skips_over_leaf; [assumption|discriminate]).
  cbn [wrec_ok] in Hok. rewrite Bool.andb_true_iff, forallb_forall in Hok.
  destruct Hok as [Hn Hall]. apply skips_over_group; [assumption|].
  apply skips_over_seq. rewrite Forall_forall in IH |- *.
  intros r Hr. apply IH; auto.
Qed.

Lemma ntags_le r : (ntags r <= length (enc_wrec r))%nat.
Proof.
  induction r as [n v|n b|n b|n body IH|n b] using wrec_ind';
    cbn [ntags];
    try (match goal with |- (1 <= length (enc_wrec ?r))%nat =>
           pose proof (len_enc_wrec_pos r); unfold len in *; lia end).
  cbn [enc_wrec]. rewrite !length_app.
  pose proof (len_tag_pos n 3). pose proof (len_tag_pos n 4). unfold len in *.
  assert (list_sum (map ntags body) <= length (flat_map enc_wrec body))%nat.
  { induction IH as [|r rs Hr _ IHrs]; [simpl; lia|].
    cbn [map flat_map]. rewrite length_app. simpl list_sum. lia. }
  lia.
Qed.

(** ** Theorems *)

Lemma skip_step_leaf0 r post l depth :
  wrec_ok r = true -> (forall n body, r <> WGroup n body) ->
  len (enc_wrec r) <= l -> l < 2 ^ 63 ->
  skip_step (enc_wrec r ++ post) l 0 depth = inr (len (enc_wrec r), depth).
Proof.
  intros. pose proof (skip_step_leaf r [] post l depth) as E.
  cbn [app len length Z.of_nat] in E. rewrite Z.add_0_l in E. apply E; auto; lia.
Qed.

Lemma skip_step_start0 n post l depth :
  num_ok n = true -> len (tag n 3) <= l ->
  skip_step (tag n 3 ++ post) l 0 depth = inr (len (tag n 3), depth + 1).
Proof.
  intros. pose proof (skip_step_start [] n post l depth) as E.
  cbn [app len length Z.of_nat] in E. rewrite Z.add_0_l in E. apply E; auto; lia.
Qed.

(** [skip] measures exactly one well-formed record, groups included,
    whatever follows it. *)
Theorem skip_wrec r post :
  wrec_ok r = true -> len (enc_wrec r ++ post) < 2 ^ 63 ->
  skip (enc_wrec r ++ post) = inr (len (enc_wrec r)).
Proof.
  intros Hok H63. unfold skip.
  pose proof (len_enc_wrec_pos r). pose proof (len_nonneg post).
  destruct (length (enc_wrec r ++ post)) as [|f] eqn:El;
    [rewrite length_app in El; unfold len in *; lia|].
  rewrite skip_loop_S.
  destruct (Z.ltb_spec 0 (len (enc_wrec r ++ post))); [|go_norm; lia].
  destruct r as [n v|n b|n b|n body|n b];
    try (rewrite skip_step_leaf0
           by (first [assumption | intros ? ? ?; discriminate | go_norm; lia]);
         cbv beta iota;
         match goal with |- context [?x <? 0] => destruct (Z.ltb_spec x 0); [lia|] end;
         rewrite Z.eqb_refl; reflexivity).
  (* a group *)
  cbn [wrec_ok] in Hok. rewrite Bool.andb_true_iff, forallb_forall in Hok.
  destruct Hok as [Hn Hall].
  assert (Hs : skips_over (enc_wrecs body) (list_sum (map ntags body))).
  { apply skips_over_seq. rewrite Forall_forall. intros r Hr. apply skips_over_wrec; auto. }
  pose proof (ntags_le (WGroup n body)) as Hn'.
  cbn [ntags enc_wrec] in *. fold (enc_wrecs body) in *.
  set (d := (tag n 3 ++ enc_wrecs body ++ tag n 4) ++ post) in *.
  pose proof (len_tag_pos n 3). pose proof (len_tag_pos n 4).
  pose proof (len_nonneg (enc_wrecs body)).
  assert (Hd1 : d = tag n 3 ++ (enc_wrecs body ++ tag n 4 ++ post))
    by (subst d; rewrite <- ?app_assoc; reflexivity).
  rewrite Hd1 at 1. rewrite skip_step_start0 by (auto; subst d; go_norm; lia).
  cbv beta iota. destruct (Z.ltb_spec (len (tag n 3)) 0); [lia|]. cbn [Z.eqb Z.add].
  assert (Hf : (list_sum (map ntags body) < f)%nat).
  { subst d. repeat rewrite length_app in *. unfold len in *. lia. }
  replace f with (list_sum (map ntags body) + S (f - S (list_sum (map ntags body))))%nat by lia.
  rewrite (Hs d (tag n 3) (tag n 4 ++ post)) by (first [lia | rewrite Hd1; reflexivity]).
  rewrite skip_loop_S.
  destruct (Z.ltb_spec (len (tag n 3) + len (enc_wrecs body)) (len d)); [|subst d; go_norm; lia].
  replace (len (tag n 3) + len (enc_wrecs body)) with (len (tag n 3 ++ enc_wrecs body)) by (go_norm; lia).
  assert (Hd2 : d = (tag n 3 ++ enc_wrecs body) ++ tag n 4 ++ post)
    by (subst d; rewrite <- ?app_assoc; reflexivity).
  rewrite Hd2 at 1. rewrite skip_step_end by (auto; subst d; go_norm; lia). cbn [Z.eqb].
  cbv beta iota. go_norm.
  destruct (Z.ltb_spec (len (tag n 3) + len (enc_wrecs body) + len (tag n 4)) 0); [lia|].
  replace (1 - 1) with 0 by reflexivity. rewrite Z.eqb_refl. f_equal. lia.
Qed.

Lemma skip_step_progress d l i depth i' depth' :
  skip_step d l i depth = inr (i', depth') -> 0 <= i -> l < 2 ^ 63 -> 0 <= i' -> i < i'.
Proof.
  unfold skip_step. intros H Hi H63 Hi'.
  destruct (readVarint d l i) as [|[wire i1]] eqn:E1; [discriminate|].
  apply readVarint_range in E1.
  destruct (Z.land wire 7 =? 0).
  { destruct (skipVarint d l i1) as [|i2] eqn:E2; [discriminate|].
    apply skipVarint_range in E2. injection H as <- <-. lia. }
  destruct (Z.land wire 7 =? 1);
    [injection H as <- <-; rewrite int64_nonneg_id in * by lia; lia|].
  destruct (Z.land wire 7 =? 2).
  { destruct (readVarint d l i1) as [|[len' i2]] eqn:E2; [discriminate|].
    apply readVarint_range in E2.
    destruct (Z.ltb_spec (int64 len') 0); [discriminate|].
    injection H as <- <-. pose proof (int64_range len').
    rewrite int64_nonneg_id in Hi' |- * by lia. lia. }
  destruct (Z.land wire 7 =? 3); [injection H as <- <-; lia|].
  destruct (Z.land wire 7 =? 4).
  { destruct (depth =? 0); [discriminate|]. injection H as <- <-. lia. }
  destruct (Z.land wire 7 =? 5); [|discriminate].
  injection H as <- <-. rewrite int64_nonneg_id in * by lia. lia.
Qed.

Lemma skip_loop_fuel f1 : forall f2 d l i depth,
  l < 2 ^ 63 -> 0 <= i -> (Z.to_nat (l - i) <= f1)%nat -> (Z.to_nat (l - i) <= f2)%nat ->
  skip_loop f1 d l i depth = skip_loop f2 d l i depth.
Proof.
  induction f1 as [|f1 IH]; intros [|f2] d l i depth H63 H0 H1 H2; try reflexivity;
    rewrite ?skip_loop_S; try (destruct (Z.ltb_spec i l); [lia|reflexivity]).
  destruct (Z.ltb_spec i l); [|reflexivity].
  destruct (skip_step d l i depth) as [|[i' depth']] eqn:E; [reflexivity|].
  destruct (Z.ltb_spec i' 0); [reflexivity|].
  destruct (depth' =? 0); [reflexivity|].
  apply skip_step_progress in E; [|lia|lia|lia].
  apply IH; lia.
Qed.

(** [skip] runs at most [len(dAtA)] iterations: any larger bound on the
    loop gives the same answer. *)
Theorem skip_terminates d f :
  len d < 2 ^ 63 -> (length d <= f)%nat -> skip_loop f d (len d) 0 0 = skip d.
Proof.
  intros H63 Hf. unfold skip. apply skip_loop_fuel; unfold len in *; lia.
Qed.

(** An end-group tag at depth 0 is [ErrUnexpectedEndOfGroup]. *)
Theorem skip_end_group_first n post :
  num_ok n = true -> skip (tag n 4 ++ post) = inl ErrUnexpectedEndOfGroup.
Proof.
  intros Hn. unfold skip. pose proof (len_tag_pos n 4). pose proof (len_nonneg post).
  destruct (length (tag n 4 ++ post)) as [|f] eqn:El;
    [rewrite length_app in El; unfold len in *; lia|].
  rewrite skip_loop_S. destruct (Z.ltb_spec 0 (len (tag n 4 ++ post))); [|go_norm; lia].
  pose proof (skip_step_end [] n post (len (tag n 4 ++ post)) 0 Hn) as E.
  cbn [app len length Z.of_nat] in E. rewrite E by (go_norm; lia). reflexivity.
Qed.

(** C24: A group whose end tag never comes runs off the input:
    [io.ErrUnexpectedEOF]. *)
Theorem skip_group_unterminated n body :
  num_ok n = true -> forallb wrec_ok body = true ->
  len (tag n 3 ++ enc_wrecs body) < 2 ^ 63 ->
  skip (tag n 3 ++ enc_wrecs body) = inl ErrUnexpectedEOF.
Proof.
  intros Hn Hall H63. rewrite forallb_forall in Hall.
  assert (Hs : skips_over (enc_wrecs body) (list_sum (map ntags body))).
  { apply skips_over_seq. rewrite Forall_forall. intros r Hr. apply skips_over_wrec; auto. }
  set (d := tag n 3 ++ enc_wrecs body) in *.
  pose proof (len_tag_pos n 3). pose proof (len_nonneg (enc_wrecs body)).
  assert (Hle : (list_sum (map ntags body) <= length (enc_wrecs body))%nat).
  { clear -Hall. induction body as [|r rs IH]; [simpl; lia|].
    cbn [map flat_map enc_wrecs]. rewrite length_app. simpl list_sum.
    pose proof (ntags_le r). fold (enc_wrecs rs).
    assert (list_sum (map ntags rs) <= length (enc_wrecs rs))%nat
      by (apply IH; intros; apply Hall; simpl; auto). lia. }
  unfold skip. destruct (length d) as [|f] eqn:El;
    [subst d; rewrite length_app in El; unfold len in *; lia|].
  rewrite skip_loop_S. destruct (Z.ltb_spec 0 (len d)); [|subst d; go_norm; lia].
  pose proof (skip_step_start0 n (enc_wrecs body) (len d) 0 Hn) as E.
  unfold d at 1. rewrite E by (subst d; go_norm; lia). cbv beta iota.
  destruct (Z.ltb_spec (len (tag n 3)) 0); [lia|]. cbn [Z.eqb Z.add].
  assert (Hf : (list_sum (map ntags body) <= f)%nat)
    by (subst d; rewrite length_app in El; unfold len in *; lia).
  replace f with (list_sum (map ntags body) + (f - list_sum (map ntags body)))%nat by lia.
  rewrite (Hs d (tag n 3) []) by (first [lia | subst d; rewrite app_nil_r; reflexivity]).
  replace (len (tag n 3) + len (enc_wrecs body)) with (len d) by (subst d; go_norm; lia).
  destruct (f - list_sum (map ntags body))%nat; [reflexivity|].
  rewrite skip_loop_S, Z.ltb_irrefl. reflexivity.
Qed.

(** Wire types 6 and 7 do not exist. *)
Theorem skip_illegal_wiretype n wt post :
  num_ok n = true -> wt = 6 \/ wt = 7 ->
  skip (tag n wt ++ post) = inl (ErrIllegalWireType wt).
Proof.
  intros Hn Hwt. unfold skip. pose proof (len_tag_pos n wt). pose proof (len_nonneg post).
  pose proof (num_ok_range n Hn).
  destruct (length (tag n wt ++ post)) as [|f] eqn:El;
    [rewrite length_app in El; unfold len in *; lia|].
  rewrite skip_loop_S. destruct (Z.ltb_spec 0 (len (tag n wt ++ post))); [|go_norm; lia].
  unfold skip_step. pose proof (readVarint_tag [] n wt post (len (tag n wt ++ post)) Hn) as E.
  cbn [app len length Z.of_nat] in E. rewrite E by (go_norm; lia).
  rewrite tag_wiretype by lia. destruct Hwt as [->| ->]; reflexivity.
Qed.

(** ** A record begins with its tag *)

Definition wrec_wt (r : wrec) : Z :=
  match r with
  | WVarint _ _ => 0 | WFixed64 _ _ => 1 | WBytes _ _ => 2 | WGroup _ _ => 3 | WFixed32 _ _ => 5
  end.

Lemma enc_wrec_tag r : exists rest, enc_wrec r = tag (wrec_num r) (wrec_wt r) ++ rest.
Proof.
  destruct r; cbn [enc_wrec wrec_num wrec_wt]; eexists; reflexivity.
Qed.

Lemma wrec_wt_range r : 0 <= wrec_wt r < 8 /\ wrec_wt r <> 4.
Proof. destruct r; cbn; lia. Qed.

Lemma wrec_ok_num r : wrec_ok r = true -> num_ok (wrec_num r) = true.
Proof.
  destruct r; cbn [wrec_ok wrec_num]; intros H;
    repeat rewrite Bool.andb_true_iff in H; tauto.
Qed.

Lemma len_enc_wrecs_ge rs : (length rs <= length (enc_wrecs rs))%nat.
Proof.
  induction rs as [|r rs IH]; [simpl; lia|].
  cbn [enc_wrecs flat_map]. fold (enc_wrecs rs). rewrite length_app.
  pose proof (len_enc_wrec_pos r). unfold len in *. simpl. lia.
Qed.

Lemma skip_loop_pos f : forall d l i depth n,
  skip_loop f d l i depth = inr n -> 0 <= i -> l < 2 ^ 63 -> i < n.
Proof.
  induction f as [|f IH]; intros d l i depth n H Hi H63; [discriminate|].
  rewrite skip_loop_S in H. destruct (Z.ltb_spec i l); [|discriminate].
  destruct (skip_step d l i depth) as [|[i' depth']] eqn:E; [discriminate|].
  destruct (Z.ltb_spec i' 0); [discriminate|].
  apply skip_step_progress in E; [|lia|lia|lia].
  destruct (depth' =? 0); [injection H as <-; lia|].
  apply IH in H; lia.
Qed.

(** Every index the loop produces is a Go [int]. *)
Lemma skip_step_lt d l i depth i' depth' :
  skip_step d l i depth = inr (i', depth') -> l < 2 ^ 63 -> i' < 2 ^ 63.
Proof.
  unfold skip_step. intros H H63.
  destruct (readVarint d l i) as [|[wire i1]] eqn:E1; [discriminate|].
  apply readVarint_range in E1.
  destruct (Z.land wire 7 =? 0).
  { destruct (skipVarint d l i1) as [|i2] eqn:E2; [discriminate|].
    apply skipVarint_range in E2. injection H as <- <-. lia. }
  destruct (Z.land wire 7 =? 1); [injection H as <- <-; apply int64_range|].
  destruct (Z.land wire 7 =? 2).
  { destruct (readVarint d l i1) as [|[len' i2]]; [discriminate|].
    destruct (int64 len' <? 0); [discriminate|]. injection H as <- <-. apply int64_range. }
  destruct (Z.land wire 7 =? 3); [injection H as <- <-; lia|].
  destruct (Z.land wire 7 =? 4).
  { destruct (depth =? 0); [discriminate|]. injection H as <- <-. lia. }
  destruct (Z.land wire 7 =? 5); [injection H as <- <-; apply int64_range|discriminate].
Qed.

Lemma skip_loop_lt f : forall d l i depth n,
  skip_loop f d l i depth = inr n -> l < 2 ^ 63 -> n < 2 ^ 63.
Proof.
  induction f as [|f IH]; intros d l i depth n H H63; [discriminate|].
  rewrite skip_loop_S in H. destruct (i <? l); [|discriminate].
  destruct (skip_step d l i depth) as [|[i' depth']] eqn:E; [discriminate|].
  apply skip_step_lt in E; [|lia].
  destruct (i' <? 0); [discriminate|].
  destruct (depth' =? 0); [injection H as <-; lia|]. eauto.
Qed.

Lemma skip_lt d n : len d < 2 ^ 63 -> skip d = inr n -> n < 2 ^ 63.
Proof. intros H63 H. eapply skip_loop_lt; eauto. Qed.

(** A successful [skip] consumes at least one byte. *)
Lemma skip_pos d n : len d < 2 ^ 63 -> skip d = inr n -> 0 < n.
Proof. intros H63 H. apply skip_loop_pos in H; lia. Qed.

(** C7: A group record is skipped whole: the depth counter climbs at each
    start-group tag of its body and the skip stops at the matching
    end-group tag, whatever follows it. *)
Theorem skip_group n body post :
  wrec_ok (WGroup n body) = true -> len (enc_wrec (WGroup n body) ++ post) < 2 ^ 63 ->
  skip (enc_wrec (WGroup n body) ++ post) = inr (len (tag n 3 ++ enc_wrecs body ++ tag n 4)).
Proof.
  intros Hok H63. rewrite skip_wrec by assumption. cbn [enc_wrec]. fold (enc_wrecs body).
  reflexivity.
Qed.

(** ** The loop as a transition system *)

Lemma skip_sem_functional d s s1 s2 : skip_sem d s s1 -> skip_sem d s s2 -> s1 = s2.
Proof.
  intros H1 H2; destruct H1; inversion H2; subst; try lia;
    repeat match goal with
    | E1 : skip_step ?a ?b ?c ?e = _, E2 : skip_step ?a ?b ?c ?e = _ |- _ =>
        rewrite E1 in E2; injection E2 as <- <-; clear E1
    | E1 : skip_step ?a ?b ?c ?e = _, E2 : skip_step ?a ?b ?c ?e = _ |- _ =>
        rewrite E1 in E2; discriminate E2
    end; congruence || lia.
Qed.

(** Every loop head has a successor: only returns are final. *)
Lemma skip_sem_irred d s : irred (skip_sem d) s <-> exists r, s = SRet r.
Proof.
  split; [|intros [r ->] b H; inversion H].
  destruct s as [i depth|r]; [|eauto]. intros Hirr. exfalso.
  destruct (Z.ltb_spec i (len d)); [|eapply Hirr, skip_sem_exit; lia].
  destruct (skip_step d (len d) i depth) as [e|[i' depth']] eqn:E;
    [eapply Hirr, skip_sem_err; eauto|].
  destruct (Z.ltb_spec i' 0); [eapply Hirr, skip_sem_neg; eauto|].
  destruct (Z.eq_dec depth' 0) as [->|];
    [eapply Hirr, skip_sem_done|eapply Hirr, skip_sem_next]; eauto; lia.
Qed.

(** The fuel model runs the transition system: from a loop head with
    enough fuel, the run reaches the [return] of [skip_loop]. *)
Lemma skip_loop_star d f : forall i depth,
  len d < 2 ^ 63 -> 0 <= i -> (Z.to_nat (len d - i) <= f)%nat ->
  star (skip_sem d) (SLoop i depth) (SRet (skip_loop f d (len d) i depth)).
Proof.
  induction f as [|f IH]; intros i depth H63 Hi Hf.
  { apply star_one, skip_sem_exit; lia. }
  rewrite skip_loop_S. destruct (Z.ltb_spec i (len d));
    [|apply star_one, skip_sem_exit; lia].
  destruct (skip_step d (len d) i depth) as [e|[i' depth']] eqn:E;
    [apply star_one; eapply skip_sem_err; eauto|].
  destruct (Z.ltb_spec i' 0); [apply star_one; eapply skip_sem_neg; eauto|].
  destruct (Z.eqb_spec depth' 0) as [->|];
    [apply star_one; eapply skip_sem_done; eauto|].
  pose proof (skip_step_progress _ _ _ _ _ _ E ltac:(lia) H63 ltac:(lia)).
  eapply star_step; [eapply skip_sem_next; eauto|]. apply IH; lia.
Qed.

Lemma skip_sem_skip d : len d < 2 ^ 63 -> star (skip_sem d) (SLoop 0 0) (SRet (skip d)).
Proof. intros H63. apply skip_loop_star; unfold len in *; lia. Qed.

(** The variant of the loop: from a loop head at [iNdEx >= 0], every
    iteration that goes on moves [iNdEx] forward, below [len(dAtA)]. *)
Definition skip_measure (d : bytes) (s : skip_state) : nat :=
  match s with SLoop i _ => S (Z.to_nat (len d - i)) | SRet _ => O end.

Definition skip_inv (s : skip_state) : Prop :=
  match s with SLoop i _ => 0 <= i | SRet _ => True end.

Lemma skip_sem_variant d a b :
  len d < 2 ^ 63 -> skip_inv a -> skip_sem d a b ->
  skip_inv b /\ (skip_measure d b < skip_measure d a)%nat.
Proof.
  intros H63 Ha Hab. destruct Hab; cbn in *; try (split; [exact I|lia]).
  pose proof (skip_step_progress _ _ _ _ _ _ H0 Ha H63 H1). split; lia.
Qed.

(** C10: Liveness of [skip]: no run of its loop from the start is
    infinite, and every run that stops has returned what [skip] returns. *)
Theorem skip_run_returns d :
  len d < 2 ^ 63 ->
  not (infseq (skip_sem d) (SLoop 0 0)) /\
  forall s, star (skip_sem d) (SLoop 0 0) s -> irred (skip_sem d) s -> s = SRet (skip d).
Proof.
  intros H63. split.
  - apply (variant_no_infseq _ skip_inv (skip_measure d)); [|cbn; lia].
    intros a b; now apply skip_sem_variant.
  - intros s Hs Hirr. eapply star_irred_unique; eauto using skip_sem_functional, skip_sem_skip.
    apply skip_sem_irred; eauto.
Qed.

(** ** Witnesses *)

Lemma skip_group_witness :
  skip (enc_wrec (WGroup 1 [WVarint 2 1]) ++ [])
  = inr (len (tag 1 3 ++ enc_wrecs [WVarint 2 1] ++ tag 1 4)).
Proof. apply skip_group; vm_compute; reflexivity. Defined.

Lemma skip_end_group_first_witness : skip (tag 1 4 ++ [8; 1]) = inl ErrUnexpectedEndOfGroup.
Proof. apply skip_end_group_first. reflexivity. Defined.

Lemma skip_group_unterminated_witness :
  skip (tag 1 3 ++ enc_wrecs [WVarint 2 1]) = inl ErrUnexpectedEOF.
Proof. apply skip_group_unterminated; vm_compute; reflexivity. Defined.

Lemma skip_terminates_witness : skip_loop 5 [8; 1] (len [8; 1]) 0 0 = skip [8; 1].
Proof. apply skip_terminates; [vm_compute; reflexivity | simpl; lia]. Defined.

Lemma skip_illegal_wiretype_witness : skip (tag 1 6 ++ []) = inl (ErrIllegalWireType 6).
Proof. apply skip_illegal_wiretype; [reflexivity | left; reflexivity]. Defined.

Lemma skip_run_returns_witness :
  not (infseq (skip_sem [8; 1]) (SLoop 0 0)) /\
  forall s, star (skip_sem [8; 1]) (SLoop 0 0) s -> irred (skip_sem [8; 1]) s -> s = SRet (inr 2).
Proof. apply (skip_run_returns [8; 1]). vm_compute. reflexivity. Defined.

End Skip.
