(* ===== verification/Records.v ===== *)
(** * Records: what [skip] reads, and the well-formed unknown-field buffer

    [skip] of src/proto/foo.pulsar.go reads only the bytes of the record it
    measures: on a successful answer [n <= len(dAtA)] it read no byte at or
    after [n].  So it gives the same answer on [dAtA[:n]], and on
    [dAtA[:n]] followed by anything ([skip_prefix], [skip_extend]).  This is
    what makes the bytes that [Unmarshal] copies into [unknownFields]
    ([dAtA[preIndex:preIndex+skippy]]) a complete record again.

    [records_ok] is the spec's invariant of the unknown-field buffer
    ("a syntactically valid sequence of complete wire-format records"),
    written executably with [skip] as the recognizer: the buffer splits into
    chunks that [skip] measures whole. *)

From Stdlib Require Import ZArith List Lia.
From S2P Require Import Prelude Varint Skip.
Import ListNotations.
Open Scope Z_scope.
Open Scope go_scope.

Module Records.
Import Varint.Varint Skip.Skip.

(** [d] and [d'] hold the same bytes at the indices [i <= k < j]. *)
Definition agree (d d' : bytes) (i j : Z) : Prop :=
  forall k, i <= k < j -> at_ d k = at_ d' k.

(** The unknown-field buffer splits into records that [skip] measures
    whole: the answer of [skip] on [u] is a positive [n <= len u], and the
    rest after [n] splits likewise.  [fuel] bounds the number of records;
    [length u] is enough since each has at least one byte. *)
Fixpoint records_ok_fuel (fuel : nat) (u : bytes) : bool :=
  match u with
  | [] => true
  | _ =>
    match fuel with
    | O => false
    | S f =>
      match skip u with
      | inr n => ((0 <? n) && (n <=? len u) && records_ok_fuel f (skipn (Z.to_nat n) u))%bool
      | inl _ => false
      end
    end
  end.

Definition records_ok (u : bytes) : bool := records_ok_fuel (length u) u.

(** ** Agreement *)

Lemma agree_sub d d' i j i' j' : agree d d' i j -> i <= i' -> j' <= j -> agree d d' i' j'.
Proof. intros H Hi Hj k Hk. apply H. lia. Qed.

Lemma agree_firstn d n i j :
  0 <= i -> j <= n -> agree d (firstn (Z.to_nat n) d) i j.
Proof.
  intros Hi Hj k Hk. unfold at_. rewrite nth_firstn.
  destruct (Nat.ltb_spec (Z.to_nat k) (Z.to_nat n)); [reflexivity|lia].
Qed.

Lemma agree_app d e i j : 0 <= i -> j <= len d -> agree d (d ++ e) i j.
Proof.
  intros Hi Hj k Hk. unfold at_. rewrite app_nth1; [reflexivity|unfold len in Hj; lia].
Qed.

(** ** The varint loops read their bytes only *)

Lemma varint_loop_lt fuel : forall d l i shift acc v i',
  varint_loop fuel d l i shift acc = inr (v, i') -> i < i'.
Proof.
  induction fuel as [|f IH]; intros d l i shift acc v i' H; [discriminate|].
  rewrite varint_loop_S in H. cbv zeta in H.
  destruct (64 <=? shift); [discriminate|]. destruct (l <=? i); [discriminate|].
  destruct (at_ d i <? 128); [injection H as _ <-; lia|]. apply IH in H. lia.
Qed.

Lemma varint_loop_local fuel : forall d d' l l' i shift acc v i',
  varint_loop fuel d l i shift acc = inr (v, i') -> agree d d' i i' -> i' <= l' ->
  varint_loop fuel d' l' i shift acc = inr (v, i').
Proof.
  induction fuel as [|f IH]; intros d d' l l' i shift acc v i' H Ha Hl; [discriminate|].
  pose proof (varint_loop_lt _ _ _ _ _ _ _ _ H) as Hlt.
  rewrite varint_loop_S in H |- *. cbv zeta in H |- *.
  destruct (64 <=? shift); [discriminate|].
  destruct (Z.leb_spec l i); [discriminate|]. destruct (Z.leb_spec l' i); [lia|].
  rewrite <- (Ha i) by lia.
  destruct (at_ d i <? 128); [exact H|].
  eapply IH; [exact H | eapply agree_sub; [exact Ha|lia|lia] | exact Hl].
Qed.

Lemma readVarint_local d d' l l' i v i' :
  readVarint d l i = inr (v, i') -> agree d d' i i' -> i' <= l' ->
  readVarint d' l' i = inr (v, i').
Proof. apply varint_loop_local. Qed.

Lemma skipVarint_local d d' l l' i i' :
  skipVarint d l i = inr i' -> agree d d' i i' -> i' <= l' -> skipVarint d' l' i = inr i'.
Proof.
  unfold skipVarint. rewrite !(skipVarint_loop_varint_loop _ _ _ _ _ 0).
  destruct (varint_loop 11 d l i 0 0) as [|[v i2]] eqn:E; [discriminate|].
  intros [= <-] Ha Hl. rewrite (varint_loop_local _ _ _ _ _ _ _ _ _ _ E Ha Hl). reflexivity.
Qed.

(** ** One iteration of [skip] reads the bytes before the index it returns *)

Lemma skip_step_local d d' l l' i depth i' depth' :
  skip_step d l i depth = inr (i', depth') -> 0 <= i -> 0 <= i' -> l < 2 ^ 63 ->
  agree d d' i i' -> i' <= l' -> skip_step d' l' i depth = inr (i', depth').
Proof.
  unfold skip_step. intros H Hi Hi' H63 Ha Hl.
  destruct (readVarint d l i) as [|[wire i1]] eqn:E1; [discriminate|].
  pose proof (readVarint_range _ _ _ _ _ E1) as R1.
  assert (L1 : i1 <= i' -> readVarint d' l' i = inr (wire, i1)).
  { intros. eapply readVarint_local; [exact E1|eapply agree_sub; [exact Ha|lia|lia]|lia]. }
  destruct (Z.land wire 7 =? 0) eqn:W0.
  { destruct (skipVarint d l i1) as [|i2] eqn:E2; [discriminate|]. injection H as <- <-.
    pose proof (skipVarint_range _ _ _ _ E2). rewrite L1 by lia. cbn beta iota. rewrite W0.
    erewrite skipVarint_local; [reflexivity|exact E2|eapply agree_sub; [exact Ha|lia|lia]|lia]. }
  destruct (Z.land wire 7 =? 1) eqn:W1.
  { injection H as <- <-. assert (Hx : int64 (i1 + 8) = i1 + 8) by (apply int64_nonneg_id; lia).
    rewrite Hx in *. rewrite L1 by lia. cbn beta iota. rewrite W0, W1, Hx. reflexivity. }
  destruct (Z.land wire 7 =? 2) eqn:W2.
  { destruct (readVarint d l i1) as [|[ln i2]] eqn:E2; [discriminate|].
    pose proof (readVarint_range _ _ _ _ _ E2) as R2.
    destruct (Z.ltb_spec (int64 ln) 0); [discriminate|]. injection H as <- <-.
    pose proof (int64_range ln).
    assert (Hx : int64 (i2 + int64 ln) = i2 + int64 ln) by (apply int64_nonneg_id; lia).
    rewrite Hx in *. rewrite L1 by lia. cbn beta iota. rewrite W0, W1, W2.
    erewrite readVarint_local; [|exact E2|eapply agree_sub; [exact Ha|lia|lia]|lia].
    cbn beta iota. destruct (Z.ltb_spec (int64 ln) 0); [lia|]. rewrite Hx. reflexivity. }
  destruct (Z.land wire 7 =? 3) eqn:W3.
  { injection H as <- <-. rewrite L1 by lia. cbn beta iota. rewrite W0, W1, W2, W3. reflexivity. }
  destruct (Z.land wire 7 =? 4) eqn:W4.
  { destruct (depth =? 0) eqn:D; [discriminate|]. injection H as <- <-.
    rewrite L1 by lia. cbn beta iota. rewrite W0, W1, W2, W3, W4. reflexivity. }
  destruct (Z.land wire 7 =? 5) eqn:W5; [|discriminate].
  injection H as <- <-. assert (Hx : int64 (i1 + 4) = i1 + 4) by (apply int64_nonneg_id; lia).
  rewrite Hx in *. rewrite L1 by lia. cbn beta iota. rewrite W0, W1, W2, W3, W4, W5, Hx.
  reflexivity.
Qed.

(** ** [skip] reads the bytes of its record only *)

Lemma skip_loop_local f : forall d d' l l' i depth n,
  skip_loop f d l i depth = inr n -> 0 <= i -> l < 2 ^ 63 -> agree d d' i n -> n <= l' ->
  skip_loop f d' l' i depth = inr n.
Proof.
  induction f as [|f IH]; intros d d' l l' i depth n H Hi H63 Ha Hl; [discriminate|].
  pose proof (skip_loop_pos _ _ _ _ _ _ H Hi H63) as Hlt.
  rewrite skip_loop_S in H |- *.
  destruct (Z.ltb_spec i l); [|discriminate]. destruct (Z.ltb_spec i l'); [|lia].
  destruct (skip_step d l i depth) as [|[i1 dep1]] eqn:E; [discriminate|].
  destruct (Z.ltb_spec i1 0); [discriminate|].
  pose proof (skip_step_progress _ _ _ _ _ _ E Hi H63 ltac:(lia)) as Hp.
  assert (Hn : i1 <= n).
  { destruct (dep1 =? 0); [injection H as <-; lia|].
    apply skip_loop_pos in H; lia. }
  rewrite (skip_step_local _ _ _ _ _ _ _ _ E) by first [lia | eapply agree_sub; [exact Ha|lia|lia]].
  cbn beta iota. destruct (Z.ltb_spec i1 0); [lia|].
  destruct (dep1 =? 0); [exact H|].
  eapply IH; [exact H|lia|exact H63|eapply agree_sub; [exact Ha|lia|lia]|exact Hl].
Qed.

Lemma skip_loop_more_fuel f : forall f' d l i depth n,
  skip_loop f d l i depth = inr n -> (f <= f')%nat -> skip_loop f' d l i depth = inr n.
Proof.
  induction f as [|f IH]; intros [|f'] d l i depth n H Hf; try discriminate; [lia|].
  rewrite skip_loop_S in H |- *.
  destruct (i <? l); [|discriminate].
  destruct (skip_step d l i depth) as [|[i1 dep1]]; [discriminate|]. cbn beta iota in H |- *.
  destruct (i1 <? 0); [discriminate|]. destruct (dep1 =? 0); [exact H|].
  eapply IH; [exact H|lia].
Qed.

(** [skip] answers the same on the bytes of the record alone. *)
Lemma skip_prefix s n :
  skip s = inr n -> n <= len s -> len s < 2 ^ 63 -> skip (firstn (Z.to_nat n) s) = inr n.
Proof.
  intros H Hn H63. pose proof (skip_pos _ _ H63 H) as Hp. unfold skip in *.
  assert (Hlen : len (firstn (Z.to_nat n) s) = n).
  { unfold len in *. rewrite length_firstn. lia. }
  rewrite Hlen, length_firstn.
  rewrite (skip_loop_fuel _ (length s)); [|lia|lia|unfold len in *; lia|unfold len in *; lia].
  eapply skip_loop_local; [exact H|lia|exact H63|apply agree_firstn; lia|lia].
Qed.

(** ... and on the record followed by anything. *)
Lemma skip_extend s t n :
  skip s = inr n -> n <= len s -> len (s ++ t) < 2 ^ 63 -> skip (s ++ t) = inr n.
Proof.
  intros H Hn H63. unfold skip in *.
  assert (Hs : len s < 2 ^ 63) by (go_norm; len_pos; lia).
  apply (skip_loop_more_fuel (length s)); [|rewrite length_app; lia].
  eapply skip_loop_local; [exact H|lia|exact Hs|apply agree_app; lia|go_norm; len_pos; lia].
Qed.

(** ** The well-formed buffer *)

Lemma records_ok_fuel_mono f : forall f' u,
  records_ok_fuel f u = true -> (f <= f')%nat -> records_ok_fuel f' u = true.
Proof.
  induction f as [|f IH]; intros [|f'] [|b u] H Hf; try reflexivity; try discriminate; [lia|].
  cbn [records_ok_fuel] in *. destruct (skip (b :: u)) as [|n]; [discriminate|].
  apply andb_prop in H as [H1 H2]. rewrite H1. cbn [andb]. eapply IH; [exact H2|lia].
Qed.

(** A record [skip] measures at the front, then a well-formed rest. *)
Lemma records_ok_cons f c t :
  skip (c ++ t) = inr (len c) -> 0 < len c -> records_ok_fuel f t = true ->
  records_ok_fuel (S f) (c ++ t) = true.
Proof.
  intros Hc Hp Ht. destruct c as [|b c']; [unfold len in Hp; simpl in Hp; lia|].
  change ((b :: c') ++ t) with (b :: (c' ++ t)). cbn [records_ok_fuel].
  change (b :: c' ++ t) with ((b :: c') ++ t). rewrite Hc.
  rewrite (proj2 (Z.ltb_lt _ _) Hp), (proj2 (Z.leb_le _ _)) by (go_norm; len_pos; lia).
  cbn [andb]. unfold len. rewrite Nat2Z.id, skipn_app, skipn_all, Nat.sub_diag. exact Ht.
Qed.

(** A buffer that [skip] measures whole is one record. *)
Lemma records_ok_one f c :
  skip c = inr (len c) -> 0 < len c -> records_ok_fuel (S f) c = true.
Proof.
  intros Hc Hp. rewrite <- (app_nil_r c).
  apply records_ok_cons; [rewrite app_nil_r; exact Hc|exact Hp|destruct f; reflexivity].
Qed.

Lemma records_ok_app f : forall u c,
  records_ok_fuel f u = true -> skip c = inr (len c) -> 0 < len c -> len (u ++ c) < 2 ^ 63 ->
  records_ok_fuel (S f) (u ++ c) = true.
Proof.
  induction f as [|f IH]; intros [|b u] c Hu Hc Hp H63; try discriminate;
    try (apply records_ok_one; assumption).
  cbn [records_ok_fuel] in Hu. destruct (skip (b :: u)) as [|n] eqn:E; [discriminate|].
  apply andb_prop in Hu as [Hu Hrest]. apply andb_prop in Hu as [H0 Hn].
  apply Z.ltb_lt in H0. apply Z.leb_le in Hn.
  change ((b :: u) ++ c) with (b :: (u ++ c)). cbn [records_ok_fuel].
  change (b :: u ++ c) with ((b :: u) ++ c).
  rewrite (skip_extend _ _ _ E Hn H63).
  rewrite (proj2 (Z.ltb_lt _ _) H0), (proj2 (Z.leb_le _ _)) by (go_norm; len_pos; lia).
  cbn [andb]. rewrite skipn_app.
  replace (Z.to_nat n - length (b :: u))%nat with O by (unfold len in Hn; lia).
  cbn [skipn]. apply IH; try assumption.
  rewrite len_app in *. unfold len in *. rewrite length_skipn. lia.
Qed.

(** Appending one complete record keeps the buffer well-formed. *)
Lemma records_ok_snoc u c :
  records_ok u = true -> skip c = inr (len c) -> 0 < len c -> len (u ++ c) < 2 ^ 63 ->
  records_ok (u ++ c) = true.
Proof.
  intros Hu Hc Hp H63. unfold records_ok.
  apply (records_ok_fuel_mono (S (length u))); [apply records_ok_app; assumption|].
  rewrite length_app. unfold len in Hp. lia.
Qed.

(** What [Unmarshal]'s [default:] copies, [dAtA[iNdEx:iNdEx+skippy]] with
    [skippy = skip(dAtA[iNdEx:])], is one complete record. *)
Lemma skip_chunk d i k :
  skip (skipn (Z.to_nat i) d) = inr k -> 0 <= i -> i + k <= len d -> len d < 2 ^ 63 ->
  len (slice d i (i + k)) = k /\ skip (slice d i (i + k)) = inr k /\ 0 < k.
Proof.
  intros H Hi Hk H63.
  assert (Hle : len (skipn (Z.to_nat i) d) <= len d) by (unfold len; rewrite length_skipn; lia).
  pose proof (skip_pos (skipn (Z.to_nat i) d) k ltac:(lia) H) as Hp.
  assert (Hl : len (skipn (Z.to_nat i) d) = len d - i) by (unfold len in *; rewrite length_skipn; lia).
  assert (Hs : len (slice d i (i + k)) = k).
  { unfold slice, len in *. rewrite length_firstn. lia. }
  split; [exact Hs|split; [|exact Hp]]. unfold slice. replace (i + k - i) with k by lia.
  apply skip_prefix; [exact H|lia|lia].
Qed.

(** The encodings of well-formed records are well-formed buffers. *)
Lemma records_ok_fuel_enc rs : forall f,
  forallb wrec_ok rs = true -> len (enc_wrecs rs) < 2 ^ 63 -> (length rs <= f)%nat ->
  records_ok_fuel f (enc_wrecs rs) = true.
Proof.
  induction rs as [|r rs IH]; intros f Hok H63 Hf; [destruct f; reflexivity|].
  cbn [forallb] in Hok. apply andb_prop in Hok as [Hr Hrs].
  destruct f as [|f]; [simpl in Hf; lia|].
  cbn [enc_wrecs flat_map] in *. fold (enc_wrecs rs) in *.
  apply records_ok_cons; [apply skip_wrec; assumption|apply len_enc_wrec_pos|].
  apply IH; [exact Hrs|go_norm; len_pos; lia|simpl in Hf; lia].
Qed.

Lemma records_ok_enc rs :
  forallb wrec_ok rs = true -> len (enc_wrecs rs) < 2 ^ 63 -> records_ok (enc_wrecs rs) = true.
Proof.
  intros Hok H63. apply records_ok_fuel_enc; [exact Hok|exact H63|apply len_enc_wrecs_ge].
Qed.

End Records.
