(* ===== verification/Protoreflect.v ===== *)
(** * Protoreflect: the reflection values the generated code handles

    The generated methods take and return values of
    google.golang.org/protobuf's [protoreflect] package, a library the
    sources only call.  This file gives them the shape the code relies on:
    a field descriptor is what the generated [switch]es look at (its
    [FullName], [Name], [IsExtension] and containing message), a [Value] is one of the
    [protoreflect.ValueOf...] constructors, and a [panic] is a value of
    [gopanic], so that an accessor returns [gopanic + A]. *)

From Stdlib Require Import String ZArith List.
From S2P Require Import Prelude.

Module Protoreflect.

(** [protoreflect.Kind] *)
Inductive Kind :=
| BoolKind | EnumKind | Int32Kind | Sint32Kind | Uint32Kind | Int64Kind
| Sint64Kind | Uint64Kind | Sfixed32Kind | Fixed32Kind | FloatKind
| Sfixed64Kind | Fixed64Kind | DoubleKind | StringKind | BytesKind
| MessageKind | GroupKind.

(** [protoreflect.FieldDescriptor], seen through the methods the generated
    code calls on it. *)
Record FieldDescriptor := mkFieldDescriptor {
  FullName : string;
  Name : string;
  IsExtension : bool;
  (** [ContainingMessage().FullName()] *)
  ContainingMessage : string;
  (** whether the descriptor also implements [ExtensionTypeDescriptor] *)
  IsExtensionTypeDescriptor : bool
}.

(** [protoreflect.OneofDescriptor] *)
Record OneofDescriptor := mkOneofDescriptor { OneofFullName : string }.

(** [protoreflect.Value], by the constructor that built it. *)
Inductive Value :=
| ValueOfBool (b : bool)
| ValueOfInt32 (v : Z)
| ValueOfInt64 (v : Z)
| ValueOfUint32 (v : Z)
| ValueOfUint64 (v : Z)
| ValueOfString (s : bytes)
| ValueOfBytes (b : bytes)
| ValueOfEnum (n : Z)
| ValueOfFloat32 (v : Z)
| ValueOfFloat64 (v : Z)
(** [ValueOfMessage(m.ProtoReflect())], the message by its address;
    [None] for [ValueOfMessage(nil)] *)
| ValueOfMessage (ptr : option Z).

(** A Go [panic] with its message; [RuntimePanic] is a panic raised inside
    the protobuf runtime, whose text is not part of this repository. *)
Inductive gopanic := Panic (msg : string) | RuntimePanic.

(** A call that returns an [A] or panics. *)
Definition pres (A : Type) : Type := (gopanic + A)%type.

End Protoreflect.
