(* ===== verification/Unmarshal.v ===== *)
(** * Unmarshal: the decoding loop shared by every generated message

    Every [Unmarshal] in src/proto/foo.pulsar.go ([Bar] lines 728-810,
    [Hello] lines 811-913) and the [unmarshal] closure of
    src/internal/testprotos/test3/test_import.pulsar.go (lines 296-358) is
    the same loop around a per-message [switch fieldNum].  The class
    [MessageSwitch] is what a message supplies to the loop (its name, its
    unknown-field buffer, the non-default cases of its switch), and
    [MessageSwitchLaws] what the loop's theorems need from it.  The loop
    itself, [unmarshal_loop], is written once in a Section; its theorems
    say how it crosses unknown records (appended verbatim, or dropped when
    [DiscardUnknown] is set), when it stops, that it terminates, and that
    the unknown-field buffer stays a sequence of complete records. *)

From Stdlib Require Import ZArith List Lia.
From Stdlib Require String.
From S2P Require Import Prelude Varint Skip Records.
Import ListNotations.
Open Scope Z_scope.
Open Scope go_scope.

Module Unmarshal.
Import Varint.Varint Skip.Skip Records.Records.

(** What one generated message contributes to the loop. *)
Class MessageSwitch (M : Type) := {
  msg_name : String.string;
  unknownFields : M -> bytes;
  set_unknownFields : M -> bytes -> M;
  (** the [case]s of [switch fieldNum], given the field number, the wire
      type, the input, [l], the index after the tag and the message;
      [None] selects the [default:] branch *)
  field_switch : Z -> Z -> bytes -> Z -> Z -> M -> option (res (M * Z));
  (** the field numbers that have a [case] *)
  is_known : Z -> bool
}.

Class MessageSwitchLaws (M : Type) `{MessageSwitch M} := {
  unknownFields_set : forall m u, unknownFields (set_unknownFields m u) = u;
  set_unknownFields_set : forall m u u',
    set_unknownFields (set_unknownFields m u) u' = set_unknownFields m u';
  set_unknownFields_id : forall m, set_unknownFields m (unknownFields m) = m;
  field_switch_default : forall n wt d l i m,
    is_known n = false -> field_switch n wt d l i m = None;
  field_switch_progress : forall n wt d l i m m' i',
    0 <= i -> l < 2 ^ 63 -> field_switch n wt d l i m = Some (inr (m', i')) -> i <= i' <= l;
  (** a [case] assigns a field, never the unknown fields *)
  field_switch_unknown : forall n wt d l i m m' i',
    field_switch n wt d l i m = Some (inr (m', i')) -> unknownFields m' = unknownFields m
}.

(** ** A length-delimited string or bytes field

    [case 1:] of [Bar.Unmarshal] and of [Hello.Unmarshal]: wire type 2,
    a varint length, then that many bytes ([m.Baz = string(dAtA[iNdEx:postIndex])]). *)
Definition read_string_field (fname : String.string) (wireType : Z) (d : bytes) (l i : Z)
  : res (bytes * Z) :=
  if negb (wireType =? 2) then inl (ErrWrongWireType fname wireType) else
  ' (stringLen, i) <- readVarint d l i ;;
  let intStringLen := int64 stringLen in
  if intStringLen <? 0 then inl ErrInvalidLength else
  let postIndex := int64 (i + intStringLen) in
  if postIndex <? 0 then inl ErrInvalidLength else
  if l <? postIndex then inl ErrUnexpectedEOF else
  inr (slice d i postIndex, postIndex).

Section Loop.
Context {M : Type} `{MessageSwitch M}.
(** [options.DiscardUnknown]; the code of foo.pulsar.go never discards. *)
Variable discard : bool.

(** The body of [for iNdEx < l { ... }]: [preIndex := iNdEx; <read wire>;
   fieldNum := int32(wire >> 3); wireType := int(wire & 0x7); <checks>;
   switch fieldNum { ... default: <skip> }].  [inl (m, err)] is a
   [return] (Go mutates [m] in place, so fields assigned before an error
   stay assigned); [inr (iNdEx, m)] goes round the loop again.  The sums
   [iNdEx+skippy] are Go [int]s, hence [int64]. *)
Definition unmarshal_body (d : bytes) (l i : Z) (m : M) : (M * option goerr) + (Z * M) :=
  let preIndex := i in
  match readVarint d l i with
  | inl e => inl (m, Some e)
  | inr (wire, i) =>
    let fieldNum := int32 (Z.shiftr wire 3) in
    let wireType := Z.land wire 7 in
    if wireType =? 4 then inl (m, Some (ErrEndGroupForNonGroup msg_name))
    else if fieldNum <=? 0 then inl (m, Some (ErrIllegalTag msg_name fieldNum wire))
    else
      match field_switch fieldNum wireType d l i m with
      | Some (inl e) => inl (m, Some e)
      | Some (inr (m, i)) => inr (i, m)
      | None =>
        let i := preIndex in
        match skip (skipn (Z.to_nat i) d) with
        | inl e => inl (m, Some e)
        | inr skippy =>
          if ((skippy <? 0) || (int64 (i + skippy) <? 0))%bool then inl (m, Some ErrInvalidLength)
          else if l <? int64 (i + skippy) then inl (m, Some ErrUnexpectedEOF)
          else
            let m := if discard then m
                     else set_unknownFields m (unknownFields m ++ slice d i (int64 (i + skippy))) in
            inr (int64 (i + skippy), m)
        end
      end
  end.

(** [for iNdEx < l { <body> }; if iNdEx > l { return io.ErrUnexpectedEOF };
   return nil].  Each iteration consumes at least the tag byte, so
   [length d] units of fuel reach the loop exit ([unmarshal_loop_fuel]);
   the [O] case is that exit. *)
Fixpoint unmarshal_loop (fuel : nat) (d : bytes) (l i : Z) (m : M) : M * option goerr :=
  match fuel with
  | O => if l <? i then (m, Some ErrUnexpectedEOF) else (m, None)
  | S f =>
    if i <? l then
      match unmarshal_body d l i m with
      | inl r => r
      | inr (i, m) => unmarshal_loop f d l i m
      end
    else if l <? i then (m, Some ErrUnexpectedEOF) else (m, None)
  end.

Definition unmarshal (d : bytes) (m : M) : M * option goerr :=
  unmarshal_loop (length d) d (len d) 0 m.

(** The loop as a transition system on [iNdEx] and the message: a step is
    the loop condition and, when it holds, one run of the body; the loop
    exit is the check [iNdEx > l] after it.  [Unmarshal] starts at
    [ULoop 0 m]. *)
Inductive unmarshal_state :=
| ULoop (i : Z) (m : M)
| URet (r : M * option goerr).

Inductive unmarshal_sem (d : bytes) : unmarshal_state -> unmarshal_state -> Prop :=
| unmarshal_sem_exit i m :
    len d <= i ->
    unmarshal_sem d (ULoop i m)
      (URet (if len d <? i then (m, Some ErrUnexpectedEOF) else (m, None)))
| unmarshal_sem_ret i m r :
    i < len d -> unmarshal_body d (len d) i m = inl r ->
    unmarshal_sem d (ULoop i m) (URet r)
| unmarshal_sem_next i m i' m' :
    i < len d -> unmarshal_body d (len d) i m = inr (i', m') ->
    unmarshal_sem d (ULoop i m) (ULoop i' m').
End Loop.

(** ** Lemmas *)

Lemma tag_fieldNum n wt :
  1 <= n < 2 ^ 29 -> 0 <= wt < 8 -> int32 (Z.shiftr (n * 8 + wt) 3) = n.
Proof.
  intros. rewrite Z.shiftr_div_pow2 by lia. change (2 ^ 3) with 8.
  replace ((n * 8 + wt) / 8) with n by (Z.div_mod_to_equations; lia).
  apply int32_small. lia.
Qed.

Section Lemmas.
Context {M : Type} `{MessageSwitchLaws M}.
Variable discard : bool.

(** What crossing the bytes [u] of unknown records does to the message. *)
Definition keep_unknown (m : M) (u : bytes) : M :=
  if discard then m else set_unknownFields m (unknownFields m ++ u).

Lemma keep_unknown_app m u v :
  keep_unknown (keep_unknown m u) v = keep_unknown m (u ++ v).
Proof.
  unfold keep_unknown. destruct discard; [reflexivity|].
  rewrite set_unknownFields_set, unknownFields_set, app_assoc. reflexivity.
Qed.

Lemma keep_unknown_nil m : keep_unknown m [] = m.
Proof.
  unfold keep_unknown. destruct discard; [reflexivity|].
  rewrite app_nil_r. apply set_unknownFields_id.
Qed.

Lemma unmarshal_loop_S f d l i m :
  unmarshal_loop discard (S f) d l i m =
  if i <? l then
    match readVarint d l i with
    | inl e => (m, Some e)
    | inr (wire, i') =>
      if Z.land wire 7 =? 4 then (m, Some (ErrEndGroupForNonGroup msg_name))
      else if int32 (Z.shiftr wire 3) <=? 0
      then (m, Some (ErrIllegalTag msg_name (int32 (Z.shiftr wire 3)) wire))
      else
        match field_switch (int32 (Z.shiftr wire 3)) (Z.land wire 7) d l i' m with
        | Some (inl e) => (m, Some e)
        | Some (inr (m, i')) => unmarshal_loop discard f d l i' m
        | None =>
          match skip (skipn (Z.to_nat i) d) with
          | inl e => (m, Some e)
          | inr skippy =>
            if ((skippy <? 0) || (int64 (i + skippy) <? 0))%bool then (m, Some ErrInvalidLength)
            else if l <? int64 (i + skippy) then (m, Some ErrUnexpectedEOF)
            else unmarshal_loop discard f d l (int64 (i + skippy))
                   (if discard then m
                    else set_unknownFields m (unknownFields m ++ slice d i (int64 (i + skippy))))
          end
        end
    end
  else if l <? i then (m, Some ErrUnexpectedEOF) else (m, None).
Proof.
  cbn [unmarshal_loop]. unfold unmarshal_body. destruct (i <? l); [|reflexivity].
  destruct (readVarint d l i) as [|[wire i']]; [reflexivity|].
  destruct (_ =? 4); [reflexivity|]. destruct (_ <=? 0); [reflexivity|].
  destruct (field_switch _ _ _ _ _ _) as [[|[]]|]; [reflexivity..|].
  destruct (skip _) as [|skippy]; [reflexivity|].
  destruct (_ || _)%bool; [reflexivity|]. destruct (_ <? _); reflexivity.
Qed.

(** The loop stops without error exactly at the end of the input. *)
Lemma unmarshal_loop_end f d l m : unmarshal_loop discard f d l l m = (m, None).
Proof. destruct f; simpl; rewrite Z.ltb_irrefl; reflexivity. Qed.

(** An unknown record costs one iteration and is appended verbatim to
    the unknown fields (or dropped under [DiscardUnknown]). *)
Lemma unmarshal_loop_unknown r pre post m f :
  wrec_ok r = true -> is_known (wrec_num r) = false ->
  len (pre ++ enc_wrec r ++ post) < 2 ^ 63 ->
  unmarshal_loop discard (S f) (pre ++ enc_wrec r ++ post) (len (pre ++ enc_wrec r ++ post))
    (len pre) m
  = unmarshal_loop discard f (pre ++ enc_wrec r ++ post) (len (pre ++ enc_wrec r ++ post))
    (len pre + len (enc_wrec r)) (keep_unknown m (enc_wrec r)).
Proof.
  intros Hok Hk H63. rewrite unmarshal_loop_S.
  pose proof (len_enc_wrec_pos r). pose proof (len_nonneg pre). pose proof (len_nonneg post).
  destruct (Z.ltb_spec (len pre) (len (pre ++ enc_wrec r ++ post))); [|go_norm; lia].
  destruct (enc_wrec_tag r) as [rest Er].
  pose proof (num_ok_range _ (wrec_ok_num r Hok)). pose proof (wrec_wt_range r).
  assert (Hlen : len pre + len (tag (wrec_num r) (wrec_wt r)) <= len (pre ++ enc_wrec r ++ post))
    by (rewrite Er; go_norm; pose proof (len_nonneg rest); lia).
  rewrite Er at 1. rewrite <- app_assoc.
  rewrite readVarint_tag by (auto using wrec_ok_num; lia).
  rewrite tag_wiretype, tag_fieldNum by lia.
  destruct (Z.eqb_spec (wrec_wt r) 4); [lia|].
  destruct (Z.leb_spec (wrec_num r) 0); [lia|].
  rewrite field_switch_default by assumption.
  rewrite skipn_app_len, skip_wrec by (auto; go_norm; lia).
  assert (len pre + len (enc_wrec r) <= len (pre ++ enc_wrec r ++ post)) by (go_norm; len_pos; lia).
  rewrite int64_small by lia.
  destruct (Z.ltb_spec (len (enc_wrec r)) 0); [lia|].
  destruct (Z.ltb_spec (len pre + len (enc_wrec r)) 0); [lia|]. cbn [orb].
  destruct (Z.ltb_spec (len (pre ++ enc_wrec r ++ post)) (len pre + len (enc_wrec r)));
    [go_norm; lia|].
  rewrite slice_app. reflexivity.
Qed.

Lemma unmarshal_loop_unknowns rs : forall pre post m f,
  forallb wrec_ok rs = true -> Forall (fun r => is_known (wrec_num r) = false) rs ->
  len (pre ++ enc_wrecs rs ++ post) < 2 ^ 63 ->
  unmarshal_loop discard (length rs + f) (pre ++ enc_wrecs rs ++ post)
    (len (pre ++ enc_wrecs rs ++ post)) (len pre) m
  = unmarshal_loop discard f (pre ++ enc_wrecs rs ++ post)
    (len (pre ++ enc_wrecs rs ++ post)) (len pre + len (enc_wrecs rs))
    (keep_unknown m (enc_wrecs rs)).
Proof.
  induction rs as [|r rs IH]; intros pre post m f Hok Hk H63.
  - cbn. rewrite keep_unknown_nil. f_equal. lia.
  - cbn [forallb] in Hok. apply andb_prop in Hok as [Hr Hrs].
    inversion Hk as [|? ? Hkr Hkrs]; subst.
    cbn [enc_wrecs flat_map length Nat.add] in *. fold (enc_wrecs rs) in *.
    rewrite <- !app_assoc in H63 |- *. rewrite unmarshal_loop_unknown by auto.
    replace (pre ++ enc_wrec r ++ enc_wrecs rs ++ post)
      with ((pre ++ enc_wrec r) ++ enc_wrecs rs ++ post) by (rewrite <- app_assoc; reflexivity).
    replace (len pre + len (enc_wrec r)) with (len (pre ++ enc_wrec r)) by (go_norm; lia).
    rewrite IH by (auto; rewrite <- ?app_assoc; assumption).
    rewrite keep_unknown_app. f_equal. go_norm. lia.
Qed.

(** A message's trailing unknown records: the loop reads them to the end
    of the input and succeeds. *)
Lemma unmarshal_loop_unknowns_end rs pre m f :
  forallb wrec_ok rs = true -> Forall (fun r => is_known (wrec_num r) = false) rs ->
  len (pre ++ enc_wrecs rs) < 2 ^ 63 -> (length rs <= f)%nat ->
  unmarshal_loop discard f (pre ++ enc_wrecs rs) (len (pre ++ enc_wrecs rs)) (len pre) m
  = (keep_unknown m (enc_wrecs rs), None).
Proof.
  intros Hok Hk H63 Hf. replace f with (length rs + (f - length rs))%nat by lia.
  pose proof (unmarshal_loop_unknowns rs pre [] m (f - length rs) Hok Hk) as E.
  rewrite app_nil_r in E. rewrite E by assumption.
  rewrite <- len_app. apply unmarshal_loop_end.
Qed.

Lemma len_skipn (d : bytes) k : len (skipn k d) <= len d.
Proof. unfold len. rewrite length_skipn. lia. Qed.

Lemma unmarshal_loop_fuel f1 : forall f2 d i m,
  len d < 2 ^ 63 -> 0 <= i ->
  (Z.to_nat (len d - i) <= f1)%nat -> (Z.to_nat (len d - i) <= f2)%nat ->
  unmarshal_loop discard f1 d (len d) i m = unmarshal_loop discard f2 d (len d) i m.
Proof.
  induction f1 as [|f1 IH]; intros [|f2] d i m H63 Hi H1 H2; try reflexivity;
    rewrite ?unmarshal_loop_S; try (destruct (Z.ltb_spec i (len d)); [lia|reflexivity]).
  destruct (Z.ltb_spec i (len d)); [|reflexivity].
  destruct (readVarint d (len d) i) as [|[wire i1]] eqn:E1; [reflexivity|].
  apply readVarint_range in E1.
  destruct (Z.land wire 7 =? 4); [reflexivity|].
  destruct (int32 (Z.shiftr wire 3) <=? 0); [reflexivity|].
  destruct (field_switch _ _ d (len d) i1 m) as [[e|[m' i2]]|] eqn:E2; [reflexivity| |].
  - apply field_switch_progress in E2; [|lia|lia]. apply IH; lia.
  - destruct (skip (skipn (Z.to_nat i) d)) as [|skippy] eqn:E3; [reflexivity|].
    pose proof (len_skipn d (Z.to_nat i)).
    pose proof (skip_lt (skipn (Z.to_nat i) d) skippy ltac:(lia) E3). apply skip_pos in E3; [|lia].
    destruct (Z.ltb_spec skippy 0), (Z.ltb_spec (int64 (i + skippy)) 0); try reflexivity.
    int64_add_simpl i skippy.
    destruct (Z.ltb_spec (len d) (i + skippy)); [reflexivity|].
    apply IH; lia.
Qed.
(** The invariant of the unknown-field buffer along the loop: it stays a
    sequence of complete records, whatever the input, errors included
    (the message is the one the loop leaves). *)
Lemma unmarshal_loop_records f : forall d i m,
  len d < 2 ^ 63 -> 0 <= i -> records_ok (unknownFields m) = true ->
  len (unknownFields m) + (len d - i) < 2 ^ 63 ->
  records_ok (unknownFields (fst (unmarshal_loop discard f d (len d) i m))) = true.
Proof.
  induction f as [|f IH]; intros d i m H63 Hi Hok Hb.
  { cbn [unmarshal_loop]. destruct (len d <? i); exact Hok. }
  rewrite unmarshal_loop_S.
  destruct (Z.ltb_spec i (len d)); [|destruct (len d <? i); exact Hok].
  destruct (readVarint d (len d) i) as [|[wire i1]] eqn:E1; [exact Hok|].
  apply readVarint_range in E1.
  destruct (Z.land wire 7 =? 4); [exact Hok|].
  destruct (int32 (Z.shiftr wire 3) <=? 0); [exact Hok|].
  destruct (field_switch _ _ d (len d) i1 m) as [[e|[m' i2]]|] eqn:E2; [exact Hok| |].
  - pose proof (field_switch_unknown _ _ _ _ _ _ _ _ E2) as Hu.
    apply field_switch_progress in E2; [|lia|lia].
    apply IH; [lia|lia|rewrite Hu; exact Hok|rewrite Hu; lia].
  - destruct (skip (skipn (Z.to_nat i) d)) as [|skippy] eqn:E3; [exact Hok|].
    pose proof (len_skipn d (Z.to_nat i)). pose proof (skip_lt (skipn (Z.to_nat i) d) skippy ltac:(lia) E3).
    destruct (Z.ltb_spec skippy 0), (Z.ltb_spec (int64 (i + skippy)) 0); cbn [orb]; try exact Hok.
    int64_add_simpl i skippy.
    destruct (Z.ltb_spec (len d) (i + skippy)); [exact Hok|].
    destruct (skip_chunk d i skippy E3 Hi ltac:(lia) H63) as (Hs & Hc & Hp).
    apply IH; [lia|lia| |]; destruct discard; try exact Hok; try lia;
      rewrite unknownFields_set; [|go_norm; lia].
    apply records_ok_snoc; [exact Hok|rewrite Hs; exact Hc|lia|go_norm; lia].
Qed.
End Lemmas.

Section Invariant.
Context {M : Type} `{MessageSwitchLaws M}.
Variable discard : bool.

(** C6: The unknown-field buffer is an invariant of [Unmarshal]: if it holds a
    sequence of complete records before, it holds one after, on every
    input and on every exit of the loop, errors included. *)
Theorem unmarshal_records_ok d m :
  records_ok (unknownFields m) = true -> len (unknownFields m) + len d < 2 ^ 63 ->
  records_ok (unknownFields (fst (unmarshal discard d m))) = true.
Proof.
  intros Hok Hb. unfold unmarshal.
  apply unmarshal_loop_records; [len_pos; lia|lia|exact Hok|lia].
Qed.
End Invariant.

Section Liveness.
Context {M : Type} `{MessageSwitchLaws M}.
Variable discard : bool.

Lemma unmarshal_sem_functional d s s1 s2 :
  unmarshal_sem discard d s s1 -> unmarshal_sem discard d s s2 -> s1 = s2.
Proof.
  intros H1 H2; destruct H1; inversion H2; subst; try lia; try reflexivity;
    match goal with
    | E1 : unmarshal_body _ _ _ _ _ = _, E2 : unmarshal_body _ _ _ _ _ = _ |- _ =>
        rewrite E1 in E2; congruence
    end.
Qed.

(** Only returns are final: the loop head always steps. *)
Lemma unmarshal_sem_irred d s : irred (unmarshal_sem discard d) s <-> exists r, s = URet r.
Proof.
  split; [|intros [r ->] b Hb; inversion Hb].
  destruct s as [i m|r]; [|eauto]. intros Hirr. exfalso.
  destruct (Z.ltb_spec i (len d)); [|eapply Hirr, unmarshal_sem_exit; lia].
  destruct (unmarshal_body discard d (len d) i m) as [r|[i' m']] eqn:E;
    [eapply Hirr, unmarshal_sem_ret|eapply Hirr, unmarshal_sem_next]; eauto.
Qed.

(** An iteration that goes round the loop moves [iNdEx] forward and keeps
    it a non-negative Go [int]. *)
Lemma unmarshal_body_progress d i m i' m' :
  unmarshal_body discard d (len d) i m = inr (i', m') -> 0 <= i -> len d < 2 ^ 63 ->
  i < i' <= len d.
Proof.
  unfold unmarshal_body. intros E Hi H63.
  destruct (readVarint d (len d) i) as [|[wire i1]] eqn:E1; [discriminate|].
  apply readVarint_range in E1.
  destruct (Z.land wire 7 =? 4); [discriminate|].
  destruct (int32 (Z.shiftr wire 3) <=? 0); [discriminate|].
  destruct (field_switch _ _ d (len d) i1 m) as [[e|[m2 i2]]|] eqn:E2; [discriminate| |].
  - injection E as <- <-. apply field_switch_progress in E2; lia.
  - destruct (skip (skipn (Z.to_nat i) d)) as [|skippy] eqn:E3; [discriminate|].
    pose proof (len_skipn d (Z.to_nat i)).
    pose proof (skip_lt (skipn (Z.to_nat i) d) skippy ltac:(lia) E3).
    apply skip_pos in E3; [|lia].
    destruct (Z.ltb_spec skippy 0), (Z.ltb_spec (int64 (i + skippy)) 0);
      cbn [orb] in E; try discriminate.
    int64_add_simpl i skippy.
    destruct (Z.ltb_spec (len d) (i + skippy)); cbv beta iota in E; [discriminate|].
    injection E as <- <-. lia.
Qed.

(** The fuel model runs the transition system to the return it computes. *)
Lemma unmarshal_loop_star d f : forall i m,
  len d < 2 ^ 63 -> 0 <= i -> (Z.to_nat (len d - i) <= f)%nat ->
  star (unmarshal_sem discard d) (ULoop i m) (URet (unmarshal_loop discard f d (len d) i m)).
Proof.
  induction f as [|f IH]; intros i m H63 Hi Hf.
  { apply star_one, unmarshal_sem_exit; lia. }
  cbn [unmarshal_loop]. destruct (Z.ltb_spec i (len d));
    [|apply star_one, unmarshal_sem_exit; lia].
  destruct (unmarshal_body discard d (len d) i m) as [r|[i' m']] eqn:E;
    [apply star_one, unmarshal_sem_ret; auto|].
  pose proof (unmarshal_body_progress _ _ _ _ _ E Hi H63).
  eapply star_step; [apply unmarshal_sem_next; eauto|]. apply IH; lia.
Qed.

Definition unmarshal_measure (d : bytes) (s : @unmarshal_state M) : nat :=
  match s with ULoop i _ => S (Z.to_nat (len d - i)) | URet _ => O end.

Definition unmarshal_inv (s : @unmarshal_state M) : Prop :=
  match s with ULoop i _ => 0 <= i | URet _ => True end.

Lemma unmarshal_sem_variant d a b :
  len d < 2 ^ 63 -> unmarshal_inv a -> unmarshal_sem discard d a b ->
  unmarshal_inv b /\ (unmarshal_measure d b < unmarshal_measure d a)%nat.
Proof.
  intros H63 Ha Hab. destruct Hab as [| |i m i' m' Hl E]; cbn in *; try (split; [exact I|lia]).
  pose proof (unmarshal_body_progress _ _ _ _ _ E Ha H63). split; lia.
Qed.

(** C9: Liveness of [Unmarshal]: no run of its loop is infinite, and every
    run that stops has returned the message and error [Unmarshal]
    returns, whatever the input and the message's switch. *)
Theorem unmarshal_run_returns d m :
  len d < 2 ^ 63 ->
  not (infseq (unmarshal_sem discard d) (ULoop 0 m)) /\
  forall s, star (unmarshal_sem discard d) (ULoop 0 m) s -> irred (unmarshal_sem discard d) s ->
    s = URet (unmarshal discard d m).
Proof.
  intros H63. split.
  - apply (variant_no_infseq _ unmarshal_inv (unmarshal_measure d)); [|cbn; lia].
    intros a b; now apply unmarshal_sem_variant.
  - intros s Hs Hirr. eapply star_irred_unique; eauto using unmarshal_sem_functional.
    + apply unmarshal_loop_star; unfold len in *; lia.
    + apply unmarshal_sem_irred; eauto.
Qed.
End Liveness.

(** ** The string reader *)

Lemma read_string_field_ok fname pre s post l :
  len pre + len (varint (len s)) + len s <= l -> l < 2 ^ 63 ->
  read_string_field fname 2 (pre ++ varint (len s) ++ s ++ post) l (len pre)
  = inr (s, len pre + len (varint (len s)) + len s).
Proof.
  intros Hl H63. unfold read_string_field. cbn [Z.eqb negb].
  pose proof (len_nonneg pre). pose proof (len_nonneg s). pose proof (len_nonneg (varint (len s))).
  rewrite readVarint_varint by lia. rewrite int64_small by lia.
  destruct (Z.ltb_spec (len s) 0); [lia|]. rewrite int64_small by lia.
  destruct (Z.ltb_spec (len pre + len (varint (len s)) + len s) 0); [lia|].
  destruct (Z.ltb_spec l (len pre + len (varint (len s)) + len s)); [lia|].
  replace (slice (pre ++ varint (len s) ++ s ++ post) (len pre + len (varint (len s)))
            (len pre + len (varint (len s)) + len s)) with s; [reflexivity|].
  rewrite app_assoc, <- len_app, slice_app. reflexivity.
Qed.

(** The same, reading the payload after a field's tag. *)
Lemma read_string_field_tag fname n pre s post :
  len (pre ++ tag n 2 ++ (varint (len s) ++ s) ++ post) < 2 ^ 63 ->
  read_string_field fname 2 (pre ++ tag n 2 ++ (varint (len s) ++ s) ++ post)
    (len (pre ++ tag n 2 ++ (varint (len s) ++ s) ++ post)) (len pre + len (tag n 2))
  = inr (s, len pre + len (tag n 2) + len (varint (len s) ++ s)).
Proof.
  intros H. replace (len pre + len (tag n 2)) with (len (pre ++ tag n 2)) by apply len_app.
  replace (pre ++ tag n 2 ++ (varint (len s) ++ s) ++ post)
    with ((pre ++ tag n 2) ++ varint (len s) ++ s ++ post) in * by (rewrite <- !app_assoc; reflexivity).
  rewrite read_string_field_ok by (go_norm; len_pos; lia). f_equal. f_equal. go_norm. lia.
Qed.

(** A varint payload after a field's tag. *)
Lemma readVarint_after_tag n wt pre v post l :
  0 <= v < 2 ^ 64 -> len (pre ++ tag n wt ++ varint v) <= l ->
  readVarint (pre ++ tag n wt ++ varint v ++ post) l (len pre + len (tag n wt))
  = inr (v, len pre + len (tag n wt) + len (varint v)).
Proof.
  intros Hv Hl. replace (len pre + len (tag n wt)) with (len (pre ++ tag n wt)) by apply len_app.
  replace (pre ++ tag n wt ++ varint v ++ post)
    with ((pre ++ tag n wt) ++ varint v ++ post) by (rewrite <- !app_assoc; reflexivity).
  apply readVarint_varint; [assumption|]. go_norm. lia.
Qed.

Lemma read_string_field_progress fname wt d l i s i' :
  0 <= i -> l < 2 ^ 63 -> read_string_field fname wt d l i = inr (s, i') -> i <= i' <= l.
Proof.
  unfold read_string_field. intros Hi H63 H.
  destruct (negb (wt =? 2)); [discriminate|].
  destruct (readVarint d l i) as [|[n i1]] eqn:E; [discriminate|].
  apply readVarint_range in E.
  destruct (Z.ltb_spec (int64 n) 0); [discriminate|].
  pose proof (int64_range n).
  destruct (Z.ltb_spec (int64 (i1 + int64 n)) 0); [discriminate|].
  destruct (Z.ltb_spec l (int64 (i1 + int64 n))); [discriminate|].
  injection H as <- <-. rewrite (int64_nonneg_id (i1 + int64 n)) in * by lia. lia.
Qed.

(** A field with a [case]: the loop hands the bytes after the tag to it. *)
Lemma unmarshal_loop_known {M} `{MessageSwitch M} discard n wt pre post f l (m : M) :
  num_ok n = true -> 0 <= wt < 8 -> wt <> 4 ->
  len pre + len (tag n wt) <= l ->
  unmarshal_loop discard (S f) (pre ++ tag n wt ++ post) l (len pre) m =
  match field_switch n wt (pre ++ tag n wt ++ post) l (len pre + len (tag n wt)) m with
  | Some (inl e) => (m, Some e)
  | Some (inr (m', i')) => unmarshal_loop discard f (pre ++ tag n wt ++ post) l i' m'
  | None => unmarshal_loop discard (S f) (pre ++ tag n wt ++ post) l (len pre) m
  end.
Proof.
  intros Hn Hwt H4 Hl. pose proof (num_ok_range n Hn). pose proof (len_tag_pos n wt).
  destruct (field_switch _ _ _ _ _ _) as [[e|[m' i']]|] eqn:E; [| |reflexivity];
    cbn [unmarshal_loop]; unfold unmarshal_body; destruct (Z.ltb_spec (len pre) l); try lia;
    rewrite readVarint_tag by (auto; lia); rewrite tag_wiretype, tag_fieldNum by lia;
    destruct (Z.eqb_spec wt 4); try lia; destruct (Z.leb_spec n 0); try lia;
    rewrite E; reflexivity.
Qed.

(** C8: The loop runs at most [len(dAtA)] iterations: more fuel changes
    nothing. *)
Theorem unmarshal_terminates {M} `{MessageSwitchLaws M} discard (d : bytes) (m : M) f :
  len d < 2 ^ 63 -> (length d <= f)%nat ->
  unmarshal_loop discard f d (len d) 0 m = unmarshal discard d m.
Proof.
  intros H63 Hf. unfold unmarshal. apply unmarshal_loop_fuel; unfold len in *; lia.
Qed.

(** The first iteration of [Unmarshal] on input that starts with a tag. *)
Lemma unmarshal_tag {M} `{MessageSwitch M} discard n wt post (m : M) :
  unmarshal discard (tag n wt ++ post) m =
  unmarshal_loop discard (S (length (tag n wt ++ post) - 1)) ([] ++ tag n wt ++ post)
    (len ([] ++ tag n wt ++ post)) (len (@nil Z)) m.
Proof.
  unfold unmarshal. pose proof (len_tag_pos n wt). rewrite length_app in *.
  unfold len in *. f_equal. lia.
Qed.

(** C37: Wire type 4 (end group) where a field's tag is expected is an error
    naming the message: [proto: <Msg>: wiretype end group for non-group]. *)
Theorem unmarshal_end_group {M} `{MessageSwitch M} discard n post (m : M) :
  num_ok n = true ->
  unmarshal discard (tag n 4 ++ post) m = (m, Some (ErrEndGroupForNonGroup msg_name)).
Proof.
  intros Hn. rewrite unmarshal_tag. pose proof (num_ok_range n Hn).
  cbn [unmarshal_loop]. unfold unmarshal_body. pose proof (len_tag_pos n 4).
  destruct (Z.ltb_spec (len (@nil Z)) (len ([] ++ tag n 4 ++ post))); [|go_norm; len_pos; lia].
  rewrite readVarint_tag by (auto; go_norm; len_pos; lia).
  rewrite tag_wiretype by lia. reflexivity.
Qed.

(** C23: A first byte below 8 other than 4 is a tag of field number 0:
    [proto: <Msg>: illegal tag 0 (wire type <b>)]. *)
Theorem unmarshal_illegal_tag {M} `{MessageSwitch M} discard b post (m : M) :
  0 <= b < 8 -> b <> 4 ->
  unmarshal discard (b :: post) m = (m, Some (ErrIllegalTag msg_name 0 b)).
Proof.
  intros Hb H4.
  assert (b = 0 \/ b = 1 \/ b = 2 \/ b = 3 \/ b = 5 \/ b = 6 \/ b = 7) as Hc by lia.
  repeat destruct Hc as [-> | Hc]; try (subst b); reflexivity.
Qed.

(** ** Known fields

    [field_reads x upd]: wherever the bytes [x] stand in the input, one
    iteration of the loop reads exactly them and applies [upd] to the
    message.  The encoding of a message is a sequence of such fields
    followed by its unknown records; [unmarshal_fields] reads it all. *)
Section Fields.
Context {M : Type} `{MessageSwitchLaws M}.
Variable discard : bool.

Definition field_reads (x : bytes) (upd : M -> M) : Prop :=
  forall pre post f m, len (pre ++ x ++ post) < 2 ^ 63 ->
    unmarshal_loop discard (S f) (pre ++ x ++ post) (len (pre ++ x ++ post)) (len pre) m
    = unmarshal_loop discard f (pre ++ x ++ post) (len (pre ++ x ++ post))
        (len pre + len x) (upd m).

(** A [case] of the switch that reads the payload [x] after the tag. *)
Lemma field_reads_switch n wt x upd :
  num_ok n = true -> 0 <= wt < 8 -> wt <> 4 ->
  (forall pre post m, len (pre ++ tag n wt ++ x ++ post) < 2 ^ 63 ->
     field_switch n wt (pre ++ tag n wt ++ x ++ post) (len (pre ++ tag n wt ++ x ++ post))
       (len pre + len (tag n wt)) m
     = Some (inr (upd m, len pre + len (tag n wt) + len x))) ->
  field_reads (tag n wt ++ x) upd.
Proof.
  intros Hn Hwt H4 Hsw pre post f m H63. rewrite <- app_assoc in H63 |- *.
  rewrite unmarshal_loop_known by (auto; go_norm; len_pos; lia).
  rewrite Hsw by assumption. f_equal. go_norm. lia.
Qed.

Lemma field_reads_seq xs : forall pre post f m,
  Forall (fun p => field_reads (fst p) (snd p)) xs ->
  len (pre ++ concat (map fst xs) ++ post) < 2 ^ 63 ->
  unmarshal_loop discard (length xs + f) (pre ++ concat (map fst xs) ++ post)
    (len (pre ++ concat (map fst xs) ++ post)) (len pre) m
  = unmarshal_loop discard f (pre ++ concat (map fst xs) ++ post)
    (len (pre ++ concat (map fst xs) ++ post)) (len pre + len (concat (map fst xs)))
    (fold_left (fun m p => snd p m) xs m).
Proof.
  induction xs as [|[x upd] xs IH]; intros pre post f m Hxs H63.
  - cbn. f_equal. lia.
  - inversion Hxs as [|? ? Hx Hrest]; subst. cbn [map concat fst snd length Nat.add fold_left] in *.
    rewrite <- !app_assoc in *. rewrite Hx by assumption.
    replace (pre ++ x ++ concat (map fst xs) ++ post)
      with ((pre ++ x) ++ concat (map fst xs) ++ post) by (rewrite <- app_assoc; reflexivity).
    replace (len pre + len x) with (len (pre ++ x)) by (go_norm; lia).
    rewrite IH by (auto; rewrite <- ?app_assoc; assumption). f_equal. go_norm. lia.
Qed.

(** Unmarshal of known fields then unknown records: every field is
    applied in order and the records are kept, and no error occurs. *)
Theorem unmarshal_fields xs rs m :
  Forall (fun p => field_reads (fst p) (snd p)) xs ->
  forallb wrec_ok rs = true -> Forall (fun r => is_known (wrec_num r) = false) rs ->
  len (concat (map fst xs) ++ enc_wrecs rs) < 2 ^ 63 ->
  unmarshal discard (concat (map fst xs) ++ enc_wrecs rs) m
  = (keep_unknown discard (fold_left (fun m p => snd p m) xs m) (enc_wrecs rs), None).
Proof.
  intros Hxs Hok Hk H63. set (d := concat (map fst xs) ++ enc_wrecs rs).
  unfold unmarshal. rewrite (unmarshal_loop_fuel discard (length d)
    (length xs + (length rs + length d))) by (unfold d, len in *; lia).
  change 0 with (len (@nil Z)). unfold d. rewrite <- (app_nil_l (concat _ ++ _)).
  rewrite field_reads_seq by assumption. rewrite len_nil, Z.add_0_l, app_nil_l.
  apply unmarshal_loop_unknowns_end; auto. unfold d in *. unfold len in *. lia.
Qed.
End Fields.

End Unmarshal.
