(* ===== verification/Marshal.v ===== *)
(** * Marshal: the back-to-front steps of the generated [MarshalToSizedBuffer]

    Every [MarshalToSizedBuffer] of src/proto/foo.pulsar.go starts at
    [i := len(dAtA)], writes its unknown fields, then its fields from the
    last to the first, each just before the previous one, and returns
    [len(dAtA) - i].  The generated text of the unknown-field step and of a
    string field is the same in every message; they are the two definitions
    here, with [Marshal], which every message defines the same way.  Each
    step, given room, writes its forward encoding just before [i]
    ([marshal_unknownFields_put], [marshal_string_field_put]). *)

From Stdlib Require Import ZArith List Lia.
From S2P Require Import Prelude Varint Skip.
Import ListNotations.
Open Scope Z_scope.
Open Scope go_scope.

Module Marshal.
Import Varint.Varint Skip.Skip.

(** [if m.unknownFields != nil { i -= len(m.unknownFields);
    copy(dAtA[i:], m.unknownFields) }] *)
Definition marshal_unknownFields (dAtA : bytes) (i : Z) (u : bytes) : option (bytes * Z) :=
  if negb (is_nil u) then
    let i := i - len u in
    dAtA <-? copy_at dAtA i u ;; Some (dAtA, i)
  else Some (dAtA, i).

(** [if len(m.F) > 0 { i -= len(m.F); copy(dAtA[i:], m.F);
    i = encodeVarint(dAtA, i, uint64(len(m.F))); i--; dAtA[i] = key }]
    for a string field whose tag is the single byte [key]. *)
Definition marshal_string_field (dAtA : bytes) (i : Z) (s : bytes) (key : Z)
  : option (bytes * Z) :=
  if 0 <? len s then
    let i := i - len s in
    dAtA <-? copy_at dAtA i s ;;
    ' (dAtA, i) <-? encodeVarint dAtA i (len s) ;;
    let i := i - 1 in
    dAtA <-? store dAtA i key ;;
    Some (dAtA, i)
  else Some (dAtA, i).

(** [func (m *M) Marshal() (dAtA []byte, err error)]: [size := m.Size();
    dAtA = make([]byte, size); n, err := m.MarshalToSizedBuffer(dAtA[:size]);
    return dAtA[:n], nil].  [dAtA[:size]] shares all of [dAtA], so the
    buffer [MarshalToSizedBuffer] returns is [dAtA] after the writes. *)
Definition marshal {M} (Size : M -> Z)
    (MarshalToSizedBuffer : bytes -> M -> option (bytes * Z)) (m : M) : option bytes :=
  let size := Size m in
  let dAtA := repeat 0 (Z.to_nat size) in
  ' (dAtA, n) <-? MarshalToSizedBuffer (firstn (Z.to_nat size) dAtA) m ;;
  Some (firstn (Z.to_nat n) dAtA).

(** The bytes a string field contributes, written forward: nothing when
    empty (proto3 omits the default), else tag, length and contents. *)
Definition enc_string_field (key : Z) (s : bytes) : bytes :=
  if 0 <? len s then key :: varint (len s) ++ s else [].

(** ** Lemmas *)

Lemma len_enc_string_field key s :
  len s < 2 ^ 64 ->
  len (enc_string_field key s) = if 0 <? len s then 1 + len s + sov (len s) else 0.
Proof.
  intros H. unfold enc_string_field. destruct (Z.ltb_spec 0 (len s)); [|reflexivity].
  go_norm. rewrite varint_length by (len_pos; lia). lia.
Qed.

Lemma marshal_unknownFields_put d i u :
  len u <= i <= len d ->
  marshal_unknownFields d i u = Some (put d (Z.to_nat (i - len u)) u, i - len u).
Proof.
  intros H. unfold marshal_unknownFields. destruct u as [|b u]; cbn [is_nil negb].
  - rewrite put_nil, len_nil, Z.sub_0_r. reflexivity.
  - rewrite copy_at_put by buf_lia. reflexivity.
Qed.

Lemma marshal_string_field_put d i s key :
  len s < 2 ^ 63 -> len (enc_string_field key s) <= i <= len d ->
  marshal_string_field d i s key
  = Some (put d (Z.to_nat (i - len (enc_string_field key s))) (enc_string_field key s),
          i - len (enc_string_field key s)).
Proof.
  intros H63 H. unfold marshal_string_field.
  rewrite len_enc_string_field in H |- * by lia. unfold enc_string_field.
  destruct (Z.ltb_spec 0 (len s)).
  - pose proof (sov_range (len s) ltac:(lia)).
    pose proof (varint_length (len s) ltac:(lia)).
    rewrite copy_at_put by buf_lia.
    rewrite encodeVarint_put by buf_lia. rewrite put_prepend by buf_lia.
    rewrite store_put by buf_lia. rewrite put_prepend by buf_lia.
    replace (i - len s - sov (len s) - 1) with (i - (1 + len s + sov (len s))) by lia.
    reflexivity.
  - rewrite put_nil. f_equal. f_equal. lia.
Qed.

(** [Marshal] returns the encoding that [MarshalToSizedBuffer] writes into
    a buffer of [Size] bytes. *)
Lemma marshal_ok {M} (Size : M -> Z) MarshalToSizedBuffer (m : M) e :
  Size m = len e ->
  (forall d, len d = Size m -> MarshalToSizedBuffer d m = Some (e, len d)) ->
  marshal Size MarshalToSizedBuffer m = Some e.
Proof.
  intros E H. unfold marshal.
  assert (Hn : len (firstn (Z.to_nat (Size m)) (repeat 0 (Z.to_nat (Size m)))) = Size m).
  { rewrite E. unfold len. rewrite length_firstn, repeat_length. lia. }
  rewrite H by exact Hn. rewrite Hn, E.
  f_equal. apply firstn_all2. unfold len. lia.
Qed.

End Marshal.
