(* ===== verification/Bar.v ===== *)
(** * Bar: the codec generated for [message Bar { string baz = 1; }]

    src/proto/foo.pulsar.go, [type Bar] and its methods [Size],
    [MarshalToSizedBuffer], [Marshal], [MarshalTo] and [Unmarshal] (the
    [case 1] of its [switch fieldNum], on the shared loop of Unmarshal.v).
    [enc] is the message's wire encoding written forward; the theorems show
    that [Size] is its length, that [Marshal] produces it, that [Unmarshal]
    of it gives the message back with its unknown fields, and what the
    error paths return. *)

From Stdlib Require Import String ZArith List Lia.
From S2P Require Import Prelude Varint Skip Records Protoreflect Unmarshal Marshal.
Import ListNotations.
Open Scope Z_scope.
Open Scope go_scope.

Module U := Unmarshal.Unmarshal.

Module Bar.
Import Varint.Varint Skip.Skip Records.Records Protoreflect.Protoreflect Marshal.Marshal.

(** [type Bar struct { state; sizeCache; unknownFields; Baz string }];
    [state] and [sizeCache] are runtime bookkeeping and carry no data. *)
Record Bar := mkBar { Baz : bytes; unknownFields : bytes }.

(** [Bar{}] *)
Definition zero : Bar := mkBar [] [].

(** [func (m *Bar) Size() (n int)] (lines 687-701) *)
Definition Size (m : Bar) : Z :=
  let n := 0 in
  let l := len (Baz m) in
  let n := if 0 <? l then n + (1 + l + sov l) else n in
  if negb (is_nil (unknownFields m)) then n + len (unknownFields m) else n.

(** [func (m *Bar) MarshalToSizedBuffer(dAtA []byte) (int, error)]
    (lines 604-624): [i] runs from [len(dAtA)] down; [None] is a panic. *)
Definition MarshalToSizedBuffer (dAtA : bytes) (m : Bar) : option (bytes * Z) :=
  let i := len dAtA in
  ' (dAtA, i) <-? marshal_unknownFields dAtA i (unknownFields m) ;;
  ' (dAtA, i) <-? marshal_string_field dAtA i (Baz m) 10 ;;
  Some (dAtA, len dAtA - i).

(** [func (m *Bar) Marshal() (dAtA []byte, err error)] (lines 586-597). *)
Definition Marshal (m : Bar) : option bytes := marshal Size MarshalToSizedBuffer m.

(** [func (m *Bar) MarshalTo(dAtA []byte) (int, error)] (lines 599-602):
    [m.MarshalToSizedBuffer(dAtA[:size])] writes into the first [size]
    bytes of the caller's buffer ([None]: the slice expression panics);
    the result is that whole buffer. *)
Definition MarshalTo (dAtA : bytes) (m : Bar) : option (bytes * Z) :=
  let size := Size m in
  if len dAtA <? size then None else
  ' (buf, n) <-? MarshalToSizedBuffer (firstn (Z.to_nat size) dAtA) m ;;
  Some (buf ++ skipn (Z.to_nat size) dAtA, n).

(** [switch fieldNum { case 1: ... }] of [Bar.Unmarshal] (lines 756-789). *)
Definition field_switch (fieldNum wireType : Z) (dAtA : bytes) (l i : Z) (m : Bar)
  : option (res (Bar * Z)) :=
  if fieldNum =? 1 then
    Some (' (s, i) <- U.read_string_field "Baz" wireType dAtA l i ;;
          inr (mkBar s (unknownFields m), i))
  else None.

#[export] Instance Bar_switch : U.MessageSwitch Bar := {
  U.msg_name := "Bar";
  U.unknownFields := unknownFields;
  U.set_unknownFields m u := mkBar (Baz m) u;
  U.field_switch := field_switch;
  U.is_known n := n =? 1
}.

(** [func (m *Bar) Unmarshal(dAtA []byte) error] (lines 728-810). *)
Definition Unmarshal (dAtA : bytes) (m : Bar) : Bar * option goerr :=
  U.unmarshal false dAtA m.

(** The encoding, written forward. *)
Definition enc (m : Bar) : bytes := enc_string_field 10 (Baz m) ++ unknownFields m.

(** ** Accessors and the fast-path methods *)

(** [func (x *Bar) Reset()] (lines 35-42): [*x = Bar{}]; the message-state
    bookkeeping that follows carries no data. *)
Definition Reset (x : Bar) : Bar := zero.

(** [func (x *Bar) GetBaz() string] (lines 62-69); [None] is a nil [x]. *)
Definition GetBaz (x : option Bar) : bytes :=
  match x with Some x => Baz x | None => [] end.

(** [func (x *Bar) Get(descriptor) protoreflect.Value] (lines 183-190):
    the [switch] looks at [descriptor.Name()]. *)
Definition Get (x : Bar) (descriptor : FieldDescriptor) : pres Value :=
  if String.eqb (Name descriptor) "baz" then inr (ValueOfString (Baz x))
  else inl (Panic (String.append "message cosmos.proto.Bar does not contain field "
                                 (Name descriptor))).

(** [func (x Bar) GetUnknown()] (lines 237-239). *)
Definition GetUnknown (x : Bar) : bytes := unknownFields x.

(** The [Size] closure of [GetMethods] (lines 75-80): it measures the
    receiver [x] captured when [GetMethods] ran, not [input.Message]. *)
Definition methods_Size (x : Bar) (input : Bar) : Z := Size x.

(** The [Marshal] closure (lines 81-95); [input] is the result of the type
    assertion of [input.Message] to [*Bar] ([None]: it failed). *)
Definition methods_Marshal (input : option Bar) : option (res bytes) :=
  match input with
  | None => Some (inl (ErrNew "size error: Bar does not implement the protoreflect.Message interface"))
  | Some v => bz <-? Marshal v ;; Some (inr bz)
  end.

(** The [Unmarshal] closure (lines 96-113): it refuses an empty input, then
    runs [v.Unmarshal(input.Buf)], which mutates [*v]. *)
Definition methods_Unmarshal (input : option Bar) (Buf : bytes) : option Bar * option goerr :=
  match input with
  | None => (None, Some (ErrNew "marshal error: Bar does not implement the protoreflect.Message interface"))
  | Some v =>
    if len Buf <? 1 then (Some v, Some (ErrNew "unmarshal input did not contain any bytes to unmarshal"))
    else let '(v, err) := Unmarshal Buf v in (Some v, err)
  end.

(** ** Marshal *)

Lemma tag_1_2 : tag 1 2 = [10].
Proof. reflexivity. Qed.

Lemma Bar_Size_enc m : len (Baz m) < 2 ^ 64 -> Size m = len (enc m).
Proof.
  intros H. unfold Size, enc. rewrite len_app, len_enc_string_field by lia.
  destruct (0 <? len (Baz m)), (unknownFields m); cbn [is_nil negb]; go_norm; len_pos; lia.
Qed.

Lemma len_Baz_enc m : len (Baz m) <= len (enc m).
Proof.
  unfold enc, enc_string_field. destruct (Z.ltb_spec 0 (len (Baz m))); go_norm; len_pos; lia.
Qed.

(** [MarshalToSizedBuffer] into a buffer of [Size m] bytes fills it with
    [enc m] and reports [Size m] bytes written. *)
Theorem Bar_MarshalToSizedBuffer_enc m d :
  len (Baz m) < 2 ^ 63 -> len d = Size m ->
  MarshalToSizedBuffer d m = Some (enc m, len d).
Proof.
  intros HB Hd. rewrite Bar_Size_enc in Hd by lia. unfold MarshalToSizedBuffer, enc in *.
  rewrite marshal_unknownFields_put by buf_lia.
  rewrite marshal_string_field_put by buf_lia. rewrite put_prepend by buf_lia.
  replace (len d - len (unknownFields m) - len (enc_string_field 10 (Baz m))) with 0 by buf_lia.
  rewrite put_all_Z by buf_lia. f_equal. f_equal. lia.
Qed.

(** [Marshal] returns exactly the encoding. *)
Theorem Bar_Marshal_enc m : len (Baz m) < 2 ^ 63 -> Marshal m = Some (enc m).
Proof.
  intros HB. apply marshal_ok; [apply Bar_Size_enc; lia|].
  intros d Hd. apply Bar_MarshalToSizedBuffer_enc; assumption.
Qed.

(** ** Unmarshal *)

#[export] Instance Bar_laws : U.MessageSwitchLaws Bar.
Proof.
  split; try reflexivity.
  - intros []; reflexivity.
  - intros n wt d l i m Hn. cbn in Hn |- *. unfold field_switch. rewrite Hn. reflexivity.
  - intros n wt d l i m m' i' Hi Hl. cbn. unfold field_switch.
    destruct (n =? 1); [|discriminate].
    destruct (U.read_string_field _ _ _ _ _) as [|[s i'']] eqn:E; [discriminate|].
    intros [= <- <-]. eapply U.read_string_field_progress; eauto.
  - intros n wt d l i m m' i'. cbn. unfold field_switch.
    destruct (n =? 1); [|discriminate].
    destruct (U.read_string_field _ _ _ _ _) as [|[s i'']]; [discriminate|].
    intros [= <- <-]. reflexivity.
Qed.

(** The [case 1] reads a non-empty [Baz] wherever it stands. *)
Lemma Baz_reads s :
  0 < len s -> U.field_reads false (enc_string_field 10 s) (fun m => mkBar s (unknownFields m)).
Proof.
  intros Hs. unfold enc_string_field. destruct (Z.ltb_spec 0 (len s)); [|lia].
  change (10 :: varint (len s) ++ s) with (tag 1 2 ++ (varint (len s) ++ s)).
  apply U.field_reads_switch; try (reflexivity || lia).
  intros pre post m H63. cbn [U.field_switch Bar_switch]. unfold field_switch.
  rewrite Z.eqb_refl, U.read_string_field_tag by assumption. reflexivity.
Qed.

(** [Unmarshal] of the encoding of a message whose unknown fields are
    well-formed records of other field numbers gives the message back. *)
Theorem Bar_Unmarshal_enc m rs :
  unknownFields m = enc_wrecs rs -> forallb wrec_ok rs = true ->
  Forall (fun r => wrec_num r <> 1) rs -> len (enc m) < 2 ^ 63 ->
  Unmarshal (enc m) zero = (m, None).
Proof.
  intros Hu Hok Hk H63. destruct m as [s u]; cbn [unknownFields Baz] in *; subst u.
  assert (Hk' : Forall (fun r => U.is_known (wrec_num r) = false) rs).
  { eapply Forall_impl; [|exact Hk]. intros r. cbn. apply Z.eqb_neq. }
  unfold Unmarshal, enc in *; cbn [Baz unknownFields] in *.
  destruct (Z.ltb_spec 0 (len s)).
  - replace (enc_string_field 10 s ++ enc_wrecs rs)
      with (concat (map fst [(enc_string_field 10 s, fun m => mkBar s (unknownFields m))])
            ++ enc_wrecs rs) in * by (cbn; rewrite app_nil_r; reflexivity).
    rewrite U.unmarshal_fields; auto. repeat constructor. apply Baz_reads; assumption.
  - destruct s; [|go_norm; len_pos; lia].
    exact (U.unmarshal_fields false [] rs zero ltac:(auto) Hok Hk' H63).
Qed.

(** C13: Field 1 under any wire type other than 2 (and 4, rejected before the
    switch) is [fmt.Errorf("proto: wrong wireType = %d for field Baz")]. *)
Theorem Unmarshal_Baz_wrong_wiretype wt post m :
  0 <= wt < 8 -> wt <> 2 -> wt <> 4 ->
  Unmarshal (tag 1 wt ++ post) m = (m, Some (ErrWrongWireType "Baz" wt)).
Proof.
  intros Hwt H2 H4. unfold Unmarshal. rewrite U.unmarshal_tag.
  rewrite U.unmarshal_loop_known by (reflexivity || lia || (go_norm; len_pos; lia)).
  cbn [U.field_switch Bar_switch]. unfold field_switch. rewrite Z.eqb_refl.
  unfold U.read_string_field. destruct (Z.eqb_spec wt 2); [lia|]. reflexivity.
Qed.

(** The scenario of the specification: [Bar{Baz: "hi"}] marshals to
    [0a 02 68 69], which unmarshals back to it. *)
Example Bar_hi_example :
  Marshal (mkBar [104; 105] []) = Some [10; 2; 104; 105] /\
  Unmarshal [10; 2; 104; 105] zero = (mkBar [104; 105] [], None).
Proof. split; vm_compute; reflexivity. Qed.

(** [fieldNum := int32(wire >> 3)] keeps the low 32 bits of the field
    number: a tag naming field [2^32 + 1] is read as field 1, [Baz]. *)
Example Unmarshal_fieldNum_truncated :
  Unmarshal (varint ((2 ^ 32 + 1) * 8 + 2) ++ [2; 104; 105]) zero
  = (mkBar [104; 105] [], None).
Proof. vm_compute. reflexivity. Qed.

(** ** The fast-path methods and the reflective accessors *)

(** The zero message marshals to no bytes, and [Unmarshal] reads no bytes
    as the zero message; yet the [Unmarshal] closure of [GetMethods]
    rejects the empty input, so the fast path cannot read back what it
    wrote for a message with every field at its default. *)
Theorem methods_Unmarshal_rejects_empty v :
  methods_Marshal (Some zero) = Some (inr []) /\
  Unmarshal [] v = (v, None) /\
  methods_Unmarshal (Some v) []
  = (Some v, Some (ErrNew "unmarshal input did not contain any bytes to unmarshal")).
Proof. repeat split; reflexivity. Qed.

(** C14: The fast path of [GetMethods] reads back what it writes: for every
    [Bar] whose unknown fields are well-formed records of fields other than
    1 and whose encoding is not empty, the [Marshal] closure returns the
    encoding and the [Unmarshal] closure decodes it into a fresh [Bar]
    equal to the original, unknown fields included. *)
Theorem methods_roundtrip m rs :
  unknownFields m = enc_wrecs rs -> forallb wrec_ok rs = true ->
  Forall (fun r => wrec_num r <> 1) rs -> len (enc m) < 2 ^ 63 -> enc m <> [] ->
  methods_Marshal (Some m) = Some (inr (enc m)) /\
  methods_Unmarshal (Some zero) (enc m) = (Some m, None).
Proof.
  intros Hu Hok Hk H63 Hne. unfold methods_Marshal, methods_Unmarshal.
  rewrite Bar_Marshal_enc by (pose proof (len_Baz_enc m); lia).
  split; [reflexivity|].
  destruct (Z.ltb_spec (len (enc m)) 1).
  - destruct (enc m); [congruence|go_norm; len_pos; lia].
  - rewrite (Bar_Unmarshal_enc m rs) by assumption. reflexivity.
Qed.

(** [Get] compares only the short name: a descriptor of a field [baz] of
    another message is answered with [Baz] instead of a panic. *)
Example Get_foreign_descriptor :
  Get (mkBar [104; 105] []) (mkFieldDescriptor "other.Msg.baz" "baz" false "other.Msg" false)
  = inr (ValueOfString [104; 105]).
Proof. reflexivity. Qed.

(** ** The codec's contract *)

(** C3: Size/Marshal agreement: [Marshal] succeeds and returns exactly [Size]
    bytes. *)
Theorem Bar_Marshal_Size m :
  len (Baz m) < 2 ^ 63 -> exists bs, Marshal m = Some bs /\ len bs = Size m.
Proof.
  intros H. exists (enc m). split; [apply Bar_Marshal_enc; assumption|].
  symmetry. apply Bar_Size_enc. lia.
Qed.

(** C1: Round trip: [Unmarshal] of what [Marshal] returns is the message, its
    unknown fields included, when they are well-formed records of other
    field numbers. *)
Theorem Bar_Marshal_Unmarshal m rs :
  unknownFields m = enc_wrecs rs -> forallb wrec_ok rs = true ->
  Forall (fun r => wrec_num r <> 1) rs -> len (enc m) < 2 ^ 63 ->
  exists bs, Marshal m = Some bs /\ Unmarshal bs zero = (m, None).
Proof.
  intros Hu Hok Hk H63. exists (enc m). split.
  - apply Bar_Marshal_enc. pose proof (len_Baz_enc m). lia.
  - apply Bar_Unmarshal_enc with rs; assumption.
Qed.

(** ** Witnesses *)

Lemma Bar_Marshal_Unmarshal_witness :
  exists bs, Marshal (mkBar [104; 105] (enc_wrecs [WVarint 2 150])) = Some bs /\
             Unmarshal bs zero = (mkBar [104; 105] (enc_wrecs [WVarint 2 150]), None).
Proof.
  apply (Bar_Marshal_Unmarshal _ [WVarint 2 150]);
    [reflexivity | reflexivity | repeat constructor; cbn; lia | vm_compute; reflexivity].
Defined.

Lemma Bar_Marshal_Size_witness :
  exists bs, Marshal (mkBar [104; 105] []) = Some bs /\ len bs = Size (mkBar [104; 105] []).
Proof. apply Bar_Marshal_Size. vm_compute. reflexivity. Defined.

Lemma Unmarshal_Baz_wrong_wiretype_witness :
  Unmarshal (tag 1 0 ++ [1]) zero = (zero, Some (ErrWrongWireType "Baz" 0)).
Proof. apply Unmarshal_Baz_wrong_wiretype; lia. Defined.

Lemma methods_roundtrip_witness :
  methods_Marshal (Some (mkBar [104; 105] (enc_wrecs [WVarint 2 150])))
  = Some (inr (enc (mkBar [104; 105] (enc_wrecs [WVarint 2 150])))) /\
  methods_Unmarshal (Some zero) (enc (mkBar [104; 105] (enc_wrecs [WVarint 2 150])))
  = (Some (mkBar [104; 105] (enc_wrecs [WVarint 2 150])), None).
Proof.
  apply (methods_roundtrip _ [WVarint 2 150]);
    [reflexivity | reflexivity | repeat constructor; cbn; lia | vm_compute; reflexivity
    | vm_compute; discriminate].
Defined.

(** An unknown field 2 then [Baz]: the unknown record is kept whole. *)
Lemma unmarshal_records_ok_witness :
  records_ok (U.unknownFields (fst (U.unmarshal false [16; 1; 10; 1; 104] zero))) = true.
Proof. apply U.unmarshal_records_ok; vm_compute; reflexivity. Defined.

(** [Bar.Unmarshal] of [0a 01 68 10 01]: every run of the loop is finite and
    stops at [Unmarshal]'s return. *)
Lemma unmarshal_run_returns_witness :
  not (infseq (U.unmarshal_sem false [10; 1; 104; 16; 1]) (U.ULoop 0 zero)) /\
  forall s, star (U.unmarshal_sem false [10; 1; 104; 16; 1]) (U.ULoop 0 zero) s ->
    irred (U.unmarshal_sem false [10; 1; 104; 16; 1]) s ->
    s = U.URet (U.unmarshal false [10; 1; 104; 16; 1] zero).
Proof. apply U.unmarshal_run_returns. vm_compute. reflexivity. Defined.

End Bar.
