(* ===== verification/Hello.v ===== *)
(** * Hello: the codec generated for
    [message Hello { string world = 1; bool universe = 2; }]

    src/proto/foo.pulsar.go, [type Hello] and its methods [Size],
    [MarshalToSizedBuffer], [Marshal], [MarshalTo] and [Unmarshal] (the
    [case 1] and [case 2] of its [switch fieldNum]).  As for [Bar], [enc]
    is the encoding written forward: [World] (if not empty), then
    [Universe] (if true, the two bytes [0x10 0x01]), then the unknown
    fields.  A [bool] is decoded from any varint, [bool(v != 0)]. *)

From Stdlib Require Import String ZArith List Lia.
From S2P Require Import Prelude Varint Skip Protoreflect Unmarshal Marshal.
Import ListNotations.
Open Scope Z_scope.
Open Scope go_scope.

Module U := Unmarshal.Unmarshal.

Module Hello.
Import Varint.Varint Skip.Skip Protoreflect.Protoreflect Marshal.Marshal.

(** [type Hello struct { ...; World string; Universe bool }] *)
Record Hello := mkHello { World : bytes; Universe : bool; unknownFields : bytes }.

(** [Hello{}] *)
Definition zero : Hello := mkHello [] false [].

(** [func (m *Hello) Size() (n int)] (lines 703-721) *)
Definition Size (m : Hello) : Z :=
  let n := 0 in
  let l := len (World m) in
  let n := if 0 <? l then n + (1 + l + sov l) else n in
  let n := if Universe m then n + 2 else n in
  if negb (is_nil (unknownFields m)) then n + len (unknownFields m) else n.

(** [func (m *Hello) MarshalToSizedBuffer(dAtA []byte) (int, error)]
    (lines 644-674).  The [Universe] step keeps the generated inner test
    [if m.Universe { dAtA[i] = 1 } else { dAtA[i] = 0 }]. *)
Definition MarshalToSizedBuffer (dAtA : bytes) (m : Hello) : option (bytes * Z) :=
  let i := len dAtA in
  ' (dAtA, i) <-? marshal_unknownFields dAtA i (unknownFields m) ;;
  ' (dAtA, i) <-? (if Universe m then
                     let i := i - 1 in
                     dAtA <-? store dAtA i (if Universe m then 1 else 0) ;;
                     let i := i - 1 in
                     dAtA <-? store dAtA i 16 ;;
                     Some (dAtA, i)
                   else Some (dAtA, i)) ;;
  ' (dAtA, i) <-? marshal_string_field dAtA i (World m) 10 ;;
  Some (dAtA, len dAtA - i).

(** [func (m *Hello) Marshal() (dAtA []byte, err error)] (lines 626-637). *)
Definition Marshal (m : Hello) : option bytes := marshal Size MarshalToSizedBuffer m.

(** [func (m *Hello) MarshalTo(dAtA []byte) (int, error)] (lines 639-642). *)
Definition MarshalTo (dAtA : bytes) (m : Hello) : option (bytes * Z) :=
  let size := Size m in
  if len dAtA <? size then None else
  ' (buf, n) <-? MarshalToSizedBuffer (firstn (Z.to_nat size) dAtA) m ;;
  Some (buf ++ skipn (Z.to_nat size) dAtA, n).

(** [switch fieldNum { case 1: ... case 2: ... }] of [Hello.Unmarshal]
    (lines 839-892).  In [case 2] the value is accumulated in a Go [int]:
    the same bits as the [uint64] of [readVarint], read as signed. *)
Definition field_switch (fieldNum wireType : Z) (dAtA : bytes) (l i : Z) (m : Hello)
  : option (res (Hello * Z)) :=
  if fieldNum =? 1 then
    Some (' (s, i) <- U.read_string_field "World" wireType dAtA l i ;;
          inr (mkHello s (Universe m) (unknownFields m), i))
  else if fieldNum =? 2 then
    Some (if negb (wireType =? 0) then inl (ErrWrongWireType "Universe" wireType) else
          ' (v, i) <- readVarint dAtA l i ;;
          inr (mkHello (World m) (negb (int64 v =? 0)) (unknownFields m), i))
  else None.

#[export] Instance Hello_switch : U.MessageSwitch Hello := {
  U.msg_name := "Hello";
  U.unknownFields := unknownFields;
  U.set_unknownFields m u := mkHello (World m) (Universe m) u;
  U.field_switch := field_switch;
  U.is_known n := ((n =? 1) || (n =? 2))%bool
}.

(** [func (m *Hello) Unmarshal(dAtA []byte) error] (lines 811-913). *)
Definition Unmarshal (dAtA : bytes) (m : Hello) : Hello * option goerr :=
  U.unmarshal false dAtA m.

(** The two bytes of [Universe = true]. *)
Definition enc_Universe (b : bool) : bytes := if b then [16; 1] else [].

(** The encoding, written forward. *)
Definition enc (m : Hello) : bytes :=
  enc_string_field 10 (World m) ++ enc_Universe (Universe m) ++ unknownFields m.

(** ** Accessors and the fast-path methods *)

(** [func (x *Hello) Reset()] (lines 283-290). *)
Definition Reset (x : Hello) : Hello := zero.

(** [GetWorld] and [GetUniverse] (lines 310-324); [None] is a nil [x]. *)
Definition GetWorld (x : option Hello) : bytes :=
  match x with Some x => World x | None => [] end.

Definition GetUniverse (x : option Hello) : bool :=
  match x with Some x => Universe x | None => false end.

(** [func (x *Hello) Get(descriptor) protoreflect.Value] (lines 439-448). *)
Definition Get (x : Hello) (descriptor : FieldDescriptor) : pres Value :=
  if String.eqb (Name descriptor) "world" then inr (ValueOfString (World x))
  else if String.eqb (Name descriptor) "universe" then inr (ValueOfBool (Universe x))
  else inl (Panic (String.append "message cosmos.proto.Hello does not contain field "
                                 (Name descriptor))).

(** The [Size] closure of [GetMethods] (lines 331-336). *)
Definition methods_Size (x : Hello) (input : Hello) : Z := Size x.

(** The [Marshal] closure (lines 337-351). *)
Definition methods_Marshal (input : option Hello) : option (res bytes) :=
  match input with
  | None => Some (inl (ErrNew "size error: Hello does not implement the protoreflect.Message interface"))
  | Some v => bz <-? Marshal v ;; Some (inr bz)
  end.

(** The [Unmarshal] closure (lines 352-369). *)
Definition methods_Unmarshal (input : option Hello) (Buf : bytes) : option Hello * option goerr :=
  match input with
  | None => (None, Some (ErrNew "marshal error: Hello does not implement the protoreflect.Message interface"))
  | Some v =>
    if len Buf <? 1 then (Some v, Some (ErrNew "unmarshal input did not contain any bytes to unmarshal"))
    else let '(v, err) := Unmarshal Buf v in (Some v, err)
  end.

(** ** Marshal *)

Lemma Hello_Size_enc m : len (World m) < 2 ^ 64 -> Size m = len (enc m).
Proof.
  intros H. unfold Size, enc. rewrite !len_app, len_enc_string_field by lia.
  destruct (0 <? len (World m)), (Universe m), (unknownFields m);
    cbn [is_nil negb enc_Universe]; go_norm; len_pos; lia.
Qed.

(** The [Universe] step writes its encoding just before [i]. *)
Lemma marshal_Universe_put d i b :
  len (enc_Universe b) <= i <= len d ->
  (if b then
     let i := i - 1 in
     dAtA <-? store d i (if b then 1 else 0) ;;
     let i := i - 1 in
     dAtA <-? store dAtA i 16 ;; Some (dAtA, i)
   else Some (d, i))
  = Some (put d (Z.to_nat (i - len (enc_Universe b))) (enc_Universe b), i - len (enc_Universe b)).
Proof.
  destruct b; cbn [enc_Universe]; intros H; go_norm.
  - cbv zeta. rewrite store_put by buf_lia. rewrite store_put by buf_lia.
    rewrite put_prepend by buf_lia. f_equal. f_equal; [f_equal; lia|lia].
  - rewrite put_nil. f_equal. f_equal. lia.
Qed.

Lemma len_World_enc m : len (World m) <= len (enc m).
Proof.
  unfold enc, enc_string_field. destruct (Z.ltb_spec 0 (len (World m))); go_norm; len_pos; lia.
Qed.

(** [MarshalToSizedBuffer] into a buffer of [Size m] bytes fills it with
    [enc m]. *)
Theorem Hello_MarshalToSizedBuffer_enc m d :
  len (World m) < 2 ^ 63 -> len d = Size m ->
  MarshalToSizedBuffer d m = Some (enc m, len d).
Proof.
  intros HW Hd. rewrite Hello_Size_enc in Hd by lia. unfold MarshalToSizedBuffer, enc in *.
  rewrite marshal_unknownFields_put by buf_lia.
  rewrite marshal_Universe_put by buf_lia. rewrite put_prepend by buf_lia.
  rewrite marshal_string_field_put by buf_lia. rewrite put_prepend by buf_lia.
  replace (len d - len (unknownFields m) - len (enc_Universe (Universe m))
           - len (enc_string_field 10 (World m))) with 0 by buf_lia.
  rewrite put_all_Z by buf_lia. f_equal. f_equal. lia.
Qed.

(** [Marshal] returns exactly the encoding. *)
Theorem Hello_Marshal_enc m : len (World m) < 2 ^ 63 -> Marshal m = Some (enc m).
Proof.
  intros HW. apply marshal_ok; [apply Hello_Size_enc; lia|].
  intros d Hd. apply Hello_MarshalToSizedBuffer_enc; assumption.
Qed.

(** ** Unmarshal *)

#[export] Instance Hello_laws : U.MessageSwitchLaws Hello.
Proof.
  split; try reflexivity.
  - intros []; reflexivity.
  - intros n wt d l i m Hn. cbn in Hn |- *. unfold field_switch.
    apply Bool.orb_false_iff in Hn as [-> ->]. reflexivity.
  - intros n wt d l i m m' i' Hi Hl. cbn. unfold field_switch.
    destruct (n =? 1); [|destruct (n =? 2); [|discriminate]].
    + destruct (U.read_string_field _ _ _ _ _) as [|[s i'']] eqn:E; [discriminate|].
      intros [= <- <-]. eapply U.read_string_field_progress; eauto.
    + destruct (negb (wt =? 0)); [discriminate|].
      destruct (readVarint d l i) as [|[v i'']] eqn:E; [discriminate|].
      intros [= <- <-]. apply readVarint_range in E. lia.
  - intros n wt d l i m m' i'. cbn. unfold field_switch.
    destruct (n =? 1); [|destruct (n =? 2); [|discriminate]].
    + destruct (U.read_string_field _ _ _ _ _) as [|[s i'']]; [discriminate|].
      intros [= <- <-]. reflexivity.
    + destruct (negb (wt =? 0)); [discriminate|].
      destruct (readVarint d l i) as [|[v i'']]; [discriminate|].
      intros [= <- <-]. reflexivity.
Qed.

(** The [case 1] reads a non-empty [World] wherever it stands. *)
Lemma World_reads s :
  0 < len s ->
  U.field_reads false (enc_string_field 10 s) (fun m => mkHello s (Universe m) (unknownFields m)).
Proof.
  intros Hs. unfold enc_string_field. destruct (Z.ltb_spec 0 (len s)); [|lia].
  change (10 :: varint (len s) ++ s) with (tag 1 2 ++ (varint (len s) ++ s)).
  apply U.field_reads_switch; try (reflexivity || lia).
  intros pre post m H63. cbn [U.field_switch Hello_switch]. unfold field_switch.
  rewrite Z.eqb_refl, U.read_string_field_tag by assumption. reflexivity.
Qed.

(** The [case 2] reads [0x10 0x01] as [Universe = true]. *)
Lemma Universe_reads :
  U.field_reads false (enc_Universe true) (fun m => mkHello (World m) true (unknownFields m)).
Proof.
  change (enc_Universe true) with (tag 2 0 ++ varint 1).
  apply U.field_reads_switch; try (reflexivity || lia).
  intros pre post m H63. cbn [U.field_switch Hello_switch]. unfold field_switch.
  change (2 =? 1) with false. change (2 =? 2) with true. change (negb (0 =? 0)) with false.
  cbv iota. rewrite U.readVarint_after_tag by (lia || (go_norm; len_pos; lia)).
  reflexivity.
Qed.

(** The fields a message encodes, with what reading each one does. *)
Definition fields (m : Hello) : list (bytes * (Hello -> Hello)) :=
  (if 0 <? len (World m)
   then [(enc_string_field 10 (World m), fun x => mkHello (World m) (Universe x) (unknownFields x))]
   else [])
  ++ (if Universe m
      then [(enc_Universe true, fun x => mkHello (World x) true (unknownFields x))] else []).

Lemma fields_enc m :
  concat (map fst (fields m)) = enc_string_field 10 (World m) ++ enc_Universe (Universe m).
Proof.
  unfold fields, enc_string_field. destruct (0 <? len (World m)), (Universe m);
    cbn; rewrite ?app_nil_r; reflexivity.
Qed.

Lemma fields_reads m : Forall (fun p => U.field_reads false (fst p) (snd p)) (fields m).
Proof.
  unfold fields. apply Forall_app. split.
  - destruct (Z.ltb_spec 0 (len (World m))); repeat constructor. apply World_reads. assumption.
  - destruct (Universe m); repeat constructor. apply Universe_reads.
Qed.

Lemma fields_fold m :
  fold_left (fun x p => snd p x) (fields m) zero = mkHello (World m) (Universe m) [].
Proof.
  destruct m as [w u f]. unfold fields; cbn [World Universe].
  destruct (Z.ltb_spec 0 (len w)), u; try reflexivity.
  all: destruct w; [reflexivity|]; go_norm; len_pos; lia.
Qed.

(** [Unmarshal] of the encoding of a message whose unknown fields are
    well-formed records of other field numbers gives the message back. *)
Theorem Hello_Unmarshal_enc m rs :
  unknownFields m = enc_wrecs rs -> forallb wrec_ok rs = true ->
  Forall (fun r => wrec_num r <> 1 /\ wrec_num r <> 2) rs -> len (enc m) < 2 ^ 63 ->
  Unmarshal (enc m) zero = (m, None).
Proof.
  intros Hu Hok Hk H63. unfold Unmarshal, enc in *.
  rewrite app_assoc, <- fields_enc, Hu in *.
  rewrite U.unmarshal_fields; auto using fields_reads.
  - rewrite fields_fold. destruct m; cbn in *. subst. reflexivity.
  - eapply Forall_impl; [|exact Hk]. intros r [H1 H2]. cbn.
    apply Bool.orb_false_iff. split; apply Z.eqb_neq; assumption.
Qed.

(** [case 2] reads any varint [v] and sets [Universe] to [v != 0]. *)
Theorem Unmarshal_Universe_varint v :
  0 <= v < 2 ^ 64 ->
  Unmarshal (tag 2 0 ++ varint v) zero = (mkHello [] (negb (v =? 0)) [], None).
Proof.
  intros Hv. unfold Unmarshal.
  assert (R : U.field_reads false (tag 2 0 ++ varint v)
                (fun m => mkHello (World m) (negb (v =? 0)) (unknownFields m))).
  { apply U.field_reads_switch; try (reflexivity || lia).
    intros pre post m H63. cbn [U.field_switch Hello_switch]. unfold field_switch.
    change (2 =? 1) with false. change (2 =? 2) with true. change (negb (0 =? 0)) with false.
    cbv iota. rewrite U.readVarint_after_tag by (lia || (go_norm; len_pos; lia)).
    rewrite int64_eqb0 by lia. reflexivity. }
  pose proof (varint_length v Hv). pose proof (sov_range v Hv).
  pose proof (U.unmarshal_fields false [(tag 2 0 ++ varint v, _)] [] zero
                ltac:(repeat constructor; exact R) eq_refl (Forall_nil _)) as E.
  cbn [map concat fst enc_wrecs flat_map] in E. rewrite !app_nil_r in E.
  rewrite E by (change (tag 2 0) with [16]; go_norm; lia). reflexivity.
Qed.

(** C35: A field that occurs twice takes the value of the later occurrence. *)
Theorem Unmarshal_World_last_wins s1 s2 :
  0 < len s1 -> 0 < len s2 ->
  len (enc_string_field 10 s1 ++ enc_string_field 10 s2) < 2 ^ 63 ->
  Unmarshal (enc_string_field 10 s1 ++ enc_string_field 10 s2) zero = (mkHello s2 false [], None).
Proof.
  intros H1 H2 H63. unfold Unmarshal.
  pose proof (U.unmarshal_fields false
    [(enc_string_field 10 s1, fun m => mkHello s1 (Universe m) (unknownFields m));
     (enc_string_field 10 s2, fun m => mkHello s2 (Universe m) (unknownFields m))] [] zero
    ltac:(repeat constructor; apply World_reads; assumption) eq_refl (Forall_nil _)) as E.
  cbn [map concat fst enc_wrecs flat_map] in E. rewrite !app_nil_r in E.
  rewrite E by assumption. reflexivity.
Qed.

(** The encodings the specification gives: [Hello{Universe: true}] is
    [0x10 0x01] and the zero message has no bytes; both read back. *)
Example Hello_examples :
  Marshal (mkHello [] true []) = Some [16; 1] /\ Marshal zero = Some [] /\
  Unmarshal [16; 1] zero = (mkHello [] true [], None) /\ Unmarshal [] zero = (zero, None).
Proof. repeat split; vm_compute; reflexivity. Qed.

(** ** The codec's contract *)

(** C4: Size/Marshal agreement: [Marshal] succeeds and returns exactly [Size]
    bytes. *)
Theorem Hello_Marshal_Size m :
  len (World m) < 2 ^ 63 -> exists bs, Marshal m = Some bs /\ len bs = Size m.
Proof.
  intros H. exists (enc m). split; [apply Hello_Marshal_enc; assumption|].
  symmetry. apply Hello_Size_enc. lia.
Qed.

(** C2: Round trip: [Unmarshal] of what [Marshal] returns is the message, its
    unknown fields included, when they are well-formed records of other
    field numbers. *)
Theorem Hello_Marshal_Unmarshal m rs :
  unknownFields m = enc_wrecs rs -> forallb wrec_ok rs = true ->
  Forall (fun r => wrec_num r <> 1 /\ wrec_num r <> 2) rs -> len (enc m) < 2 ^ 63 ->
  exists bs, Marshal m = Some bs /\ Unmarshal bs zero = (m, None).
Proof.
  intros Hu Hok Hk H63. exists (enc m). split.
  - apply Hello_Marshal_enc. pose proof (len_World_enc m). lia.
  - apply Hello_Unmarshal_enc with rs; assumption.
Qed.

(** ** Witnesses *)

Lemma Hello_Marshal_Unmarshal_witness :
  exists bs, Marshal (mkHello [119] true (enc_wrecs [WBytes 3 [1; 2]])) = Some bs /\
             Unmarshal bs zero = (mkHello [119] true (enc_wrecs [WBytes 3 [1; 2]]), None).
Proof.
  apply (Hello_Marshal_Unmarshal _ [WBytes 3 [1; 2]]);
    [reflexivity | reflexivity | repeat constructor; cbn; lia | vm_compute; reflexivity].
Defined.

Lemma Hello_Marshal_Size_witness :
  exists bs, Marshal (mkHello [119] true []) = Some bs /\ len bs = Size (mkHello [119] true []).
Proof. apply Hello_Marshal_Size. vm_compute. reflexivity. Defined.

Lemma Unmarshal_Universe_varint_witness :
  Unmarshal (tag 2 0 ++ varint 300) zero = (mkHello [] (negb (300 =? 0)) [], None).
Proof. apply Unmarshal_Universe_varint. lia. Defined.

Lemma Unmarshal_World_last_wins_witness :
  Unmarshal (enc_string_field 10 [1] ++ enc_string_field 10 [2]) zero = (mkHello [2] false [], None).
Proof. apply Unmarshal_World_last_wins; vm_compute; reflexivity. Defined.

End Hello.
