(* ===== verification/Runtime.v ===== *)
(** * Runtime: the protobuf runtime's reflection of a generated message,
    and the value-receiver methods that delegate to it

    src/proto/foo.pulsar.go gives [Bar] and [Hello] the methods of
    [protoreflect.Message] ([Descriptor], [Type], [New], [Interface],
    [Range], [Has], [Clear], [Set], [Mutable], [NewField], [WhichOneof],
    [GetUnknown], [SetUnknown], [IsValid]) with the one body
    [x.ProtoReflect().M(args)] on a VALUE receiver [func (x Bar) ...].
    What [ProtoReflect()] returns is the runtime's [protoreflect.Message]
    on the struct at [&x], a library the sources only call: here it is the
    class [ProtoMessage], its contract (spec section 4.2) the class
    [ProtoMessageLaws], in the layout of a class of operations with a class
    of laws over it.

    Memory is explicit: a [heap] maps addresses to messages, a Go pointer
    [*Bar] is an [option positive] ([None] is nil).  Calling a value-receiver
    method through a pointer [p] copies [*p] into the receiver variable; as
    [ProtoReflect] takes its address the copy lives in a fresh cell
    ([receiver]).  The runtime then acts on that cell ([update]).  The
    theorems: the reads through a copy are the runtime's reads of the
    caller's message (a refinement); the writes through a copy never reach
    a cell the caller can see, so [Clear] followed by [Has] breaks the
    contract; [Interface] hands out a pointer to the copy; [IsValid] on a
    nil pointer panics; [Range] visits exactly the populated fields until
    the visitor stops. *)

From stdpp Require Import base gmap list.
From Stdlib Require Import String ZArith.
From S2P Require Import Prelude Protoreflect.
Open Scope go_scope.

Module Runtime.
Import Protoreflect.Protoreflect.

(** ** The runtime's [protoreflect.Message] on a struct of type [M] *)

Class ProtoMessage (M : Type) := {
  (** [Descriptor().FullName()] *)
  pm_FullName : string;
  (** [M{}], what [New()] allocates *)
  pm_zero : M;
  (** [Descriptor().Fields()], in declaration order *)
  pm_fields : list FieldDescriptor;
  pm_Has : M -> FieldDescriptor -> pres bool;
  pm_Get : M -> FieldDescriptor -> pres Value;
  pm_Set : M -> FieldDescriptor -> Value -> pres M;
  pm_Clear : M -> FieldDescriptor -> pres M;
  pm_Mutable : M -> FieldDescriptor -> pres (Value * M);
  pm_NewField : FieldDescriptor -> pres Value;
  pm_WhichOneof : M -> OneofDescriptor -> pres (option FieldDescriptor);
  pm_GetUnknown : M -> bytes;
  pm_SetUnknown : M -> bytes -> M
}.

(** The contract of spec section 4.2 the runtime meets: declared fields
    are answered, [Clear] makes [Has] false, [Get] returns what [Set]
    stored, and the unknown fields are stored as given. *)
Class ProtoMessageLaws (M : Type) `{ProtoMessage M} := {
  pm_Has_total : forall x fd, In fd pm_fields -> exists b, pm_Has x fd = inr b;
  pm_Get_total : forall x fd, In fd pm_fields -> exists v, pm_Get x fd = inr v;
  pm_Clear_Has : forall x y fd, pm_Clear x fd = inr y -> pm_Has y fd = inr false;
  pm_Set_Get : forall x y fd v, pm_Set x fd v = inr y -> pm_Get y fd = inr v;
  pm_SetUnknown_GetUnknown : forall x u, pm_GetUnknown (pm_SetUnknown x u) = u
}.

(** The calls of a visitor over [l] up to and including its first
    [false]. *)
Fixpoint until_false {A B} (f : A -> B -> bool) (l : list (A * B)) : list (A * B) :=
  match l with
  | [] => []
  | (a, b) :: l => if f a b then (a, b) :: until_false f l else [(a, b)]
  end.

(** [Range(f)] of the runtime: the fields in declaration order, a field
    visited when [Has], with its [Get]; it returns after the first [false]
    of [f].  The result is the sequence of calls of the visitor. *)
Fixpoint range_fields {M} `{ProtoMessage M} (x : M) (f : FieldDescriptor -> Value -> bool)
    (fds : list FieldDescriptor) : pres (list (FieldDescriptor * Value)) :=
  match fds with
  | [] => inr []
  | fd :: fds =>
    b <- pm_Has x fd ;;
    if b then
      v <- pm_Get x fd ;;
      if f fd v then rest <- range_fields x f fds ;; inr ((fd, v) :: rest)
      else inr [(fd, v)]
    else range_fields x f fds
  end.

(** ** Memory *)

Abbreviation heap M := (gmap positive M) (only parsing).

(** The panic of a nil dereference. *)
Definition nil_deref : gopanic :=
  Panic "runtime error: invalid memory address or nil pointer dereference".

Section Methods.
Context {M : Type} `{ProtoMessage M}.

(** What [ProtoReflect()] returns: the message state at a non-nil
    address, or for a nil pointer [mi.MessageOf(nil)], a message of the
    type with no storage. *)
Inductive MessageRef := MessageState (a : positive) | MessageOfNil.

(** [func (x *M) ProtoReflect() protoreflect.Message] *)
Definition ProtoReflect (x : option positive) : MessageRef :=
  match x with Some a => MessageState a | None => MessageOfNil end.

(** The runtime's [IsValid()]: [false] exactly on the message of nil. *)
Definition ms_IsValid (r : MessageRef) : bool :=
  match r with MessageState _ => true | MessageOfNil => false end.

(** [*p] *)
Definition deref (h : heap M) (p : option positive) : pres M :=
  match p with
  | Some a => match h !! a with Some x => inr x | None => inl nil_deref end
  | None => inl nil_deref
  end.

(** The receiver of [func (x M) ...] called through [p], and
    [x.ProtoReflect()]: the copy of [*p] in a fresh cell [q]. *)
Definition receiver (h : heap M) (p : option positive) : pres (positive * heap M) :=
  x <- deref h p ;;
  let q := fresh (dom h) in inr (q, <[q := x]> h).

(** The runtime writing the message at [q] in place. *)
Definition update (h : heap M) (q : positive) (f : M -> pres M) : pres (heap M) :=
  x <- deref h (Some q) ;; y <- f x ;; inr (<[q := y]> h).

(** [h'] agrees with [h] on every cell of [h]. *)
Definition keeps (h h' : heap M) : Prop := forall b, b ∈ dom h -> h' !! b = h !! b.

(** The copy read back, for the methods that only read. *)
Definition read_copy {A} (h : heap M) (p : option positive) (f : M -> pres A) : pres A :=
  ' (q, h) <- receiver h p ;; x <- deref h (Some q) ;; f x.

(** The generic bodies [x.ProtoReflect().M(args)]. *)
Definition vr_Descriptor h p : pres string := read_copy h p (fun _ => inr pm_FullName).
Definition vr_New h p : pres (positive * heap M) :=
  ' (q, h) <- receiver h p ;; let r := fresh (dom h) in inr (r, <[r := pm_zero]> h).
Definition vr_Interface h p : pres (positive * heap M) := receiver h p.
Definition vr_Range h p f := read_copy h p (fun x => range_fields x f pm_fields).
Definition vr_Has h p fd := read_copy h p (fun x => pm_Has x fd).
Definition vr_Clear h p fd : pres (heap M) :=
  ' (q, h) <- receiver h p ;; update h q (fun x => pm_Clear x fd).
Definition vr_Set h p fd v : pres (heap M) :=
  ' (q, h) <- receiver h p ;; update h q (fun x => pm_Set x fd v).
Definition vr_Mutable h p fd : pres (Value * heap M) :=
  ' (q, h) <- receiver h p ;; x <- deref h (Some q) ;;
  ' (v, y) <- pm_Mutable x fd ;; inr (v, <[q := y]> h).
Definition vr_NewField h p fd := read_copy h p (fun _ => pm_NewField fd).
Definition vr_WhichOneof h p od := read_copy h p (fun x => pm_WhichOneof x od).
Definition vr_GetUnknown h p := read_copy h p (fun x => inr (pm_GetUnknown x)).
Definition vr_SetUnknown h p u : pres (heap M) :=
  ' (q, h) <- receiver h p ;; update h q (fun x => inr (pm_SetUnknown x u)).
(** The runtime's [IsValid] on the copy, which is never nil. *)
Definition vr_IsValid h p : pres bool :=
  ' (q, h) <- receiver h p ;; inr (ms_IsValid (ProtoReflect (Some q))).

End Methods.

(** ** Lemmas on the copy *)

Section Copy.
Context {M : Type} `{ProtoMessage M}.

Lemma deref_Some (h : heap M) a x : h !! a = Some x -> deref h (Some a) = inr x.
Proof. intros E. unfold deref. rewrite E. reflexivity. Qed.

Lemma deref_insert (h : heap M) q x : deref (<[q := x]> h) (Some q) = inr x.
Proof. unfold deref. rewrite lookup_insert_eq. reflexivity. Qed.

Lemma fresh_ne (h : heap M) b : b ∈ dom h -> fresh (dom h) <> b.
Proof. intros Hb E. apply (is_fresh (dom h)). rewrite E. exact Hb. Qed.

Lemma insert_fresh_keeps (h : heap M) y b :
  b ∈ dom h -> <[fresh (dom h) := y]> h !! b = h !! b.
Proof. intros Hb. apply lookup_insert_ne, fresh_ne, Hb. Qed.

Lemma receiver_spec (h : heap M) a x :
  h !! a = Some x -> receiver h (Some a) = inr (fresh (dom h), <[fresh (dom h) := x]> h).
Proof. intros E. unfold receiver. rewrite (deref_Some _ _ _ E). reflexivity. Qed.

Lemma read_copy_spec {A} (h : heap M) a x (f : M -> pres A) :
  h !! a = Some x -> read_copy h (Some a) f = f x.
Proof. intros E. unfold read_copy. rewrite (receiver_spec _ _ _ E). cbv beta iota. rewrite deref_insert. reflexivity. Qed.

Lemma receiver_nil {A} (h : heap M) (k : positive * heap M -> pres A) :
  (' (q, h) <- receiver h None ;; k (q, h)) = inl nil_deref.
Proof. reflexivity. Qed.

Lemma update_keeps (h : heap M) q f h' b : update h q f = inr h' -> b <> q -> h' !! b = h !! b.
Proof.
  unfold update. destruct (deref h (Some q)); [discriminate|]. cbn.
  destruct (f m); [discriminate|]. intros [= <-] Hb. apply lookup_insert_ne. congruence.
Qed.

(** A write of the runtime through the copy leaves every cell the caller
    could reach as it was. *)
Lemma through_copy_keeps (h : heap M) p f h' b :
  (' (q, h1) <- receiver h p ;; update h1 q f) = inr h' -> b ∈ dom h -> h' !! b = h !! b.
Proof.
  unfold receiver. destruct (deref h p) as [|x]; [discriminate|]. cbn. intros U Hb.
  rewrite (update_keeps _ _ _ _ _ U) by (apply not_eq_sym, fresh_ne, Hb).
  apply insert_fresh_keeps, Hb.
Qed.

Lemma through_copy_result (h : heap M) a x f h' :
  h !! a = Some x -> (' (q, h1) <- receiver h (Some a) ;; update h1 q f) = inr h' ->
  exists y, f x = inr y.
Proof.
  intros E. rewrite (receiver_spec _ _ _ E). cbn. unfold update. rewrite deref_insert. cbn.
  destruct (f x) as [|y]; [discriminate|]. eauto.
Qed.

End Copy.

#[export] Hint Resolve deref_Some read_copy_spec : go.

(** ** Range *)

Section RangeSpec.
Context {M : Type} `{ProtoMessageLaws M}.

(** [Range] returns, and the calls of the visitor are populated fields
    with their values, in declaration order, each field once; when the
    visitor never stops, every populated field is visited. *)
Lemma range_fields_spec x f fds :
  (forall fd, In fd fds -> In fd pm_fields) ->
  exists vis, range_fields x f fds = inr vis /\
    map fst vis `sublist_of` fds /\
    (forall fd v, In (fd, v) vis -> pm_Has x fd = inr true /\ pm_Get x fd = inr v) /\
    (forallb (fun c => f (fst c) (snd c)) vis = true ->
     forall fd, In fd fds -> pm_Has x fd = inr true -> In fd (map fst vis)).
Proof.
  induction fds as [|fd fds IH]; intros Hin.
  { exists []. split; [reflexivity|]. split; [constructor|]. split; [intros ? ? []|intros _ ? []]. }
  destruct IH as (vis & Hr & Hsub & Hok & Hall); [intros; apply Hin; right; auto|].
  destruct (pm_Has_total x fd (Hin fd (or_introl eq_refl))) as [[|] Hb];
  cbn; rewrite Hb.
  - destruct (pm_Get_total x fd (Hin fd (or_introl eq_refl))) as [v Hv]. rewrite Hv.
    destruct (f fd v) eqn:Hf.
    + rewrite Hr. exists ((fd, v) :: vis). split; [reflexivity|]. split; [by constructor|].
      split.
      * intros fd' v' [[= <- <-]|Hi]; auto.
      * cbn. rewrite Hf. intros Hfa fd' [<-|Hi] Hh; [left; reflexivity|right; auto].
    + exists [(fd, v)]. split; [reflexivity|]. split.
      * constructor. apply sublist_nil_l.
      * split; [intros fd' v' [[= <- <-]|[]]; auto|cbn; rewrite Hf; discriminate].
  - rewrite Hr. exists vis. split; [reflexivity|]. split; [by constructor|]. split; [exact Hok|].
    intros Hfa fd' [<-|Hi] Hh; [congruence|auto].
Qed.

End RangeSpec.

(** ** The delegations against the contract *)

Section Contract.
Context {M : Type} `{ProtoMessageLaws M}.

(** Reading through the copy reads the caller's message. *)
Lemma vr_reads (h : heap M) a x f fd od :
  h !! a = Some x ->
  vr_Has h (Some a) fd = pm_Has x fd /\
  vr_Range h (Some a) f = range_fields x f pm_fields /\
  vr_WhichOneof h (Some a) od = pm_WhichOneof x od /\
  vr_GetUnknown h (Some a) = inr (pm_GetUnknown x) /\
  vr_NewField h (Some a) fd = pm_NewField fd /\
  vr_Descriptor h (Some a) = inr pm_FullName /\
  vr_IsValid h (Some a) = inr true.
Proof.
  intros E. unfold vr_Has, vr_Range, vr_WhichOneof, vr_GetUnknown, vr_NewField,
    vr_Descriptor, vr_IsValid.
  repeat split; try (erewrite read_copy_spec; [reflexivity|exact E]).
  rewrite (receiver_spec _ _ _ E). reflexivity.
Qed.

(** [Mutable] writes the copy back to the copy's cell only. *)
Lemma vr_Mutable_keeps (h : heap M) p fd w h' b :
  vr_Mutable h p fd = inr (w, h') -> b ∈ dom h -> h' !! b = h !! b.
Proof.
  unfold vr_Mutable, receiver. destruct (deref h p) as [|x]; [discriminate|].
  cbv beta iota zeta. rewrite deref_insert. cbv beta iota. destruct (pm_Mutable x fd) as [|[v y]]; [discriminate|].
  intros [= _ <-] Hb. rewrite lookup_insert_ne by (apply fresh_ne, Hb).
  apply insert_fresh_keeps, Hb.
Qed.

(** Every write through the copy leaves the caller's cells as they were. *)
Lemma vr_writes_keep (h : heap M) p fd v u :
  (forall h', vr_Clear h p fd = inr h' -> keeps h h') /\
  (forall h', vr_Set h p fd v = inr h' -> keeps h h') /\
  (forall h', vr_SetUnknown h p u = inr h' -> keeps h h') /\
  (forall w h', vr_Mutable h p fd = inr (w, h') -> keeps h h').
Proof.
  split; [|split; [|split]]; intros *; intros Hw b Hb.
  1-3: exact (through_copy_keeps _ _ _ _ _ Hw Hb).
  exact (vr_Mutable_keeps _ _ _ _ _ _ Hw Hb).
Qed.

(** After a successful write the caller's cell still holds [x]. *)
Lemma write_keeps_cell (h h' : heap M) a x :
  h !! a = Some x -> keeps h h' -> h' !! a = Some x.
Proof. intros E Hk. rewrite Hk, E; [reflexivity|]. eapply elem_of_dom_2, E. Qed.

(** [Clear] then [Has] on the caller's message reports what it reported
    before, where the runtime's own [Clear] makes [Has] false. *)
Lemma vr_Clear_Has (h : heap M) a x fd h' :
  h !! a = Some x -> vr_Clear h (Some a) fd = inr h' ->
  vr_Has h' (Some a) fd = pm_Has x fd /\
  exists y, pm_Clear x fd = inr y /\ pm_Has y fd = inr false.
Proof.
  intros E Hc. split.
  - apply (vr_reads h' a x (fun _ _ => true) fd (mkOneofDescriptor "")).
    apply (write_keeps_cell h); [exact E|].
    exact (proj1 (vr_writes_keep h (Some a) fd (ValueOfBool true) []) h' Hc).
  - destruct (through_copy_result h a x _ h' E Hc) as [y Hy].
    exists y. split; [exact Hy|]. exact (pm_Clear_Has _ _ _ Hy).
Qed.

(** [Set] then [Get] through the runtime on the caller's message returns
    the old value, where the runtime's own [Set] stores [v]. *)
Lemma vr_Set_Get (h : heap M) a x fd v h' :
  h !! a = Some x -> vr_Set h (Some a) fd v = inr h' ->
  (' y <- deref h' (Some a) ;; pm_Get y fd) = pm_Get x fd /\
  exists y, pm_Set x fd v = inr y /\ pm_Get y fd = inr v.
Proof.
  intros E Hs. split.
  - rewrite (deref_Some h' a x); [reflexivity|].
    apply (write_keeps_cell h); [exact E|].
    exact (proj1 (proj2 (vr_writes_keep h (Some a) fd v [])) h' Hs).
  - destruct (through_copy_result h a x _ h' E Hs) as [y Hy].
    exists y. split; [exact Hy|]. exact (pm_Set_Get _ _ _ _ Hy).
Qed.

(** [Interface()] is the address of the copy: a message equal to the
    caller's, at another address, which no write through it reaches. *)
Lemma vr_Interface_copy (h : heap M) a x q h' :
  h !! a = Some x -> vr_Interface h (Some a) = inr (q, h') ->
  q <> a /\ h' !! q = Some x /\ h' !! a = Some x /\
  (forall f h'', update h' q f = inr h'' -> h'' !! a = Some x).
Proof.
  intros E. unfold vr_Interface. rewrite (receiver_spec _ _ _ E). intros [= <- <-].
  assert (Hne : fresh (dom h) <> a) by (apply fresh_ne; eapply elem_of_dom_2, E).
  assert (Ha : <[fresh (dom h) := x]> h !! a = Some x) by (rewrite lookup_insert_ne; auto).
  split; [exact Hne|]. split; [apply lookup_insert_eq|]. split; [exact Ha|].
  intros f h'' U. rewrite (update_keeps _ _ _ _ _ U); auto.
Qed.

(** [IsValid()] is [true] on a live pointer and panics on nil. *)
Lemma vr_IsValid_spec (h : heap M) p :
  vr_IsValid h p = match p with
                   | Some a => if decide (a ∈ dom h) then inr true else inl nil_deref
                   | None => inl nil_deref
                   end.
Proof.
  destruct p as [a|]; [|reflexivity].
  destruct (decide (a ∈ dom h)) as [Ha|Ha].
  - apply elem_of_dom in Ha as [x E]. unfold vr_IsValid. rewrite (receiver_spec _ _ _ E).
    reflexivity.
  - apply not_elem_of_dom in Ha. unfold vr_IsValid, receiver, deref. rewrite Ha. reflexivity.
Qed.

(** [Range] through a live pointer visits, in declaration order and once
    each, populated fields of the caller's message with their values, all
    of them when the visitor never stops. *)
Lemma vr_Range_spec (h : heap M) a x f :
  h !! a = Some x ->
  exists vis, vr_Range h (Some a) f = inr vis /\
    map fst vis `sublist_of` pm_fields /\
    (forall fd v, In (fd, v) vis -> pm_Has x fd = inr true /\ pm_Get x fd = inr v) /\
    (forallb (fun c => f (fst c) (snd c)) vis = true ->
     forall fd, In fd pm_fields -> pm_Has x fd = inr true -> In fd (map fst vis)).
Proof.
  intros E. unfold vr_Range. erewrite read_copy_spec by exact E.
  apply range_fields_spec. auto.
Qed.

End Contract.

End Runtime.
