(* ===== verification/FooReflect.v ===== *)
(** * FooReflect: the delegating [protoreflect.Message] methods of [Bar]
    and [Hello] (src/proto/foo.pulsar.go)

    [FooRuntime] gives the runtime's reflection of the two messages of
    foo.proto (Runtime.v's [ProtoMessage]) and discharges its laws: the
    fields [cosmos.proto.Bar.baz] (string), [cosmos.proto.Hello.world]
    (string) and [cosmos.proto.Hello.universe] (bool), all proto3 scalars,
    no oneof.  [BarReflect] and [HelloReflect] hold one definition per
    method of foo.pulsar.go whose body is [x.ProtoReflect().M(args)] on a
    value receiver, on the memory of Runtime.v.  The theorems: the writes
    among them never reach the caller's message, [Interface] returns the
    address of a copy, and [IsValid] on a nil pointer panics. *)

From stdpp Require Import base gmap list.
From Stdlib Require Import String ZArith.
From S2P Require Import Prelude Protoreflect Bar Hello Runtime.
Open Scope go_scope.

Module B := Bar.Bar.
Module H := Hello.Hello.

Module FooRuntime.
Import Protoreflect.Protoreflect Runtime.Runtime.

(** ** [cosmos.proto.Bar] *)

Definition baz_fd : FieldDescriptor :=
  mkFieldDescriptor "cosmos.proto.Bar.baz" "baz" false "cosmos.proto.Bar" false.

Definition is_baz (fd : FieldDescriptor) : bool := String.eqb (FullName fd) "cosmos.proto.Bar.baz".

(** The runtime's [Set] of [cosmos.proto.Bar.baz]: it takes a string
    value; anything else makes the runtime panic. *)
Definition Bar_Set (x : B.Bar) (fd : FieldDescriptor) (v : Value) : pres B.Bar :=
  if is_baz fd then
    match v with
    | ValueOfString s => inr (B.mkBar s (B.unknownFields x))
    | _ => inl RuntimePanic
    end
  else inl RuntimePanic.

(** A proto3 string is populated when not empty; [Mutable] panics on a
    scalar field and [WhichOneof] on a message without oneofs. *)
#[export] Instance Bar_runtime : ProtoMessage B.Bar := {
  pm_FullName := "cosmos.proto.Bar";
  pm_zero := B.zero;
  pm_fields := [baz_fd];
  pm_Has x fd := if is_baz fd then inr (0 <? len (B.Baz x)) else inl RuntimePanic;
  pm_Get x fd := if is_baz fd then inr (ValueOfString (B.Baz x)) else inl RuntimePanic;
  pm_Set := Bar_Set;
  pm_Clear x fd := if is_baz fd then inr (B.mkBar [] (B.unknownFields x)) else inl RuntimePanic;
  pm_Mutable _ _ := inl RuntimePanic;
  pm_NewField fd := if is_baz fd then inr (ValueOfString []) else inl RuntimePanic;
  pm_WhichOneof _ _ := inl RuntimePanic;
  pm_GetUnknown := B.unknownFields;
  pm_SetUnknown x u := B.mkBar (B.Baz x) u
}.

(** ** [cosmos.proto.Hello] *)

Definition world_fd : FieldDescriptor :=
  mkFieldDescriptor "cosmos.proto.Hello.world" "world" false "cosmos.proto.Hello" false.
Definition universe_fd : FieldDescriptor :=
  mkFieldDescriptor "cosmos.proto.Hello.universe" "universe" false "cosmos.proto.Hello" false.

Definition is_world (fd : FieldDescriptor) : bool :=
  String.eqb (FullName fd) "cosmos.proto.Hello.world".
Definition is_universe (fd : FieldDescriptor) : bool :=
  String.eqb (FullName fd) "cosmos.proto.Hello.universe".

(** A proto3 scalar is populated when it is not its zero value; [Clear]
    sets it back to that value. *)
Definition Hello_Has (x : H.Hello) (fd : FieldDescriptor) : pres bool :=
  if is_world fd then inr (0 <? len (H.World x))
  else if is_universe fd then inr (H.Universe x)
  else inl RuntimePanic.

Definition Hello_Clear (x : H.Hello) (fd : FieldDescriptor) : pres H.Hello :=
  if is_world fd then inr (H.mkHello [] (H.Universe x) (H.unknownFields x))
  else if is_universe fd then inr (H.mkHello (H.World x) false (H.unknownFields x))
  else inl RuntimePanic.

Definition Hello_Get (x : H.Hello) (fd : FieldDescriptor) : pres Value :=
  if is_world fd then inr (ValueOfString (H.World x))
  else if is_universe fd then inr (ValueOfBool (H.Universe x))
  else inl RuntimePanic.

Definition Hello_Set (x : H.Hello) (fd : FieldDescriptor) (v : Value) : pres H.Hello :=
  if is_world fd then
    match v with
    | ValueOfString s => inr (H.mkHello s (H.Universe x) (H.unknownFields x))
    | _ => inl RuntimePanic
    end
  else if is_universe fd then
    match v with
    | ValueOfBool b => inr (H.mkHello (H.World x) b (H.unknownFields x))
    | _ => inl RuntimePanic
    end
  else inl RuntimePanic.

Definition Hello_NewField (fd : FieldDescriptor) : pres Value :=
  if is_world fd then inr (ValueOfString [])
  else if is_universe fd then inr (ValueOfBool false)
  else inl RuntimePanic.

#[export] Instance Hello_runtime : ProtoMessage H.Hello := {
  pm_FullName := "cosmos.proto.Hello";
  pm_zero := H.zero;
  pm_fields := [world_fd; universe_fd];
  pm_Has := Hello_Has;
  pm_Get := Hello_Get;
  pm_Set := Hello_Set;
  pm_Clear := Hello_Clear;
  pm_Mutable _ _ := inl RuntimePanic;
  pm_NewField := Hello_NewField;
  pm_WhichOneof _ _ := inl RuntimePanic;
  pm_GetUnknown := H.unknownFields;
  pm_SetUnknown x u := H.mkHello (H.World x) (H.Universe x) u
}.

(** ** The laws *)

Arguments Bar_Set : simpl never.
Arguments Hello_Has : simpl never.
Arguments Hello_Clear : simpl never.

Ltac fd_cases :=
  repeat match goal with |- context [String.eqb ?a ?b] => destruct (String.eqb a b) end.

#[export] Instance Bar_laws : ProtoMessageLaws B.Bar.
Proof.
  split; cbn; unfold Bar_Set, is_baz.
  - intros x fd [<-|[]]. eexists. reflexivity.
  - intros x fd [<-|[]]. eexists. reflexivity.
  - intros x y fd. fd_cases; intros [= <-]; reflexivity.
  - intros x y fd v. fd_cases; destruct v; try discriminate. intros [= <-]. reflexivity.
  - reflexivity.
Qed.

#[export] Instance Hello_laws : ProtoMessageLaws H.Hello.
Proof.
  split; cbn; unfold Hello_Get, Hello_Set, Hello_Has, Hello_Clear; unfold is_world, is_universe.
  - intros x fd [<-|[<-|[]]]; eexists; reflexivity.
  - intros x fd [<-|[<-|[]]]; eexists; reflexivity.
  - intros x y fd. fd_cases; try discriminate; intros [= <-]; reflexivity.
  - intros x y fd v. fd_cases; destruct v; try discriminate; intros [= <-]; reflexivity.
  - reflexivity.
Qed.

End FooRuntime.

(** ** The methods of foo.pulsar.go *)

Module BarReflect.
Import Protoreflect.Protoreflect Runtime.Runtime FooRuntime.

(** [func (x *Bar) ProtoReflect() protoreflect.Message] (lines 50-60) *)
Definition ProtoReflect (x : option positive) : MessageRef := Runtime.ProtoReflect x.
(** [func (x Bar) Descriptor() protoreflect.MessageDescriptor] (lines
    121-123), the descriptor by its full name. *)
Definition Descriptor (h : heap B.Bar) (x : option positive) : pres string := vr_Descriptor h x.
(** [func (x Bar) Type() protoreflect.MessageType] (lines 128-130), the
    type by the full name of its descriptor. *)
Definition Type_ (h : heap B.Bar) (x : option positive) : pres string := vr_Descriptor h x.
(** [func (x Bar) New() protoreflect.Message] (lines 133-135) *)
Definition New (h : heap B.Bar) (x : option positive) := vr_New h x.
(** [func (x Bar) Interface() protoreflect.ProtoMessage] (lines 139-141) *)
Definition Interface (h : heap B.Bar) (x : option positive) := vr_Interface h x.
(** [func (x Bar) Range(f)] (lines 148-150) *)
Definition Range (h : heap B.Bar) (x : option positive) f := vr_Range h x f.
(** [func (x Bar) Has(descriptor) bool] (lines 163-165) *)
Definition Has (h : heap B.Bar) (x : option positive) descriptor := vr_Has h x descriptor.
(** [func (x Bar) Clear(descriptor)] (lines 173-175) *)
Definition Clear (h : heap B.Bar) (x : option positive) descriptor := vr_Clear h x descriptor.
(** [func (x Bar) Set(descriptor, value)] (lines 202-204) *)
Definition Set_ (h : heap B.Bar) (x : option positive) descriptor value :=
  vr_Set h x descriptor value.
(** [func (x Bar) Mutable(descriptor) protoreflect.Value] (lines 216-218) *)
Definition Mutable (h : heap B.Bar) (x : option positive) descriptor := vr_Mutable h x descriptor.
(** [func (x Bar) NewField(descriptor) protoreflect.Value] (lines 223-225) *)
Definition NewField (h : heap B.Bar) (x : option positive) descriptor := vr_NewField h x descriptor.
(** [func (x Bar) WhichOneof(descriptor)] (lines 230-232) *)
Definition WhichOneof (h : heap B.Bar) (x : option positive) descriptor :=
  vr_WhichOneof h x descriptor.
(** [func (x Bar) GetUnknown() protoreflect.RawFields] (lines 237-239) *)
Definition GetUnknown (h : heap B.Bar) (x : option positive) := vr_GetUnknown h x.
(** [func (x Bar) SetUnknown(fields)] (lines 248-250) *)
Definition SetUnknown (h : heap B.Bar) (x : option positive) fields := vr_SetUnknown h x fields.
(** [func (x Bar) IsValid() bool] (lines 260-262) *)
Definition IsValid (h : heap B.Bar) (x : option positive) := vr_IsValid h x.
(** [func (x Bar) ProtoMethods() *protoiface.Methods] (lines 270-272):
    [x.GetMethods()], whose closures capture the receiver value. *)
Definition ProtoMethods (h : heap B.Bar) (x : option positive) : pres B.Bar := deref h x.

End BarReflect.

Module HelloReflect.
Import Protoreflect.Protoreflect Runtime.Runtime FooRuntime.

(** [func (x *Hello) ProtoReflect() protoreflect.Message] (lines 298-308) *)
Definition ProtoReflect (x : option positive) : MessageRef := Runtime.ProtoReflect x.
(** [func (x Hello) Descriptor()] (lines 377-379) *)
Definition Descriptor (h : heap H.Hello) (x : option positive) : pres string := vr_Descriptor h x.
(** [func (x Hello) Type()] (lines 384-386) *)
Definition Type_ (h : heap H.Hello) (x : option positive) : pres string := vr_Descriptor h x.
(** [func (x Hello) New()] (lines 389-391) *)
Definition New (h : heap H.Hello) (x : option positive) := vr_New h x.
(** [func (x Hello) Interface()] (lines 395-397) *)
Definition Interface (h : heap H.Hello) (x : option positive) := vr_Interface h x.
(** [func (x Hello) Range(f)] (lines 404-406) *)
Definition Range (h : heap H.Hello) (x : option positive) f := vr_Range h x f.
(** [func (x Hello) Has(descriptor) bool] (lines 419-421) *)
Definition Has (h : heap H.Hello) (x : option positive) descriptor := vr_Has h x descriptor.
(** [func (x Hello) Clear(descriptor)] (lines 429-431) *)
Definition Clear (h : heap H.Hello) (x : option positive) descriptor := vr_Clear h x descriptor.
(** [func (x Hello) Set(descriptor, value)] (lines 460-462) *)
Definition Set_ (h : heap H.Hello) (x : option positive) descriptor value :=
  vr_Set h x descriptor value.
(** [func (x Hello) Mutable(descriptor)] (lines 474-476) *)
Definition Mutable (h : heap H.Hello) (x : option positive) descriptor :=
  vr_Mutable h x descriptor.
(** [func (x Hello) NewField(descriptor)] (lines 481-483) *)
Definition NewField (h : heap H.Hello) (x : option positive) descriptor :=
  vr_NewField h x descriptor.
(** [func (x Hello) WhichOneof(descriptor)] (lines 488-490) *)
Definition WhichOneof (h : heap H.Hello) (x : option positive) descriptor :=
  vr_WhichOneof h x descriptor.
(** [func (x Hello) GetUnknown()] (lines 495-497) *)
Definition GetUnknown (h : heap H.Hello) (x : option positive) := vr_GetUnknown h x.
(** [func (x Hello) SetUnknown(fields)] (lines 506-508) *)
Definition SetUnknown (h : heap H.Hello) (x : option positive) fields := vr_SetUnknown h x fields.
(** [func (x Hello) IsValid() bool] (lines 518-520) *)
Definition IsValid (h : heap H.Hello) (x : option positive) := vr_IsValid h x.
(** [func (x Hello) ProtoMethods()] (lines 528-530) *)
Definition ProtoMethods (h : heap H.Hello) (x : option positive) : pres H.Hello := deref h x.

End HelloReflect.

(** ** Theorems *)

Module FooReflect.
Import Protoreflect.Protoreflect Runtime.Runtime FooRuntime.

(** C20: [Set], [Clear] and [SetUnknown] of [Bar] and [Hello] have value
    receivers: whatever they return, every message the caller could reach
    before the call is unchanged after it. *)
Theorem value_receiver_writes_lost (hb : heap B.Bar) (hh : heap H.Hello) pb ph fd v u :
  (forall h', BarReflect.Set_ hb pb fd v = inr h' -> keeps hb h') /\
  (forall h', BarReflect.Clear hb pb fd = inr h' -> keeps hb h') /\
  (forall h', BarReflect.SetUnknown hb pb u = inr h' -> keeps hb h') /\
  (forall h', HelloReflect.Set_ hh ph fd v = inr h' -> keeps hh h') /\
  (forall h', HelloReflect.Clear hh ph fd = inr h' -> keeps hh h') /\
  (forall h', HelloReflect.SetUnknown hh ph u = inr h' -> keeps hh h').
Proof.
  destruct (vr_writes_keep hb pb fd v u) as (Cb & Sb & Ub & _).
  destruct (vr_writes_keep hh ph fd v u) as (Ch & Sh & Uh & _).
  unfold BarReflect.Set_, BarReflect.Clear, BarReflect.SetUnknown,
    HelloReflect.Set_, HelloReflect.Clear, HelloReflect.SetUnknown.
  tauto.
Qed.

(** C22: [Interface()] returns the address of the receiver's copy: it
    holds the caller's message, it is another address, and a [Set] of
    the runtime through it leaves the caller's message as it was. *)
Theorem Interface_copy (h : heap H.Hello) a x q h' :
  h !! a = Some x -> HelloReflect.Interface h (Some a) = inr (q, h') ->
  q <> a /\ h' !! q = Some x /\
  forall fd v h'', update h' q (fun y => Hello_Set y fd v) = inr h'' -> h'' !! a = Some x.
Proof.
  intros E Hi. destruct (vr_Interface_copy h a x q h' E Hi) as (Hne & Hq & _ & Hu).
  split; [exact Hne|]. split; [exact Hq|]. intros fd v. apply Hu.
Qed.

(** [IsValid()] of [Bar] and [Hello] panics on a nil pointer, where
    the message [ProtoReflect()] returns for it reports [false]; on a live
    pointer it is [true]. *)
Theorem IsValid_nil_panics (hb : heap B.Bar) (hh : heap H.Hello) :
  ms_IsValid (BarReflect.ProtoReflect None) = false /\
  BarReflect.IsValid hb None = inl nil_deref /\
  ms_IsValid (HelloReflect.ProtoReflect None) = false /\
  HelloReflect.IsValid hh None = inl nil_deref /\
  (forall a, a ∈ dom hb -> BarReflect.IsValid hb (Some a) = inr true) /\
  (forall a, a ∈ dom hh -> HelloReflect.IsValid hh (Some a) = inr true).
Proof.
  unfold BarReflect.IsValid, HelloReflect.IsValid.
  do 4 (split; [reflexivity|]).
  split; intros a Ha; rewrite vr_IsValid_spec, decide_True by exact Ha; reflexivity.
Qed.

(** ** Witnesses *)

Definition hello1 : H.Hello := H.mkHello [1] true [].
Definition hello_heap : heap H.Hello := {[1%positive := hello1]}.

Lemma value_receiver_writes_lost_witness :
  exists h', HelloReflect.Clear hello_heap (Some 1%positive) world_fd = inr h' /\
    keeps hello_heap h' /\ h' !! 1%positive = Some (hello1).
Proof.
  destruct (HelloReflect.Clear hello_heap (Some 1%positive) world_fd) as [e|h'] eqn:Hc.
  { vm_compute in Hc. discriminate. }
  pose proof (proj1 (proj2 (proj2 (proj2 (proj2 (value_receiver_writes_lost ∅ hello_heap None
    (Some 1%positive) world_fd (ValueOfBool true) []))))) h' Hc) as K.
  exists h'. split; [reflexivity|]. split; [exact K|].
  rewrite K; [reflexivity|]. apply (elem_of_dom_2 _ _ (hello1)). reflexivity.
Defined.

Lemma Interface_copy_witness :
  exists q h', HelloReflect.Interface hello_heap (Some 1%positive) = inr (q, h') /\
    q <> 1%positive /\ h' !! q = Some (hello1).
Proof.
  destruct (HelloReflect.Interface hello_heap (Some 1%positive)) as [e|[q h']] eqn:Hi.
  { vm_compute in Hi. discriminate. }
  destruct (Interface_copy hello_heap 1%positive (hello1) q h' eq_refl Hi)
    as (Hne & Hq & _).
  exists q, h'. split; [reflexivity|]. split; [exact Hne|exact Hq].
Defined.

End FooReflect.
