(* ===== verification/ImportMessage.v ===== *)
(** * ImportMessage: the fast-reflection code generated for an empty message

    src/internal/testprotos/test3/test_import.pulsar.go: [ImportMessage]
    has no field, only its unknown fields.  Its [fastReflection_ImportMessage]
    methods answer every field descriptor with a panic, [GetUnknown] and
    [SetUnknown] read and write the unknown fields, and [ProtoMethods]
    returns the [size], [marshal] and [unmarshal] closures: [marshal]
    appends the encoding to [input.Buf], [unmarshal] is the shared loop of
    Unmarshal.v with no [case] and honours [DiscardUnknown].  A message
    pointer is [option ImportMessage], [None] for [nil]; the [unmarshal]
    closure returns the message it mutated.  [ImportEnum] is its enum. *)

From Stdlib Require Import String ZArith List Lia.
From S2P Require Import Prelude Varint Skip Protoreflect Unmarshal Marshal.
Import ListNotations.
Open Scope Z_scope.
Open Scope go_scope.

Module U := Unmarshal.Unmarshal.

Module ImportMessage.
Import Protoreflect.Protoreflect Skip.Skip Marshal.Marshal.

(** [type ImportMessage struct { state; sizeCache; unknownFields }] *)
Record ImportMessage := mkImportMessage { unknownFields : bytes }.

(** [ImportMessage{}] *)
Definition zero : ImportMessage := mkImportMessage [].

(** [func (x *ImportMessage) Reset()]: [*x = ImportMessage{}]. *)
Definition Reset (x : ImportMessage) : ImportMessage := zero.

(** The [default:] of every [switch fd.FullName()] of the accessors
    (lines 102-108): an extension panics first, any other field second. *)
Definition no_such_field (fd : FieldDescriptor) : gopanic :=
  if IsExtension fd then
    Panic "proto3 declared messages do not support extensions: goproto.proto.test3.ImportMessage"
  else
    Panic (String.append "message goproto.proto.test3.ImportMessage does not contain field "
                         (FullName fd)).

(** [Range] (lines 87-88) calls [f] on no field: the list of calls is empty. *)
Definition Range (x : ImportMessage) (f : FieldDescriptor -> Value -> bool)
  : list (FieldDescriptor * Value) := [].

(** [Has] (lines 101-109) *)
Definition Has (x : ImportMessage) (fd : FieldDescriptor) : pres bool :=
  inl (no_such_field fd).

(** [Clear] (lines 117-125) *)
Definition Clear (x : ImportMessage) (fd : FieldDescriptor) : pres ImportMessage :=
  inl (no_such_field fd).

(** [Get] (lines 133-141) *)
Definition Get (x : ImportMessage) (fd : FieldDescriptor) : pres Value :=
  inl (no_such_field fd).

(** [Set] (lines 153-161) *)
Definition Set_ (x : ImportMessage) (fd : FieldDescriptor) (v : Value) : pres ImportMessage :=
  inl (no_such_field fd).

(** [Mutable] (lines 173-181) *)
Definition Mutable (x : ImportMessage) (fd : FieldDescriptor) : pres Value :=
  inl (no_such_field fd).

(** [NewField] (lines 186-194) *)
Definition NewField (x : ImportMessage) (fd : FieldDescriptor) : pres Value :=
  inl (no_such_field fd).

(** [WhichOneof] (lines 199-205) *)
Definition WhichOneof (x : ImportMessage) (d : OneofDescriptor) : pres FieldDescriptor :=
  inl (Panic (String.append (OneofFullName d)
                " is not a oneof field in goproto.proto.test3.ImportMessage")).

(** [GetUnknown] (lines 210-212) *)
Definition GetUnknown (x : ImportMessage) : bytes := unknownFields x.

(** [SetUnknown] (lines 221-223) *)
Definition SetUnknown (x : ImportMessage) (fields : bytes) : ImportMessage :=
  mkImportMessage fields.

(** [IsValid] (lines 233-235): [x != nil]. *)
Definition IsValid (x : option ImportMessage) : bool :=
  match x with Some _ => true | None => false end.

(** The [size] closure of [ProtoMethods] (lines 244-264). *)
Definition size (input : option ImportMessage) : Z :=
  match input with
  | None => 0
  | Some x =>
    let n := 0 in
    if negb (is_nil (unknownFields x)) then n + len (unknownFields x) else n
  end.

(** The [marshal] closure (lines 266-295): [options.Size(x)] is the [size]
    closure; the encoding is appended to [input.Buf].  [None]: a panic. *)
Definition marshal (Buf : bytes) (input : option ImportMessage) : option bytes :=
  match input with
  | None => Some Buf
  | Some x =>
    let size := size (Some x) in
    let dAtA := repeat 0 (Z.to_nat size) in
    let i := len dAtA in
    ' (dAtA, i) <-? marshal_unknownFields dAtA i (unknownFields x) ;;
    Some (if negb (is_nil Buf) then Buf ++ dAtA else dAtA)
  end.

(** The [switch fieldNum] of the [unmarshal] closure has only [default:]. *)
#[export] Instance ImportMessage_switch : U.MessageSwitch ImportMessage := {
  U.msg_name := "ImportMessage";
  U.unknownFields := unknownFields;
  U.set_unknownFields m u := mkImportMessage u;
  U.field_switch _ _ _ _ _ _ := None;
  U.is_known _ := false
}.

(** The [unmarshal] closure (lines 296-358), with
    [options.DiscardUnknown]; [runtime.Skip] is [skip]. *)
Definition unmarshal (DiscardUnknown : bool) (Buf : bytes) (input : option ImportMessage)
  : option ImportMessage * option goerr :=
  match input with
  | None => (None, None)
  | Some x => let '(x, err) := U.unmarshal DiscardUnknown Buf x in (Some x, err)
  end.

(** [type ImportEnum int32] with [ImportEnum_name] and [ImportEnum_value]
    (lines 387-401). *)
Definition ImportEnum_IMPORT_ZERO : Z := 0.

Definition ImportEnum_name (n : Z) : option string :=
  if n =? 0 then Some "IMPORT_ZERO"%string else None.

Definition ImportEnum_value (s : string) : option Z :=
  if String.eqb s "IMPORT_ZERO" then Some 0 else None.

(** ** Theorems *)

#[export] Instance ImportMessage_laws : U.MessageSwitchLaws ImportMessage.
Proof. split; try reflexivity; try discriminate. intros []; reflexivity. Qed.

Lemma size_len x : size (Some x) = len (unknownFields x).
Proof. cbn. destruct (unknownFields x); reflexivity. Qed.

(** The [marshal] closure appends the unknown fields to [input.Buf]. *)
Theorem marshal_appends Buf x : marshal Buf (Some x) = Some (Buf ++ unknownFields x).
Proof.
  cbv beta iota zeta delta [marshal]. rewrite size_len.
  assert (Hr : len (repeat 0 (Z.to_nat (len (unknownFields x)))) = len (unknownFields x)).
  { unfold len. rewrite repeat_length. lia. }
  rewrite marshal_unknownFields_put by (len_pos; lia). rewrite Hr, Z.sub_diag.
  rewrite put_all_Z by (rewrite Hr; reflexivity).
  destruct Buf; reflexivity.
Qed.

(** C21: For every sequence of well-formed wire records, the [unmarshal]
    closure of [ImportMessage] (which has no fields) appends their bytes to
    the unknown fields, or drops them when [DiscardUnknown] is set, and
    reports no error. *)
Theorem unmarshal_records DiscardUnknown rs x :
  forallb wrec_ok rs = true -> len (enc_wrecs rs) < 2 ^ 63 ->
  unmarshal DiscardUnknown (enc_wrecs rs) (Some x)
  = (Some (if DiscardUnknown then x else mkImportMessage (unknownFields x ++ enc_wrecs rs)), None).
Proof.
  intros Hok H63. unfold unmarshal.
  pose proof (U.unmarshal_fields DiscardUnknown [] rs x (Forall_nil _) Hok
                (proj2 (Forall_forall _ _) (fun r _ => eq_refl)) H63) as E.
  cbn [map concat app] in E. rewrite E. destruct DiscardUnknown; reflexivity.
Qed.

(** ** Witnesses, on the message with no field *)

Lemma unmarshal_records_witness :
  unmarshal false (enc_wrecs [WVarint 2 1]) (Some zero)
  = (Some (mkImportMessage (unknownFields zero ++ enc_wrecs [WVarint 2 1])), None).
Proof. apply (unmarshal_records false); vm_compute; reflexivity. Defined.

Lemma unmarshal_terminates_witness :
  U.unmarshal_loop false 10 [8; 1; 16; 2] (len [8; 1; 16; 2]) 0 zero = U.unmarshal false [8; 1; 16; 2] zero.
Proof. apply U.unmarshal_terminates; [vm_compute; reflexivity | simpl; lia]. Defined.

Lemma unmarshal_end_group_witness :
  U.unmarshal false (tag 1 4 ++ []) zero = (zero, Some (ErrEndGroupForNonGroup "ImportMessage")).
Proof. exact (U.unmarshal_end_group false 1 [] zero eq_refl). Defined.

Lemma unmarshal_illegal_tag_witness :
  U.unmarshal false [0] zero = (zero, Some (ErrIllegalTag "ImportMessage" 0 0)).
Proof. refine (U.unmarshal_illegal_tag false 0 [] zero _ _); lia. Defined.

End ImportMessage.
