(* ===== verification/FastReflection.v ===== *)
(** * FastReflection: the generators of [Has] and [Get]

    src/features/fastreflection/has.go and get.go print, for a message,
    [func (x *T) Has(fd) bool] and [func (x *T) Get(descriptor) Value]:
    a [switch] on the descriptor's full name with one [case] per field and
    a [default:] that panics.  [hasGen_genField] and [getGen_genFieldGetter]
    are what the generators print for one field, as a small syntax of the
    generated statements ([HasBody], [GetBody]); a generator's own [panic]
    is an [inl].  [run_has] and [run_get] give the printed code its Go
    meaning on a message state, a map from the struct's Go field names to
    Go values (a oneof's interface field holds the wrapper type's name and
    its payload).  [spec_has] and [spec_get] are the presence contract of
    [protoreflect.Message] that the generated comments and the
    specification state; the theorems say where the generated code
    implements it and where it does not. *)

From stdpp Require Import base strings gmap.
From Stdlib Require Import ZArith.
From S2P Require Import Prelude Protoreflect.
Open Scope go_scope.

Module FastReflection.
Import Protoreflect.Protoreflect.

#[export] Instance Kind_eq_dec : EqDecision Kind.
Proof. solve_decision. Defined.

(** A [*protogen.Field], by what the generators read of it. *)
Record Field := mkField {
  GoName : string;                 (** [field.GoName] *)
  GoIdent : string;                (** [field.GoIdent], the oneof wrapper type *)
  FieldFullName : string;          (** [field.Desc.FullName()] *)
  FieldKind : Kind;                (** [field.Desc.Kind()] *)
  HasPresence : bool;              (** [field.Desc.HasPresence()] *)
  IsList : bool;                   (** [field.Desc.IsList()] *)
  IsMap : bool;                    (** [field.Desc.IsMap()] *)
  Oneof : option string            (** [field.Oneof.GoName] when [field.Oneof] is set, that is when [field.Desc.ContainingOneof()] is, a synthetic oneof included *)
}.

(** A [*protogen.Message]: its full name and fields in declaration order. *)
Record Message := mkMessage { MsgFullName : string; Fields : list Field }.

(** A Go value held by a struct field: a nil pointer, slice, map or
    interface is [GNil]; a list or map is known by its length; a message
    pointer by its address; a oneof interface by its wrapper type and
    payload.  Numbers of every kind are compared with their zero only. *)
Inductive GoValue :=
| GNil
| GBool (b : bool)
| GNum (z : Z)
| GStr (s : list Z)
| GBytes (b : list Z)
| GList (n : nat)
| GMap (n : nat)
| GMsg (ptr : Z)
| GOneof (ident : string) (v : GoValue).

#[export] Instance GoValue_eq_dec : EqDecision GoValue.
Proof. solve_decision. Defined.

(** [len(v)] of a string, slice or map; [len] of nil is 0. *)
Definition golen (v : GoValue) : nat :=
  match v with
  | GStr s | GBytes s => length s
  | GList n | GMap n => n
  | _ => 0
  end.

(** [zeroValueForField(nil, field)]: the zero value of the field's kind. *)
Definition zeroValueForField (f : Field) : GoValue :=
  match FieldKind f with
  | BoolKind => GBool false
  | StringKind => GStr []
  | BytesKind | MessageKind | GroupKind => GNil
  | _ => GNum 0
  end.

(** A message state: [x.F] for each Go field name [F]. *)
Definition state := gmap string GoValue.

Definition field_val (x : state) (n : string) : GoValue := default GNil (x !! n).

(** The first [case] of a [switch] on a string that matches. *)
Fixpoint switch_case {A} (cases : list (string * A)) (name : string) : option A :=
  match cases with
  | [] => None
  | (c, a) :: cases => if String.eqb c name then Some a else switch_case cases name
  end.

(** ** has.go *)

(** The statement printed under a field's [case] in [Has]. *)
Inductive HasBody :=
| ReturnOneofNotNil (oneof : string)     (** [return x.<Oneof> != nil] *)
| ReturnLenNotZero (goname : string)     (** [return len(x.<F>) != 0] *)
| ReturnNotNil (goname : string)         (** [return x.<F> != nil] *)
| ReturnNotZero (goname : string) (zero : GoValue).  (** [return x.<F> != <zero>] *)

(** [func (g *hasGen) genNullable(field)] (has.go lines 63-74). *)
Definition genNullable (f : Field) : pres HasBody :=
  match Oneof f with
  | Some o => inr (ReturnOneofNotNil o)
  | None =>
    if (IsMap f || IsList f)%bool then inr (ReturnLenNotZero (GoName f))
    else if bool_decide (FieldKind f = MessageKind) then inr (ReturnNotNil (GoName f))
    else inl (Panic "unknown case")
  end.

(** [func (g *hasGen) genField(field)] (has.go lines 48-61). *)
Definition hasGen_genField (f : Field) : pres (string * HasBody) :=
  if (HasPresence f || IsList f || IsMap f)%bool then
    b <- genNullable f ;; inr (FieldFullName f, b)
  else if bool_decide (FieldKind f = BytesKind) then
    inr (FieldFullName f, ReturnLenNotZero (GoName f))
  else inr (FieldFullName f, ReturnNotZero (GoName f) (zeroValueForField f)).

(** [func (g *hasGen) generate()] (has.go lines 35-46): the cases in field
    order; the first field whose generation panics stops it. *)
Fixpoint hasGen_cases (fs : list Field) : pres (list (string * HasBody)) :=
  match fs with
  | [] => inr []
  | f :: fs => c <- hasGen_genField f ;; cs <- hasGen_cases fs ;; inr (c :: cs)
  end.

Definition hasGen_generate (m : Message) : pres (list (string * HasBody)) :=
  hasGen_cases (Fields m).

Definition run_has_body (x : state) (b : HasBody) : bool :=
  match b with
  | ReturnOneofNotNil o => bool_decide (field_val x o <> GNil)
  | ReturnLenNotZero n => negb (Nat.eqb (golen (field_val x n)) 0)
  | ReturnNotNil n => bool_decide (field_val x n <> GNil)
  | ReturnNotZero n z => bool_decide (field_val x n <> z)
  end.

(** The printed [Has], run on [x]; the [default:] panics with
    [message <M> does not have field <fd.Name()>]. *)
Definition run_has (m : Message) (cases : list (string * HasBody)) (x : state)
    (fd : FieldDescriptor) : pres bool :=
  match switch_case cases (FullName fd) with
  | Some b => inr (run_has_body x b)
  | None => inl (Panic (String.append "message " (String.append (MsgFullName m)
                 (String.append " does not have field " (Name fd)))))
  end.

(** The presence contract: a oneof member is populated when its oneof holds
    it; a list or map when non-empty; another field with explicit presence
    when set; bytes when non-empty; any other scalar when not zero. *)
Definition spec_has (f : Field) (x : state) : bool :=
  match Oneof f with
  | Some o =>
    match field_val x o with
    | GOneof id _ => String.eqb id (GoIdent f)
    | _ => false
    end
  | None =>
    if (IsList f || IsMap f)%bool then negb (Nat.eqb (golen (field_val x (GoName f))) 0)
    else if HasPresence f then bool_decide (field_val x (GoName f) <> GNil)
    else if bool_decide (FieldKind f = BytesKind)
    then negb (Nat.eqb (golen (field_val x (GoName f))) 0)
    else bool_decide (field_val x (GoName f) <> zeroValueForField f)
  end.

(** ** get.go *)

(** The [protoreflect.ValueOf...] constructors genFieldGetter prints by
    name, and the argument it prints after the constructor. *)
Inductive Ctor :=
| CBool | CEnum | CInt32 | CUint32 | CInt64 | CUint64 | CFloat32 | CFloat64
| CString | CBytes | CMessage.

Inductive Arg :=
| AValue          (** [(value)] *)
| AEnumNumber     (** [((protoreflect.EnumNumber)(value))] *)
| AProtoReflect.  (** [(value.ProtoReflect())] *)

(** The statements printed under a field's [case] in [Get]. *)
Inductive GetBody :=
(** [genOneofGetter]: when [x.<Oneof> == nil], [return <C>(<unset>)];
    when [x.<Oneof>] holds a pointer to the wrapper [<Ident>],
    [return <C>(<arg v.F>)]; otherwise [return <C>(<unset>)]; [C] is
    [kindToValueConstructor(k)] *)
| GetOneof (oneof ident : string) (k : Kind) (unset : GoValue) (a : Arg)
| GetNotImplemented                   (** [value := x.F; _ = value; panic("not implemented")] *)
| GetValue (goname : string) (c : Ctor) (a : Arg).  (** [value := x.F; return <C>(<arg value>)] *)

(** The [switch field.Desc.Kind()] of genFieldGetter (get.go lines 70-94). *)
Definition genFieldGetter_kind (k : Kind) : Ctor * Arg :=
  match k with
  | BoolKind => (CBool, AValue)
  | EnumKind => (CEnum, AEnumNumber)
  | Int32Kind | Sint32Kind | Sfixed32Kind => (CInt32, AValue)
  | Uint32Kind | Fixed32Kind => (CUint32, AValue)
  | Int64Kind | Sint64Kind | Sfixed64Kind => (CInt64, AValue)
  | Uint64Kind | Fixed64Kind => (CUint64, AValue)
  | FloatKind => (CFloat32, AValue)
  | DoubleKind => (CFloat64, AValue)
  | StringKind => (CString, AValue)
  | BytesKind => (CBytes, AValue)
  | MessageKind | GroupKind => (CMessage, AProtoReflect)
  end.

(** [func (g *getGen) genOneofGetter(fd)] (get.go lines 97-126): a
    message member prints [(nil)] when unset and [(v.F.ProtoReflect())]
    when set, an enum [((protoreflect.EnumNumber)(v.F))], any other kind
    [zeroValueForField] and [(v.F)]. *)
Definition genOneofGetter (o : string) (f : Field) : GetBody :=
  match FieldKind f with
  | MessageKind => GetOneof o (GoIdent f) MessageKind GNil AProtoReflect
  | EnumKind => GetOneof o (GoIdent f) EnumKind (zeroValueForField f) AEnumNumber
  | k => GetOneof o (GoIdent f) k (zeroValueForField f) AValue
  end.

(** [func (g *getGen) genFieldGetter(field)] (get.go lines 52-68). *)
Definition getGen_genFieldGetter (f : Field) : GetBody :=
  match Oneof f with
  | Some o => genOneofGetter o f
  | None =>
    if IsMap f then GetNotImplemented
    else if IsList f then GetNotImplemented
    else let '(c, a) := genFieldGetter_kind (FieldKind f) in GetValue (GoName f) c a
  end.

(** [func (g *getGen) generate()] (get.go lines 14-30): one case per field. *)
Definition getGen_generate (m : Message) : list (string * GetBody) :=
  map (fun f => (FieldFullName f, getGen_genFieldGetter f)) (Fields m).

(** [kindToValueConstructor(kind)(v)]: the [protoreflect.ValueOf...] of the
    kind applied to the Go value. *)
Definition valueOf (k : Kind) (v : GoValue) : Value :=
  let num := match v with GNum z => z | _ => 0 end in
  match k with
  | BoolKind => ValueOfBool (match v with GBool b => b | _ => false end)
  | EnumKind => ValueOfEnum num
  | Int32Kind | Sint32Kind | Sfixed32Kind => ValueOfInt32 num
  | Uint32Kind | Fixed32Kind => ValueOfUint32 num
  | Int64Kind | Sint64Kind | Sfixed64Kind => ValueOfInt64 num
  | Uint64Kind | Fixed64Kind => ValueOfUint64 num
  | FloatKind => ValueOfFloat32 num
  | DoubleKind => ValueOfFloat64 num
  | StringKind => ValueOfString (match v with GStr s => s | _ => [] end)
  | BytesKind => ValueOfBytes (match v with GBytes b => b | _ => [] end)
  | MessageKind | GroupKind => ValueOfMessage (match v with GMsg p => Some p | _ => None end)
  end.

(** The printed argument: the conversion to [EnumNumber] keeps the number,
    [ProtoReflect()] of a message pointer is the message at its address
    and of nil the invalid message. *)
Definition arg_value (a : Arg) (v : GoValue) : GoValue :=
  match a, v with
  | AProtoReflect, GMsg p => GMsg p
  | AProtoReflect, _ => GNil
  | _, v => v
  end.

(** [protoreflect.ValueOf<C>(v)], the constructor printed by name. *)
Definition ctor_value (c : Ctor) (v : GoValue) : Value :=
  let num := match v with GNum z => z | _ => 0 end in
  match c with
  | CBool => ValueOfBool (match v with GBool b => b | _ => false end)
  | CEnum => ValueOfEnum num
  | CInt32 => ValueOfInt32 num
  | CUint32 => ValueOfUint32 num
  | CInt64 => ValueOfInt64 num
  | CUint64 => ValueOfUint64 num
  | CFloat32 => ValueOfFloat32 num
  | CFloat64 => ValueOfFloat64 num
  | CString => ValueOfString (match v with GStr s => s | _ => [] end)
  | CBytes => ValueOfBytes (match v with GBytes b => b | _ => [] end)
  | CMessage => ValueOfMessage (match v with GMsg p => Some p | _ => None end)
  end.

Definition run_get_body (x : state) (b : GetBody) : pres Value :=
  match b with
  | GetOneof o id k unset a =>
    match field_val x o with
    | GNil => inr (valueOf k unset)
    | GOneof id' v => if String.eqb id' id then inr (valueOf k (arg_value a v)) else inr (valueOf k unset)
    | _ => inr (valueOf k unset)
    end
  | GetNotImplemented => inl (Panic "not implemented")
  | GetValue n c a => inr (ctor_value c (arg_value a (field_val x n)))
  end.

(** The printed [Get], run on [x]: first [genGetExtension] (get.go lines
    41-50), then the [switch]. *)
Definition run_get (m : Message) (cases : list (string * GetBody)) (x : state)
    (descriptor : FieldDescriptor) : pres Value :=
  if (IsExtension descriptor && String.eqb (ContainingMessage descriptor) (MsgFullName m))%bool
  then
    if negb (IsExtensionTypeDescriptor descriptor) then
      inl (Panic (String.append (FullName descriptor)
             ": extension field descriptor does not implement ExtensionTypeDescriptor"))
    else inl (Panic "implement xt logic")
  else
    match switch_case cases (FullName descriptor) with
    | Some b => run_get_body x b
    | None => inl (Panic (String.append "message " (String.append (MsgFullName m)
                   (String.append " does not contain field " (FullName descriptor)))))
    end.

(** The contract of [Get] for a singular field: the value of the field
    when [Has] reports it populated under the presence contract, else the
    default value of its kind; a field without presence holds its zero
    value when unpopulated, so its value is returned as it is. *)
Definition spec_get (f : Field) (x : state) : Value :=
  match Oneof f with
  | Some o =>
    if spec_has f x
    then valueOf (FieldKind f) (match field_val x o with GOneof _ v => v | _ => GNil end)
    else valueOf (FieldKind f) (zeroValueForField f)
  | None => valueOf (FieldKind f) (field_val x (GoName f))
  end.

(** ** A sample message for the witnesses

    [message Test { oneof kind { string a = 1; int32 b = 2; }
    repeated int32 l = 3; bytes c = 4; }] and a proto2 [message Test2
    { optional int32 o = 1; }], as protogen describes them. *)

Definition test_a : Field := mkField "A" "Test_A" "pkg.Test.a" StringKind true false false (Some "Kind").
Definition test_b : Field := mkField "B" "Test_B" "pkg.Test.b" Int32Kind true false false (Some "Kind").
Definition test_l : Field := mkField "L" "Test_L" "pkg.Test.l" Int32Kind false true false None.
Definition test_c : Field := mkField "C" "Test_C" "pkg.Test.c" BytesKind false false false None.
Definition test_msg : Message := mkMessage "pkg.Test" [test_a; test_b; test_l; test_c].
Definition test_o : Field := mkField "O" "Test2_O" "pkg.Test2.o" Int32Kind true false false None.
Definition test2_msg : Message := mkMessage "pkg.Test2" [test_c; test_o].

(** What has.go prints for [Test]. *)
Definition test_has_cases : list (string * HasBody) :=
  [("pkg.Test.a", ReturnOneofNotNil "Kind"); ("pkg.Test.b", ReturnOneofNotNil "Kind");
   ("pkg.Test.l", ReturnLenNotZero "L"); ("pkg.Test.c", ReturnLenNotZero "C")].

(** A [Test] whose oneof holds [b = 5] and whose [c] is [0x01]. *)
Definition test_state : state := <["Kind" := GOneof "Test_B" (GNum 5)]> (<["C" := GBytes [1]]> ∅).

(** The descriptor of a field, as the runtime passes it. *)
Definition fd_of (m : Message) (f : Field) : FieldDescriptor :=
  mkFieldDescriptor (FieldFullName f) (GoName f) false (MsgFullName m) false.

(** ** Lemmas on the generated switch *)

Lemma switch_case_map {A} (key : Field -> string) (body : Field -> A) fs f :
  NoDup (map key fs) -> In f fs ->
  switch_case (map (fun g => (key g, body g)) fs) (key f) = Some (body f).
Proof.
  induction fs as [|g fs IH]; intros Hnd Hin; [destruct Hin|].
  inversion Hnd as [|? ? Hg Hnd']; subst. cbn.
  destruct Hin as [<-|Hin].
  - rewrite String.eqb_refl. reflexivity.
  - destruct (String.eqb_spec (key g) (key f)) as [E|]; [|auto].
    exfalso. apply Hg. rewrite E. apply list_elem_of_In, in_map. assumption.
Qed.

Lemma hasGen_genField_key f c : hasGen_genField f = inr c -> fst c = FieldFullName f.
Proof.
  unfold hasGen_genField. destruct (HasPresence f || IsList f || IsMap f)%bool;
    [destruct (genNullable f)|destruct (bool_decide _)]; cbn; intros H;
    try discriminate; injection H as <-; reflexivity.
Qed.

(** Every panic of the [Has] generator is [panic("unknown case")]. *)
Lemma hasGen_genField_panic f p : hasGen_genField f = inl p -> p = Panic "unknown case".
Proof.
  unfold hasGen_genField, genNullable.
  destruct (HasPresence f || IsList f || IsMap f)%bool; [|destruct (bool_decide _); discriminate].
  destruct (Oneof f); [discriminate|].
  destruct (IsMap f || IsList f)%bool; [discriminate|].
  destruct (bool_decide _); congruence.
Qed.

(** With distinct full names (a Go [switch] rejects duplicate cases), the
    generated [switch] reaches each field's own case. *)
Lemma hasGen_cases_switch fs cs f :
  NoDup (map FieldFullName fs) -> hasGen_cases fs = inr cs -> In f fs ->
  exists b, hasGen_genField f = inr (FieldFullName f, b) /\
            switch_case cs (FieldFullName f) = Some b.
Proof.
  revert cs. induction fs as [|g fs IH]; intros cs Hnd H Hin; [destruct Hin|].
  inversion Hnd as [|? ? Hg Hnd']; subst. cbn in H.
  destruct (hasGen_genField g) as [|[k bg]] eqn:Eg; [discriminate|].
  destruct (hasGen_cases fs) as [|cs'] eqn:Efs; [discriminate|]. injection H as <-.
  pose proof (hasGen_genField_key g (k, bg) Eg) as Hk. cbn in Hk. subst k.
  destruct Hin as [<-|Hin].
  - exists bg. cbn. rewrite String.eqb_refl. auto.
  - destruct (IH cs' Hnd' eq_refl Hin) as [b [Hb Hs]]. exists b. split; [assumption|].
    cbn. destruct (String.eqb_spec (FieldFullName g) (FieldFullName f)) as [E|]; [|assumption].
    exfalso. apply Hg. rewrite E. apply list_elem_of_In, in_map. assumption.
Qed.

(** The generated [Get] reaches the field's own case. *)
Lemma get_switch m f x fd :
  NoDup (map FieldFullName (Fields m)) -> In f (Fields m) ->
  FullName fd = FieldFullName f -> IsExtension fd = false ->
  run_get m (getGen_generate m) x fd = run_get_body x (getGen_genFieldGetter f).
Proof.
  intros Hnd Hin Hfd Hx. unfold run_get, getGen_generate. rewrite Hx, Hfd. cbn.
  rewrite (switch_case_map FieldFullName getGen_genFieldGetter) by assumption. reflexivity.
Qed.

(** The constructor and argument of get.go's kind switch build the value
    [kindToValueConstructor] builds, for every kind and Go value. *)
Lemma genFieldGetter_kind_valueOf k v :
  ctor_value (fst (genFieldGetter_kind k)) (arg_value (snd (genFieldGetter_kind k)) v) =
  valueOf k v.
Proof. destruct k, v; reflexivity. Qed.

(** What the printed oneof getter returns: the member's value when the
    oneof holds it, else the zero value of its kind. *)
Lemma genOneofGetter_run o f x :
  run_get_body x (genOneofGetter o f) =
  inr (match field_val x o with
       | GOneof id v => if String.eqb id (GoIdent f) then valueOf (FieldKind f) v
                        else valueOf (FieldKind f) (zeroValueForField f)
       | _ => valueOf (FieldKind f) (zeroValueForField f)
       end).
Proof.
  unfold genOneofGetter, zeroValueForField.
  destruct (FieldKind f); cbn; destruct (field_val x o) as [| | | | | | | |id v]; try reflexivity;
    destruct (String.eqb id (GoIdent f)); try reflexivity; destruct v; reflexivity.
Qed.

(** ** Has *)

(** C16: Outside oneofs, the generated [Has] is the presence contract: for every
    field the generator accepts and every message state. *)
Theorem run_has_spec m cs f x fd :
  NoDup (map FieldFullName (Fields m)) -> hasGen_generate m = inr cs -> In f (Fields m) ->
  Oneof f = None -> FullName fd = FieldFullName f ->
  run_has m cs x fd = inr (spec_has f x).
Proof.
  intros Hnd Hg Hin Ho Hfd.
  destruct (hasGen_cases_switch _ _ f Hnd Hg Hin) as [b [Hb Hs]].
  unfold run_has. rewrite Hfd, Hs. f_equal.
  unfold hasGen_genField, genNullable in Hb. unfold spec_has. rewrite Ho in *.
  destruct (HasPresence f), (IsList f), (IsMap f); cbn in Hb |- *;
    repeat case_bool_decide; simplify_eq; cbn [run_has_body];
    repeat case_bool_decide; first [reflexivity | contradiction].
Qed.

(** C15: A oneof member's generated [Has] is [x.<Oneof> != nil]: it answers true
    when the oneof holds a sibling, where the contract, and the generated
    [Get] itself, treat the member as unset. *)
Theorem run_has_oneof_sibling m cs f x fd o id v :
  NoDup (map FieldFullName (Fields m)) -> hasGen_generate m = inr cs -> In f (Fields m) ->
  HasPresence f = true -> Oneof f = Some o -> FullName fd = FieldFullName f ->
  IsExtension fd = false -> field_val x o = GOneof id v -> id <> GoIdent f ->
  run_has m cs x fd = inr true /\ spec_has f x = false /\
  run_get m (getGen_generate m) x fd = inr (valueOf (FieldKind f) (zeroValueForField f)).
Proof.
  intros Hnd Hg Hin Hp Ho Hfd Hx Hv Hid.
  destruct (hasGen_cases_switch _ _ f Hnd Hg Hin) as [b [Hb Hs]].
  unfold hasGen_genField, genNullable in Hb. rewrite Hp, Ho in Hb. cbn in Hb. simplify_eq.
  rewrite (get_switch m f) by assumption. unfold getGen_genFieldGetter. rewrite Ho, genOneofGetter_run.
  unfold run_has, spec_has. rewrite Hfd, Hs, Ho, Hv. cbn. rewrite Hv.
  destruct (String.eqb_spec id (GoIdent f)); [contradiction|].
  rewrite bool_decide_true by discriminate. repeat split.
Qed.

(** C18: A field with explicit presence that is not in a oneof, not a list or
    map and not a message (a proto2 [optional] scalar) makes the generator
    itself panic: no [Has] is generated for its message. *)
Theorem hasGen_generate_unknown_case m f :
  In f (Fields m) -> HasPresence f = true -> Oneof f = None -> IsList f = false ->
  IsMap f = false -> FieldKind f <> MessageKind ->
  hasGen_generate m = inl (Panic "unknown case").
Proof.
  intros Hin Hp Ho Hl Hm Hk. unfold hasGen_generate.
  assert (Hf : hasGen_genField f = inl (Panic "unknown case")).
  { unfold hasGen_genField, genNullable. rewrite Hp, Ho, Hl, Hm. cbn.
    rewrite bool_decide_false by assumption. reflexivity. }
  induction (Fields m) as [|g fs IH]; [destruct Hin|]. cbn.
  destruct (hasGen_genField g) as [p|c] eqn:Eg.
  - rewrite (hasGen_genField_panic g p Eg). reflexivity.
  - destruct Hin as [<-|Hin]; [congruence|]. rewrite IH by assumption. reflexivity.
Qed.

(** ** Get *)

(** C17: The generated [Get] of a singular field is the contract: outside
    oneofs the [protoreflect.ValueOf...] constructor get.go's kind switch
    prints builds the value of the field's kind from the field; for a oneof
    member it returns the member's value when the presence contract reports
    it populated, else the default value of its kind. *)
Theorem run_get_spec m f x fd :
  NoDup (map FieldFullName (Fields m)) -> In f (Fields m) -> IsList f = false -> IsMap f = false ->
  FullName fd = FieldFullName f -> IsExtension fd = false ->
  run_get m (getGen_generate m) x fd = inr (spec_get f x).
Proof.
  intros Hnd Hin Hl Hm Hfd Hx. rewrite (get_switch m f) by assumption.
  unfold getGen_genFieldGetter, spec_get, spec_has. destruct (Oneof f) as [o|].
  - rewrite genOneofGetter_run. destruct (field_val x o); try reflexivity.
    all: destruct (String.eqb _ _); reflexivity.
  - rewrite Hm, Hl, <- genFieldGetter_kind_valueOf.
    destruct (genFieldGetter_kind (FieldKind f)); reflexivity.
Qed.

(** C19: [Get] of a list or map field panics [not implemented], where the
    contract returns the (possibly empty) list or map. *)
Theorem run_get_list_panics m f x fd :
  NoDup (map FieldFullName (Fields m)) -> In f (Fields m) -> Oneof f = None ->
  (IsList f || IsMap f)%bool = true -> FullName fd = FieldFullName f -> IsExtension fd = false ->
  run_get m (getGen_generate m) x fd = inl (Panic "not implemented").
Proof.
  intros Hnd Hin Ho Hlm Hfd Hx. rewrite (get_switch m f) by assumption.
  unfold getGen_genFieldGetter. rewrite Ho.
  destruct (IsMap f); [reflexivity|]. rewrite orb_false_r in Hlm. rewrite Hlm. reflexivity.
Qed.

(** ** Witnesses *)

Lemma run_has_spec_witness :
  run_has test_msg test_has_cases test_state (fd_of test_msg test_c) = inr (spec_has test_c test_state).
Proof.
  apply run_has_spec;
    [apply (bool_decide_unpack _); vm_compute; reflexivity | vm_compute; reflexivity
    | simpl; tauto | reflexivity | reflexivity].
Defined.

Lemma run_has_oneof_sibling_witness :
  run_has test_msg test_has_cases test_state (fd_of test_msg test_a) = inr true /\
  spec_has test_a test_state = false /\
  run_get test_msg (getGen_generate test_msg) test_state (fd_of test_msg test_a)
  = inr (valueOf (FieldKind test_a) (zeroValueForField test_a)).
Proof.
  apply (run_has_oneof_sibling _ _ _ _ _ "Kind" "Test_B" (GNum 5));
    [apply (bool_decide_unpack _); vm_compute; reflexivity | vm_compute; reflexivity
    | simpl; tauto | reflexivity | reflexivity | reflexivity | reflexivity
    | vm_compute; reflexivity | discriminate].
Defined.

Lemma hasGen_generate_unknown_case_witness :
  hasGen_generate test2_msg = inl (Panic "unknown case").
Proof.
  apply (hasGen_generate_unknown_case _ test_o);
    [simpl; tauto | reflexivity | reflexivity | reflexivity | reflexivity | discriminate].
Defined.

Lemma run_get_spec_witness :
  run_get test_msg (getGen_generate test_msg) test_state (fd_of test_msg test_c)
  = inr (spec_get test_c test_state).
Proof.
  apply run_get_spec;
    [apply (bool_decide_unpack _); vm_compute; reflexivity | simpl; tauto
    | reflexivity | reflexivity | reflexivity | reflexivity].
Defined.

Lemma run_get_list_panics_witness :
  run_get test_msg (getGen_generate test_msg) test_state (fd_of test_msg test_l)
  = inl (Panic "not implemented").
Proof.
  apply (run_get_list_panics _ test_l);
    [apply (bool_decide_unpack _); vm_compute; reflexivity | simpl; tauto
    | reflexivity | reflexivity | reflexivity | reflexivity].
Defined.

End FastReflection.
