(* ===== verification/GoTag.v ===== *)
(** * GoTag: the struct tags the generator writes (src/generator/gen.go)

    Each field of a generated struct carries a tag such as
    [protobuf:"bytes,1,opt,name=baz,proto3" json:"baz,omitempty" yaml:"baz"].
    [Marshal] builds the [protobuf] value from the field descriptor,
    [DefValMarshal] renders a default value in it, and [marshalBytes] is the
    C escaping of a [bytes] default; [structTags_String] joins the three
    tags.  Go strings are byte lists ([str] converts a literal); the
    library functions the code calls ([strconv.Itoa], [strconv.Quote],
    [strings.Join]) are given by their documented results on the inputs
    that occur (decimal numbers, ASCII).  [strconv.FormatFloat] is the
    library's rendering and is taken as given in [FFinite]. *)

From Stdlib Require Import String Ascii ZArith List Lia.
From S2P Require Import Prelude Protoreflect.
Import ListNotations.
Open Scope Z_scope.

Module GoTag.
Import Protoreflect.Protoreflect.

(** ** Strings *)

(** The bytes of an ASCII literal. *)
Definition str (s : string) : bytes :=
  map (fun a => Z.of_nat (nat_of_ascii a)) (list_ascii_of_string s).

(** [a == b] on two strings. *)
Definition bytes_eqb (a b : bytes) : bool := if list_eq_dec Z.eq_dec a b then true else false.

(** [strings.Join(xs, sep)] *)
Fixpoint join (sep : bytes) (xs : list bytes) : bytes :=
  match xs with
  | [] => []
  | [x] => x
  | x :: xs => x ++ sep ++ join sep xs
  end.

(** The decimal digits of [n >= 0], least significant first. *)
Fixpoint digits_rev (fuel : nat) (n : Z) : bytes :=
  match fuel with
  | O => []
  | S f => (48 + n mod 10) :: (if n <? 10 then [] else digits_rev f (n / 10))
  end.

(** [strconv.FormatInt(n, 10)] (and [strconv.Itoa]) on a 64-bit integer:
    20 digits are enough for [2^64]. *)
Definition itoa (n : Z) : bytes :=
  if n <? 0 then 45 :: rev (digits_rev 20 (- n)) else rev (digits_rev 20 n).

(** [strconv.Quote] on an ASCII string: between double quotes, a double
    quote and a backslash escaped by a backslash, the C escapes of the
    control characters and [\xHH] for the other non-printable bytes. *)
Definition hex_digit (d : Z) : Z := if d <? 10 then 48 + d else 87 + d.

Definition quote_byte (c : Z) : bytes :=
  if c =? 34 then [92; 34]
  else if c =? 92 then [92; 92]
  else if c =? 7 then [92; 97] else if c =? 8 then [92; 98]
  else if c =? 12 then [92; 102] else if c =? 10 then [92; 110]
  else if c =? 13 then [92; 114] else if c =? 9 then [92; 116]
  else if c =? 11 then [92; 118]
  else if ((32 <=? c) && (c <=? 126))%bool then [c]
  else [92; 120; hex_digit (c / 16); hex_digit (c mod 16)].

Definition Quote (s : bytes) : bytes := 34 :: flat_map quote_byte s ++ [34].

(** A double quote, for the Go sources quoted in the examples. *)
Definition dq : string := String (ascii_of_nat 34) EmptyString.

(** The text of a sequence of printed lines without the spaces, tabs and
    line breaks that gofmt adds, aligns or moves: how the examples compare
    the generator's output with the generated files of src/. *)
Definition squash (s : bytes) : bytes := filter (fun c => (negb (Z.eqb c 32) && negb (Z.eqb c 9))%bool) s.

Definition printed (ls : list bytes) : bytes := squash (concat ls).

(** [strings.Replace(s, old, new, -1)] for a one-byte [old]. *)
Definition replace_byte (old : Z) (new : bytes) (s : bytes) : bytes :=
  flat_map (fun c => if c =? old then new else [c]) s.

(** ** The field descriptor *)

(** [protoreflect.Cardinality] and [protoreflect.Syntax] *)
Inductive Cardinality := Optional | Required | Repeated.
Inductive Syntax := Proto2 | Proto3.

(** [Format]: the serialization of a default value (lines 517-529). *)
Inductive Format := Descriptor | GoTagFormat.

(** A float default: the infinities, NaN, or a finite value with the
    library's [FormatFloat(f, 'g', -1, 32)] and [(.., 64)] renderings. *)
Inductive FloatVal := FNegInf | FPosInf | FNaN | FFinite (g32 g64 : bytes).

(** [fd.Default()] by the accessor the kind reads it with. *)
Inductive DefVal :=
| DBool (b : bool)
| DEnum (n : Z)
| DInt (v : Z)
| DUint (v : Z)
| DFloat (f : FloatVal)
| DString (s : bytes)
| DBytes (b : bytes)
| DMessage.

(** A [protoreflect.FieldDescriptor] by what [Marshal] reads of it. *)
Record TagField := mkTagField {
  tKind : Kind;
  tNumber : Z;
  tCardinality : Cardinality;
  tIsPacked : bool;
  tName : bytes;
  tMessageName : bytes;        (** [fd.Message().Name()] *)
  tMessageFullName : bytes;    (** [fd.Message().FullName()] *)
  tJSONName : bytes;
  tIsExtension : bool;
  tIsWeak : bool;
  tSyntax : Syntax;
  tInOneof : bool;             (** [fd.ContainingOneof() != nil] *)
  tDefault : option DefVal;    (** [fd.HasDefault()], [fd.Default()] *)
  tDefaultEnumName : bytes     (** [fd.DefaultEnumValue().Name()] *)
}.

(** ** gen.go *)

(** The [switch c] of [marshalBytes] (lines 666-684): one byte, C-escaped;
    [fmt.Sprintf(`\%03o`, c)] is three octal digits. *)
Definition escape_byte (c : Z) : bytes :=
  if c =? 10 then [92; 110]
  else if c =? 13 then [92; 114]
  else if c =? 9 then [92; 116]
  else if c =? 34 then [92; 34]
  else if c =? 39 then [92; 39]
  else if c =? 92 then [92; 92]
  else if ((32 <=? c) && (c <=? 126))%bool then [c]
  else [92; 48 + c / 64; 48 + (c / 8) mod 8; 48 + c mod 8].

(** [func marshalBytes(b []byte) (string, bool)] (lines 663-688). *)
Definition marshalBytes (b : bytes) : bytes * bool := (flat_map escape_byte b, true).

(** [func DefValMarshal(v, ev, k, f) (string, error)] (lines 607-658);
    [None] is the [errors.New] of its last line. *)
Definition DefValMarshal (v : DefVal) (evName : bytes) (k : Kind) (f : Format) : option bytes :=
  let vBool := match v with DBool b => b | _ => false end in
  let vInt := match v with DInt n | DEnum n => n | _ => 0 end in
  let vUint := match v with DUint n => n | _ => 0 end in
  match k with
  | BoolKind =>
    match f with
    | GoTagFormat => Some (if vBool then str "1" else str "0")
    | Descriptor => Some (if vBool then str "true" else str "false")
    end
  | EnumKind =>
    match f with GoTagFormat => Some (itoa vInt) | Descriptor => Some evName end
  | Int32Kind | Sint32Kind | Sfixed32Kind | Int64Kind | Sint64Kind | Sfixed64Kind =>
    Some (itoa vInt)
  | Uint32Kind | Fixed32Kind | Uint64Kind | Fixed64Kind => Some (itoa vUint)
  | FloatKind | DoubleKind =>
    match v with
    | DFloat FNegInf => Some (str "-inf")
    | DFloat FPosInf => Some (str "inf")
    | DFloat FNaN => Some (str "nan")
    | DFloat (FFinite g32 g64) => Some (match k with FloatKind => g32 | _ => g64 end)
    | _ => Some (str "0")
    end
  | StringKind => Some (match v with DString s => s | _ => [] end)
  | BytesKind => Some (fst (marshalBytes (match v with DBytes b => b | _ => [] end)))
  | MessageKind | GroupKind => None
  end.

(** [func Marshal(fd, enumName string) string] (lines 538-602): the
    components of the tag, joined by commas; [Marshal_head] are those
    appended before the default (lines 539-595). *)
Definition Marshal_head (fd : TagField) (enumName : bytes) : list bytes :=
  let kind :=
    match tKind fd with
    | BoolKind | EnumKind | Int32Kind | Uint32Kind | Int64Kind | Uint64Kind => [str "varint"]
    | Sint32Kind => [str "zigzag32"]
    | Sint64Kind => [str "zigzag64"]
    | Sfixed32Kind | Fixed32Kind | FloatKind => [str "fixed32"]
    | Sfixed64Kind | Fixed64Kind | DoubleKind => [str "fixed64"]
    | StringKind | BytesKind | MessageKind => [str "bytes"]
    | GroupKind => [str "group"]
    end in
  let card :=
    match tCardinality fd with
    | Optional => str "opt" | Required => str "req" | Repeated => str "rep"
    end in
  let name := match tKind fd with GroupKind => tMessageName fd | _ => tName fd end in
  kind ++ [itoa (tNumber fd); card]
  ++ (if tIsPacked fd then [str "packed"] else [])
  ++ [str "name=" ++ name]
  ++ (if (negb (Nat.eqb (length (tJSONName fd)) 0)
          && negb (bytes_eqb (tJSONName fd) name) && negb (tIsExtension fd))%bool
      then [str "json=" ++ tJSONName fd] else [])
  ++ (if tIsWeak fd then [str "weak=" ++ tMessageFullName fd] else [])
  ++ (match tSyntax fd with
      | Proto3 => if tIsExtension fd then [] else [str "proto3"]
      | Proto2 => []
      end)
  ++ (match tKind fd with
      | EnumKind => if Nat.eqb (length enumName) 0 then [] else [str "enum=" ++ enumName]
      | _ => []
      end)
  ++ (if tInOneof fd then [str "oneof"] else []).

(** [if fd.HasDefault() { def, _ := DefValMarshal(...); tag = append(tag, "def="+def) }]
    (lines 597-600): the error is dropped and [def] is then empty. *)
Definition Marshal_def (fd : TagField) : list bytes :=
  match tDefault fd with
  | Some v =>
    let def := match DefValMarshal v (tDefaultEnumName fd) (tKind fd) GoTagFormat with
               | Some d => d | None => [] end in
    [str "def=" ++ def]
  | None => []
  end.

Definition Marshal_parts (fd : TagField) (enumName : bytes) : list bytes :=
  Marshal_head fd enumName ++ Marshal_def fd.

Definition Marshal (fd : TagField) (enumName : bytes) : bytes :=
  join (str ",") (Marshal_parts fd enumName).

(** [fieldProtobufTagValue] (lines 371-377): [enumName] is the legacy
    enum name, given with the field. *)
Definition fieldProtobufTagValue (fd : TagField) (legacyEnumName : bytes) : bytes :=
  Marshal fd (match tKind fd with EnumKind => legacyEnumName | _ => [] end).

(** [fieldJSONTagValue] and [fieldYAMLTagValue] (lines 379-385). *)
Definition fieldJSONTagValue (fd : TagField) : bytes := tName fd ++ str ",omitempty".
Definition fieldYAMLTagValue (fd : TagField) : bytes := tName fd.

(** [func (tags structTags) String() string] (lines 33-47). *)
Definition structTags_String (tags : list (bytes * bytes)) : bytes :=
  match tags with
  | [] => []
  | _ =>
    let ss := map (fun kv => fst kv ++ str ":" ++ replace_byte 96 (str "\x60") (Quote (snd kv))) tags in
    str "`" ++ join (str " ") ss ++ str "`"
  end.

(** The [protobuf], [json] and [yaml] tags of a field (lines 319-323). *)
Definition field_tags (fd : TagField) (legacyEnumName : bytes) : bytes :=
  structTags_String [(str "protobuf", fieldProtobufTagValue fd legacyEnumName);
                     (str "json", fieldJSONTagValue fd);
                     (str "yaml", fieldYAMLTagValue fd)].

(** ** The C unescaping that reads [marshalBytes] back (protoc's
    [CUnescape] on the forms [CEscape] writes) *)

Definition is_octal (c : Z) : bool := ((48 <=? c) && (c <=? 55))%bool.

Fixpoint c_unescape (fuel : nat) (s : bytes) : option bytes :=
  match fuel with
  | O => match s with [] => Some [] | _ => None end
  | S f =>
    match s with
    | [] => Some []
    | c :: rest =>
      if c =? 92 then
        match rest with
        | x :: rest' =>
          let simple r := option_map (cons r) (c_unescape f rest') in
          if x =? 110 then simple 10 else if x =? 114 then simple 13
          else if x =? 116 then simple 9 else if x =? 34 then simple 34
          else if x =? 39 then simple 39 else if x =? 92 then simple 92
          else if is_octal x then
            match rest' with
            | d2 :: d3 :: rest'' =>
              if (is_octal d2 && is_octal d3)%bool then
                option_map (cons (64 * (x - 48) + 8 * (d2 - 48) + (d3 - 48))) (c_unescape f rest'')
              else None
            | _ => None
            end
          else None
        | [] => None
        end
      else option_map (cons c) (c_unescape f rest)
    end
  end.

Definition unescape (s : bytes) : option bytes := c_unescape (length s) s.

(** ** Lemmas *)

Lemma escape_byte_cases c :
  0 <= c < 256 ->
  (c = 10 /\ escape_byte c = [92; 110]) \/ (c = 13 /\ escape_byte c = [92; 114]) \/
  (c = 9 /\ escape_byte c = [92; 116]) \/ (c = 34 /\ escape_byte c = [92; 34]) \/
  (c = 39 /\ escape_byte c = [92; 39]) \/ (c = 92 /\ escape_byte c = [92; 92]) \/
  ((32 <= c <= 126 /\ c <> 92) /\ escape_byte c = [c]) \/
  ((c < 32 \/ 126 < c) /\ escape_byte c = [92; 48 + c / 64; 48 + (c / 8) mod 8; 48 + c mod 8]).
Proof.
  intros Hc. unfold escape_byte.
  destruct (Z.eqb_spec c 10); [tauto|]. destruct (Z.eqb_spec c 13); [tauto|].
  destruct (Z.eqb_spec c 9); [tauto|]. destruct (Z.eqb_spec c 34); [tauto|].
  destruct (Z.eqb_spec c 39); [tauto|]. destruct (Z.eqb_spec c 92); [tauto|].
  destruct (Z.leb_spec 32 c), (Z.leb_spec c 126); cbn [andb]; right; right; right; right; right; right;
    [left; repeat split; lia | right; split; [lia|reflexivity] ..].
Qed.

Lemma octal_digits c :
  0 <= c < 256 ->
  0 <= c / 64 <= 3 /\ 0 <= (c / 8) mod 8 < 8 /\ 0 <= c mod 8 < 8 /\
  64 * (c / 64) + 8 * ((c / 8) mod 8) + c mod 8 = c.
Proof. intros Hc. repeat split; Z.div_mod_to_equations; lia. Qed.

(** One escaped byte is one step of the unescaping. *)
Lemma c_unescape_escape_byte c s f :
  0 <= c < 256 ->
  c_unescape (S f) (escape_byte c ++ s) = option_map (cons c) (c_unescape f s).
Proof.
  intros Hc.
  destruct (escape_byte_cases c Hc) as [H|[H|[H|[H|[H|[H|[H|H]]]]]]];
    destruct H as [Hc' E]; rewrite E; try (subst c; reflexivity).
  - cbn [app c_unescape]. rewrite (proj2 (Z.eqb_neq c 92)) by lia. reflexivity.
  - pose proof (octal_digits c Hc) as (H1 & H2 & H3 & H4).
    cbn [app c_unescape]. rewrite Z.eqb_refl.
    repeat rewrite (proj2 (Z.eqb_neq _ _)) by lia.
    unfold is_octal. repeat rewrite (proj2 (Z.leb_le _ _)) by lia. cbn [andb].
    f_equal. f_equal. lia.
Qed.

Lemma c_unescape_marshalBytes b : forall f,
  bytes_ok b = true -> (length b <= f)%nat ->
  c_unescape f (fst (marshalBytes b)) = Some b.
Proof.
  induction b as [|c b IH]; intros f Hok Hf; [destruct f; reflexivity|].
  destruct f as [|f]; [cbn in Hf; lia|].
  cbn [marshalBytes fst flat_map] in *. go_norm. apply andb_prop in Hok as [Hc Hb].
  apply is_byte_spec in Hc. rewrite c_unescape_escape_byte by assumption.
  rewrite IH by (auto; cbn in Hf; lia). reflexivity.
Qed.

Lemma length_escape_byte c : (1 <= length (escape_byte c))%nat.
Proof. unfold escape_byte. repeat (destruct (_ =? _)); try destruct (_ && _)%bool; cbn; lia. Qed.

Lemma length_marshalBytes b : (length b <= length (fst (marshalBytes b)))%nat.
Proof.
  induction b as [|c b IH]; [cbn; lia|]. cbn [marshalBytes fst flat_map] in *.
  rewrite length_app. pose proof (length_escape_byte c). cbn. lia.
Qed.

(** The tag components before the default have no comma-separated tail:
    the default is the last component. *)
Lemma join_app_last sep xs y :
  xs <> [] -> join sep (xs ++ [y]) = join sep xs ++ sep ++ y.
Proof.
  induction xs as [|x xs IH]; intros H; [congruence|].
  destruct xs as [|x' xs]; [reflexivity|]. cbn [app] in *.
  change (join sep (x :: x' :: xs ++ [y])) with (x ++ sep ++ join sep (x' :: xs ++ [y])).
  rewrite IH by discriminate.
  change (join sep (x :: x' :: xs)) with (x ++ sep ++ join sep (x' :: xs)).
  rewrite <- !app_assoc. reflexivity.
Qed.

(** ** Theorems *)

(** C36: [marshalBytes] writes only printable ASCII, so the default sits in a Go
    struct tag as it is. *)
Theorem marshalBytes_printable b :
  bytes_ok b = true -> Forall (fun c => 32 <= c <= 126) (fst (marshalBytes b)).
Proof.
  induction b as [|c b IH]; intros Hok; [constructor|].
  cbn [marshalBytes fst flat_map] in *. go_norm. apply andb_prop in Hok as [Hc Hb].
  apply is_byte_spec in Hc. apply Forall_app. split; [|auto].
  pose proof (octal_digits c Hc) as Hd.
  destruct (escape_byte_cases c Hc) as [H|[H|[H|[H|[H|[H|[H|H]]]]]]];
    destruct H as [Hc' E]; rewrite E; repeat constructor; lia.
Qed.

(** C38: [marshalBytes] is undone by C unescaping: the default of a [bytes]
    field is recovered exactly from the tag. *)
Theorem marshalBytes_roundtrip b :
  bytes_ok b = true -> unescape (fst (marshalBytes b)) = Some b.
Proof.
  intros Hok. apply c_unescape_marshalBytes; [assumption|]. apply length_marshalBytes.
Qed.

(** A field with a default ends its tag with [def=<default>]: the
    default, whose commas are not escaped, is the last component. *)
Theorem Marshal_def_last fd enumName v :
  tDefault fd = Some v ->
  exists pre, Marshal fd enumName
    = pre ++ str ",def=" ++ match DefValMarshal v (tDefaultEnumName fd) (tKind fd) GoTagFormat with
                            | Some d => d | None => [] end.
Proof.
  intros Hd. unfold Marshal, Marshal_parts, Marshal_def. rewrite Hd.
  rewrite join_app_last.
  - exists (join (str ",") (Marshal_head fd enumName)). reflexivity.
  - unfold Marshal_head. intros E. apply app_eq_nil in E as [_ E]. discriminate.
Qed.

(** The tags of the fields of foo.proto, as they stand in
    src/proto/foo.pulsar.go (lines 32, 280 and 281). *)
Example foo_field_tags :
  let q := [34] in
  field_tags (mkTagField StringKind 1 Optional false (str "baz") [] [] (str "baz")
                false false Proto3 false None []) []
  = str "`protobuf:" ++ q ++ str "bytes,1,opt,name=baz,proto3" ++ q ++ str " json:" ++ q
    ++ str "baz,omitempty" ++ q ++ str " yaml:" ++ q ++ str "baz" ++ q ++ str "`" /\
  field_tags (mkTagField StringKind 1 Optional false (str "world") [] [] (str "world")
                false false Proto3 false None []) []
  = str "`protobuf:" ++ q ++ str "bytes,1,opt,name=world,proto3" ++ q ++ str " json:" ++ q
    ++ str "world,omitempty" ++ q ++ str " yaml:" ++ q ++ str "world" ++ q ++ str "`" /\
  field_tags (mkTagField BoolKind 2 Optional false (str "universe") [] [] (str "universe")
                false false Proto3 false None []) []
  = str "`protobuf:" ++ q ++ str "varint,2,opt,name=universe,proto3" ++ q ++ str " json:" ++ q
    ++ str "universe,omitempty" ++ q ++ str " yaml:" ++ q ++ str "universe" ++ q ++ str "`".
Proof. repeat split; vm_compute; reflexivity. Qed.

(** ** Witnesses *)

Lemma marshalBytes_printable_witness :
  Forall (fun c => 32 <= c <= 126) (fst (marshalBytes [0; 10; 34; 200; 65])).
Proof. apply marshalBytes_printable. reflexivity. Defined.

Lemma marshalBytes_roundtrip_witness :
  unescape (fst (marshalBytes [0; 10; 34; 200; 65; 92; 39])) = Some [0; 10; 34; 200; 65; 92; 39].
Proof. apply marshalBytes_roundtrip. reflexivity. Defined.

Lemma Marshal_def_last_witness :
  let fd := mkTagField Int32Kind 3 Optional false (str "n") [] [] (str "n")
              false false Proto2 false (Some (DInt (-7))) [] in
  exists pre, Marshal fd [] = pre ++ str ",def=" ++
    match DefValMarshal (DInt (-7)) [] Int32Kind GoTagFormat with Some d => d | None => [] end.
Proof. apply Marshal_def_last. reflexivity. Defined.

End GoTag.
