(* ===== verification/GoStruct.v ===== *)
(** * GoStruct: the struct, getters and names the generator prints
    (src/generator/gen.go)

    For every message, [genMsgStruct] prints [type M struct { ... }] with
    one member per field ([genField]; one per oneof, typed by the oneof's
    interface [oneOfInterfaceName]); [getType] gives a field's Go type and
    whether the member is a pointer; [genGetters] prints, per field, the
    getter [GetF] and, at a oneof's first member, the oneof's interface, its
    getter, one wrapper struct per member and the wrappers' marker methods.
    The printed Go is modelled by what it declares ([Decl]): a member, a
    type, a method, with the types as the strings the generator prints.
    [Comments] and [g.Annotate] print comments only and are not modelled;
    [anySeen] is a flag of the import list.  Also here: the helpers
    [genFunctionSignature], [fileVarName] and [appendDeprecationSuffix]. *)

From Stdlib Require Import String ZArith List Lia.
From S2P Require Import Prelude Protoreflect GoTag.
Import ListNotations.
Open Scope Z_scope.
Open Scope go_scope.

Module GoStruct.
Import Protoreflect.Protoreflect GoTag.GoTag.

(** ** What the generator reads of protogen *)

(** [*protogen.Oneof]: [GoName], [GoIdent.GoName], [Desc.Name()],
    [Desc.IsSynthetic()] and, per member of [Fields] in order, the member's
    [GoIdent.GoName] (its wrapper type) and [GoName]. *)
Record GOneof := mkGOneof {
  oGoName : bytes;
  oGoIdent : bytes;
  oName : bytes;
  oIsSynthetic : bool;
  oFields : list (bytes * bytes)
}.

(** [*protogen.Field]: the descriptor ([fDesc], as the tag code reads it),
    [GoName], [GoIdent.GoName], [Desc.HasPresence()], [Desc.IsList()],
    [Desc.IsMap()], the qualified Go identifiers of [Enum] and [Message]
    ([g.QualifiedGoIdent]), the key and value fields of a map entry
    ([Message.Fields[0]], [[1]]), the oneof and the legacy enum name of
    the tag. *)
Local Set Warnings "-register-all".
Inductive GField := mkGField
  (fDesc : TagField) (fGoName fGoIdent : bytes) (fHasPresence fIsList fIsMap : bool)
  (fEnumIdent fMessageIdent : bytes) (fMapEntry : option (GField * GField))
  (fOneof : option GOneof) (fLegacyEnumName : bytes).

Definition fDesc (f : GField) : TagField := let 'mkGField d _ _ _ _ _ _ _ _ _ _ := f in d.
Definition fGoName (f : GField) : bytes := let 'mkGField _ n _ _ _ _ _ _ _ _ _ := f in n.
Definition fGoIdent (f : GField) : bytes := let 'mkGField _ _ i _ _ _ _ _ _ _ _ := f in i.
Definition fHasPresence (f : GField) : bool := let 'mkGField _ _ _ p _ _ _ _ _ _ _ := f in p.
Definition fIsList (f : GField) : bool := let 'mkGField _ _ _ _ l _ _ _ _ _ _ := f in l.
Definition fIsMap (f : GField) : bool := let 'mkGField _ _ _ _ _ m _ _ _ _ _ := f in m.
Definition fEnumIdent (f : GField) : bytes := let 'mkGField _ _ _ _ _ _ e _ _ _ _ := f in e.
Definition fMessageIdent (f : GField) : bytes := let 'mkGField _ _ _ _ _ _ _ m _ _ _ := f in m.
Definition fMapEntry (f : GField) : option (GField * GField) :=
  let 'mkGField _ _ _ _ _ _ _ _ me _ _ := f in me.
Definition fOneof (f : GField) : option GOneof := let 'mkGField _ _ _ _ _ _ _ _ _ o _ := f in o.
Definition fLegacyEnumName (f : GField) : bytes :=
  let 'mkGField _ _ _ _ _ _ _ _ _ _ n := f in n.

(** [*protogen.Message]: [GoIdent.GoName] and [Fields]. *)
Record GMessage := mkGMessage { mGoIdent : bytes; mFields : list GField }.

(** ** The printed declarations *)

Inductive Decl :=
(** a member [name type `tags`] of the message struct *)
| DMember (name type tags : bytes)
(** [type I interface { I() }] *)
| DInterface (iface : bytes)
(** [func (m *M) GetO() I { if m != nil { return m.O }; return nil }] *)
| DOneofGetter (msg oneof iface : bytes)
(** [type W struct { F T }], the wrapper of a oneof member *)
| DWrapper (ident goname type : bytes)
(** the marker method [I()] of the pointer type of [W] *)
| DWrapperMethod (ident iface : bytes)
(** [func (x *M) GetF() protoreflect.ProtoMessage { ... GetWeak(w, num, "full.Name") }] *)
| DGetterWeak (msg goname : bytes) (num : Z) (fullName : bytes)
(** [func (x *M) GetF() T { if x, ok := x.GetO().( *W); ok { return x.F }; var y T; return y }] *)
| DGetterOneof (msg goname type oneof ident : bytes)
(** [func (x *M) GetF() T { if x != nil [&& x.F != nil] { return [*]x.F }; var y T; return y }] *)
| DGetterPlain (msg goname type : bytes) (checkField star : bool)
(** a method [name] of [*M] printed by a [gen*] function the model does
    not open ([Reset], [String], [ProtoMessage], [ProtoReflect], and the
    [genProtoMessageFunctions] of a file outside src/) *)
| DMethod (msg name : bytes).

(** ** gen.go *)

(** The [switch field.Desc.Kind()] of [getType] (lines 332-364): the Go
    type, and whether [pointer] keeps [field.Desc.HasPresence()]. *)
Definition kindGoType (f : GField) : bytes * bool :=
  let p := fHasPresence f in
  match tKind (fDesc f) with
  | BoolKind => (str "bool", p)
  | EnumKind => (fEnumIdent f, p)
  | Int32Kind | Sint32Kind | Sfixed32Kind => (str "int32", p)
  | Uint32Kind | Fixed32Kind => (str "uint32", p)
  | Int64Kind | Sint64Kind | Sfixed64Kind => (str "int64", p)
  | Uint64Kind | Fixed64Kind => (str "uint64", p)
  | FloatKind => (str "float32", p)
  | DoubleKind => (str "float64", p)
  | StringKind => (str "string", p)
  | BytesKind => (str "[]byte", false)
  | MessageKind | GroupKind => (str "*" ++ fMessageIdent f, false)
  end.

(** [func getType(g, field) (goType string, pointer bool)] (lines 327-369).
    A map field without a map entry would dereference [nil]: [None]. *)
Fixpoint getType (f : GField) : option (bytes * bool) :=
  if tIsWeak (fDesc f) then Some (str "struct{}", false) else
  let '(goType, pointer) := kindGoType f in
  if fIsList f then Some (str "[]" ++ goType, false)
  else if fIsMap f then
    match (let 'mkGField _ _ _ _ _ _ _ _ me _ _ := f in me) with
    | Some (k, v) =>
      match getType k, getType v with
      | Some (keyType, _), Some (valType, _) =>
        Some (str "map[" ++ keyType ++ str "]" ++ valType, false)
      | _, _ => None
      end
    | None => None
    end
  else Some (goType, pointer).

(** [func oneOfInterfaceName(oneof) string] (lines 399-401). *)
Definition oneOfInterfaceName (o : GOneof) : bytes := str "is" ++ oGoIdent o.

(** [oneof.Fields[0] == field], fields being told apart by their Go
    identifier; a oneof has at least one member. *)
Definition first_of (o : GOneof) (f : GField) : bool :=
  match oFields o with
  | (id, _) :: _ => bytes_eqb id (fGoIdent f)
  | [] => false
  end.

(** The end of [genField] (lines 314-324): the member of a field outside
    a oneof, a pointer when [getType] says so. *)
Definition genField_plain (f : GField) : option (list Decl) :=
  match getType f with
  | Some (goType, isPointer) =>
    let goType := if isPointer then str "*" ++ goType else goType in
    Some [DMember (fGoName f) goType (field_tags (fDesc f) (fLegacyEnumName f))]
  | None => None
  end.

(** [func genField(g, field)] (lines 288-325): the member of the field, or
    of its oneof at the oneof's first member, or nothing. *)
Definition genField (f : GField) : option (list Decl) :=
  match fOneof f with
  | Some o =>
    if negb (oIsSynthetic o) then
      Some (if first_of o f
            then [DMember (oGoName o) (oneOfInterfaceName o)
                    (structTags_String [(str "protobuf_oneof", oName o)])]
            else [])
    else genField_plain f
  | None => genField_plain f
  end.

(** [func genStdFields(g, msg)] (lines 282-286). *)
Definition genStdFields : list Decl :=
  [DMember (str "state") (str "protoimpl.MessageState") [];
   DMember (str "sizeCache") (str "protoimpl.SizeCache") [];
   DMember (str "unknownFields") (str "protoimpl.UnknownFields") []].

(** The declarations [genGetters] prints at a oneof's first member
    (lines 407-430): the interface, the oneof's getter, a wrapper per member
    holding [goType], the type of the field being generated, and the
    wrappers' marker methods. *)
Definition oneofDecls (msg : bytes) (o : GOneof) (goType : bytes) : list Decl :=
  let iface := oneOfInterfaceName o in
  [DInterface iface; DOneofGetter msg (oGoName o) iface]
  ++ map (fun v => DWrapper (fst v) (snd v) goType) (oFields o)
  ++ map (fun one => DWrapperMethod (fst one) iface) (oFields o).

(** The body of the loop of [genGetters] for one field (lines 405-471). *)
Definition genGetter (msg : bytes) (f : GField) : option (list Decl) :=
  ' (goType, pointer) <-? getType f ;;
  let parent :=
    match fOneof f with
    | Some o => if (first_of o f && negb (oIsSynthetic o))%bool then oneofDecls msg o goType else []
    | None => []
    end in
  let defaultValue := str "var y " ++ goType in
  let plain := DGetterPlain msg (fGoName f) goType
                 (negb (negb (fHasPresence f) || bytes_eqb defaultValue (str "nil"))) pointer in
  let getter :=
    if tIsWeak (fDesc f) then
      DGetterWeak msg (fGoName f) (tNumber (fDesc f)) (Quote (tMessageFullName (fDesc f)))
    else
      match fOneof f with
      | Some o => if negb (oIsSynthetic o) then DGetterOneof msg (fGoName f) goType (oGoName o) (fGoIdent f)
                  else plain
      | None => plain
      end in
  Some (parent ++ [getter]).

(** [for _, field := range msg.Fields { ... }] of [genGetters] and of
    [genMsgStruct]; [None] when a field's generation panics. *)
Fixpoint each (gen : GField -> option (list Decl)) (fs : list GField) : option (list Decl) :=
  match fs with
  | [] => Some []
  | f :: fs => ds <-? gen f ;; rest <-? each gen fs ;; Some (ds ++ rest)
  end.

(** [func genGetters(g, msg)] (lines 403-473). *)
Definition genGetters (m : GMessage) : option (list Decl) := each (genGetter (mGoIdent m)) (mFields m).

(** [func genMsgStruct(g, msg, index)] (lines 246-265): the struct's
    members, then its methods and getters in the order printed. *)
Definition genMsgStruct (m : GMessage) : option (list Decl) :=
  members <-? each genField (mFields m) ;;
  getters <-? genGetters m ;;
  let msg := mGoIdent m in
  Some (genStdFields ++ members
        ++ [DMethod msg (str "Reset"); DMethod msg (str "String");
            DMethod msg (str "ProtoMessage"); DMethod msg (str "ProtoReflect")]
        ++ getters ++ [DMethod msg (str "ProtoMessageFunctions")]).

(** ** Type checking the printed getters *)

(** The type of the first struct member named [name]. *)
Fixpoint member_type (ds : list Decl) (name : bytes) : option bytes :=
  match ds with
  | [] => None
  | DMember n t _ :: ds => if bytes_eqb n name then Some t else member_type ds name
  | _ :: ds => member_type ds name
  end.

(** The member of the wrapper struct [ident]. *)
Fixpoint wrapper_member (ds : list Decl) (ident : bytes) : option (bytes * bytes) :=
  match ds with
  | [] => None
  | DWrapper i n t :: ds => if bytes_eqb i ident then Some (n, t) else wrapper_member ds ident
  | _ :: ds => wrapper_member ds ident
  end.

(** A getter compiles when the value it returns has its result type:
    [[*]x.F] of the member [F], or [x.F] of the wrapper [W]. *)
Definition getter_ok (ds : list Decl) (d : Decl) : bool :=
  match d with
  | DGetterPlain _ goname ty _ star =>
    match member_type ds goname with
    | Some t => bytes_eqb t (if star then str "*" ++ ty else ty)
    | None => false
    end
  | DGetterOneof _ goname ty _ ident =>
    match wrapper_member ds ident with
    | Some (n, t) => (bytes_eqb n goname && bytes_eqb t ty)%bool
    | None => false
    end
  | _ => true
  end.

Definition well_typed (ds : list Decl) : bool := forallb (getter_ok ds) ds.

(** A field outside any oneof, or in a synthetic one (a proto3
    [optional] scalar). *)
Definition no_real_oneof (f : GField) : bool :=
  match fOneof f with Some o => oIsSynthetic o | None => true end.

(** ** Signatures and names *)

(** [fmt.Sprintf("%v %v", a.name, a.typ3)] *)
Definition render_arg (a : bytes * bytes) : bytes := fst a ++ str " " ++ snd a.

(** The arguments of [genFunctionSignature] (lines 498-507): one argument
    as is; several, each followed by [", "], the last two bytes cut. *)
Definition signature_arguments (argz : list (bytes * bytes)) : bytes :=
  match argz with
  | [] => []
  | [a] => render_arg a
  | _ =>
    let arguments := fold_left (fun acc v => acc ++ render_arg v ++ str ", ") argz [] in
    firstn (length arguments - 2) arguments
  end.

(** [func genFunctionSignature(g, isPointer, receiverVar, receiverStruct,
    funcName, returns, argz)] (lines 494-510): the printed line; [g.P]
    joins its operands without separators. *)
Definition genFunctionSignature (isPointer : bool) (receiverVar receiverStruct funcName returns : bytes)
    (argz : list (bytes * bytes)) : bytes :=
  let receiverStruct := if isPointer then str "*" ++ receiverStruct else receiverStruct in
  str "func (" ++ receiverVar ++ str " " ++ receiverStruct ++ str ") " ++ funcName
  ++ str "(" ++ signature_arguments argz ++ str ")" ++ returns ++ str " {".

(** [strings.ToLower] of the first rune, on an ASCII rune. *)
Definition lower_first (s : bytes) : bytes :=
  match s with
  | c :: rest => (if ((65 <=? c) && (c <=? 90))%bool then c + 32 else c) :: rest
  | [] => []
  end.

(** [func fileVarName(f, suffix) string] (lines 730-735), from
    [f.GoDescriptorIdent.GoName]. *)
Definition fileVarName (goDescriptorIdent suffix : bytes) : bytes :=
  lower_first goDescriptorIdent ++ str "_" ++ suffix.

(** [rawDescVarName] ... [initFuncName] (lines 736-756). *)
Definition rawDescVarName (d : bytes) : bytes := fileVarName d (str "rawDesc").
Definition goTypesVarName (d : bytes) : bytes := fileVarName d (str "goTypes").
Definition depIdxsVarName (d : bytes) : bytes := fileVarName d (str "depIdxs").
Definition enumTypesVarName (d : bytes) : bytes := fileVarName d (str "enumTypes").
Definition messageTypesVarName (d : bytes) : bytes := fileVarName d (str "msgTypes").
Definition extensionTypesVarName (d : bytes) : bytes := fileVarName d (str "extTypes").
Definition initFuncName (d : bytes) : bytes := fileVarName d (str "init").

(** [func appendDeprecationSuffix(prefix, deprecated)] (lines 1121-1130). *)
Definition appendDeprecationSuffix (prefix : bytes) (deprecated : bool) : bytes :=
  if negb deprecated then prefix
  else (if negb (is_nil prefix) then prefix ++ [10] else prefix) ++ str " Deprecated: Do not use." ++ [10].

(** ** Sample messages for the witnesses

    [message Test { oneof kind { string a = 1; int32 b = 2; } }] and
    [message Hello { string world = 1; bool universe = 2; optional int32
    count = 3; }] (proto3; [count] sits in a synthetic oneof), as protogen
    describes them. *)

Definition tag_of (k : Kind) (n : Z) (name : string) (oneof : bool) : TagField :=
  mkTagField k n Optional false (str name) [] [] (str name) false false Proto3 oneof None [].

Definition test_kind : GOneof :=
  mkGOneof (str "Kind") (str "Test_Kind") (str "kind") false
    [(str "Test_A", str "A"); (str "Test_B", str "B")].

Definition test_a : GField :=
  mkGField (tag_of StringKind 1 "a" true) (str "A") (str "Test_A") true false false [] [] None
    (Some test_kind) [].
Definition test_b : GField :=
  mkGField (tag_of Int32Kind 2 "b" true) (str "B") (str "Test_B") true false false [] [] None
    (Some test_kind) [].
Definition test_struct : GMessage := mkGMessage (str "Test") [test_a; test_b].

Definition test_decls : list Decl :=
  match genMsgStruct test_struct with Some ds => ds | None => [] end.

Definition hello_count_oneof : GOneof :=
  mkGOneof (str "XCount") (str "Hello_XCount") (str "_count") true [(str "Hello_Count", str "Count")].

Definition hello_struct : GMessage :=
  mkGMessage (str "Hello")
    [mkGField (tag_of StringKind 1 "world" false) (str "World") (str "Hello_World")
       false false false [] [] None None [];
     mkGField (tag_of BoolKind 2 "universe" false) (str "Universe") (str "Hello_Universe")
       false false false [] [] None None [];
     mkGField (tag_of Int32Kind 3 "count" true) (str "Count") (str "Hello_Count")
       true false false [] [] None (Some hello_count_oneof) []].

Definition hello_decls : list Decl :=
  match genMsgStruct hello_struct with Some ds => ds | None => [] end.

(** ** Lemmas *)

Lemma bytes_eqb_eq a b : bytes_eqb a b = true <-> a = b.
Proof. unfold bytes_eqb. destruct (list_eq_dec Z.eq_dec a b); split; congruence. Qed.

Lemma bytes_eqb_refl a : bytes_eqb a a = true.
Proof. apply bytes_eqb_eq. reflexivity. Qed.

Lemma bytes_eqb_neq a b : a <> b -> bytes_eqb a b = false.
Proof. intros H. destruct (bytes_eqb a b) eqn:E; [apply bytes_eqb_eq in E; congruence|reflexivity]. Qed.

#[local] Hint Rewrite bytes_eqb_refl : go_rw.

Lemma getType_eq f :
  getType f =
  if tIsWeak (fDesc f) then Some (str "struct{}", false) else
  let '(goType, pointer) := kindGoType f in
  if fIsList f then Some (str "[]" ++ goType, false)
  else if fIsMap f then
    match fMapEntry f with
    | Some (k, v) =>
      match getType k, getType v with
      | Some (keyType, _), Some (valType, _) =>
        Some (str "map[" ++ keyType ++ str "]" ++ valType, false)
      | _, _ => None
      end
    | None => None
    end
  else Some (goType, pointer).
Proof. destruct f; reflexivity. Qed.

Lemma member_type_app xs ys n :
  member_type (xs ++ ys) n = match member_type xs n with Some t => Some t | None => member_type ys n end.
Proof. induction xs as [|[] xs IH]; cbn; try apply IH; [reflexivity|]. destruct (bytes_eqb _ n); auto. Qed.

Lemma each_app gen fs ds :
  each gen fs = Some ds -> forall f, In f fs -> exists df pre post, gen f = Some df /\ ds = pre ++ df ++ post.
Proof.
  revert ds. induction fs as [|g fs IH]; intros ds H f Hin; [destruct Hin|].
  cbn [each] in H. destruct (gen g) as [dg|] eqn:Eg; [|discriminate].
  destruct (each gen fs) as [rest|] eqn:Er; [|discriminate]. injection H as <-.
  destruct Hin as [<-|Hin].
  - exists dg, [], rest. auto.
  - destruct (IH rest eq_refl f Hin) as (df & pre & post & Hf & ->).
    exists df, (dg ++ pre), post. split; [exact Hf|]. rewrite !app_assoc. reflexivity.
Qed.

Lemma each_in gen fs ds d :
  each gen fs = Some ds -> In d ds -> exists f df, In f fs /\ gen f = Some df /\ In d df.
Proof.
  revert ds. induction fs as [|g fs IH]; intros ds H Hd; cbn [each] in H.
  - injection H as <-. destruct Hd.
  - destruct (gen g) as [dg|] eqn:Eg; [|discriminate].
    destruct (each gen fs) as [rest|] eqn:Er; [|discriminate]. injection H as <-.
    apply in_app_or in Hd as [Hd|Hd].
    + exists g, dg. split; [left; reflexivity|split; assumption].
    + destruct (IH rest eq_refl Hd) as (f & df & ? & ? & ?). exists f, df.
      split; [right; assumption|split; assumption].
Qed.

(** Finds a membership proof in a list built of [++] and [::]. *)
Ltac in_search H :=
  first [ exact H | apply in_eq | apply in_cons; in_search H
        | apply in_or_app; first [left; in_search H | right; in_search H] ].

Lemma fold_args_acc argz : forall acc,
  fold_left (fun acc v => acc ++ render_arg v ++ str ", ") argz acc
  = acc ++ concat (map (fun v => render_arg v ++ str ", ") argz).
Proof.
  induction argz as [|a argz IH]; intros acc; cbn [fold_left map concat].
  - rewrite app_nil_r. reflexivity.
  - rewrite IH, <- !app_assoc. reflexivity.
Qed.

Lemma concat_sep a argz :
  concat (map (fun v => render_arg v ++ str ", ") (a :: argz))
  = join (str ", ") (map render_arg (a :: argz)) ++ str ", ".
Proof.
  revert a. induction argz as [|b argz IH]; intros a; [cbn; rewrite app_nil_r; reflexivity|].
  change (concat (map (fun v => render_arg v ++ str ", ") (a :: b :: argz)))
    with ((render_arg a ++ str ", ") ++ concat (map (fun v => render_arg v ++ str ", ") (b :: argz))).
  rewrite IH. cbn [map join]. rewrite <- !app_assoc. reflexivity.
Qed.

(** ** Theorems *)

(** C27: [getType] makes the struct member a pointer exactly for a singular,
    non-weak scalar or enum field with explicit presence: never for a
    list, a map, bytes (nil is its absence) or a message (already a
    pointer type), and then the type is the kind's. *)
Theorem getType_pointer f ty :
  getType f = Some (ty, true) <->
  tIsWeak (fDesc f) = false /\ fIsList f = false /\ fIsMap f = false /\ fHasPresence f = true /\
  ~ In (tKind (fDesc f)) [BytesKind; MessageKind; GroupKind] /\ ty = fst (kindGoType f).
Proof.
  rewrite getType_eq. unfold kindGoType.
  destruct (tIsWeak (fDesc f)); [split; [discriminate|intros (? & _); discriminate]|].
  destruct (fMapEntry f) as [[k v]|];
    [destruct (getType k) as [[? ?]|], (getType v) as [[? ?]|]|];
    destruct (fHasPresence f), (tKind (fDesc f)), (fIsList f), (fIsMap f); cbn;
    split; intros H; try discriminate;
    try (injection H as <-; repeat split; auto; intros [H|[H|[H|[]]]]; discriminate);
    try (destruct H as (_ & H1 & H2 & H3 & H4 & H5); try discriminate;
         try (exfalso; apply H4; cbn; tauto); subst; reflexivity).
Qed.

(** The declarations of one field's getter: the oneof's at its first
    member, then the getter. *)
Lemma genGetter_oneof msg f o ty p :
  getType f = Some (ty, p) -> fOneof f = Some o -> oIsSynthetic o = false ->
  tIsWeak (fDesc f) = false ->
  genGetter msg f = Some ((if first_of o f then oneofDecls msg o ty else [])
                          ++ [DGetterOneof msg (fGoName f) ty (oGoName o) (fGoIdent f)]).
Proof.
  intros Ht Ho Hs Hw. unfold genGetter. rewrite Ht. cbn beta iota. rewrite Ho, Hs, Hw.
  destruct (first_of o f); reflexivity.
Qed.

(** C25: A oneof's wrapper structs all hold the Go type of the oneof's first
    member: for a later member [g] of another type, the struct
    [type W_g struct { G T_first }] and the getter [GetG() T_g] that
    returns its [G] are both printed, and the getter does not compile. *)
Theorem genMsgStruct_oneof_wrapper_type m ds f g o tyf pf tyg pg :
  genMsgStruct m = Some ds -> In f (mFields m) -> In g (mFields m) ->
  fOneof f = Some o -> fOneof g = Some o -> oIsSynthetic o = false -> first_of o f = true ->
  tIsWeak (fDesc f) = false -> tIsWeak (fDesc g) = false ->
  In (fGoIdent g, fGoName g) (oFields o) ->
  getType f = Some (tyf, pf) -> getType g = Some (tyg, pg) ->
  In (DWrapper (fGoIdent g) (fGoName g) tyf) ds /\
  In (DGetterOneof (mGoIdent m) (fGoName g) tyg (oGoName o) (fGoIdent g)) ds.
Proof.
  intros Hm Hf Hg Hof Hog Hs Hfirst Hwf Hwg Hin Htf Htg.
  unfold genMsgStruct in Hm.
  destruct (each genField (mFields m)) as [members|]; [|discriminate].
  destruct (genGetters m) as [getters|] eqn:Eg; [|discriminate]. injection Hm as <-.
  unfold genGetters in Eg.
  destruct (each_app _ _ _ Eg f Hf) as (df & pre & post & Ef & ->).
  destruct (each_app _ _ _ Eg g Hg) as (dg & pre' & post' & Eg' & Hsplit).
  rewrite (genGetter_oneof _ _ _ _ _ Htf Hof Hs Hwf), Hfirst in Ef. injection Ef as <-.
  rewrite (genGetter_oneof _ _ _ _ _ Htg Hog Hs Hwg) in Eg'. injection Eg' as <-.
  assert (Hw : In (DWrapper (fGoIdent g) (fGoName g) tyf)
                 (map (fun v => DWrapper (fst v) (snd v) tyf) (oFields o))).
  { apply in_map_iff. exists (fGoIdent g, fGoName g). split; [reflexivity|exact Hin]. }
  split; [in_search Hw|rewrite Hsplit; in_search I].
Qed.

Lemma genField_no_oneof f : no_real_oneof f = true -> genField f = genField_plain f.
Proof. unfold no_real_oneof, genField. destruct (fOneof f) as [o|]; [|reflexivity]. intros ->. reflexivity. Qed.

(** Outside oneofs the members are the fields', in order. *)
Lemma members_type fs : forall members f ty p,
  forallb no_real_oneof fs = true -> each genField fs = Some members -> NoDup (map fGoName fs) ->
  In f fs -> getType f = Some (ty, p) ->
  member_type members (fGoName f) = Some (if p then str "*" ++ ty else ty).
Proof.
  induction fs as [|g fs IH]; intros members f ty p Hno He Hnd Hin Ht; [destruct Hin|].
  cbn [forallb each] in *. apply andb_prop in Hno as [Hg Hno].
  rewrite genField_no_oneof in He by exact Hg. unfold genField_plain in He.
  destruct (getType g) as [[tyg pg]|] eqn:Eg; [|discriminate].
  destruct (each genField fs) as [rest|] eqn:Er; [|discriminate]. injection He as <-.
  inversion Hnd as [|? ? Hnotin Hnd']; subst. cbn [app member_type].
  destruct Hin as [<-|Hin].
  - rewrite bytes_eqb_refl. rewrite Ht in Eg. injection Eg as <- <-. reflexivity.
  - rewrite bytes_eqb_neq; [apply (IH rest); first [assumption|reflexivity]|].
    intros E. apply Hnotin. rewrite E. apply in_map. exact Hin.
Qed.

(** Outside oneofs each field's getter is [GetF() T { ... [*]x.F ... }]
    with [T] and the star from [getType], or the weak getter. *)
Lemma getters_shape msg fs getters d :
  forallb no_real_oneof fs = true -> each (genGetter msg) fs = Some getters -> In d getters ->
  (exists f ty p chk, In f fs /\ getType f = Some (ty, p) /\ d = DGetterPlain msg (fGoName f) ty chk p)
  \/ (forall ds, getter_ok ds d = true).
Proof.
  intros Hno He Hd. destruct (each_in _ _ _ _ He Hd) as (f & df & Hin & Ef & Hdf).
  assert (Hf : no_real_oneof f = true) by (rewrite forallb_forall in Hno; auto).
  unfold genGetter in Ef. destruct (getType f) as [[ty p]|] eqn:Et; [|discriminate].
  cbn beta iota in Ef. injection Ef as <-.
  unfold no_real_oneof in Hf.
  destruct (fOneof f) as [o|]; [rewrite Hf, Bool.andb_false_r in Hdf|]; cbn [andb negb app] in Hdf;
    destruct Hdf as [<-|[]]; (destruct (tIsWeak (fDesc f)); [right; reflexivity|left]);
    eexists f, ty, p, _; repeat split; auto.
Qed.

Lemma member_type_std n :
  ~ In n [str "state"; str "sizeCache"; str "unknownFields"] -> member_type genStdFields n = None.
Proof.
  intros H. cbn [genStdFields member_type].
  rewrite !bytes_eqb_neq by (intros E; apply H; subst; cbn; tauto). reflexivity.
Qed.

(** C26: Without oneofs (synthetic ones aside), every getter the generator
    prints compiles: [GetF] returns [[*]x.F] of the type of the member
    [genField] printed for [F], provided the Go field names are distinct
    from each other and from the three standard members. *)
Theorem genMsgStruct_well_typed m ds :
  forallb no_real_oneof (mFields m) = true ->
  NoDup (str "state" :: str "sizeCache" :: str "unknownFields" :: map fGoName (mFields m)) ->
  genMsgStruct m = Some ds -> well_typed ds = true.
Proof.
  intros Hno Hnd Hm. unfold genMsgStruct in Hm.
  destruct (each genField (mFields m)) as [members|] eqn:Em; [|discriminate].
  destruct (genGetters m) as [getters|] eqn:Eg; [|discriminate]. injection Hm as <-.
  unfold well_typed. apply forallb_forall. intros d Hd.
  assert (Hplain : forall f ty p chk, In f (mFields m) -> getType f = Some (ty, p) ->
            getter_ok (genStdFields ++ members ++ [DMethod (mGoIdent m) (str "Reset");
               DMethod (mGoIdent m) (str "String"); DMethod (mGoIdent m) (str "ProtoMessage");
               DMethod (mGoIdent m) (str "ProtoReflect")] ++ getters
               ++ [DMethod (mGoIdent m) (str "ProtoMessageFunctions")])
              (DGetterPlain (mGoIdent m) (fGoName f) ty chk p) = true).
  { intros f ty p chk Hin Ht. cbn [getter_ok]. rewrite member_type_app, member_type_std.
    - rewrite member_type_app, (members_type (mFields m) members f ty p); auto.
      + apply bytes_eqb_refl.
      + do 3 apply NoDup_cons_iff in Hnd as [_ Hnd]. exact Hnd.
    - intros Hs. inversion Hnd as [|? ? N1 Hnd1]. inversion Hnd1 as [|? ? N2 Hnd2].
      inversion Hnd2 as [|? ? N3 _]. subst. pose proof (in_map fGoName _ _ Hin) as Hf.
      cbn in Hs. destruct Hs as [E|[E|[E|[]]]]; rewrite <- E in Hf;
        [apply N1; right; right|apply N2; right|apply N3]; exact Hf. }
  destruct Hd as [<-|[<-|[<-|Hd]]]; [reflexivity..|].
  apply in_app_or in Hd as [Hd|Hd].
  - destruct (each_in _ _ _ _ Em Hd) as (f & df & Hin & Ef & Hdf).
    rewrite genField_no_oneof in Ef by (rewrite forallb_forall in Hno; auto).
    unfold genField_plain in Ef. destruct (getType f) as [[? ?]|]; [|discriminate].
    injection Ef as <-. destruct Hdf as [<-|[]]. reflexivity.
  - destruct Hd as [<-|[<-|[<-|[<-|Hd]]]]; [reflexivity..|].
    apply in_app_or in Hd as [Hd|[<-|[]]]; [|reflexivity].
    destruct (getters_shape _ _ _ _ Hno Eg Hd) as [(f & ty & p & chk & Hin & Ht & ->)|Hok];
      [apply Hplain; assumption|apply Hok].
Qed.

(** C39: The argument list of [genFunctionSignature], built by appending
    ["name type, "] per argument and cutting the last two bytes, is the
    arguments joined by [", "], for any number of arguments. *)
Theorem signature_arguments_join argz :
  signature_arguments argz = join (str ", ") (map render_arg argz).
Proof.
  destruct argz as [|a [|b argz]]; [reflexivity|reflexivity|].
  unfold signature_arguments. rewrite fold_args_acc, app_nil_l, concat_sep.
  set (J := join (str ", ") (map render_arg (a :: b :: argz))).
  rewrite length_app. change (length (str ", ")) with 2%nat.
  replace (length J + 2 - 2)%nat with (length J) by lia.
  rewrite firstn_app, firstn_all, Nat.sub_diag. apply app_nil_r.
Qed.

(** ** Witnesses *)

Lemma genMsgStruct_oneof_wrapper_type_witness :
  (In (DWrapper (fGoIdent test_b) (fGoName test_b) (str "string")) test_decls /\
   In (DGetterOneof (mGoIdent test_struct) (fGoName test_b) (str "int32") (oGoName test_kind)
                    (fGoIdent test_b)) test_decls)
  /\ well_typed test_decls = false.
Proof.
  split; [|vm_compute; reflexivity].
  apply (genMsgStruct_oneof_wrapper_type test_struct test_decls test_a test_b test_kind
           (str "string") true (str "int32") true);
    first [reflexivity | (left; reflexivity) | (right; left; reflexivity)].
Defined.

Lemma genMsgStruct_well_typed_witness : well_typed hello_decls = true.
Proof.
  apply (genMsgStruct_well_typed hello_struct); [reflexivity| |reflexivity].
  repeat constructor; cbn; intuition discriminate.
Defined.

End GoStruct.
