(* ===== verification/GoEnum.v ===== *)
(** * GoEnum: the enum code the generator prints (src/generator/gen.go)

    For every enum of a file, [GenerateProtocGenGo] calls [genEnum], which
    prints the type, one constant per value, the maps [E_name] (number to
    name) and [E_value] (name to number), the methods [Enum] and [String],
    then [genEnumReflectMethods] ([Descriptor], [Type], [Number]), and on
    request [UnmarshalJSON] and [EnumDescriptor].  Each [g.P(...)] call is
    one [Line]: plain text, a line with leading and trailing comments, or
    an entry of one of the two map literals, kept with the constant it
    denotes so that Go's rule on map literals (no two equal constant keys)
    can be stated.  [g.Annotate] only records source positions and is not
    modelled.  The theorems: the [E_name] literal never repeats a key,
    aliases being commented out; [E_value] and [E_name] are inverse on the
    first value of each number; the output for [ImportEnum] is the code of
    test_import.pulsar.go. *)

From Stdlib Require Import String ZArith List Lia.
From S2P Require Import Prelude Protoreflect GoTag GoStruct.
Import ListNotations.
Open Scope Z_scope.

Create Rewrite HintDb enum_rw.

Module GoEnum.
Import GoTag.GoTag GoStruct.GoStruct.

(** ** What the generator reads *)

(** [*protogen.EnumValue]: [GoIdent], [Desc.Name()], [Desc.Number()], the
    [deprecated] option and the leading and trailing comments. *)
Record EnumValue := mkEnumValue {
  vGoIdent : bytes;
  vName : bytes;
  vNumber : Z;
  vDeprecated : bool;
  vLeading : bytes;
  vTrailing : bytes
}.

(** [*enumInfo]: [GoIdent], the comments and [deprecated] option of the
    enum, its [Values] in declaration order, whether its syntax is proto2,
    the flags [genJSONMethod] and [genRawDescMethod], and [Location.Path]. *)
Record EnumInfo := mkEnumInfo {
  eGoIdent : bytes;
  eLeading : bytes;
  eDeprecated : bool;
  eValues : list EnumValue;
  eProto2 : bool;
  eGenJSONMethod : bool;
  eGenRawDescMethod : bool;
  ePath : list Z
}.

(** The part of [*fileInfo] [genEnum] reads and writes: [GoDescriptorIdent]
    (for the variable names) and [needRawDesc]. *)
Record FileInfo := mkFileInfo {
  fiGoDescriptorIdent : bytes;
  fiNeedRawDesc : bool
}.

(** [e.Desc.Values().ByNumber(n)]: the descriptor keeps, for a number, the
    first value declared with it; values are told apart by their position. *)
Fixpoint ByNumber_at (k : nat) (vs : list EnumValue) (n : Z) : option nat :=
  match vs with
  | [] => None
  | v :: vs => if vNumber v =? n then Some k else ByNumber_at (S k) vs n
  end.

Definition ByNumber (vs : list EnumValue) (n : Z) : option nat := ByNumber_at 0 vs n.

(** ** Printed lines *)

Inductive Line :=
(** [g.P(s)] *)
| P (s : bytes)
(** [g.P(leadingComments, s, trailing)] *)
| PComments (leading s trailing : bytes)
(** [g.P(duplicate, number, ": ", strconv.Quote(name), ",")] *)
| PNameEntry (duplicate : bytes) (number : Z) (name : bytes)
(** [g.P(strconv.Quote(name), ": ", number, ",")] *)
| PValueEntry (name : bytes) (number : Z).

(** [strings.Split(s, "\n")] *)
Fixpoint split_nl (cur s : bytes) : list bytes :=
  match s with
  | [] => [rev cur]
  | c :: s => if c =? 10 then rev cur :: split_nl [] s else split_nl (c :: cur) s
  end.

(** [strings.TrimSuffix(s, "\n")] *)
Definition trim_nl (s : bytes) : bytes :=
  match rev s with 10 :: r => rev r | _ => s end.

(** [protogen.Comments.String()]: every line of the comment after [//]. *)
Definition comments_string (c : bytes) : bytes :=
  if is_nil c then []
  else flat_map (fun l => str "//" ++ l ++ [10]) (split_nl [] (trim_nl c)).

(** The text of a line.  [trailingComment] declares no [String] method in
    gen.go, so [fmt] prints its text as it is. *)
Definition render (l : Line) : bytes :=
  match l with
  | P s => s
  | PComments c s t => comments_string c ++ s ++ t
  | PNameEntry dup n name => dup ++ itoa n ++ str ": " ++ Quote name ++ str ","
  | PValueEntry name n => Quote name ++ str ": " ++ itoa n ++ str ","
  end.

(** ** gen.go *)

(** Lines 112-119: one constant per value. *)
Definition const_lines (e : EnumInfo) : list Line :=
  map (fun v => PComments (appendDeprecationSuffix (vLeading v) (vDeprecated v))
                  (vGoIdent v ++ str " " ++ eGoIdent e ++ str " = " ++ itoa (vNumber v))
                  (vTrailing v))
      (eValues e).

(** Lines 127-133: the entries of [E_name]; the value at position [k] is
    commented out as a duplicate unless it is the one [ByNumber] returns. *)
Fixpoint name_entries (all : list EnumValue) (k : nat) (vs : list EnumValue) : list Line :=
  match vs with
  | [] => []
  | v :: vs =>
    let duplicate :=
      match ByNumber all (vNumber v) with
      | Some j => if Nat.eqb j k then [] else str "// Duplicate value: "
      | None => str "// Duplicate value: "
      end in
    PNameEntry duplicate (vNumber v) (vName v) :: name_entries all (S k) vs
  end.

(** Lines 136-138: the entries of [E_value]. *)
Definition value_entries (e : EnumInfo) : list Line :=
  map (fun v => PValueEntry (vName v) (vNumber v)) (eValues e).

(** [func genEnumReflectMethods(g, f, e)] (lines 192-213); [idx] is
    [f.allEnumsByPtr[e]], the position of [e] in [f.allEnums]. *)
Definition genEnumReflectMethods (fi : FileInfo) (idx : Z) (e : EnumInfo) : list Line :=
  let typesVar := enumTypesVarName (fiGoDescriptorIdent fi) in
  let id := eGoIdent e in
  [P (str "func (" ++ id ++ str ") Descriptor() protoreflect.EnumDescriptor {");
   P (str "return " ++ typesVar ++ str "[" ++ itoa idx ++ str "].Descriptor()");
   P (str "}"); P [];
   P (str "func (" ++ id ++ str ") Type() protoreflect.EnumType {");
   P (str "return &" ++ typesVar ++ str "[" ++ itoa idx ++ str "]");
   P (str "}"); P [];
   P (str "func (x " ++ id ++ str ") Number() protoreflect.EnumNumber {");
   P (str "return protoreflect.EnumNumber(x)");
   P (str "}"); P []].

(** [for i := 1; i < len(e.Location.Path); i += 2 { indexes = append(indexes,
    strconv.Itoa(int(e.Location.Path[i]))) }] *)
Fixpoint odd_indexes (path : list Z) : list bytes :=
  match path with
  | _ :: x :: rest => itoa x :: odd_indexes rest
  | _ => []
  end.

(** [func genEnum(g, f, e)] (lines 102-190): the printed lines and the file
    info, whose [needRawDesc] is set when [EnumDescriptor] is printed. *)
Definition genEnum (fi : FileInfo) (idx : Z) (e : EnumInfo) : list Line * FileInfo :=
  let id := eGoIdent e in
  let head :=
    [PComments (appendDeprecationSuffix (eLeading e) (eDeprecated e))
       (str "type " ++ id ++ str " int32") [];
     P (str "const (")] ++ const_lines e ++
    [P (str ")"); P [];
     P (str "// Enum value maps for " ++ id ++ str ".");
     P (str "var (");
     P (id ++ str "_name" ++ str " = map[int32]string{")] ++
    name_entries (eValues e) 0 (eValues e) ++
    [P (str "}");
     P (id ++ str "_value" ++ str " = map[string]int32{")] ++
    value_entries e ++
    [P (str "}"); P (str ")"); P [];
     P (str "func (x " ++ id ++ str ") Enum() *" ++ id ++ str " {");
     P (str "p := new(" ++ id ++ str ")");
     P (str "*p = x");
     P (str "return p");
     P (str "}"); P [];
     P (str "func (x " ++ id ++ str ") String() string {");
     P (str "return protoimpl.X.EnumStringOf(x.Descriptor(), protoreflect.EnumNumber(x))");
     P (str "}"); P []] ++
    genEnumReflectMethods fi idx e ++
    (if (eGenJSONMethod e && eProto2 e)%bool then
       [P (str "// Deprecated: Do not use.");
        P (str "func (x *" ++ id ++ str ") UnmarshalJSON(b []byte) error {");
        P (str "num, err := protoimpl.X.UnmarshalJSONEnum(x.Descriptor(), b)");
        P (str "if err != nil {");
        P (str "return err");
        P (str "}");
        P (str "*x = " ++ id ++ str "(num)");
        P (str "return nil");
        P (str "}"); P []]
     else []) in
  if eGenRawDescMethod e then
    (head ++
     [P (str "// Deprecated: Use " ++ id ++ str ".Descriptor instead.");
      P (str "func (" ++ id ++ str ") EnumDescriptor() ([]byte, []int) {");
      P (str "return " ++ rawDescVarName (fiGoDescriptorIdent fi) ++ str "GZIP(), []int{" ++
         join (str ",") (odd_indexes (ePath e)) ++ str "}");
      P (str "}"); P []],
     mkFileInfo (fiGoDescriptorIdent fi) true)
  else (head, fi).

(** [for _, enum := range f.allEnums { genEnum(g, f, enum) }] in
    [GenerateProtocGenGo] (lines 87-89): [allEnumsByPtr] maps each enum to
    its position. *)
Fixpoint genEnums (fi : FileInfo) (idx : Z) (es : list EnumInfo) : list Line * FileInfo :=
  match es with
  | [] => ([], fi)
  | e :: es =>
    let '(ls, fi) := genEnum fi idx e in
    let '(ls', fi) := genEnums fi (idx + 1) es in
    (ls ++ ls', fi)
  end.

(** ** The Go meaning of the two map literals *)

(** The entries of [E_name] that are not commented out. *)
Definition name_map (ls : list Line) : list (Z * bytes) :=
  flat_map (fun l => match l with
                     | PNameEntry dup n name => if is_nil dup then [(n, name)] else []
                     | _ => []
                     end) ls.

Definition value_map (ls : list Line) : list (bytes * Z) :=
  flat_map (fun l => match l with PValueEntry name n => [(name, n)] | _ => [] end) ls.

(** [m[k]] on a map literal (whose keys are distinct). *)
Fixpoint lookup {K V} (eqb : K -> K -> bool) (m : list (K * V)) (k : K) : option V :=
  match m with
  | [] => None
  | (k', v) :: m => if eqb k' k then Some v else lookup eqb m k
  end.

(** The first value declared with a number. *)
Definition first_with (vs : list EnumValue) (n : Z) : option EnumValue :=
  find (fun v => vNumber v =? n) vs.

(** ** Samples *)

(** [ImportEnum] of internal/testprotos/test3/test_import.proto. *)
Definition ImportEnum_info : EnumInfo :=
  mkEnumInfo (str "ImportEnum") [] false
    [mkEnumValue (str "ImportEnum_IMPORT_ZERO") (str "IMPORT_ZERO") 0 false [] []]
    false false true [5; 0].

Definition test_import_file : FileInfo :=
  mkFileInfo (str "File_internal_testprotos_test3_test_import_proto") false.

(** Lines 387-428 of test_import.pulsar.go without their indentation and
    blank lines. *)
Definition ImportEnum_go : list bytes := map str ([
  "type ImportEnum int32";
  "const (";
  "ImportEnum_IMPORT_ZERO ImportEnum = 0";
  ")";
  "// Enum value maps for ImportEnum.";
  "var (";
  "ImportEnum_name = map[int32]string{";
  "0: " ++ dq ++ "IMPORT_ZERO" ++ dq ++ ",";
  "}";
  "ImportEnum_value = map[string]int32{";
  dq ++ "IMPORT_ZERO" ++ dq ++ ": 0,";
  "}";
  ")";
  "func (x ImportEnum) Enum() *ImportEnum {";
  "p := new(ImportEnum)";
  "*p = x";
  "return p";
  "}";
  "func (x ImportEnum) String() string {";
  "return protoimpl.X.EnumStringOf(x.Descriptor(), protoreflect.EnumNumber(x))";
  "}";
  "func (ImportEnum) Descriptor() protoreflect.EnumDescriptor {";
  "return file_internal_testprotos_test3_test_import_proto_enumTypes[0].Descriptor()";
  "}";
  "func (ImportEnum) Type() protoreflect.EnumType {";
  "return &file_internal_testprotos_test3_test_import_proto_enumTypes[0]";
  "}";
  "func (x ImportEnum) Number() protoreflect.EnumNumber {";
  "return protoreflect.EnumNumber(x)";
  "}";
  "// Deprecated: Use ImportEnum.Descriptor instead.";
  "func (ImportEnum) EnumDescriptor() ([]byte, []int) {";
  "return file_internal_testprotos_test3_test_import_proto_rawDescGZIP(), []int{0}";
  "}"])%string.

(** ** Lemmas *)

Lemma ByNumber_at_app j pre post n :
  ByNumber_at j (pre ++ post) n =
  match ByNumber_at j pre n with
  | Some k => Some k
  | None => ByNumber_at (j + length pre) post n
  end.
Proof.
  revert j; induction pre as [|v pre IH]; intros j; cbn [app length ByNumber_at].
  - now rewrite Nat.add_0_r.
  - destruct (vNumber v =? n); [reflexivity|]. rewrite IH. now rewrite Nat.add_succ_r.
Qed.

Lemma ByNumber_at_bound j vs n k : ByNumber_at j vs n = Some k -> (j <= k < j + length vs)%nat.
Proof.
  revert j; induction vs as [|v vs IH]; intros j H; cbn in H; [discriminate|].
  destruct (vNumber v =? n); [injection H as <-; cbn; lia|]. apply IH in H. cbn. lia.
Qed.

Lemma ByNumber_at_None j vs n : ByNumber_at j vs n = None <-> ~ In n (map vNumber vs).
Proof.
  revert j; induction vs as [|v vs IH]; intros j; cbn; [tauto|].
  destruct (Z.eqb_spec (vNumber v) n); [split; [discriminate|tauto]|].
  rewrite IH. intuition.
Qed.

(** The entry of the value at position [length pre] is kept exactly when
    no earlier value has its number. *)
Lemma name_entry_kept pre v post :
  is_nil (match ByNumber (pre ++ v :: post) (vNumber v) with
          | Some j => if Nat.eqb j (length pre) then [] else str "// Duplicate value: "
          | None => str "// Duplicate value: "
          end) = negb (existsb (Z.eqb (vNumber v)) (map vNumber pre)).
Proof.
  unfold ByNumber. rewrite ByNumber_at_app.
  destruct (ByNumber_at 0 pre (vNumber v)) as [k|] eqn:E.
  - pose proof (ByNumber_at_bound _ _ _ _ E).
    assert (existsb (Z.eqb (vNumber v)) (map vNumber pre) = true) as ->.
    { apply existsb_exists. destruct (in_dec Z.eq_dec (vNumber v) (map vNumber pre)) as [Hin|Hn].
      - exists (vNumber v). now rewrite Z.eqb_refl.
      - apply (ByNumber_at_None 0) in Hn. congruence. }
    destruct (Nat.eqb_spec k (length pre)); [lia|reflexivity].
  - cbn. rewrite Z.eqb_refl, Nat.eqb_refl.
    apply ByNumber_at_None in E.
    destruct (existsb _ _) eqn:X; [|reflexivity].
    apply existsb_exists in X as [m [Hm Hq]]. apply Z.eqb_eq in Hq. subst m. contradiction.
Qed.

Lemma existsb_eqb_In n l : existsb (Z.eqb n) l = false <-> ~ In n l.
Proof.
  rewrite <- Bool.not_true_iff_false, existsb_exists. split.
  - intros H Hin. apply H. exists n. now rewrite Z.eqb_refl.
  - intros H [m [Hm Hq]]. apply Z.eqb_eq in Hq. subst. contradiction.
Qed.

Lemma name_map_app l1 l2 : name_map (l1 ++ l2) = name_map l1 ++ name_map l2.
Proof. apply flat_map_app. Qed.

Lemma value_map_app l1 l2 : value_map (l1 ++ l2) = value_map l1 ++ value_map l2.
Proof. apply flat_map_app. Qed.

(** The keys of the entries from position [length pre] on are numbers of
    no earlier value, and are distinct. *)
Lemma name_entries_keys all pre vs :
  all = pre ++ vs ->
  NoDup (map fst (name_map (name_entries all (length pre) vs))) /\
  forall n, In n (map fst (name_map (name_entries all (length pre) vs))) ->
    ~ In n (map vNumber pre).
Proof.
  revert pre; induction vs as [|v vs IH]; intros pre Hall; cbn [name_entries].
  { split; [constructor|intros n []]. }
  assert (Hall' : all = (pre ++ [v]) ++ vs) by (subst; now rewrite <- app_assoc).
  destruct (IH (pre ++ [v]) Hall') as [Hnd Hk].
  rewrite length_app in Hnd, Hk. cbn [length] in Hnd, Hk. rewrite Nat.add_1_r in Hnd, Hk.
  cbn [name_map flat_map]. fold (name_map (name_entries all (S (length pre)) vs)).
  subst all. rewrite name_entry_kept.
  destruct (existsb (Z.eqb (vNumber v)) (map vNumber pre)) eqn:X; cbn [negb app map fst].
  - split; [exact Hnd|]. intros n Hn Hin. apply (Hk n Hn). rewrite map_app. apply in_or_app. now left.
  - apply existsb_eqb_In in X. split.
    + constructor; [|exact Hnd]. intros Hin. apply (Hk _ Hin). rewrite map_app. apply in_or_app.
      right. now left.
    + intros n [<-|Hn]; [exact X|]. intros Hin. apply (Hk n Hn). rewrite map_app.
      apply in_or_app. now left.
Qed.

(** [E_name[n]] for a number [n] of no earlier value: the name of the first
    value with that number, if any. *)
Lemma name_entries_lookup all pre vs n :
  all = pre ++ vs -> ~ In n (map vNumber pre) ->
  lookup Z.eqb (name_map (name_entries all (length pre) vs)) n = option_map vName (first_with vs n).
Proof.
  revert pre; induction vs as [|v vs IH]; intros pre Hall Hn; [reflexivity|].
  assert (Hall' : all = (pre ++ [v]) ++ vs) by (subst; now rewrite <- app_assoc).
  cbn [name_entries name_map flat_map first_with find].
  fold (name_map (name_entries all (S (length pre)) vs)). fold (first_with vs n).
  pose proof (IH (pre ++ [v]) Hall') as IH'.
  rewrite length_app in IH'. cbn [length] in IH'. rewrite Nat.add_1_r in IH'.
  subst all. rewrite name_entry_kept.
  destruct (Z.eqb_spec (vNumber v) n) as [<-|Hne].
  - apply existsb_eqb_In in Hn. rewrite Hn. cbn. now rewrite Z.eqb_refl.
  - assert (Hn' : ~ In n (map vNumber (pre ++ [v])))
      by (rewrite map_app; cbn; intros [?|[?|[]]] % in_app_or; auto).
    destruct (negb _); cbn [app lookup]; [rewrite (proj2 (Z.eqb_neq _ _) Hne)|]; auto.
Qed.

Lemma lookup_in {K V} (eqb : K -> K -> bool) (m : list (K * V)) k v :
  (forall a b, eqb a b = true <-> a = b) -> NoDup (map fst m) -> In (k, v) m ->
  lookup eqb m k = Some v.
Proof.
  intros Heq; induction m as [|[k' v'] m IH]; intros Hnd Hin; [destruct Hin|].
  inversion Hnd as [|? ? Hk Hnd']; subst. cbn.
  destruct Hin as [Hh|Hin].
  - injection Hh as -> ->. now rewrite (proj2 (Heq k k) eq_refl).
  - destruct (eqb k' k) eqn:E; [|auto]. apply Heq in E. subst k'.
    exfalso. apply Hk. apply (in_map fst) in Hin. exact Hin.
Qed.

Lemma name_map_const e : name_map (const_lines e) = [].
Proof. unfold const_lines. induction (eValues e); cbn; auto. Qed.

Lemma value_map_const e : value_map (const_lines e) = [].
Proof. unfold const_lines. induction (eValues e); cbn; auto. Qed.

Lemma name_map_values e : name_map (value_entries e) = [].
Proof. unfold value_entries. induction (eValues e); cbn; auto. Qed.

Lemma value_map_values e : value_map (value_entries e) = map (fun v => (vName v, vNumber v)) (eValues e).
Proof. unfold value_entries. induction (eValues e); cbn; f_equal; auto. Qed.

Lemma value_map_names all k vs : value_map (name_entries all k vs) = [].
Proof. revert k; induction vs; intros k; cbn; auto. Qed.

#[local] Hint Rewrite name_map_app value_map_app name_map_const value_map_const name_map_values
  value_map_values value_map_names : enum_rw.

(** What the two literals of [genEnum] contain. *)
Lemma genEnum_name_map fi idx e :
  name_map (fst (genEnum fi idx e)) = name_map (name_entries (eValues e) 0 (eValues e)).
Proof.
  unfold genEnum. destruct (eGenRawDescMethod e), (eGenJSONMethod e && eProto2 e)%bool;
    cbn [fst]; autorewrite with enum_rw; cbn; rewrite ?app_nil_r; reflexivity.
Qed.

Lemma genEnum_value_map fi idx e :
  value_map (fst (genEnum fi idx e)) = map (fun v => (vName v, vNumber v)) (eValues e).
Proof.
  unfold genEnum. destruct (eGenRawDescMethod e), (eGenJSONMethod e && eProto2 e)%bool;
    cbn [fst]; autorewrite with enum_rw; cbn; rewrite ?app_nil_r; reflexivity.
Qed.

(** ** Theorems *)

(** C28: The [E_name] literal that [genEnum] prints never has two entries
    with the same key: every value but the first of its number is printed
    as a [// Duplicate value:] comment, so the map literal compiles for any
    enum, aliases included. *)
Theorem genEnum_name_map_NoDup fi idx e :
  NoDup (map fst (name_map (fst (genEnum fi idx e)))).
Proof.
  rewrite genEnum_name_map. exact (proj1 (name_entries_keys (eValues e) [] (eValues e) eq_refl)).
Qed.

(** C29: The two maps [genEnum] prints are inverse on an enum whose value
    names are distinct: [E_value] gives every value's number, and [E_name]
    gives, for that number, the name of the first value declared with it
    (the value itself unless it is an alias). *)
Theorem genEnum_maps_inverse fi idx e v :
  NoDup (map vName (eValues e)) -> In v (eValues e) ->
  lookup bytes_eqb (value_map (fst (genEnum fi idx e))) (vName v) = Some (vNumber v) /\
  lookup Z.eqb (name_map (fst (genEnum fi idx e))) (vNumber v)
  = option_map vName (first_with (eValues e) (vNumber v)).
Proof.
  intros Hnd Hin. rewrite genEnum_value_map, genEnum_name_map. split.
  - apply lookup_in; [exact bytes_eqb_eq| |].
    + now rewrite map_map.
    + now apply (in_map (fun v => (vName v, vNumber v))).
  - exact (name_entries_lookup (eValues e) [] (eValues e) (vNumber v) eq_refl (fun H => H)).
Qed.

(** For [ImportEnum], [genEnum] prints, line for line, the enum code of
    test_import.pulsar.go (lines 387-428, without indentation and blank
    lines), and marks the raw descriptor as needed. *)
Example genEnum_ImportEnum :
  filter (fun s => negb (is_nil s)) (map render (fst (genEnum test_import_file 0 ImportEnum_info)))
  = ImportEnum_go /\
  fiNeedRawDesc (snd (genEnum test_import_file 0 ImportEnum_info)) = true.
Proof. split; vm_compute; reflexivity. Qed.

(** A value with a trailing comment: [trailingComment] has no [String]
    method in gen.go, so the constant's line carries the comment's text
    without [//] ([A = 0; // note] prints [E_A E = 0 note]). *)
Example genEnum_trailing_comment_raw :
  render (hd (P []) (const_lines
    (mkEnumInfo (str "E") [] false [mkEnumValue (str "E_A") (str "A") 0 false [] (str " note")]
       false false false [5; 0])))
  = str "E_A E = 0 note".
Proof. vm_compute. reflexivity. Qed.

(** ** Witnesses *)

(** [enum E { option allow_alias = true; A = 0; B = 1; C = 1; }]. *)
Definition alias_enum : EnumInfo :=
  mkEnumInfo (str "E") [] false
    [mkEnumValue (str "E_A") (str "A") 0 false [] [];
     mkEnumValue (str "E_B") (str "B") 1 false [] [];
     mkEnumValue (str "E_C") (str "C") 1 false [] []]
    false false false [5; 1].

Lemma genEnum_maps_inverse_witness :
  lookup bytes_eqb (value_map (fst (genEnum test_import_file 1 alias_enum))) (str "C") = Some 1 /\
  lookup Z.eqb (name_map (fst (genEnum test_import_file 1 alias_enum))) 1 = Some (str "B").
Proof.
  exact (genEnum_maps_inverse test_import_file 1 alias_enum
           (mkEnumValue (str "E_C") (str "C") 1 false [] [])
           ltac:(vm_compute; repeat constructor; intros H; vm_compute in H; intuition discriminate)
           ltac:(cbn; auto)).
Defined.

End GoEnum.
