(* ===== verification/GoMsgText.v ===== *)
(** * GoMsgText: the text gen.go prints for the package and each message
    (src/generator/gen.go)

    [GenerateProtocGenGo] sets the global [FILENAME] from the file's
    generated-file prefix, prints the package clause ([genPackage]), the
    version guards and interface guards ([genTopLevelVars]) and, per
    message, [genMsgStruct]: the struct, then [genReset], [genString],
    [genProtoMessage], [genProtoReflect] and the getters.  Here each of
    these is the list of lines its [g.P] calls print; the members and
    getters are GoStruct's declarations ([Decl]) rendered by the [g.P]
    calls that print them ([render_decl]); leading comments are not
    modelled.  [genMsgStruct_text] is GoStruct's [genMsgStruct] as text.
    The theorems: on [Bar] and [Hello] the model prints the code of
    foo.pulsar.go; the [msgTypes] variable that [Reset] and [ProtoReflect]
    refer to is built from [FILENAME], which is no Go identifier when the
    prefix holds a byte such as [-] or [.]. *)

From Stdlib Require Import String ZArith List Lia.
From S2P Require Import Prelude Protoreflect GoTag GoStruct.
Import ListNotations.
Open Scope Z_scope.

Module GoMsgText.
Import Protoreflect.Protoreflect GoTag.GoTag GoStruct.GoStruct.

(** ** gen.go *)

(** [FILENAME = strings.ReplaceAll(file.GeneratedFilenamePrefix, "/", "_")]
    (line 83). *)
Definition FILENAME_of (prefix : bytes) : bytes := replace_byte 47 (str "_") prefix.

(** [func genPackage(g, packageName, file)] (lines 215-226); the header
    comment is commented out in the source. *)
Definition genPackage (packageName : bytes) : list bytes :=
  [str "package " ++ packageName; []].

(** [protoimpl.GenVersion] of the protobuf runtime the generator links. *)
Definition GenVersion : Z := 20.

(** [func genTopLevelVars(g, msgs)] (lines 228-244); a message by its
    [GoIdent.GoName]. *)
Definition genTopLevelVars (msgs : list bytes) : list bytes :=
  [str "const (";
   str "// Verify that this generated code is sufficiently up-to-date.";
   str "_ = protoimpl.EnforceVersion(" ++ itoa GenVersion ++ str " - protoimpl.MinVersion)";
   str "// Verify that runtime/protoimpl is sufficiently up-to-date.";
   str "_ = protoimpl.EnforceVersion(protoimpl.MaxVersion - " ++ itoa GenVersion ++ str ")";
   [];
   str ")";
   [];
   str "var (";
   str "// Interface guards to verify each message implements proto message interface"] ++
  map (fun m => str "_ protoreflect.Message = &" ++ m ++ str "{}") msgs ++
  [str ")"; []].

(** [func genProtoMessage(g, msg)] (lines 267-269). *)
Definition genProtoMessage (msg : bytes) : list bytes :=
  [str "func (x *" ++ msg ++ str ") ProtoMessage() {}"].

(** [func genReset(g, msg, index)] (lines 271-280). *)
Definition genReset (FILENAME msg : bytes) (index : Z) : list bytes :=
  [str "func (x *" ++ msg ++ str ") Reset() {";
   str "*x = " ++ msg ++ str "{}";
   str "if protoimpl.UnsafeEnabled {";
   str "mi := &file_" ++ FILENAME ++ str "_proto_msgTypes[" ++ itoa index ++ str "]";
   str "ms := protoimpl.X.MessageStateOf(protoimpl.Pointer(x))";
   str "ms.StoreMessageInfo(mi)";
   str "}";
   str "}"].

(** [func genString(g, msg)] (lines 391-395). *)
Definition genString (msg : bytes) : list bytes :=
  [str "func (x *" ++ msg ++ str ") String() string {";
   str "return protoimpl.X.MessageStringOf(x)";
   str "}"].

(** [func genProtoReflect(g, msg, index)] (lines 475-487). *)
Definition genProtoReflect (FILENAME msg : bytes) (index : Z) : list bytes :=
  [genFunctionSignature true (str "x") msg (str "ProtoReflect") (str "protoreflect.Message") [];
   str "mi := &file_" ++ FILENAME ++ str "_proto_msgTypes[" ++ itoa index ++ str "]";
   str "if protoimpl.UnsafeEnabled && x != nil {";
   str "ms := protoimpl.X.MessageStateOf(protoimpl.Pointer(x))";
   str "if ms.LoadMessageInfo() == nil {";
   str "ms.StoreMessageInfo(mi)";
   str "}";
   str "return ms";
   str "}";
   str "return mi.MessageOf(x)";
   str "}"].

(** The [g.P] calls that print a declaration: a member is one line (its
    tags printed right after the type, lines 311 and 324); the
    declarations of [genGetters] are each followed by [g.P()] (lines
    411-471). *)
Definition render_decl (d : Decl) : list bytes :=
  match d with
  | DMember name type tags => [name ++ str " " ++ type ++ tags]
  | DInterface iface => [str "type " ++ iface ++ str " interface {"; iface ++ str "()"; str "}"; []]
  | DOneofGetter msg oneof iface =>
    [str "func (m *" ++ msg ++ str ") Get" ++ oneof ++ str "() " ++ iface ++ str " {";
     str "if m != nil {"; str "return m." ++ oneof; str "}"; str "return nil"; str "}"; []]
  | DWrapper ident goname type => [str "type " ++ ident ++ str " struct {"; goname ++ str " " ++ type; str "}"; []]
  | DWrapperMethod ident iface => [str "func (*" ++ ident ++ str ") " ++ iface ++ str "() {}"; []]
  | DGetterWeak msg goname num fullName =>
    [str "func (x *" ++ msg ++ str ") Get" ++ goname ++ str "() proto.Message{";
     str "var w protoimpl.WeakFields"; str "if x != nil {"; str "w = x.weakFields"; str "}";
     str "return protoimpl.X.GetWeak(w, " ++ itoa num ++ str ", " ++ fullName ++ str ")"; str "}"; []]
  | DGetterOneof msg goname type oneof ident =>
    [str "func (x *" ++ msg ++ str ") Get" ++ goname ++ str "() " ++ type ++ str " {";
     str "if x, ok := x.Get" ++ oneof ++ str "().(*" ++ ident ++ str "); ok {";
     str "return x." ++ goname; str "}"; str "var y " ++ type; str "return y"; str "}"; []]
  | DGetterPlain msg goname type checkField star =>
    [str "func (x *" ++ msg ++ str ") Get" ++ goname ++ str "() " ++ type ++ str " {";
     if checkField then str "if x != nil && x." ++ goname ++ str " != nil {" else str "if x != nil {";
     str "return " ++ (if star then str "*" else []) ++ str " x." ++ goname;
     str "}"; str "var y " ++ type; str "return y"; str "}"; []]
  | DMethod _ _ => []
  end.

Definition render_decls (ds : list Decl) : list bytes := flat_map render_decl ds.

(** [func genMsgStruct(g, msg, index)] (lines 246-265) as text; the
    [genProtoMessageFunctions] it ends with are generated outside src/. *)
Definition genMsgStruct_text (FILENAME : bytes) (m : GMessage) (index : Z) : option (list bytes) :=
  members <-? each genField (mFields m) ;;
  getters <-? genGetters m ;;
  let msg := mGoIdent m in
  Some ([str "type " ++ msg ++ str " struct {"] ++ render_decls genStdFields ++ [[]] ++
        render_decls members ++ [str "}"] ++
        genReset FILENAME msg index ++ [[]] ++
        genString msg ++ [[]] ++
        genProtoMessage msg ++ [[]] ++
        genProtoReflect FILENAME msg index ++ [[]] ++
        render_decls getters ++ [[]]).

(** ** foo.proto *)

Definition bar_msg : GMessage :=
  mkGMessage (str "Bar")
    [mkGField (tag_of StringKind 1 "baz" false) (str "Baz") (str "Bar_Baz")
       false false false [] [] None None []].

Definition hello_msg : GMessage :=
  mkGMessage (str "Hello")
    [mkGField (tag_of StringKind 1 "world" false) (str "World") (str "Hello_World")
       false false false [] [] None None [];
     mkGField (tag_of BoolKind 2 "universe" false) (str "Universe") (str "Hello_Universe")
       false false false [] [] None None []].

(** foo.pulsar.go lines 14-25, without indentation and blank lines. *)
Definition foo_top_go : list bytes := (map str [
  "const (";
  "// Verify that this generated code is sufficiently up-to-date.";
  "_ = protoimpl.EnforceVersion(20 - protoimpl.MinVersion)";
  "// Verify that runtime/protoimpl is sufficiently up-to-date.";
  "_ = protoimpl.EnforceVersion(protoimpl.MaxVersion - 20)";
  ")";
  "var (";
  "// Interface guards to verify each message implements proto message interface";
  "_ protoreflect.Message = &Bar{}";
  "_ protoreflect.Message = &Hello{}";
  ")"])%string.

(** foo.pulsar.go lines 27-68 (Bar), without indentation and blank lines. *)
Definition foo_bar_go : list bytes := (map str [
  "type Bar struct {";
  "state         protoimpl.MessageState";
  "sizeCache     protoimpl.SizeCache";
  "unknownFields protoimpl.UnknownFields";
  "Baz string `protobuf:" ++ dq ++ "bytes,1,opt,name=baz,proto3" ++ dq ++ " json:" ++ dq ++ "baz,omitempty" ++ dq ++ " yaml:" ++ dq ++ "baz" ++ dq ++ "`";
  "}";
  "func (x *Bar) Reset() {";
  "*x = Bar{}";
  "if protoimpl.UnsafeEnabled {";
  "mi := &file_foo_proto_msgTypes[0]";
  "ms := protoimpl.X.MessageStateOf(protoimpl.Pointer(x))";
  "ms.StoreMessageInfo(mi)";
  "}";
  "}";
  "func (x *Bar) String() string {";
  "return protoimpl.X.MessageStringOf(x)";
  "}";
  "func (x *Bar) ProtoMessage() {}";
  "func (x *Bar) ProtoReflect() protoreflect.Message {";
  "mi := &file_foo_proto_msgTypes[0]";
  "if protoimpl.UnsafeEnabled && x != nil {";
  "ms := protoimpl.X.MessageStateOf(protoimpl.Pointer(x))";
  "if ms.LoadMessageInfo() == nil {";
  "ms.StoreMessageInfo(mi)";
  "}";
  "return ms";
  "}";
  "return mi.MessageOf(x)";
  "}";
  "func (x *Bar) GetBaz() string {";
  "if x != nil {";
  "return x.Baz";
  "}";
  "var y string";
  "return y";
  "}"])%string.

(** foo.pulsar.go lines 274-324 (Hello), without indentation and blank lines. *)
Definition foo_hello_go : list bytes := (map str [
  "type Hello struct {";
  "state         protoimpl.MessageState";
  "sizeCache     protoimpl.SizeCache";
  "unknownFields protoimpl.UnknownFields";
  "World    string `protobuf:" ++ dq ++ "bytes,1,opt,name=world,proto3" ++ dq ++ " json:" ++ dq ++ "world,omitempty" ++ dq ++ " yaml:" ++ dq ++ "world" ++ dq ++ "`";
  "Universe bool   `protobuf:" ++ dq ++ "varint,2,opt,name=universe,proto3" ++ dq ++ " json:" ++ dq ++ "universe,omitempty" ++ dq ++ " yaml:" ++ dq ++ "universe" ++ dq ++ "`";
  "}";
  "func (x *Hello) Reset() {";
  "*x = Hello{}";
  "if protoimpl.UnsafeEnabled {";
  "mi := &file_foo_proto_msgTypes[1]";
  "ms := protoimpl.X.MessageStateOf(protoimpl.Pointer(x))";
  "ms.StoreMessageInfo(mi)";
  "}";
  "}";
  "func (x *Hello) String() string {";
  "return protoimpl.X.MessageStringOf(x)";
  "}";
  "func (x *Hello) ProtoMessage() {}";
  "func (x *Hello) ProtoReflect() protoreflect.Message {";
  "mi := &file_foo_proto_msgTypes[1]";
  "if protoimpl.UnsafeEnabled && x != nil {";
  "ms := protoimpl.X.MessageStateOf(protoimpl.Pointer(x))";
  "if ms.LoadMessageInfo() == nil {";
  "ms.StoreMessageInfo(mi)";
  "}";
  "return ms";
  "}";
  "return mi.MessageOf(x)";
  "}";
  "func (x *Hello) GetWorld() string {";
  "if x != nil {";
  "return x.World";
  "}";
  "var y string";
  "return y";
  "}";
  "func (x *Hello) GetUniverse() bool {";
  "if x != nil {";
  "return x.Universe";
  "}";
  "var y bool";
  "return y";
  "}"])%string.

(** On foo.proto ([FILENAME] [foo]), [genTopLevelVars] and [genMsgStruct]
    print the code of foo.pulsar.go for [Bar] and [Hello], up to gofmt's
    spaces and line breaks. *)
Example genMsgStruct_foo :
  printed (genTopLevelVars [str "Bar"; str "Hello"]) = printed foo_top_go /\
  option_map printed (genMsgStruct_text (FILENAME_of (str "foo")) bar_msg 0) = Some (printed foo_bar_go) /\
  option_map printed (genMsgStruct_text (FILENAME_of (str "foo")) hello_msg 1) = Some (printed foo_hello_go).
Proof. split; [|split]; vm_compute; reflexivity. Qed.

(** [FILENAME] only replaces '/': every other byte of the generated
    filename prefix, a '-' or a '.' included, stays in the identifiers
    [genReset] and [genProtoReflect] print. *)
Lemma FILENAME_of_keeps (prefix : bytes) (c : Z) :
  In c prefix -> c <> 47 -> In c (FILENAME_of prefix).
Proof.
  unfold FILENAME_of, replace_byte. intros Hin Hc.
  apply in_flat_map. exists c. split; [exact Hin|].
  destruct (Z.eqb_spec c 47); [contradiction|left; reflexivity].
Qed.

(** For a prefix [a-b/c] the generated code indexes the Go name
    [file_a-b_c_proto_msgTypes], which is not an identifier (the FIXME of
    gen.go line 83). *)
Example genReset_bad_identifier :
  nth 3 (genReset (FILENAME_of (str "a-b/c")) (str "M") 0) [] =
  str "mi := &file_a-b_c_proto_msgTypes[0]".
Proof. vm_compute. reflexivity. Qed.

End GoMsgText.
