(* ===== verification/CosmosProto.v ===== *)
(** * CosmosProto: the generated descriptor file of cosmos_proto/cosmos.proto

    src/cosmos_proto/cosmos.pulsar.go declares four extensions of
    [google.protobuf.MessageOptions] and [FieldOptions] as the table
    [file_cosmos_proto_cosmos_proto_extTypes] (one [protoimpl.ExtensionInfo]
    each, with its struct tag), the variables [E_*] pointing into it, the
    serialized [FileDescriptorProto] [rawDesc], the Go types and dependency
    indexes, and [init], which builds the file descriptor once and drops
    the tables.  The tables are data; [init] is modelled as a step on the
    package's variables with [protoimpl.TypeBuilder.Build] as a parameter.

    The theorems check the generated file against itself and against the
    generator: [rawDesc] is a well-formed record sequence; the extensions it
    describes have the numbers, names and extendees of the table; the tag of
    each table entry is the one [GoTag.Marshal] of gen.go prints for the
    extension's descriptor; the variable names are [fileVarName]'s; [init]
    runs [Build] once. *)

From Stdlib Require Import String ZArith List Lia.
From S2P Require Import Prelude Varint Skip Records Protoreflect GoTag GoStruct.
Import ListNotations.
Open Scope Z_scope.
Open Scope go_scope.

Module CosmosProto.
Import Varint.Varint Skip.Skip Records.Records Protoreflect.Protoreflect GoTag.GoTag GoStruct.GoStruct.

(** ** The generated tables *)

(** [protoimpl.ExtensionInfo]: the Go types are given by their names. *)
Record ExtensionInfo := mkExtensionInfo {
  ExtendedType : bytes;
  ExtensionType : bytes;
  Field : Z;
  Name : bytes;
  Tag : bytes;
  Filename : bytes
}.

(** [var file_cosmos_proto_cosmos_proto_extTypes] (lines 23-56). *)
Definition file_cosmos_proto_cosmos_proto_extTypes : list ExtensionInfo :=
  [mkExtensionInfo (str "*descriptorpb.MessageOptions") (str "*string") 93001
     (str "cosmos_proto.implements_interface") (str "bytes,93001,opt,name=implements_interface")
     (str "cosmos_proto/cosmos.proto");
   mkExtensionInfo (str "*descriptorpb.FieldOptions") (str "*string") 93001
     (str "cosmos_proto.accepts_interface") (str "bytes,93001,opt,name=accepts_interface")
     (str "cosmos_proto/cosmos.proto");
   mkExtensionInfo (str "*descriptorpb.FieldOptions") (str "*string") 93002
     (str "cosmos_proto.scalar") (str "bytes,93002,opt,name=scalar")
     (str "cosmos_proto/cosmos.proto");
   mkExtensionInfo (str "*descriptorpb.FieldOptions") (str "*string") 93003
     (str "cosmos_proto.go_type") (str "bytes,93003,opt,name=go_type")
     (str "cosmos_proto/cosmos.proto")].

(** [E_ImplementsInterface = &..._extTypes[0]] ... (lines 59-81): an index
    expression on the table, [None] if it were out of range. *)
Definition E_ImplementsInterface : option ExtensionInfo := nth_error file_cosmos_proto_cosmos_proto_extTypes 0.
Definition E_AcceptsInterface : option ExtensionInfo := nth_error file_cosmos_proto_cosmos_proto_extTypes 1.
Definition E_Scalar : option ExtensionInfo := nth_error file_cosmos_proto_cosmos_proto_extTypes 2.
Definition E_GoType : option ExtensionInfo := nth_error file_cosmos_proto_cosmos_proto_extTypes 3.

(** [var file_cosmos_proto_cosmos_proto_rawDesc] (lines 85-119). *)
Definition file_cosmos_proto_cosmos_proto_rawDesc : bytes := [
   10; 25; 99; 111; 115; 109; 111; 115; 95; 112; 114; 111; 116; 111; 47; 99;
   111; 115; 109; 111; 115; 46; 112; 114; 111; 116; 111; 18; 12; 99; 111; 115;
   109; 111; 115; 95; 112; 114; 111; 116; 111; 26; 32; 103; 111; 111; 103; 108;
   101; 47; 112; 114; 111; 116; 111; 98; 117; 102; 47; 100; 101; 115; 99; 114;
   105; 112; 116; 111; 114; 46; 112; 114; 111; 116; 111; 58; 84; 10; 20; 105;
   109; 112; 108; 101; 109; 101; 110; 116; 115; 95; 105; 110; 116; 101; 114; 102;
   97; 99; 101; 18; 31; 46; 103; 111; 111; 103; 108; 101; 46; 112; 114; 111;
   116; 111; 98; 117; 102; 46; 77; 101; 115; 115; 97; 103; 101; 79; 112; 116;
   105; 111; 110; 115; 24; 201; 214; 5; 32; 1; 40; 9; 82; 19; 105; 109;
   112; 108; 101; 109; 101; 110; 116; 115; 73; 110; 116; 101; 114; 102; 97; 99;
   101; 58; 76; 10; 17; 97; 99; 99; 101; 112; 116; 115; 95; 105; 110; 116;
   101; 114; 102; 97; 99; 101; 18; 29; 46; 103; 111; 111; 103; 108; 101; 46;
   112; 114; 111; 116; 111; 98; 117; 102; 46; 70; 105; 101; 108; 100; 79; 112;
   116; 105; 111; 110; 115; 24; 201; 214; 5; 32; 1; 40; 9; 82; 16; 97;
   99; 99; 101; 112; 116; 115; 73; 110; 116; 101; 114; 102; 97; 99; 101; 58;
   55; 10; 6; 115; 99; 97; 108; 97; 114; 18; 29; 46; 103; 111; 111; 103;
   108; 101; 46; 112; 114; 111; 116; 111; 98; 117; 102; 46; 70; 105; 101; 108;
   100; 79; 112; 116; 105; 111; 110; 115; 24; 202; 214; 5; 32; 1; 40; 9;
   82; 6; 115; 99; 97; 108; 97; 114; 58; 56; 10; 7; 103; 111; 95; 116;
   121; 112; 101; 18; 29; 46; 103; 111; 111; 103; 108; 101; 46; 112; 114; 111;
   116; 111; 98; 117; 102; 46; 70; 105; 101; 108; 100; 79; 112; 116; 105; 111;
   110; 115; 24; 203; 214; 5; 32; 1; 40; 9; 82; 6; 103; 111; 84; 121;
   112; 101; 66; 152; 1; 10; 16; 99; 111; 109; 46; 99; 111; 115; 109; 111;
   115; 95; 112; 114; 111; 116; 111; 66; 11; 67; 111; 115; 109; 111; 115; 80;
   114; 111; 116; 111; 80; 1; 90; 43; 103; 105; 116; 104; 117; 98; 46; 99;
   111; 109; 47; 99; 111; 115; 109; 111; 115; 47; 99; 111; 115; 109; 111; 115;
   45; 112; 114; 111; 116; 111; 47; 99; 111; 115; 109; 111; 115; 95; 112; 114;
   111; 116; 111; 162; 2; 3; 67; 88; 88; 170; 2; 11; 67; 111; 115; 109;
   111; 115; 80; 114; 111; 116; 111; 202; 2; 11; 67; 111; 115; 109; 111; 115;
   80; 114; 111; 116; 111; 226; 2; 23; 67; 111; 115; 109; 111; 115; 80; 114;
   111; 116; 111; 92; 71; 80; 66; 77; 101; 116; 97; 100; 97; 116; 97; 234;
   2; 11; 67; 111; 115; 109; 111; 115; 80; 114; 111; 116; 111; 98; 6; 112;
   114; 111; 116; 111; 51].

(** [var file_cosmos_proto_cosmos_proto_goTypes] (lines 121-124), by the
    names of the (nil) pointers' types. *)
Definition file_cosmos_proto_cosmos_proto_goTypes : list bytes :=
  [str "*descriptorpb.MessageOptions"; str "*descriptorpb.FieldOptions"].

(** [var file_cosmos_proto_cosmos_proto_depIdxs] (lines 125-135): the
    extendees of the four extensions, then the five sub-list offsets. *)
Definition file_cosmos_proto_cosmos_proto_depIdxs : list Z := [0; 1; 1; 1; 4; 4; 4; 0; 0].

(** The package variables [init] reads and writes; [None] is [nil]. *)
Record PkgState (FileDescriptor : Type) := mkPkgState {
  File_cosmos_proto_cosmos_proto : option FileDescriptor;
  rawDesc : option bytes;
  goTypes : option (list bytes);
  depIdxs : option (list Z)
}.
Arguments mkPkgState {FileDescriptor}.
Arguments File_cosmos_proto_cosmos_proto {FileDescriptor}.
Arguments rawDesc {FileDescriptor}.
Arguments goTypes {FileDescriptor}.
Arguments depIdxs {FileDescriptor}.

Section Init.
(** [protoimpl.TypeBuilder{...}.Build().File] on the raw descriptor, the Go
    types, the dependency indexes and the extension infos. *)
Context {FileDescriptor : Type}.
Variable build : bytes -> list bytes -> list Z -> list ExtensionInfo -> FileDescriptor.

(** The variables as the package declares them. *)
Definition pkg_start : PkgState FileDescriptor :=
  mkPkgState None (Some file_cosmos_proto_cosmos_proto_rawDesc)
    (Some file_cosmos_proto_cosmos_proto_goTypes) (Some file_cosmos_proto_cosmos_proto_depIdxs).

(** [func file_cosmos_proto_cosmos_proto_init()] (lines 138-160): nothing
    if the descriptor is built, else build it and drop the three tables
    ([nil] slices are read as empty by [Build]). *)
Definition file_cosmos_proto_cosmos_proto_init (s : PkgState FileDescriptor) : PkgState FileDescriptor :=
  match File_cosmos_proto_cosmos_proto s with
  | Some _ => s
  | None =>
    let nil_or {A} (x : option (list A)) := match x with Some l => l | None => [] end in
    let out := build (nil_or (rawDesc s)) (nil_or (goTypes s)) (nil_or (depIdxs s))
                     file_cosmos_proto_cosmos_proto_extTypes in
    mkPkgState (Some out) None None None
  end.
End Init.

(** ** Reading [rawDesc] back (reference definitions of the wire format) *)

(** The payload of a record: a varint, the bytes of a length-delimited
    record, or another wire type. *)
Inductive FieldVal := FVarint (v : Z) | FBytes (b : bytes) | FOther.

(** The records of [d] from index [i], as field number and payload. *)
Fixpoint parse_loop (fuel : nat) (d : bytes) (l i : Z) : option (list (Z * FieldVal)) :=
  match fuel with
  | O => if i =? l then Some [] else None
  | S f =>
    if l <=? i then (if i =? l then Some [] else None) else
    match readVarint d l i with
    | inl _ => None
    | inr (tg, i1) =>
      let num := Z.shiftr tg 3 in
      let wt := Z.land tg 7 in
      if wt =? 0 then
        match readVarint d l i1 with
        | inr (v, i2) => rest <-? parse_loop f d l i2 ;; Some ((num, FVarint v) :: rest)
        | inl _ => None
        end
      else if wt =? 2 then
        match readVarint d l i1 with
        | inr (n, i2) =>
          if l <? i2 + n then None else
          rest <-? parse_loop f d l (i2 + n) ;; Some ((num, FBytes (slice d i2 (i2 + n))) :: rest)
        | inl _ => None
        end
      else
        match skip (skipn (Z.to_nat i) d) with
        | inr k => rest <-? parse_loop f d l (i + k) ;; Some ((num, FOther) :: rest)
        | inl _ => None
        end
    end
  end.

Definition parse (d : bytes) : option (list (Z * FieldVal)) := parse_loop (length d) d (len d) 0.

(** The payloads of the length-delimited records of field [n]. *)
Definition bytes_of (n : Z) (fs : list (Z * FieldVal)) : list bytes :=
  flat_map (fun p => match p with (m, FBytes b) => if m =? n then [b] else [] | _ => [] end) fs.

(** The last varint of field [n] (a later record overrides). *)
Definition varint_of (n : Z) (fs : list (Z * FieldVal)) : option Z :=
  fold_left (fun acc p => match p with (m, FVarint v) => if m =? n then Some v else acc | _ => acc end)
    fs None.

Definition first_bytes (n : Z) (fs : list (Z * FieldVal)) : bytes :=
  match bytes_of n fs with b :: _ => b | [] => [] end.

(** [FieldDescriptorProto.Type] and [.Label] as the descriptor's kind and
    cardinality. *)
Definition kind_of_type (t : Z) : Kind :=
  match t with
  | 1 => DoubleKind | 2 => FloatKind | 3 => Int64Kind | 4 => Uint64Kind | 5 => Int32Kind
  | 6 => Fixed64Kind | 7 => Fixed32Kind | 8 => BoolKind | 9 => StringKind | 10 => GroupKind
  | 11 => MessageKind | 12 => BytesKind | 13 => Uint32Kind | 14 => EnumKind
  | 15 => Sfixed32Kind | 16 => Sfixed64Kind | 17 => Sint32Kind | _ => Sint64Kind
  end.

Definition cardinality_of (label : Z) : Cardinality :=
  match label with 2 => Required | 3 => Repeated | _ => Optional end.

(** An extension of the file ([FileDescriptorProto.extension], field 7):
    package, name, number, extendee, and its descriptor as [Marshal]
    reads it. *)
Record Extension := mkExtension {
  xFullName : bytes;
  xNumber : Z;
  xExtendee : bytes;
  xDesc : TagField
}.

Definition extension_of (pkg : bytes) (syntax : Syntax) (fs : list (Z * FieldVal)) : Extension :=
  let name := first_bytes 1 fs in
  let number := match varint_of 3 fs with Some n => n | None => 0 end in
  let label := match varint_of 4 fs with Some n => n | None => 1 end in
  let type := match varint_of 5 fs with Some n => n | None => 9 end in
  mkExtension (pkg ++ str "." ++ name) number (first_bytes 2 fs)
    (mkTagField (kind_of_type type) number (cardinality_of label) false name [] []
       (first_bytes 10 fs) true false syntax false None []).

(** The extensions [rawDesc] declares, in order. *)
Definition extensions (raw : bytes) : option (list Extension) :=
  file <-? parse raw ;;
  let pkg := first_bytes 2 file in
  let syntax := if bytes_eqb (first_bytes 12 file) (str "proto3") then Proto3 else Proto2 in
  let fix go (xs : list bytes) : option (list Extension) :=
    match xs with
    | [] => Some []
    | x :: xs => fs <-? parse x ;; rest <-? go xs ;; Some (extension_of pkg syntax fs :: rest)
    end in
  go (bytes_of 7 file).

(** ** Theorems *)

(** The serialized descriptor is a well-formed sequence of records. *)
Example rawDesc_records_ok : records_ok file_cosmos_proto_cosmos_proto_rawDesc = true.
Proof. vm_compute. reflexivity. Qed.

(** The extension table agrees with the descriptor it is built with:
    entry [i] has the number and full name of the [i]-th extension of
    [rawDesc], its extendee is the Go type that [depIdxs] and [goTypes]
    give it, and its tag is the one [GoTag.Marshal] of gen.go prints for
    that extension's descriptor. *)
Example extTypes_match_rawDesc :
  exists xs, extensions file_cosmos_proto_cosmos_proto_rawDesc = Some xs /\
  map (fun e => (Field e, Name e, Tag e)) file_cosmos_proto_cosmos_proto_extTypes
  = map (fun x => (xNumber x, xFullName x, Marshal (xDesc x) [])) xs /\
  map ExtendedType file_cosmos_proto_cosmos_proto_extTypes
  = map (fun k => nth (Z.to_nat k) file_cosmos_proto_cosmos_proto_goTypes [])
        (firstn 4 file_cosmos_proto_cosmos_proto_depIdxs).
Proof. eexists. split; [vm_compute; reflexivity|]. split; vm_compute; reflexivity. Qed.

(** The variable names of the file are [fileVarName]'s. *)
Example cosmos_var_names :
  rawDescVarName (str "File_cosmos_proto_cosmos_proto") = str "file_cosmos_proto_cosmos_proto_rawDesc" /\
  goTypesVarName (str "File_cosmos_proto_cosmos_proto") = str "file_cosmos_proto_cosmos_proto_goTypes" /\
  depIdxsVarName (str "File_cosmos_proto_cosmos_proto") = str "file_cosmos_proto_cosmos_proto_depIdxs" /\
  extensionTypesVarName (str "File_cosmos_proto_cosmos_proto") = str "file_cosmos_proto_cosmos_proto_extTypes" /\
  initFuncName (str "File_cosmos_proto_cosmos_proto") = str "file_cosmos_proto_cosmos_proto_init".
Proof. repeat split; vm_compute; reflexivity. Qed.

(** [init] builds the file descriptor once, from the tables as declared,
    and drops them; any later [init] changes nothing. *)
Theorem init_builds_once {FD : Type} (build : bytes -> list bytes -> list Z -> list ExtensionInfo -> FD) s :
  file_cosmos_proto_cosmos_proto_init build pkg_start
  = mkPkgState (Some (build file_cosmos_proto_cosmos_proto_rawDesc file_cosmos_proto_cosmos_proto_goTypes
                        file_cosmos_proto_cosmos_proto_depIdxs file_cosmos_proto_cosmos_proto_extTypes))
      None None None /\
  file_cosmos_proto_cosmos_proto_init build (file_cosmos_proto_cosmos_proto_init build s)
  = file_cosmos_proto_cosmos_proto_init build s.
Proof.
  split; [reflexivity|]. unfold file_cosmos_proto_cosmos_proto_init.
  destruct (File_cosmos_proto_cosmos_proto s) eqn:E; [rewrite E|]; reflexivity.
Qed.

End CosmosProto.
