(* ===== verification/GoFileDesc.v ===== *)
(** * GoFileDesc: the file descriptor code the generator prints
    (src/generator/gen.go)

    At the end of every generated file, [genReflectFileDescriptor] prints the
    descriptor variable, calls [genFileDescriptor] (the serialized
    descriptor as a [[]byte] literal, 16 bytes a line, and its GZIP
    accessor when an enum or message asked for it), the [make]s of the
    enum and message infos, the tables [goTypes] (one Go type per
    declaration and dependency, each once) and [depIdxs] (for every
    dependency, the index of its type in [goTypes], then the start of each
    sub-list), and the [init] function that builds the descriptor.

    [type_tables] is the computation of the two tables (lines 772-869) as
    a state-passing function on [Tables]; the [seen] map of full names is a
    stdpp [gmap].  The entries are kept with the numbers they print
    ([GoTypeLine], [DepLine]) and rendered by the code's [fmt.Sprintf]
    formats.  The other lines are the text of the [g.P] calls.  What the
    generator reads of protogen is given as records ([FileDesc]); the
    marshalled descriptor ([proto.Marshal] of the file's proto) is an
    input.  The theorems: every dependency index points at the [goTypes]
    entry of its dependency; the hex dump reads back to the descriptor;
    on the three generated files of src/ the model prints their code. *)

From stdpp Require Import base gmap list strings.
From Stdlib Require Import ZArith.
From S2P Require Import Prelude GoTag GoStruct CosmosProto.
Open Scope go_scope.

Module GoFileDesc.
Import GoTag.GoTag GoStruct.GoStruct.

(** ** What the generator reads *)

(** A Go type a declaration or dependency refers to: its Go identifier as
    [g.QualifiedGoIdent] prints it, its full name, and whether it is a map
    entry (which has no Go type). *)
Record GoTypeRef := mkGoTypeRef {
  rGoIdent : bytes;
  rFullName : bytes;
  rIsMapEntry : bool
}.

(** A field: full name, [IsWeak()], and its [Enum] and [Message]. *)
Record FieldDep := mkFieldDep {
  dFullName : bytes;
  dIsWeak : bool;
  dEnum : option GoTypeRef;
  dMessage : option GoTypeRef
}.

(** A message of [f.allMessages]: the message, its fields, its oneofs
    ([IsSynthetic()] and the members' Go identifiers) and
    [f.allMessageFieldsByPtr[message]]: the unexported struct fields by
    position and their [count]. *)
Record MessageDesc := mkMessageDesc {
  mRef : GoTypeRef;
  mFields : list FieldDep;
  mOneofs : list (bool * list bytes);
  mUnexported : gmap nat bytes;
  mCount : nat
}.

(** An extension: full name, [Extendee], [Enum], [Message]. *)
Record ExtDep := mkExtDep {
  xFullName : bytes;
  xExtendee : option GoTypeRef;
  xEnum : option GoTypeRef;
  xMessage : option GoTypeRef
}.

(** A method of a service: full name, [Input], [Output]. *)
Record MethodDep := mkMethodDep {
  mdFullName : bytes;
  mdInput : option GoTypeRef;
  mdOutput : option GoTypeRef
}.

(** An import of the file: the [GoImportPath] and [GoDescriptorIdent] of
    [gen.FilesByPath[path]]. *)
Record ImportDep := mkImportDep {
  ipGoImportPath : bytes;
  ipGoDescriptorIdent : bytes
}.

(** [*fileInfo]: [GoDescriptorIdent], [GoImportPath], the flattened
    [allEnums], [allMessages], [allExtensions], the [Services], the
    imports, [needRawDesc], and the result of [proto.Marshal] on the
    file's descriptor ([None] when it fails). *)
Record FileDesc := mkFileDesc {
  fdGoDescriptorIdent : bytes;
  fdGoImportPath : bytes;
  fdAllEnums : list GoTypeRef;
  fdAllMessages : list MessageDesc;
  fdAllExtensions : list ExtDep;
  fdServices : list (list MethodDep);
  fdImports : list ImportDep;
  fdNeedRawDesc : bool;
  fdMarshal : option bytes
}.

(** ** The tables [goTypes] and [depIdxs] *)

(** An entry of [goTypes], with the position its comment prints. *)
Inductive GoTypeLine :=
| GTEnum (ident : bytes) (pos : nat) (name : bytes)
| GTMessage (ident : bytes) (pos : nat) (name : bytes)
| GTMapEntry (pos : nat) (name : bytes).

(** An entry of [depIdxs]: a dependency (the index of its type, its own
    position, source and name), or the start of a sub-list. *)
Inductive DepLine :=
| DDep (idx pos : nat) (src name : bytes)
| DOffset (start next : nat) (what : bytes).

Record Tables := mkTables {
  goTypes : list GoTypeLine;
  depIdxs : list DepLine;
  seen : gmap bytes nat
}.

(** [genDep] (lines 775-780); [seen[name]] is 0 for an absent name. *)
Definition genDep (name depSource : bytes) (t : Tables) : Tables :=
  if is_nil depSource then t
  else mkTables (goTypes t)
         (depIdxs t ++ [DDep (default 0%nat (seen t !! name)) (length (depIdxs t)) depSource name])
         (seen t).

(** [genEnum] (lines 781-793). *)
Definition genEnumDep (e : option GoTypeRef) (depSource : bytes) (t : Tables) : Tables :=
  match e with
  | None => t
  | Some e =>
    let name := rFullName e in
    let t := match seen t !! name with
             | Some _ => t
             | None => mkTables (goTypes t ++ [GTEnum (rGoIdent e) (length (goTypes t)) name])
                         (depIdxs t) (<[name := size (seen t)]> (seen t))
             end in
    if is_nil depSource then t else genDep name depSource t
  end.

(** [genMessage] (lines 794-810). *)
Definition genMessageDep (m : option GoTypeRef) (depSource : bytes) (t : Tables) : Tables :=
  match m with
  | None => t
  | Some m =>
    let name := rFullName m in
    let t := match seen t !! name with
             | Some _ => t
             | None =>
               let line := if rIsMapEntry m then GTMapEntry (length (goTypes t)) name
                           else GTMessage (rGoIdent m) (length (goTypes t)) name in
               mkTables (goTypes t ++ [line]) (depIdxs t) (<[name := size (seen t)]> (seen t))
             end in
    if is_nil depSource then t else genDep name depSource t
  end.

(** Lines 826-835: the enum and message of every non-weak field. *)
Definition field_deps (msgs : list MessageDesc) (t : Tables) : Tables :=
  fold_left (fun t m =>
    fold_left (fun t fd =>
      if dIsWeak fd then t
      else let source := dFullName fd in
           genMessageDep (dMessage fd) (source ++ str ":type_name")
             (genEnumDep (dEnum fd) (source ++ str ":type_name") t))
      (mFields m) t) msgs t.

(** Lines 862-866: for [i] from [len(depOffsets)-2] down to 0, the start of
    sub-list [i] and its end. *)
Fixpoint offset_pairs (offs : list (nat * bytes)) : list DepLine :=
  match offs with
  | (s, w) :: ((s', _) :: _) as rest => DOffset s s' w :: offset_pairs rest
  | _ => []
  end.

(** Lines 772-869; [None] is the [panic] of the sanity check. *)
Definition type_tables (f : FileDesc) : option Tables :=
  let t := mkTables [] [] ∅ in
  let t := fold_left (fun t e => genEnumDep (Some e) [] t) (fdAllEnums f) t in
  let t := fold_left (fun t m => genMessageDep (Some (mRef m)) [] t) (fdAllMessages f) t in
  let o1 := (length (depIdxs t), str "field type_name") in
  let t := field_deps (fdAllMessages f) t in
  let o2 := (length (depIdxs t), str "extension extendee") in
  let t := fold_left (fun t x => genMessageDep (xExtendee x) (xFullName x ++ str ":extendee") t)
             (fdAllExtensions f) t in
  let o3 := (length (depIdxs t), str "extension type_name") in
  let t := fold_left (fun t x =>
             genMessageDep (xMessage x) (xFullName x ++ str ":type_name")
               (genEnumDep (xEnum x) (xFullName x ++ str ":type_name") t))
             (fdAllExtensions f) t in
  let o4 := (length (depIdxs t), str "method input_type") in
  let t := fold_left (fun t s => fold_left (fun t md =>
             genMessageDep (mdInput md) (mdFullName md ++ str ":input_type") t) s t)
             (fdServices f) t in
  let o5 := (length (depIdxs t), str "method output_type") in
  let t := fold_left (fun t s => fold_left (fun t md =>
             genMessageDep (mdOutput md) (mdFullName md ++ str ":output_type") t) s t)
             (fdServices f) t in
  let o6 := (length (depIdxs t), []) in
  let t := mkTables (goTypes t) (depIdxs t ++ rev (offset_pairs [o1; o2; o3; o4; o5; o6])) (seen t) in
  if Z.of_nat (length (depIdxs t)) >? 2 ^ 31 - 1 then None else Some t.

(** The [fmt.Sprintf] formats of the entries (lines 777, 785, 798, 801,
    864). *)
Definition natoa (n : nat) : bytes := itoa (Z.of_nat n).

Definition render_type (l : GoTypeLine) : bytes :=
  match l with
  | GTEnum ident pos name => str "(" ++ ident ++ str ")(0), // " ++ natoa pos ++ str ": " ++ name
  | GTMessage ident pos name =>
    str "(*" ++ ident ++ str ")(nil), // " ++ natoa pos ++ str ": " ++ name
  | GTMapEntry pos name => str "nil, // " ++ natoa pos ++ str ": " ++ name
  end.

Definition render_dep (l : DepLine) : bytes :=
  match l with
  | DDep idx pos src name =>
    natoa idx ++ str ", // " ++ natoa pos ++ str ": " ++ src ++ str " -> " ++ name
  | DOffset s s' w =>
    natoa s ++ str ", // [" ++ natoa s ++ str ":" ++ natoa s' ++ str "] is the sub-list for " ++ w
  end.

(** The Go meaning of the two arrays: [goTypes[i]] names a type, and an
    entry of [depIdxs] is the number it starts with. *)
Definition type_name (l : GoTypeLine) : bytes :=
  match l with GTEnum _ _ n | GTMessage _ _ n | GTMapEntry _ n => n end.

(** ** [genFileDescriptor] (lines 974-1019) *)

(** [fmt.Sprintf("0x%02x,", c)] *)
Definition hex_byte (c : Z) : bytes := [48; 120; hex_digit (c / 16); hex_digit (c mod 16); 44].

(** [for len(b) > 0 { n := 16; if n > len(b) { n = len(b) }; ...; b = b[n:] }]:
    every iteration consumes at least one byte, so [length b] iterations
    print all of them. *)
Fixpoint hex_lines (fuel : nat) (b : bytes) : list bytes :=
  match fuel with
  | O => []
  | S f =>
    match b with
    | [] => []
    | _ => let n := Nat.min 16%nat (length b) in
           flat_map hex_byte (take n b) :: hex_lines f (drop n b)
    end
  end.

Definition genFileDescriptor (f : FileDesc) : list bytes * bool :=
  match fdMarshal f with
  | None => ([], true)
  | Some b =>
    let rawDesc := rawDescVarName (fdGoDescriptorIdent f) in
    ([str "var " ++ rawDesc ++ str " = []byte{"] ++ hex_lines (length b) b ++ [str "}"; []] ++
     (if fdNeedRawDesc f then
        let onceVar := rawDesc ++ str "Once" in
        let dataVar := rawDesc ++ str "Data" in
        [str "var ("; onceVar ++ str " sync.Once"; dataVar ++ str " = " ++ rawDesc; str ")"; [];
         str "func " ++ rawDesc ++ str "GZIP() []byte {";
         onceVar ++ str ".Do(func() {";
         dataVar ++ str " = protoimpl.X.CompressGZIP(" ++ dataVar ++ str ")";
         str "})"; str "return " ++ dataVar; str "}"; []]
      else []), false)
  end.

(** Lines 901-921: [MessageInfo.Exporter] for every message with
    unexported struct fields; [idx] is [f.allMessagesByPtr[message]]. *)
Definition exporter_lines (id : bytes) (msgs : list MessageDesc) : list bytes :=
  concat (imap (fun idx m =>
    if Nat.ltb 0 (size (mUnexported m)) then
      [messageTypesVarName id ++ str "[" ++ natoa idx ++
         str "].Exporter = func(v interface{}, i int) interface{} {";
       str "switch v := v.(*" ++ rGoIdent (mRef m) ++ str "); i {"] ++
      flat_map (fun i => let name := default [] (mUnexported m !! i) in
                         if is_nil name then [] else [str "case " ++ natoa i ++ str ": return &v." ++ name])
        (seq 0 (mCount m)) ++
      [str "default: return nil"; str "}"; str "}"]
    else []) msgs).

(** Lines 924-940: [MessageInfo.OneofWrappers] for every message with
    oneofs, the wrappers of the members of its non-synthetic oneofs. *)
Definition oneof_wrapper_lines (id : bytes) (msgs : list MessageDesc) : list bytes :=
  concat (imap (fun idx m =>
    if Nat.ltb 0 (length (mOneofs m)) then
      [messageTypesVarName id ++ str "[" ++ natoa idx ++ str "].OneofWrappers = []interface{} {"] ++
      flat_map (fun o : bool * list bytes => if o.1 then [] else map (fun gi => str "(*" ++ gi ++ str ")(nil),") o.2)
        (mOneofs m) ++
      [str "}"]
    else []) msgs).

(** The [TypeBuilder] literal, its [Build()] and the reset of the
    inputs (lines 943-971), for [nE] enums, [nM] messages, [nX]
    extensions and [nS] services. *)
Definition builder_lines (id : bytes) (nE nM nX nS : nat) : list bytes :=
  [str "type x struct{}";
   str "out := protoimpl.TypeBuilder{";
   str "File: protoimpl.DescBuilder{";
   str "GoPackagePath: reflect.TypeOf(x{}).PkgPath(),";
   str "RawDescriptor: " ++ rawDescVarName id ++ str ",";
   str "NumEnums: " ++ natoa nE ++ str ",";
   str "NumMessages: " ++ natoa nM ++ str ",";
   str "NumExtensions: " ++ natoa nX ++ str ",";
   str "NumServices: " ++ natoa nS ++ str ",";
   str "},";
   str "GoTypes: " ++ goTypesVarName id ++ str ",";
   str "DependencyIndexes: " ++ depIdxsVarName id ++ str ","] ++
  (if Nat.ltb 0 nE then [str "EnumInfos: " ++ enumTypesVarName id ++ str ","] else []) ++
  (if Nat.ltb 0 nM then [str "MessageInfos: " ++ messageTypesVarName id ++ str ","] else []) ++
  (if Nat.ltb 0 nX then [str "ExtensionInfos: " ++ extensionTypesVarName id ++ str ","] else []) ++
  [str "}.Build()";
   id ++ str " = out.File";
   rawDescVarName id ++ str " = nil";
   goTypesVarName id ++ str " = nil";
   depIdxsVarName id ++ str " = nil";
   str "}"].

(** [func genReflectFileDescriptor(gen, g, f)] (lines 758-972): the printed
    lines and whether [gen.Error] was called; [None] is the [panic]. *)
Definition genReflectFileDescriptor (f : FileDesc) : option (list bytes * bool) :=
  let id := fdGoDescriptorIdent f in
  let '(fdLines, err) := genFileDescriptor f in
  let nE := length (fdAllEnums f) in
  let nM := length (fdAllMessages f) in
  let nX := length (fdAllExtensions f) in
  t <-? type_tables f ;;
  Some (
   [str "var " ++ id ++ str " protoreflect.FileDescriptor"; []] ++ fdLines ++
   (if Nat.ltb 0 nE
    then [str "var " ++ enumTypesVarName id ++ str " = make([]protoimpl.EnumInfo," ++ natoa nE ++ str ")"]
    else []) ++
   (if Nat.ltb 0 nM
    then [str "var " ++ messageTypesVarName id ++ str " = make([]protoimpl.MessageInfo," ++
            natoa nM ++ str ")"]
    else []) ++
   [str "var " ++ goTypesVarName id ++ str " = []interface{}{"] ++ map render_type (goTypes t) ++
   [str "}"; str "var " ++ depIdxsVarName id ++ str " = []int32{"] ++ map render_dep (depIdxs t) ++
   [str "}";
    str "func init() { " ++ initFuncName id ++ str "() }";
    str "func " ++ initFuncName id ++ str "() {";
    str "if " ++ id ++ str " != nil {"; str "return"; str "}"] ++
   flat_map (fun imp => if bytes_eqb (ipGoImportPath imp) (fdGoImportPath f)
                        then [initFuncName (ipGoDescriptorIdent imp) ++ str "()"] else [])
     (fdImports f) ++
   (if Nat.ltb 0 nM
    then [str "if !protoimpl.UnsafeEnabled {"] ++ exporter_lines id (fdAllMessages f) ++ [str "}"] ++
         oneof_wrapper_lines id (fdAllMessages f)
    else []) ++
   builder_lines id nE nM nX (length (fdServices f)), err).

(** ** The tables: invariant *)

Definition type_pos (l : GoTypeLine) : nat :=
  match l with GTEnum _ p _ | GTMessage _ p _ | GTMapEntry p _ => p end.

(** What [goTypes], [depIdxs] and [seen] keep true: every type is listed
    once, at the position its comment prints; [seen] maps exactly the
    listed names to their positions; every dependency entry prints its own
    position and the position of its dependency's type. *)
Record tables_ok (t : Tables) : Prop := {
  tok_size : length (goTypes t) = size (seen t);
  tok_seen : forall name k, seen t !! name = Some k ->
    exists l, goTypes t !! k = Some l /\ type_name l = name;
  tok_names : forall k l, goTypes t !! k = Some l -> seen t !! type_name l = Some k;
  tok_pos : forall k l, goTypes t !! k = Some l -> type_pos l = k;
  tok_deps : forall j idx pos src name, depIdxs t !! j = Some (DDep idx pos src name) ->
    pos = j /\ exists l, goTypes t !! idx = Some l /\ type_name l = name
}.

Lemma tables_ok_empty : tables_ok (mkTables [] [] ∅).
Proof.
  split; cbn; [reflexivity|intros ??; rewrite lookup_empty; discriminate|
    intros ??; rewrite lookup_nil; discriminate..].
Qed.

(** A dependency on a name already in [seen]. *)
Lemma genDep_ok name src t :
  tables_ok t -> is_Some (seen t !! name) -> tables_ok (genDep name src t).
Proof.
  intros Ht [k Hk]. unfold genDep. destruct (is_nil src); [exact Ht|].
  destruct Ht as [Hs Hseen Hn Hp Hd]. split; cbn; auto.
  intros j idx pos s nm Hj. rewrite Hk in Hj. cbn in Hj.
  destruct (decide (j < length (depIdxs t))%nat) as [Hlt|Hge].
  - rewrite lookup_app_l in Hj by exact Hlt. eauto.
  - rewrite lookup_app_r in Hj by lia. apply list_lookup_singleton_Some in Hj as [Hj Heq].
    injection Heq as <- <- <- <-. split; [lia|eauto].
Qed.

(** Adding a type not yet seen, at the end of [goTypes]. *)
Lemma add_type_ok t l :
  tables_ok t -> seen t !! type_name l = None -> type_pos l = length (goTypes t) ->
  tables_ok (mkTables (goTypes t ++ [l]) (depIdxs t) (<[type_name l := size (seen t)]> (seen t))).
Proof.
  intros [Hs Hseen Hn Hp Hd] Hnew Hpos. split; cbn.
  - rewrite length_app, map_size_insert_None by exact Hnew. cbn. lia.
  - intros name k Hk. destruct (decide (name = type_name l)) as [->|Hne].
    + rewrite lookup_insert_eq in Hk. injection Hk as <-. exists l.
      rewrite lookup_app_r by lia. rewrite Hs, Nat.sub_diag. auto.
    + rewrite lookup_insert_ne in Hk by congruence. destruct (Hseen _ _ Hk) as [l' [Hl' Hnm]].
      exists l'. split; [|exact Hnm]. apply lookup_app_l_Some. exact Hl'.
  - intros k l' Hk. destruct (decide (k < length (goTypes t))%nat) as [Hlt|Hge].
    + rewrite lookup_app_l in Hk by exact Hlt. pose proof (Hn _ _ Hk) as Hl'.
      rewrite lookup_insert_ne; [exact Hl'|]. intros Heq. congruence.
    + rewrite lookup_app_r in Hk by lia. apply list_lookup_singleton_Some in Hk as [Hk <-].
      rewrite lookup_insert_eq. f_equal. lia.
  - intros k l' Hk. destruct (decide (k < length (goTypes t))%nat) as [Hlt|Hge].
    + rewrite lookup_app_l in Hk by exact Hlt. eauto.
    + rewrite lookup_app_r in Hk by lia. apply list_lookup_singleton_Some in Hk as [Hk <-]. lia.
  - intros j idx pos src name Hj. destruct (Hd _ _ _ _ _ Hj) as [Hpos' [l' [Hl' Hnm]]].
    split; [exact Hpos'|]. exists l'. split; [apply lookup_app_l_Some; exact Hl'|exact Hnm].
Qed.

Lemma genEnumDep_ok e src t : tables_ok t -> tables_ok (genEnumDep e src t).
Proof.
  intros Ht. destruct e as [e|]; [|exact Ht]. cbn.
  set (t' := match seen t !! rFullName e with Some _ => t | None => _ end).
  assert (Hok : tables_ok t' /\ is_Some (seen t' !! rFullName e)).
  { subst t'. destruct (seen t !! rFullName e) eqn:E; [split; eauto|].
    split; [apply (add_type_ok t (GTEnum _ _ _)); auto|cbn; rewrite lookup_insert_eq; eauto]. }
  destruct Hok as [Hok Hin]. destruct (is_nil src); [exact Hok|]. now apply genDep_ok.
Qed.

Lemma genMessageDep_ok m src t : tables_ok t -> tables_ok (genMessageDep m src t).
Proof.
  intros Ht. destruct m as [m|]; [|exact Ht]. cbn.
  set (t' := match seen t !! rFullName m with Some _ => t | None => _ end).
  assert (Hok : tables_ok t' /\ is_Some (seen t' !! rFullName m)).
  { subst t'. destruct (seen t !! rFullName m) eqn:E; [split; eauto|].
    split; [destruct (rIsMapEntry m);
              [apply (add_type_ok t (GTMapEntry _ _))|apply (add_type_ok t (GTMessage _ _ _))]; auto
           |cbn; rewrite lookup_insert_eq; eauto]. }
  destruct Hok as [Hok Hin]. destruct (is_nil src); [exact Hok|]. now apply genDep_ok.
Qed.

Lemma fold_left_ok {A} (step : Tables -> A -> Tables) (xs : list A) t :
  (forall t x, tables_ok t -> tables_ok (step t x)) -> tables_ok t -> tables_ok (fold_left step xs t).
Proof. intros Hstep. revert t; induction xs; cbn; auto. Qed.

Lemma field_deps_ok msgs t : tables_ok t -> tables_ok (field_deps msgs t).
Proof.
  unfold field_deps. apply fold_left_ok. intros t' m Ht'. apply fold_left_ok; [|exact Ht'].
  intros t'' fd H. destruct (dIsWeak fd); [exact H|apply genMessageDep_ok, genEnumDep_ok, H].
Qed.

(** The sub-list starts are not dependencies. *)
Definition is_offset (d : DepLine) : bool := match d with DOffset _ _ _ => true | DDep _ _ _ _ => false end.

Lemma offsets_ok t extra :
  tables_ok t -> forallb is_offset extra = true ->
  tables_ok (mkTables (goTypes t) (depIdxs t ++ extra) (seen t)).
Proof.
  intros [Hs Hseen Hn Hp Hd] Hx. split; cbn; auto.
  intros j idx pos src name Hj. destruct (decide (j < length (depIdxs t))%nat) as [Hlt|Hge].
  - rewrite lookup_app_l in Hj by exact Hlt. eauto.
  - rewrite lookup_app_r in Hj by lia. apply list_elem_of_lookup_2 in Hj.
    rewrite list_elem_of_In in Hj. rewrite forallb_forall in Hx. apply Hx in Hj. discriminate.
Qed.

Lemma type_tables_tables_ok f t : type_tables f = Some t -> tables_ok t.
Proof.
  unfold type_tables. cbv zeta. intros H.
  match type of H with (if ?c then _ else _) = _ => destruct c; [discriminate|] end.
  injection H as <-. apply offsets_ok; [|reflexivity].
  repeat first [simple apply field_deps_ok | simple apply fold_left_ok | intro
               | simple apply genEnumDep_ok | simple apply genMessageDep_ok
               | simple apply tables_ok_empty | assumption].
  (* the two declaration loops, whose steps [injection] has unfolded *)
  all: match goal with
       | H : tables_ok ?t, x : MessageDesc |- _ => exact (genMessageDep_ok (Some (mRef x)) [] t H)
       | H : tables_ok ?t, x : GoTypeRef |- _ => exact (genEnumDep_ok (Some x) [] t H)
       end.
Qed.

(** ** The hex dump: lemmas *)

(** Go reading a literal [0xHL,0xHL,...]: the bytes it denotes. *)
Definition hex_val (c : Z) : Z := if c <=? 57 then c - 48 else c - 87.

Fixpoint unhex (s : bytes) : option bytes :=
  match s with
  | [] => Some []
  | z :: x :: h :: l :: c :: rest =>
    if ((z =? 48) && (x =? 120) && (c =? 44))%bool
    then cons (hex_val h * 16 + hex_val l) <$> unhex rest else None
  | _ => None
  end.

Lemma hex_val_digit d : 0 <= d < 16 -> hex_val (hex_digit d) = d.
Proof.
  intros Hd. unfold hex_val, hex_digit.
  destruct (Z.ltb_spec d 10);
    [destruct (Z.leb_spec (48 + d) 57)|destruct (Z.leb_spec (87 + d) 57)]; lia.
Qed.

Lemma unhex_hex_byte c s : 0 <= c < 256 -> unhex (hex_byte c ++ s) = cons c <$> unhex s.
Proof.
  intros Hc. cbn [hex_byte app unhex]. rewrite !Z.eqb_refl. cbn [andb].
  rewrite (hex_val_digit (c / 16)) by (split; [apply Z.div_pos|apply Z.div_lt_upper_bound]; lia).
  rewrite (hex_val_digit (c mod 16)) by (apply Z.mod_pos_bound; lia).
  replace (c / 16 * 16 + c mod 16) with c by (pose proof (Z.div_mod c 16); lia). reflexivity.
Qed.

Lemma unhex_flat_map xs s :
  Forall (fun c => 0 <= c < 256) xs -> unhex (flat_map hex_byte xs ++ s) = app xs <$> unhex s.
Proof.
  induction 1 as [|c xs Hc Hxs IH]; cbn [flat_map app].
  - by destruct (unhex s).
  - rewrite <- app_assoc, unhex_hex_byte, IH by exact Hc. by destruct (unhex s).
Qed.

Lemma bytes_ok_Forall b : bytes_ok b = true -> Forall (fun c => 0 <= c < 256) b.
Proof.
  unfold bytes_ok. rewrite forallb_forall, Forall_forall. intros H c Hc.
  apply is_byte_spec, H, list_elem_of_In, Hc.
Qed.

(** With [length b] iterations the loop prints all of [b]: its lines are
    the hex dumps of consecutive chunks of [b], each of 16 bytes but the
    last, which holds the rest (1 to 16 bytes). *)
Lemma hex_lines_chunks fuel b :
  (length b <= fuel)%nat ->
  exists chunks,
    hex_lines fuel b = map (flat_map hex_byte) chunks /\ concat chunks = b /\
    Forall (fun xs => length xs = 16%nat) (removelast chunks) /\
    Forall (fun xs => (1 <= length xs <= 16)%nat) chunks.
Proof.
  revert b; induction fuel as [|f IH]; intros b Hlen.
  { destruct b; [exists []; repeat split; constructor|cbn in Hlen; lia]. }
  destruct b as [|c b']; [exists []; repeat split; constructor|].
  cbn [hex_lines]. set (n := Nat.min 16 (length (c :: b'))).
  assert (Hn : n = Nat.min 16 (S (length b'))) by reflexivity. clearbody n.
  destruct (IH (drop n (c :: b'))) as (cs & Hl & Hc & H16 & Hr);
    [rewrite length_drop; cbn [length] in *; lia|].
  exists (take n (c :: b') :: cs). rewrite Hl. split; [reflexivity|]. split.
  { cbn [concat]. rewrite Hc. apply take_drop. }
  split; [|constructor; [rewrite length_take; cbn [length]; lia|exact Hr]].
  destruct cs as [|c1 cs]; [constructor|]. cbn [removelast]. constructor; [|exact H16].
  rewrite length_take. pose proof (Forall_inv Hr) as H1. cbn beta in H1.
  assert (Hd : (1 <= length (drop n (c :: b')))%nat) by (rewrite <- Hc; cbn; rewrite length_app; lia).
  rewrite length_drop in Hd. cbn [length] in *. lia.
Qed.

(** The printed lines read back to the bytes. *)
Lemma hex_lines_unhex chunks :
  Forall (fun c => 0 <= c < 256) (concat chunks) ->
  unhex (concat (map (flat_map hex_byte) chunks)) = Some (concat chunks).
Proof.
  induction chunks as [|xs cs IH]; intros Hb; [reflexivity|].
  cbn [map concat] in *. apply Forall_app in Hb as [Hx Hcs].
  rewrite unhex_flat_map, IH by assumption. reflexivity.
Qed.

(** ** The three generated files of src/ *)

Definition ref (ident name : string) : GoTypeRef := mkGoTypeRef (str ident) (str name) false.
Definition plain_field (name : string) : FieldDep := mkFieldDep (str name) false None None.

(** [file_foo_proto_rawDesc] (foo.pulsar.go lines 535-545). *)
Definition file_foo_proto_rawDesc : bytes := [
  10; 9; 102; 111; 111; 46; 112; 114; 111; 116; 111; 18; 12; 99; 111; 115;
  109; 111; 115; 46; 112; 114; 111; 116; 111; 34; 23; 10; 3; 66; 97; 114;
  18; 16; 10; 3; 98; 97; 122; 24; 1; 32; 1; 40; 9; 82; 3; 98;
  97; 122; 34; 57; 10; 5; 72; 101; 108; 108; 111; 18; 20; 10; 5; 119;
  111; 114; 108; 100; 24; 1; 32; 1; 40; 9; 82; 5; 119; 111; 114; 108;
  100; 18; 26; 10; 8; 117; 110; 105; 118; 101; 114; 115; 101; 24; 2; 32;
  1; 40; 8; 82; 8; 117; 110; 105; 118; 101; 114; 115; 101; 66; 41; 90;
  39; 103; 105; 116; 104; 117; 98; 46; 99; 111; 109; 47; 99; 111; 115; 109;
  111; 115; 47; 99; 111; 115; 109; 111; 115; 45; 112; 114; 111; 116; 111; 47;
  101; 120; 97; 109; 112; 108; 101; 115; 98; 6; 112; 114; 111; 116; 111; 51].

(** [file_internal_testprotos_test3_test_import_proto_rawDesc]
    (test_import.pulsar.go lines 459-471). *)
Definition file_internal_testprotos_test3_test_import_proto_rawDesc : bytes := [
  10; 43; 105; 110; 116; 101; 114; 110; 97; 108; 47; 116; 101; 115; 116; 112;
  114; 111; 116; 111; 115; 47; 116; 101; 115; 116; 51; 47; 116; 101; 115; 116;
  95; 105; 109; 112; 111; 114; 116; 46; 112; 114; 111; 116; 111; 18; 19; 103;
  111; 112; 114; 111; 116; 111; 46; 112; 114; 111; 116; 111; 46; 116; 101; 115;
  116; 51; 34; 15; 10; 13; 73; 109; 112; 111; 114; 116; 77; 101; 115; 115;
  97; 103; 101; 42; 29; 10; 10; 73; 109; 112; 111; 114; 116; 69; 110; 117;
  109; 18; 15; 10; 11; 73; 77; 80; 79; 82; 84; 95; 90; 69; 82; 79;
  16; 0; 66; 58; 90; 56; 103; 105; 116; 104; 117; 98; 46; 99; 111; 109;
  47; 99; 111; 115; 109; 111; 115; 47; 99; 111; 115; 109; 111; 115; 45; 112;
  114; 111; 116; 111; 47; 105; 110; 116; 101; 114; 110; 97; 108; 47; 116; 101;
  115; 116; 112; 114; 111; 116; 111; 115; 47; 116; 101; 115; 116; 51; 98; 6;
  112; 114; 111; 116; 111; 51].

(** foo.pulsar.go lines 532-585, without indentation and blank lines. *)
Definition foo_go : list bytes := (map str [
  "var File_foo_proto protoreflect.FileDescriptor";
  "var file_foo_proto_rawDesc = []byte{";
  "0x0a, 0x09, 0x66, 0x6f, 0x6f, 0x2e, 0x70, 0x72, 0x6f, 0x74, 0x6f, 0x12, 0x0c, 0x63, 0x6f, 0x73,";
  "0x6d, 0x6f, 0x73, 0x2e, 0x70, 0x72, 0x6f, 0x74, 0x6f, 0x22, 0x17, 0x0a, 0x03, 0x42, 0x61, 0x72,";
  "0x12, 0x10, 0x0a, 0x03, 0x62, 0x61, 0x7a, 0x18, 0x01, 0x20, 0x01, 0x28, 0x09, 0x52, 0x03, 0x62,";
  "0x61, 0x7a, 0x22, 0x39, 0x0a, 0x05, 0x48, 0x65, 0x6c, 0x6c, 0x6f, 0x12, 0x14, 0x0a, 0x05, 0x77,";
  "0x6f, 0x72, 0x6c, 0x64, 0x18, 0x01, 0x20, 0x01, 0x28, 0x09, 0x52, 0x05, 0x77, 0x6f, 0x72, 0x6c,";
  "0x64, 0x12, 0x1a, 0x0a, 0x08, 0x75, 0x6e, 0x69, 0x76, 0x65, 0x72, 0x73, 0x65, 0x18, 0x02, 0x20,";
  "0x01, 0x28, 0x08, 0x52, 0x08, 0x75, 0x6e, 0x69, 0x76, 0x65, 0x72, 0x73, 0x65, 0x42, 0x29, 0x5a,";
  "0x27, 0x67, 0x69, 0x74, 0x68, 0x75, 0x62, 0x2e, 0x63, 0x6f, 0x6d, 0x2f, 0x63, 0x6f, 0x73, 0x6d,";
  "0x6f, 0x73, 0x2f, 0x63, 0x6f, 0x73, 0x6d, 0x6f, 0x73, 0x2d, 0x70, 0x72, 0x6f, 0x74, 0x6f, 0x2f,";
  "0x65, 0x78, 0x61, 0x6d, 0x70, 0x6c, 0x65, 0x73, 0x62, 0x06, 0x70, 0x72, 0x6f, 0x74, 0x6f, 0x33,";
  "}";
  "var file_foo_proto_msgTypes = make([]protoimpl.MessageInfo, 2)";
  "var file_foo_proto_goTypes = []interface{}{";
  "(*Bar)(nil),   // 0: cosmos.proto.Bar";
  "(*Hello)(nil), // 1: cosmos.proto.Hello";
  "}";
  "var file_foo_proto_depIdxs = []int32{";
  "0, // [0:0] is the sub-list for method output_type";
  "0, // [0:0] is the sub-list for method input_type";
  "0, // [0:0] is the sub-list for extension type_name";
  "0, // [0:0] is the sub-list for extension extendee";
  "0, // [0:0] is the sub-list for field type_name";
  "}";
  "func init() { file_foo_proto_init() }";
  "func file_foo_proto_init() {";
  "if File_foo_proto != nil {";
  "return";
  "}";
  "if !protoimpl.UnsafeEnabled {";
  "}";
  "type x struct{}";
  "out := protoimpl.TypeBuilder{";
  "File: protoimpl.DescBuilder{";
  "GoPackagePath: reflect.TypeOf(x{}).PkgPath(),";
  "RawDescriptor: file_foo_proto_rawDesc,";
  "NumEnums:      0,";
  "NumMessages:   2,";
  "NumExtensions: 0,";
  "NumServices:   0,";
  "},";
  "GoTypes:           file_foo_proto_goTypes,";
  "DependencyIndexes: file_foo_proto_depIdxs,";
  "MessageInfos:      file_foo_proto_msgTypes,";
  "}.Build()";
  "File_foo_proto = out.File";
  "file_foo_proto_rawDesc = nil";
  "file_foo_proto_goTypes = nil";
  "file_foo_proto_depIdxs = nil";
  "}"])%string.

(** test_import.pulsar.go lines 456-537, without indentation and blank lines. *)
Definition test_import_go : list bytes := (map str [
  "var File_internal_testprotos_test3_test_import_proto protoreflect.FileDescriptor";
  "var file_internal_testprotos_test3_test_import_proto_rawDesc = []byte{";
  "0x0a, 0x2b, 0x69, 0x6e, 0x74, 0x65, 0x72, 0x6e, 0x61, 0x6c, 0x2f, 0x74, 0x65, 0x73, 0x74, 0x70,";
  "0x72, 0x6f, 0x74, 0x6f, 0x73, 0x2f, 0x74, 0x65, 0x73, 0x74, 0x33, 0x2f, 0x74, 0x65, 0x73, 0x74,";
  "0x5f, 0x69, 0x6d, 0x70, 0x6f, 0x72, 0x74, 0x2e, 0x70, 0x72, 0x6f, 0x74, 0x6f, 0x12, 0x13, 0x67,";
  "0x6f, 0x70, 0x72, 0x6f, 0x74, 0x6f, 0x2e, 0x70, 0x72, 0x6f, 0x74, 0x6f, 0x2e, 0x74, 0x65, 0x73,";
  "0x74, 0x33, 0x22, 0x0f, 0x0a, 0x0d, 0x49, 0x6d, 0x70, 0x6f, 0x72, 0x74, 0x4d, 0x65, 0x73, 0x73,";
  "0x61, 0x67, 0x65, 0x2a, 0x1d, 0x0a, 0x0a, 0x49, 0x6d, 0x70, 0x6f, 0x72, 0x74, 0x45, 0x6e, 0x75,";
  "0x6d, 0x12, 0x0f, 0x0a, 0x0b, 0x49, 0x4d, 0x50, 0x4f, 0x52, 0x54, 0x5f, 0x5a, 0x45, 0x52, 0x4f,";
  "0x10, 0x00, 0x42, 0x3a, 0x5a, 0x38, 0x67, 0x69, 0x74, 0x68, 0x75, 0x62, 0x2e, 0x63, 0x6f, 0x6d,";
  "0x2f, 0x63, 0x6f, 0x73, 0x6d, 0x6f, 0x73, 0x2f, 0x63, 0x6f, 0x73, 0x6d, 0x6f, 0x73, 0x2d, 0x70,";
  "0x72, 0x6f, 0x74, 0x6f, 0x2f, 0x69, 0x6e, 0x74, 0x65, 0x72, 0x6e, 0x61, 0x6c, 0x2f, 0x74, 0x65,";
  "0x73, 0x74, 0x70, 0x72, 0x6f, 0x74, 0x6f, 0x73, 0x2f, 0x74, 0x65, 0x73, 0x74, 0x33, 0x62, 0x06,";
  "0x70, 0x72, 0x6f, 0x74, 0x6f, 0x33,";
  "}";
  "var (";
  "file_internal_testprotos_test3_test_import_proto_rawDescOnce sync.Once";
  "file_internal_testprotos_test3_test_import_proto_rawDescData = file_internal_testprotos_test3_test_import_proto_rawDesc";
  ")";
  "func file_internal_testprotos_test3_test_import_proto_rawDescGZIP() []byte {";
  "file_internal_testprotos_test3_test_import_proto_rawDescOnce.Do(func() {";
  "file_internal_testprotos_test3_test_import_proto_rawDescData = protoimpl.X.CompressGZIP(file_internal_testprotos_test3_test_import_proto_rawDescData)";
  "})";
  "return file_internal_testprotos_test3_test_import_proto_rawDescData";
  "}";
  "var file_internal_testprotos_test3_test_import_proto_enumTypes = make([]protoimpl.EnumInfo, 1)";
  "var file_internal_testprotos_test3_test_import_proto_msgTypes = make([]protoimpl.MessageInfo, 1)";
  "var file_internal_testprotos_test3_test_import_proto_goTypes = []interface{}{";
  "(ImportEnum)(0),       // 0: goproto.proto.test3.ImportEnum";
  "(*ImportMessage)(nil), // 1: goproto.proto.test3.ImportMessage";
  "}";
  "var file_internal_testprotos_test3_test_import_proto_depIdxs = []int32{";
  "0, // [0:0] is the sub-list for method output_type";
  "0, // [0:0] is the sub-list for method input_type";
  "0, // [0:0] is the sub-list for extension type_name";
  "0, // [0:0] is the sub-list for extension extendee";
  "0, // [0:0] is the sub-list for field type_name";
  "}";
  "func init() { file_internal_testprotos_test3_test_import_proto_init() }";
  "func file_internal_testprotos_test3_test_import_proto_init() {";
  "if File_internal_testprotos_test3_test_import_proto != nil {";
  "return";
  "}";
  "if !protoimpl.UnsafeEnabled {";
  "file_internal_testprotos_test3_test_import_proto_msgTypes[0].Exporter = func(v interface{}, i int) interface{} {";
  "switch v := v.(*ImportMessage); i {";
  "case 0:";
  "return &v.state";
  "case 1:";
  "return &v.sizeCache";
  "case 2:";
  "return &v.unknownFields";
  "default:";
  "return nil";
  "}";
  "}";
  "}";
  "type x struct{}";
  "out := protoimpl.TypeBuilder{";
  "File: protoimpl.DescBuilder{";
  "GoPackagePath: reflect.TypeOf(x{}).PkgPath(),";
  "RawDescriptor: file_internal_testprotos_test3_test_import_proto_rawDesc,";
  "NumEnums:      1,";
  "NumMessages:   1,";
  "NumExtensions: 0,";
  "NumServices:   0,";
  "},";
  "GoTypes:           file_internal_testprotos_test3_test_import_proto_goTypes,";
  "DependencyIndexes: file_internal_testprotos_test3_test_import_proto_depIdxs,";
  "EnumInfos:         file_internal_testprotos_test3_test_import_proto_enumTypes,";
  "MessageInfos:      file_internal_testprotos_test3_test_import_proto_msgTypes,";
  "}.Build()";
  "File_internal_testprotos_test3_test_import_proto = out.File";
  "file_internal_testprotos_test3_test_import_proto_rawDesc = nil";
  "file_internal_testprotos_test3_test_import_proto_goTypes = nil";
  "file_internal_testprotos_test3_test_import_proto_depIdxs = nil";
  "}"])%string.

(** cosmos.pulsar.go lines 83-160, without indentation and blank lines. *)
Definition cosmos_go : list bytes := (map str [
  "var File_cosmos_proto_cosmos_proto protoreflect.FileDescriptor";
  "var file_cosmos_proto_cosmos_proto_rawDesc = []byte{";
  "0x0a, 0x19, 0x63, 0x6f, 0x73, 0x6d, 0x6f, 0x73, 0x5f, 0x70, 0x72, 0x6f, 0x74, 0x6f, 0x2f, 0x63,";
  "0x6f, 0x73, 0x6d, 0x6f, 0x73, 0x2e, 0x70, 0x72, 0x6f, 0x74, 0x6f, 0x12, 0x0c, 0x63, 0x6f, 0x73,";
  "0x6d, 0x6f, 0x73, 0x5f, 0x70, 0x72, 0x6f, 0x74, 0x6f, 0x1a, 0x20, 0x67, 0x6f, 0x6f, 0x67, 0x6c,";
  "0x65, 0x2f, 0x70, 0x72, 0x6f, 0x74, 0x6f, 0x62, 0x75, 0x66, 0x2f, 0x64, 0x65, 0x73, 0x63, 0x72,";
  "0x69, 0x70, 0x74, 0x6f, 0x72, 0x2e, 0x70, 0x72, 0x6f, 0x74, 0x6f, 0x3a, 0x54, 0x0a, 0x14, 0x69,";
  "0x6d, 0x70, 0x6c, 0x65, 0x6d, 0x65, 0x6e, 0x74, 0x73, 0x5f, 0x69, 0x6e, 0x74, 0x65, 0x72, 0x66,";
  "0x61, 0x63, 0x65, 0x12, 0x1f, 0x2e, 0x67, 0x6f, 0x6f, 0x67, 0x6c, 0x65, 0x2e, 0x70, 0x72, 0x6f,";
  "0x74, 0x6f, 0x62, 0x75, 0x66, 0x2e, 0x4d, 0x65, 0x73, 0x73, 0x61, 0x67, 0x65, 0x4f, 0x70, 0x74,";
  "0x69, 0x6f, 0x6e, 0x73, 0x18, 0xc9, 0xd6, 0x05, 0x20, 0x01, 0x28, 0x09, 0x52, 0x13, 0x69, 0x6d,";
  "0x70, 0x6c, 0x65, 0x6d, 0x65, 0x6e, 0x74, 0x73, 0x49, 0x6e, 0x74, 0x65, 0x72, 0x66, 0x61, 0x63,";
  "0x65, 0x3a, 0x4c, 0x0a, 0x11, 0x61, 0x63, 0x63, 0x65, 0x70, 0x74, 0x73, 0x5f, 0x69, 0x6e, 0x74,";
  "0x65, 0x72, 0x66, 0x61, 0x63, 0x65, 0x12, 0x1d, 0x2e, 0x67, 0x6f, 0x6f, 0x67, 0x6c, 0x65, 0x2e,";
  "0x70, 0x72, 0x6f, 0x74, 0x6f, 0x62, 0x75, 0x66, 0x2e, 0x46, 0x69, 0x65, 0x6c, 0x64, 0x4f, 0x70,";
  "0x74, 0x69, 0x6f, 0x6e, 0x73, 0x18, 0xc9, 0xd6, 0x05, 0x20, 0x01, 0x28, 0x09, 0x52, 0x10, 0x61,";
  "0x63, 0x63, 0x65, 0x70, 0x74, 0x73, 0x49, 0x6e, 0x74, 0x65, 0x72, 0x66, 0x61, 0x63, 0x65, 0x3a,";
  "0x37, 0x0a, 0x06, 0x73, 0x63, 0x61, 0x6c, 0x61, 0x72, 0x12, 0x1d, 0x2e, 0x67, 0x6f, 0x6f, 0x67,";
  "0x6c, 0x65, 0x2e, 0x70, 0x72, 0x6f, 0x74, 0x6f, 0x62, 0x75, 0x66, 0x2e, 0x46, 0x69, 0x65, 0x6c,";
  "0x64, 0x4f, 0x70, 0x74, 0x69, 0x6f, 0x6e, 0x73, 0x18, 0xca, 0xd6, 0x05, 0x20, 0x01, 0x28, 0x09,";
  "0x52, 0x06, 0x73, 0x63, 0x61, 0x6c, 0x61, 0x72, 0x3a, 0x38, 0x0a, 0x07, 0x67, 0x6f, 0x5f, 0x74,";
  "0x79, 0x70, 0x65, 0x12, 0x1d, 0x2e, 0x67, 0x6f, 0x6f, 0x67, 0x6c, 0x65, 0x2e, 0x70, 0x72, 0x6f,";
  "0x74, 0x6f, 0x62, 0x75, 0x66, 0x2e, 0x46, 0x69, 0x65, 0x6c, 0x64, 0x4f, 0x70, 0x74, 0x69, 0x6f,";
  "0x6e, 0x73, 0x18, 0xcb, 0xd6, 0x05, 0x20, 0x01, 0x28, 0x09, 0x52, 0x06, 0x67, 0x6f, 0x54, 0x79,";
  "0x70, 0x65, 0x42, 0x98, 0x01, 0x0a, 0x10, 0x63, 0x6f, 0x6d, 0x2e, 0x63, 0x6f, 0x73, 0x6d, 0x6f,";
  "0x73, 0x5f, 0x70, 0x72, 0x6f, 0x74, 0x6f, 0x42, 0x0b, 0x43, 0x6f, 0x73, 0x6d, 0x6f, 0x73, 0x50,";
  "0x72, 0x6f, 0x74, 0x6f, 0x50, 0x01, 0x5a, 0x2b, 0x67, 0x69, 0x74, 0x68, 0x75, 0x62, 0x2e, 0x63,";
  "0x6f, 0x6d, 0x2f, 0x63, 0x6f, 0x73, 0x6d, 0x6f, 0x73, 0x2f, 0x63, 0x6f, 0x73, 0x6d, 0x6f, 0x73,";
  "0x2d, 0x70, 0x72, 0x6f, 0x74, 0x6f, 0x2f, 0x63, 0x6f, 0x73, 0x6d, 0x6f, 0x73, 0x5f, 0x70, 0x72,";
  "0x6f, 0x74, 0x6f, 0xa2, 0x02, 0x03, 0x43, 0x58, 0x58, 0xaa, 0x02, 0x0b, 0x43, 0x6f, 0x73, 0x6d,";
  "0x6f, 0x73, 0x50, 0x72, 0x6f, 0x74, 0x6f, 0xca, 0x02, 0x0b, 0x43, 0x6f, 0x73, 0x6d, 0x6f, 0x73,";
  "0x50, 0x72, 0x6f, 0x74, 0x6f, 0xe2, 0x02, 0x17, 0x43, 0x6f, 0x73, 0x6d, 0x6f, 0x73, 0x50, 0x72,";
  "0x6f, 0x74, 0x6f, 0x5c, 0x47, 0x50, 0x42, 0x4d, 0x65, 0x74, 0x61, 0x64, 0x61, 0x74, 0x61, 0xea,";
  "0x02, 0x0b, 0x43, 0x6f, 0x73, 0x6d, 0x6f, 0x73, 0x50, 0x72, 0x6f, 0x74, 0x6f, 0x62, 0x06, 0x70,";
  "0x72, 0x6f, 0x74, 0x6f, 0x33,";
  "}";
  "var file_cosmos_proto_cosmos_proto_goTypes = []interface{}{";
  "(*descriptorpb.MessageOptions)(nil), // 0: google.protobuf.MessageOptions";
  "(*descriptorpb.FieldOptions)(nil),   // 1: google.protobuf.FieldOptions";
  "}";
  "var file_cosmos_proto_cosmos_proto_depIdxs = []int32{";
  "0, // 0: cosmos_proto.implements_interface:extendee -> google.protobuf.MessageOptions";
  "1, // 1: cosmos_proto.accepts_interface:extendee -> google.protobuf.FieldOptions";
  "1, // 2: cosmos_proto.scalar:extendee -> google.protobuf.FieldOptions";
  "1, // 3: cosmos_proto.go_type:extendee -> google.protobuf.FieldOptions";
  "4, // [4:4] is the sub-list for method output_type";
  "4, // [4:4] is the sub-list for method input_type";
  "4, // [4:4] is the sub-list for extension type_name";
  "0, // [0:4] is the sub-list for extension extendee";
  "0, // [0:0] is the sub-list for field type_name";
  "}";
  "func init() { file_cosmos_proto_cosmos_proto_init() }";
  "func file_cosmos_proto_cosmos_proto_init() {";
  "if File_cosmos_proto_cosmos_proto != nil {";
  "return";
  "}";
  "type x struct{}";
  "out := protoimpl.TypeBuilder{";
  "File: protoimpl.DescBuilder{";
  "GoPackagePath: reflect.TypeOf(x{}).PkgPath(),";
  "RawDescriptor: file_cosmos_proto_cosmos_proto_rawDesc,";
  "NumEnums:      0,";
  "NumMessages:   0,";
  "NumExtensions: 4,";
  "NumServices:   0,";
  "},";
  "GoTypes:           file_cosmos_proto_cosmos_proto_goTypes,";
  "DependencyIndexes: file_cosmos_proto_cosmos_proto_depIdxs,";
  "ExtensionInfos:    file_cosmos_proto_cosmos_proto_extTypes,";
  "}.Build()";
  "File_cosmos_proto_cosmos_proto = out.File";
  "file_cosmos_proto_cosmos_proto_rawDesc = nil";
  "file_cosmos_proto_cosmos_proto_goTypes = nil";
  "file_cosmos_proto_cosmos_proto_depIdxs = nil";
  "}"])%string.

(** foo.proto: messages [Bar] and [Hello], no unexported struct fields. *)
Definition foo_file : FileDesc :=
  mkFileDesc (str "File_foo_proto") (str "github.com/cosmos/cosmos-proto/examples") [] 
    [mkMessageDesc (ref "Bar" "cosmos.proto.Bar") [plain_field "cosmos.proto.Bar.baz"] [] ∅ 0;
     mkMessageDesc (ref "Hello" "cosmos.proto.Hello")
       [plain_field "cosmos.proto.Hello.world"; plain_field "cosmos.proto.Hello.universe"] [] ∅ 0]
    [] [] [] false (Some file_foo_proto_rawDesc).

(** test_import.proto: [ImportEnum] and [ImportMessage], whose struct has
    the unexported fields [state], [sizeCache], [unknownFields]. *)
Definition test_import_file : FileDesc :=
  mkFileDesc (str "File_internal_testprotos_test3_test_import_proto")
    (str "github.com/cosmos/cosmos-proto/internal/testprotos/test3")
    [mkGoTypeRef (str "ImportEnum") (str "goproto.proto.test3.ImportEnum") false]
    [mkMessageDesc (ref "ImportMessage" "goproto.proto.test3.ImportMessage") [] []
       (<[0%nat := str "state"]> (<[1%nat := str "sizeCache"]> (<[2%nat := str "unknownFields"]> ∅))) 3]
    [] [] [] true (Some file_internal_testprotos_test3_test_import_proto_rawDesc).

(** cosmos.proto: four extensions of [MessageOptions] and [FieldOptions];
    it imports google/protobuf/descriptor.proto from another Go package. *)
Definition cosmos_file : FileDesc :=
  let mo := ref "descriptorpb.MessageOptions" "google.protobuf.MessageOptions" in
  let fo := ref "descriptorpb.FieldOptions" "google.protobuf.FieldOptions" in
  mkFileDesc (str "File_cosmos_proto_cosmos_proto") (str "github.com/cosmos/cosmos-proto") [] []
    [mkExtDep (str "cosmos_proto.implements_interface") (Some mo) None None;
     mkExtDep (str "cosmos_proto.accepts_interface") (Some fo) None None;
     mkExtDep (str "cosmos_proto.scalar") (Some fo) None None;
     mkExtDep (str "cosmos_proto.go_type") (Some fo) None None]
    []
    [mkImportDep (str "google.golang.org/protobuf/types/descriptorpb")
       (str "File_google_protobuf_descriptor_proto")]
    false (Some CosmosProto.CosmosProto.file_cosmos_proto_cosmos_proto_rawDesc).


(** On the three generated files of src/, [genReflectFileDescriptor] prints
    their descriptor code, up to gofmt's spaces and line breaks. *)
Example genReflectFileDescriptor_generated_files :
  option_map (fun r => printed r.1) (genReflectFileDescriptor foo_file) = Some (printed foo_go) /\
  option_map (fun r => printed r.1) (genReflectFileDescriptor test_import_file)
  = Some (printed test_import_go) /\
  option_map (fun r => printed r.1) (genReflectFileDescriptor cosmos_file) = Some (printed cosmos_go).
Proof. split; [|split]; vm_compute; reflexivity. Qed.

(** ** Theorems *)

(** C30: The tables [genReflectFileDescriptor] prints are sound: every Go
    type is listed once in [goTypes], at the position its comment prints,
    and every dependency entry of [depIdxs] prints its own position and
    the index of its dependency's type in [goTypes]. *)
Theorem type_tables_sound f t :
  type_tables f = Some t ->
  NoDup (type_name <$> goTypes t) /\
  (forall k l, goTypes t !! k = Some l -> type_pos l = k) /\
  (forall j idx pos src name, depIdxs t !! j = Some (DDep idx pos src name) ->
     pos = j /\ exists l, goTypes t !! idx = Some l /\ type_name l = name).
Proof.
  intros H. pose proof (type_tables_tables_ok f t H) as [Hs Hseen Hn Hp Hd].
  split; [|split; [exact Hp|exact Hd]].
  apply NoDup_alt. intros i j x Hi Hj. rewrite list_lookup_fmap in Hi, Hj.
  destruct (goTypes t !! i) as [li|] eqn:Ei; [|discriminate].
  destruct (goTypes t !! j) as [lj|] eqn:Ej; [|discriminate].
  injection Hi as <-. injection Hj as Hj. apply Hn in Ei. apply Hn in Ej.
  rewrite Hj in Ej. congruence.
Qed.

(** C31: The [[]byte] literal [genFileDescriptor] prints holds exactly the
    marshalled descriptor: the lines between its header and its closing
    brace are the [0x%02x,] dumps of consecutive chunks of the bytes,
    16 bytes to a line but the last, which holds 1 to 16; they read back
    to the bytes, and no error is reported. *)
Theorem genFileDescriptor_rawDesc f b :
  fdMarshal f = Some b -> bytes_ok b = true ->
  exists body rest chunks,
    (genFileDescriptor f).1 =
      (str "var " ++ rawDescVarName (fdGoDescriptorIdent f) ++ str " = []byte{") ::
      body ++ [str "}"] ++ rest /\
    body = map (flat_map hex_byte) chunks /\ concat chunks = b /\
    Forall (fun xs => length xs = 16%nat) (removelast chunks) /\
    Forall (fun xs => (1 <= length xs <= 16)%nat) chunks /\
    unhex (concat body) = Some b /\
    (genFileDescriptor f).2 = false.
Proof.
  intros Hm Hb. unfold genFileDescriptor. rewrite Hm.
  destruct (hex_lines_chunks (length b) b (le_n _)) as (cs & Hl & Hc & H16 & Hr).
  exists (hex_lines (length b) b). eexists. exists cs. split; [reflexivity|].
  rewrite Hl, hex_lines_unhex, Hc; [repeat split; assumption || reflexivity|rewrite Hc; apply bytes_ok_Forall, Hb].
Qed.

(** ** Witnesses *)

Lemma type_tables_sound_witness :
  NoDup (type_name <$> goTypes (default (mkTables [] [] ∅) (type_tables cosmos_file))) /\
  (forall k l, goTypes (default (mkTables [] [] ∅) (type_tables cosmos_file)) !! k = Some l ->
     type_pos l = k) /\
  (forall j idx pos src name,
     depIdxs (default (mkTables [] [] ∅) (type_tables cosmos_file)) !! j = Some (DDep idx pos src name) ->
     pos = j /\ exists l, goTypes (default (mkTables [] [] ∅) (type_tables cosmos_file)) !! idx = Some l /\
       type_name l = name).
Proof. apply (type_tables_sound cosmos_file). vm_compute. reflexivity. Defined.

Lemma genFileDescriptor_rawDesc_witness :
  exists body rest chunks,
    (genFileDescriptor cosmos_file).1 =
      (str "var " ++ rawDescVarName (fdGoDescriptorIdent cosmos_file) ++ str " = []byte{") ::
      body ++ [str "}"] ++ rest /\
    body = map (flat_map hex_byte) chunks /\
    concat chunks = CosmosProto.CosmosProto.file_cosmos_proto_cosmos_proto_rawDesc /\
    Forall (fun xs => length xs = 16%nat) (removelast chunks) /\
    Forall (fun xs => (1 <= length xs <= 16)%nat) chunks /\
    unhex (concat body) = Some CosmosProto.CosmosProto.file_cosmos_proto_cosmos_proto_rawDesc /\
    (genFileDescriptor cosmos_file).2 = false.
Proof. apply genFileDescriptor_rawDesc; vm_compute; reflexivity. Defined.

End GoFileDesc.
