(* ===== verification/FileInfo.v ===== *)
(** * FileInfo: [newFileInfo] and the infos it builds
    (src/generator/gen.go, lines 690-728 and 1021-1118)

    [GenerateProtocGenGo] starts with [f := newFileInfo(file)]: the enums,
    messages and extensions of the file, nested ones included, collected
    in the "flattened ordering" of the runtime's [TypeBuilder] (those of
    the file first, then those of each message in a pre-order walk), each
    in a freshly allocated info, and the maps from an info's address to
    its index.  [newMessageInfo] also decodes the [go.field_tracking]
    option from the message options' unknown bytes ([isTrackedMessage]),
    with the [protowire] library, which is a parameter here (Section
    [Protowire]) with its documented contract as hypotheses where a
    theorem needs it.

    Memory: an info's address is drawn from a counter [bsNext]; a nil map
    is [None].  A protogen message is the tree [Message], walked with the
    induction principle [Message_ind] (the multi-arity tree of a list of
    subtrees).  The theorems: the three lists are the flattened ordering
    of the tree, every message of the file once; the address maps invert
    the lists; [isTrackedMessage] returns within its fuel. *)

From stdpp Require Import base gmap list.
From Stdlib Require Import String ZArith.
From S2P Require Import Prelude Protoreflect.
Open Scope go_scope.

Module FileInfo.
Import Protoreflect.Protoreflect.

(** ** What [newFileInfo] reads *)

Local Unset Elimination Schemes.
(** A [*protogen.Message]: its full name, [Enums] and [Extensions] by
    full name, nested [Messages], [IsWeak()] of each field, and the
    unknown bytes of its options. *)
Inductive Message := mkMessage {
  msgFullName : bytes;
  msgEnums : list bytes;
  msgMessages : list Message;
  msgExtensions : list bytes;
  msgFieldsWeak : list bool;
  msgOptionsUnknown : bytes
}.
Local Set Elimination Schemes.

Section Message_ind.
Variable P : Message -> Prop.
Hypothesis HP : forall n es ms xs ws u, Forall P ms -> P (mkMessage n es ms xs ws u).

Fixpoint Message_ind (m : Message) : P m :=
  match m with
  | mkMessage n es ms xs ws u =>
    HP n es ms xs ws u
      ((fix go (l : list Message) : Forall P l :=
          match l with
          | [] => @List.Forall_nil _ P
          | m :: l => @List.Forall_cons _ P m l (Message_ind m) (go l)
          end) ms)
  end.
End Message_ind.

(** A [*protogen.File]: its top-level [Enums], [Messages], [Extensions]. *)
Record File := mkFile {
  fileEnums : list bytes;
  fileMessages : list Message;
  fileExtensions : list bytes
}.

(** ** The infos (lines 690-728) *)

(** [type enumInfo struct] (lines 707-711), at address [eiPtr]. *)
Record enumInfo := mkEnumInfo {
  eiPtr : positive; eiEnum : bytes; genJSONMethod : bool; eiGenRawDescMethod : bool }.

(** [type messageInfo struct] (lines 713-719) *)
Record messageInfo := mkMessageInfo {
  miPtr : positive; miMessage : Message; miGenRawDescMethod : bool;
  genExtRangeMethod : bool; isTracked : bool; hasWeak : bool }.

(** [type extensionInfo struct] (lines 721-723) *)
Record extensionInfo := mkExtensionInfo { xiPtr : positive; xiExtension : bytes }.

(** [type structFields struct] (lines 725-728) *)
Record structFields := mkStructFields { sfCount : nat; sfUnexported : gmap nat bytes }.

(** [type fileInfo struct] (lines 690-706); [needRawDesc] starts false and
    is set by the emitters (GoEnum.v). *)
Record fileInfo := mkFileInfo {
  fiFile : File;
  allEnums : list enumInfo;
  allMessages : list messageInfo;
  allExtensions : list extensionInfo;
  allEnumsByPtr : option (gmap positive nat);
  allMessagesByPtr : option (gmap positive nat);
  allMessageFieldsByPtr : option (gmap positive structFields);
  needRawDesc : bool
}.

(** ** Code that returns, panics, or runs out of fuel *)

(** [None]: the fuel ran out; [Some (inl p)]: a panic. *)
Definition run (A : Type) : Type := option (pres A).

Definition rbind {A B} (c : run A) (k : A -> run B) : run B :=
  match c with None => None | Some (inl e) => Some (inl e) | Some (inr a) => k a end.

Declare Scope run_scope.
Delimit Scope run_scope with run.
Notation "x <-! c ;; k" := (rbind c (fun x => k))
  (at level 64, c at next level, right associativity) : run_scope.
Open Scope run_scope.

Definition ret {A} (a : A) : run A := Some (inr a).

(** ** [isTrackedMessage] (lines 1096-1113) *)

(** The functions of [protowire] [isTrackedMessage] calls. *)
Record Protowire := mkProtowire {
  (** [ConsumeTag(b)]: number, type, length (negative on error) *)
  ConsumeTag : bytes -> Z * Z * Z;
  (** [ConsumeVarint(b)]: value, length *)
  ConsumeVarint : bytes -> Z * Z;
  (** [ConsumeFieldValue(num, typ, b)]: length (negative on error) *)
  ConsumeFieldValue : Z -> Z -> bytes -> Z
}.

Section Protowire.
Variable pw : Protowire.

Definition trackFieldUse_fieldNumber : Z := 37383685.
Definition VarintType : Z := 0.

(** [b[n:]]: a negative [n] or one past [len(b)] panics. *)
Definition slice_from (b : bytes) (n : Z) : pres bytes :=
  if ((n <? 0) || (len b <? n))%bool
  then inl (Panic "runtime error: slice bounds out of range"%string)
  else inr (skipn (Z.to_nat n) b).

(** One iteration of [for len(b) > 0]; [DecodeBool(v)] is [v != 0]. *)
Definition tracked_step (b : bytes) (tracked : bool) : pres (bytes * bool) :=
  let '(num, typ, n) := ConsumeTag pw b in
  b <- slice_from b n ;;
  let tracked :=
    if ((num =? trackFieldUse_fieldNumber) && (typ =? VarintType))%bool
    then negb (fst (ConsumeVarint pw b) =? 0) else tracked in
  let m := ConsumeFieldValue pw num typ b in
  b <- slice_from b m ;;
  inr (b, tracked).

Fixpoint tracked_loop (fuel : nat) (b : bytes) (tracked : bool) : run bool :=
  match fuel with
  | O => None
  | S fuel =>
    if 0 <? len b then
      match tracked_step b tracked with
      | inl e => Some (inl e)
      | inr (b, tracked) => tracked_loop fuel b tracked
      end
    else ret tracked
  end.

(** [func isTrackedMessage(m *messageInfo) (tracked bool)]: one iteration
    per record, each at least one byte, so [len(b) + 1] rounds suffice. *)
Definition isTrackedMessage (m : Message) : run bool :=
  let b := msgOptionsUnknown m in tracked_loop (S (List.length b)) b false.

(** ** [newFileInfo] (lines 1021-1075) *)

(** The infos built so far and the next free address. *)
Record BuildState := mkBuildState {
  bsEnums : list enumInfo; bsMessages : list messageInfo;
  bsExtensions : list extensionInfo; bsNext : positive }.

(** [func newEnumInfo(f, enum) *enumInfo] (lines 1077-1082) *)
Definition newEnumInfo (ptr : positive) (enum : bytes) : enumInfo := mkEnumInfo ptr enum true true.

(** [func newMessageInfo(f, message) *messageInfo] (lines 1084-1093) *)
Definition newMessageInfo (ptr : positive) (message : Message) : run messageInfo :=
  t <-! isTrackedMessage message ;;
  ret (mkMessageInfo ptr message true true t
         (fold_left (fun w weak => (w || weak)%bool) (msgFieldsWeak message) false)).

(** [func newExtensionInfo(f, extension) *extensionInfo] (lines 1115-1118) *)
Definition newExtensionInfo (ptr : positive) (extension : bytes) : extensionInfo :=
  mkExtensionInfo ptr extension.

(** [initEnumInfos] (lines 1033-1037) *)
Definition initEnumInfos (enums : list bytes) (s : BuildState) : BuildState :=
  fold_left (fun s enum =>
    mkBuildState (bsEnums s ++ [newEnumInfo (bsNext s) enum]) (bsMessages s)
                 (bsExtensions s) (Pos.succ (bsNext s))) enums s.

(** [initMessageInfos] (lines 1038-1042) *)
Fixpoint initMessageInfos (messages : list Message) (s : BuildState) : run BuildState :=
  match messages with
  | [] => ret s
  | message :: messages =>
    mi <-! newMessageInfo (bsNext s) message ;;
    initMessageInfos messages
      (mkBuildState (bsEnums s) (bsMessages s ++ [mi]) (bsExtensions s) (Pos.succ (bsNext s)))
  end.

(** [initExtensionInfos] (lines 1043-1047) *)
Definition initExtensionInfos (extensions : list bytes) (s : BuildState) : BuildState :=
  fold_left (fun s extension =>
    mkBuildState (bsEnums s) (bsMessages s)
                 (bsExtensions s ++ [newExtensionInfo (bsNext s) extension])
                 (Pos.succ (bsNext s))) extensions s.

(** [walkMessages] (lines 1026-1032): [f(m)], then the nested messages
    of [m], for each [m] in turn. *)
Fixpoint walkMessage (f : Message -> BuildState -> run BuildState) (m : Message)
    (s : BuildState) : run BuildState :=
  s <-! f m s ;;
  (fix go (ms : list Message) (s : BuildState) : run BuildState :=
     match ms with [] => ret s | m' :: ms => s <-! walkMessage f m' s ;; go ms s end)
    (msgMessages m) s.

Fixpoint walkMessages (f : Message -> BuildState -> run BuildState) (ms : list Message)
    (s : BuildState) : run BuildState :=
  match ms with [] => ret s | m :: ms => s <-! walkMessage f m s ;; walkMessages f ms s end.

(** The closure [newFileInfo] walks with (lines 1051-1055). *)
Definition init_nested (m : Message) (s : BuildState) : run BuildState :=
  let s := initEnumInfos (msgEnums m) s in
  s <-! initMessageInfos (msgMessages m) s ;;
  ret (initExtensionInfos (msgExtensions m) s).

(** [for i, e := range l { byPtr[e] = i }] *)
Fixpoint index_map (i : nat) (ptrs : list positive) (acc : gmap positive nat) : gmap positive nat :=
  match ptrs with [] => acc | p :: ptrs => index_map (S i) ptrs (<[p := i]> acc) end.

(** [func newFileInfo(file *protogen.File) *fileInfo] *)
Definition newFileInfo (file : File) : run fileInfo :=
  let s := initEnumInfos (fileEnums file) (mkBuildState [] [] [] 1) in
  s <-! initMessageInfos (fileMessages file) s ;;
  let s := initExtensionInfos (fileExtensions file) s in
  s <-! walkMessages init_nested (fileMessages file) s ;;
  let enums := bsEnums s in
  let msgs := bsMessages s in
  ret (mkFileInfo file enums msgs (bsExtensions s)
         (if Nat.ltb 0 (List.length enums) then Some (index_map 0 (map eiPtr enums) ∅) else None)
         (if Nat.ltb 0 (List.length msgs) then Some (index_map 0 (map miPtr msgs) ∅) else None)
         (if Nat.ltb 0 (List.length msgs)
          then Some (fold_left (fun acc m => <[miPtr m := mkStructFields 0 ∅]> acc) msgs ∅)
          else None)
         false).

End Protowire.

(** ** The flattened ordering *)

Section Flattening.
Variable pw : Protowire.

(** The messages of a tree in pre-order: the reference order. *)
Fixpoint preorder (m : Message) : list Message := m :: flat_map preorder (msgMessages m).

(** [f] run over a list of values in turn. *)
Fixpoint rfold {A} (f : A -> BuildState -> run BuildState) (l : list A) (s : BuildState)
  : run BuildState :=
  match l with [] => ret s | a :: l => s <-! f a s ;; rfold f l s end.

Lemma rbind_assoc {A B C} (c : run A) (k1 : A -> run B) (k2 : B -> run C) :
  rbind (rbind c k1) k2 = rbind c (fun a => rbind (k1 a) k2).
Proof. destruct c as [[e|a]|]; reflexivity. Qed.

Lemma rfold_app {A} (f : A -> BuildState -> run BuildState) l1 l2 s :
  rfold f (l1 ++ l2) s = (s <-! rfold f l1 s ;; rfold f l2 s).
Proof.
  revert s. induction l1 as [|a l1 IH]; intros s; [reflexivity|].
  cbn. rewrite rbind_assoc. destruct (f a s) as [[e|s']|]; [reflexivity|apply IH|reflexivity].
Qed.

(** [walkMessages] runs [f] on the messages in pre-order. *)
Lemma walkMessage_preorder f m s : walkMessage f m s = rfold f (preorder m) s.
Proof.
  revert s. induction m as [n es ms xs ws u IH] using Message_ind; intros s. cbn.
  destruct (f _ s) as [[e|s']|]; cbn; [reflexivity| |reflexivity].
  clear s. revert s'. induction IH as [|m ms Hm _ IHms]; intros s; [reflexivity|].
  cbn. rewrite Hm, rfold_app. destruct (rfold f (preorder m) s) as [[e|s']|]; cbn; auto.
Qed.

Lemma walkMessages_preorder f ms s : walkMessages f ms s = rfold f (flat_map preorder ms) s.
Proof.
  revert s. induction ms as [|m ms IH]; intros s; [reflexivity|].
  cbn [walkMessages flat_map]. rewrite walkMessage_preorder, rfold_app.
  destruct (rfold f (preorder m) s) as [[e|s']|]; cbn; auto.
Qed.

(** ** What the init functions append *)

(** The enums, messages and extensions the infos hold. *)
Definition names (s : BuildState) : list bytes * list Message * list bytes :=
  (map eiEnum (bsEnums s), map miMessage (bsMessages s), map xiExtension (bsExtensions s)).

(** The addresses of the infos. *)
Definition all_ptrs (s : BuildState) : list positive :=
  map eiPtr (bsEnums s) ++ map miPtr (bsMessages s) ++ map xiPtr (bsExtensions s).

(** The addresses are distinct and below the next free one. *)
Definition ptrs_ok (s : BuildState) : Prop :=
  NoDup (all_ptrs s) /\ Forall (fun p => (p < bsNext s)%positive) (all_ptrs s).

Lemma ptrs_ok_alloc s s' :
  ptrs_ok s -> all_ptrs s' ≡ₚ bsNext s :: all_ptrs s -> bsNext s' = Pos.succ (bsNext s) ->
  ptrs_ok s'.
Proof.
  intros [Hnd Hlt] Hp Hn. unfold ptrs_ok. rewrite Hp, Hn. split.
  - constructor; [|exact Hnd]. intros Hin. rewrite List.Forall_forall in Hlt.
    exact (Pos.lt_irrefl _ (Hlt _ (proj1 (list_elem_of_In _ _) Hin))).
  - constructor; [apply Pos.lt_succ_diag_r|].
    eapply List.Forall_impl; [|exact Hlt]. intros; apply Pos.lt_lt_succ; assumption.
Qed.

Definition app3 (t : list bytes * list Message * list bytes) es ms xs :=
  (t.1.1 ++ es, t.1.2 ++ ms, t.2 ++ xs).

Lemma app3_nil t : app3 t [] [] [] = t.
Proof. destruct t as [[e m] x]. unfold app3. cbn. rewrite !app_nil_r. reflexivity. Qed.

Lemma app3_app t a b c a' b' c' :
  app3 (app3 t a b c) a' b' c' = app3 t (a ++ a') (b ++ b') (c ++ c').
Proof. unfold app3. cbn. rewrite !app_assoc. reflexivity. Qed.

#[local] Hint Rewrite app3_nil app3_app app_nil_r app_nil_l : go_rw.

Lemma initEnumInfos_spec es s :
  let s' := initEnumInfos es s in names s' = app3 (names s) es [] [] /\ (ptrs_ok s -> ptrs_ok s').
Proof.
  revert s. induction es as [|e es IH]; intros s; cbv zeta.
  { cbn. rewrite app3_nil. split; [reflexivity|auto]. }
  set (s1 := mkBuildState (bsEnums s ++ [newEnumInfo (bsNext s) e]) (bsMessages s)
                 (bsExtensions s) (Pos.succ (bsNext s))).
  change (initEnumInfos (e :: es) s) with (initEnumInfos es s1).
  destruct (IH s1) as [Hn Hp]. split.
  - rewrite Hn. unfold names, app3. cbn. rewrite map_app, <- app_assoc. reflexivity.
  - intros Hs. apply Hp. eapply ptrs_ok_alloc; [exact Hs| |reflexivity].
    unfold all_ptrs. cbn. rewrite map_app. cbn. solve_Permutation.
Qed.

Lemma initExtensionInfos_spec xs s :
  let s' := initExtensionInfos xs s in names s' = app3 (names s) [] [] xs /\ (ptrs_ok s -> ptrs_ok s').
Proof.
  revert s. induction xs as [|x xs IH]; intros s; cbv zeta.
  { cbn. rewrite app3_nil. split; [reflexivity|auto]. }
  set (s1 := mkBuildState (bsEnums s) (bsMessages s)
                 (bsExtensions s ++ [newExtensionInfo (bsNext s) x]) (Pos.succ (bsNext s))).
  change (initExtensionInfos (x :: xs) s) with (initExtensionInfos xs s1).
  destruct (IH s1) as [Hn Hp]. split.
  - rewrite Hn. unfold names, app3. cbn. rewrite map_app, <- app_assoc. reflexivity.
  - intros Hs. apply Hp. eapply ptrs_ok_alloc; [exact Hs| |reflexivity].
    unfold all_ptrs. cbn. rewrite !map_app. cbn. solve_Permutation.
Qed.

Lemma newMessageInfo_ptr ptr m mi :
  newMessageInfo pw ptr m = Some (inr mi) -> miPtr mi = ptr /\ miMessage mi = m.
Proof.
  unfold newMessageInfo. destruct (isTrackedMessage pw m) as [[e|t]|]; try discriminate.
  intros [= <-]. split; reflexivity.
Qed.

Lemma initMessageInfos_spec ms s s' :
  initMessageInfos pw ms s = Some (inr s') ->
  names s' = app3 (names s) [] ms [] /\ (ptrs_ok s -> ptrs_ok s').
Proof.
  revert s. induction ms as [|m ms IH]; intros s; cbn.
  { intros [= <-]. rewrite app3_nil. split; [reflexivity|auto]. }
  destruct (newMessageInfo pw (bsNext s) m) as [[e|mi]|] eqn:Hm; try discriminate. cbn.
  apply newMessageInfo_ptr in Hm as [Hp Hmm].
  intros Hr. destruct (IH _ Hr) as [Hn Ho]. split.
  - rewrite Hn. unfold names, app3. cbn. rewrite map_app, <- app_assoc. cbn. rewrite Hmm.
    reflexivity.
  - intros Hs. apply Ho. eapply ptrs_ok_alloc; [exact Hs| |reflexivity].
    unfold all_ptrs. cbn. rewrite map_app. cbn. rewrite Hp. solve_Permutation.
Qed.

Lemma init_nested_spec m s s' :
  init_nested pw m s = Some (inr s') ->
  names s' = app3 (names s) (msgEnums m) (msgMessages m) (msgExtensions m) /\
  (ptrs_ok s -> ptrs_ok s').
Proof.
  unfold init_nested. destruct (initEnumInfos_spec (msgEnums m) s) as [Hn1 Hp1].
  destruct (initMessageInfos pw (msgMessages m) (initEnumInfos (msgEnums m) s))
    as [[e|s2]|] eqn:Hm; try discriminate.
  cbn. intros [= <-]. destruct (initMessageInfos_spec _ _ _ Hm) as [Hn2 Hp2].
  destruct (initExtensionInfos_spec (msgExtensions m) s2) as [Hn3 Hp3]. split; [|auto].
  rewrite Hn3, Hn2, Hn1. autorewrite with go_rw. reflexivity.
Qed.

Lemma rfold_init_nested_spec l s s' :
  rfold (init_nested pw) l s = Some (inr s') ->
  names s' = app3 (names s) (flat_map msgEnums l) (flat_map msgMessages l)
                  (flat_map msgExtensions l) /\ (ptrs_ok s -> ptrs_ok s').
Proof.
  revert s. induction l as [|m l IH]; intros s; cbn.
  { intros [= <-]. rewrite app3_nil. split; [reflexivity|auto]. }
  destruct (init_nested pw m s) as [[e|s1]|] eqn:Hm; try discriminate. cbn. intros Hr.
  destruct (init_nested_spec _ _ _ Hm) as [Hn1 Hp1]. destruct (IH _ Hr) as [Hn2 Hp2].
  split; [|auto]. rewrite Hn2, Hn1. autorewrite with go_rw. reflexivity.
Qed.

(** Each message of the tree once: the top-level ones, then the nested
    ones of each message in pre-order, are the pre-order walk reordered. *)
Lemma flattened_perm_Forall l :
  Forall (fun m => msgMessages m ++ flat_map msgMessages (flat_map preorder (msgMessages m))
                   ≡ₚ flat_map preorder (msgMessages m)) l ->
  l ++ flat_map msgMessages (flat_map preorder l) ≡ₚ flat_map preorder l.
Proof.
  induction 1 as [|m l Hm _ IH]; [reflexivity|]. destruct m as [n es ms xs ws u].
  cbn in *. rewrite !flat_map_app. apply perm_skip.
  transitivity ((ms ++ flat_map msgMessages (flat_map preorder ms)) ++
                (l ++ flat_map msgMessages (flat_map preorder l))); [solve_Permutation|].
  rewrite Hm, IH. reflexivity.
Qed.

Lemma flattened_perm l :
  l ++ flat_map msgMessages (flat_map preorder l) ≡ₚ flat_map preorder l.
Proof.
  apply flattened_perm_Forall, List.Forall_forall. intros m _.
  induction m as [n es ms xs ws u IH] using Message_ind. cbn.
  apply flattened_perm_Forall, IH.
Qed.

(** [byPtr[p] = i] over a list of distinct addresses inverts the list. *)
Lemma index_map_notin i ps acc p : p ∉ ps -> index_map i ps acc !! p = acc !! p.
Proof.
  revert i acc. induction ps as [|q ps IH]; intros i acc Hp; [reflexivity|]. cbn.
  rewrite IH by set_solver. apply lookup_insert_ne. set_solver.
Qed.

Lemma index_map_lookup i ps acc k p :
  NoDup ps -> ps !! k = Some p -> index_map i ps acc !! p = Some (i + k)%nat.
Proof.
  revert i acc k. induction ps as [|q ps IH]; intros i acc k Hnd Hk; [discriminate|].
  apply NoDup_cons in Hnd as [Hq Hnd]. destruct k as [|k]; cbn in Hk |- *.
  - injection Hk as <-. rewrite index_map_notin by exact Hq.
    rewrite lookup_insert_eq, Nat.add_0_r. reflexivity.
  - rewrite (IH _ _ _ Hnd Hk). f_equal. lia.
Qed.

(** What [newFileInfo] returns: the lists of the build state, which hold
    the flattened ordering with distinct addresses, and the maps over
    them. *)
Lemma newFileInfo_state file fi :
  newFileInfo pw file = Some (inr fi) ->
  exists s,
    names s = (fileEnums file ++ flat_map msgEnums (flat_map preorder (fileMessages file)),
               fileMessages file ++ flat_map msgMessages (flat_map preorder (fileMessages file)),
               fileExtensions file ++ flat_map msgExtensions (flat_map preorder (fileMessages file)))
    /\ ptrs_ok s /\
    allEnums fi = bsEnums s /\ allMessages fi = bsMessages s /\
    allExtensions fi = bsExtensions s /\
    allEnumsByPtr fi = (if Nat.ltb 0 (List.length (bsEnums s))
                        then Some (index_map 0 (map eiPtr (bsEnums s)) ∅) else None) /\
    allMessagesByPtr fi = (if Nat.ltb 0 (List.length (bsMessages s))
                           then Some (index_map 0 (map miPtr (bsMessages s)) ∅) else None).
Proof.
  unfold newFileInfo. set (s0 := mkBuildState [] [] [] 1).
  destruct (initEnumInfos_spec (fileEnums file) s0) as [Hn1 Hp1].
  destruct (initMessageInfos pw (fileMessages file) (initEnumInfos (fileEnums file) s0))
    as [[e|s2]|] eqn:Hm; try discriminate. cbn.
  destruct (initMessageInfos_spec _ _ _ Hm) as [Hn2 Hp2].
  destruct (initExtensionInfos_spec (fileExtensions file) s2) as [Hn3 Hp3].
  rewrite walkMessages_preorder.
  destruct (rfold (init_nested pw) (flat_map preorder (fileMessages file))
              (initExtensionInfos (fileExtensions file) s2)) as [[e|s4]|] eqn:Hw;
    try discriminate.
  cbn. intros [= <-]. destruct (rfold_init_nested_spec _ _ _ Hw) as [Hn4 Hp4].
  exists s4. split; [|split; [|repeat split]].
  - rewrite Hn4, Hn3, Hn2, Hn1. autorewrite with go_rw. reflexivity.
  - apply Hp4, Hp3, Hp2, Hp1. split; constructor.
Qed.

(** C32: [newFileInfo] collects the enums, messages and extensions in the
    flattened ordering: those of the file, then those declared in each
    message of a pre-order walk; the messages are every message of the
    file, nested ones included, each once. *)
Theorem newFileInfo_flattened file fi :
  newFileInfo pw file = Some (inr fi) ->
  map eiEnum (allEnums fi) =
    fileEnums file ++ flat_map msgEnums (flat_map preorder (fileMessages file)) /\
  map miMessage (allMessages fi) =
    fileMessages file ++ flat_map msgMessages (flat_map preorder (fileMessages file)) /\
  map xiExtension (allExtensions fi) =
    fileExtensions file ++ flat_map msgExtensions (flat_map preorder (fileMessages file)) /\
  map miMessage (allMessages fi) ≡ₚ flat_map preorder (fileMessages file).
Proof.
  intros Hf. destruct (newFileInfo_state _ _ Hf) as (s & Hn & _ & -> & -> & -> & _).
  unfold names in Hn. injection Hn as -> -> ->.
  split; [reflexivity|]. split; [reflexivity|]. split; [reflexivity|]. apply flattened_perm.
Qed.

Lemma byPtr_lookup {A} (ptr : A -> positive) (l : list A) i a :
  NoDup (map ptr l) -> l !! i = Some a ->
  exists mp, (if Nat.ltb 0 (List.length l) then Some (index_map 0 (map ptr l) ∅) else None)
               = Some mp /\ mp !! ptr a = Some i.
Proof.
  intros Hnd Hi. assert (Hlen : Nat.ltb 0 (List.length l) = true).
  { apply Nat.ltb_lt. apply lookup_lt_Some in Hi. lia. }
  rewrite Hlen. eexists. split; [reflexivity|].
  apply (index_map_lookup 0 _ ∅ i (ptr a) Hnd). rewrite list_lookup_fmap, Hi. reflexivity.
Qed.

Lemma byPtr_nil {A} (ptr : A -> positive) (l : list A) :
  (if Nat.ltb 0 (List.length l) then Some (index_map 0 (map ptr l) ∅) else None) = None <-> l = [].
Proof. destruct l; cbn; split; congruence. Qed.

(** C33: the address maps of [newFileInfo] invert the lists: the info at
    index [i] of [allMessages] (of [allEnums]) is mapped to [i], and a map
    is nil exactly when its list is empty. *)
Theorem newFileInfo_byPtr file fi :
  newFileInfo pw file = Some (inr fi) ->
  (forall i mi, allMessages fi !! i = Some mi ->
     exists mp, allMessagesByPtr fi = Some mp /\ mp !! miPtr mi = Some i) /\
  (forall i ei, allEnums fi !! i = Some ei ->
     exists ep, allEnumsByPtr fi = Some ep /\ ep !! eiPtr ei = Some i) /\
  (allMessagesByPtr fi = None <-> allMessages fi = []) /\
  (allEnumsByPtr fi = None <-> allEnums fi = []).
Proof.
  intros Hf. destruct (newFileInfo_state _ _ Hf) as (s & _ & [Hnd _] & HE & HM & _ & HbE & HbM).
  unfold all_ptrs in Hnd. apply NoDup_app in Hnd as (HndE & _ & Hnd).
  apply NoDup_app in Hnd as (HndM & _ & _).
  rewrite HbE, HbM, HE, HM. split; [|split; [|split]].
  - intros i mi Hi. exact (byPtr_lookup miPtr _ _ _ HndM Hi).
  - intros i ei Hi. exact (byPtr_lookup eiPtr _ _ _ HndE Hi).
  - apply byPtr_nil.
  - apply byPtr_nil.
Qed.

End Flattening.

(** ** Termination *)

Section Termination.
Variable pw : Protowire.
(** The contract of [protowire.ConsumeTag]: on a non-empty input the
    length it reports is never 0 (a tag is at least one byte, an error a
    negative length). *)
Hypothesis ConsumeTag_progress : forall b, b <> [] -> (ConsumeTag pw b).2 <> 0.

Lemma slice_from_len b n b' : slice_from b n = inr b' -> List.length b' = (List.length b - Z.to_nat n)%nat.
Proof.
  unfold slice_from. destruct (_ || _)%bool; [discriminate|]. intros [= <-]. apply length_skipn.
Qed.

Lemma tracked_step_shrinks b t b' t' :
  b <> [] -> tracked_step pw b t = inr (b', t') -> (List.length b' < List.length b)%nat.
Proof.
  intros Hb. unfold tracked_step. pose proof (ConsumeTag_progress b Hb) as Hn.
  destruct (ConsumeTag pw b) as [[num typ] n]. cbn in Hn.
  destruct (slice_from b n) as [|b1] eqn:E1; [discriminate|]. cbn.
  destruct (slice_from b1 _) as [|b2] eqn:E2; [discriminate|]. intros [= <- _].
  apply slice_from_len in E2. unfold slice_from in E1.
  destruct ((n <? 0) || (len b <? n))%bool eqn:Hc; [discriminate|].
  injection E1 as <-. rewrite length_skipn in E2.
  apply orb_false_iff in Hc as [H1 H2]. apply Z.ltb_ge in H1, H2. unfold len in H2.
  destruct b; [contradiction|]. cbn in *. lia.
Qed.

(** With more rounds than bytes, the loop returns or panics, and more
    rounds give the same result. *)
Lemma tracked_loop_enough fuel fuel' b t :
  (List.length b < fuel)%nat -> (fuel <= fuel')%nat ->
  tracked_loop pw fuel b t <> None /\ tracked_loop pw fuel' b t = tracked_loop pw fuel b t.
Proof.
  revert fuel' b t. induction fuel as [|fuel IH]; intros fuel' b t Hf Hle; [lia|].
  destruct fuel' as [|fuel']; [lia|]. cbn.
  destruct (0 <? len b) eqn:Hb; [|split; [discriminate|reflexivity]].
  destruct (tracked_step pw b t) as [e|[b' t']] eqn:Hs; [split; [discriminate|reflexivity]|].
  assert (b <> []) by (intros ->; discriminate).
  apply tracked_step_shrinks in Hs; [|assumption]. apply IH; lia.
Qed.

Lemma rbind_returns {A B} (c : run A) (k : A -> run B) :
  c <> None -> (forall a, k a <> None) -> rbind c k <> None.
Proof. destruct c as [[e|a]|]; cbn; auto; discriminate. Qed.

Lemma isTrackedMessage_returns m : isTrackedMessage pw m <> None.
Proof. unfold isTrackedMessage. apply (tracked_loop_enough _ (S (List.length (msgOptionsUnknown m)))); lia. Qed.

Lemma init_nested_returns m s : init_nested pw m s <> None.
Proof.
  unfold init_nested. apply rbind_returns; [|discriminate].
  generalize (initEnumInfos (msgEnums m) s). induction (msgMessages m) as [|m' ms IH]; intros s';
    [discriminate|].
  cbn. apply rbind_returns; [|intros; apply IH].
  apply rbind_returns; [apply isTrackedMessage_returns|discriminate].
Qed.

(** C34: under the contract of [protowire], [isTrackedMessage] needs no
    more rounds than the options have bytes, and [newFileInfo] always
    returns (or panics): it never runs out of fuel. *)
Theorem newFileInfo_returns file :
  (forall m fuel, (List.length (msgOptionsUnknown m) < fuel)%nat ->
     tracked_loop pw fuel (msgOptionsUnknown m) false = isTrackedMessage pw m) /\
  newFileInfo pw file <> None.
Proof.
  split.
  { intros m fuel Hf. apply (tracked_loop_enough (S (List.length (msgOptionsUnknown m)))); lia. }
  unfold newFileInfo.
  assert (Hm : forall ms s, initMessageInfos pw ms s <> None).
  { induction ms as [|m ms IH]; intros s; [discriminate|]. cbn.
    apply rbind_returns; [|intros; apply IH].
    apply rbind_returns; [apply isTrackedMessage_returns|discriminate]. }
  apply rbind_returns; [apply Hm|]. intros s. rewrite walkMessages_preorder.
  apply rbind_returns; [|discriminate].
  generalize (initExtensionInfos (fileExtensions file) s).
  induction (flat_map preorder (fileMessages file)) as [|m l IH]; intros s'; [discriminate|].
  cbn. apply rbind_returns; [apply init_nested_returns|intros; apply IH].
Qed.

End Termination.

(** ** Witnesses *)

(** A [protowire] whose [ConsumeTag] takes the whole input as one tag. *)
Definition pw_whole : Protowire :=
  mkProtowire (fun b => (1, 2, len b)) (fun b => (0, len b)) (fun _ _ _ => 0).

Definition inner : Message := mkMessage [105] [[69]] [] [] [false] [].
Definition outer : Message := mkMessage [111] [] [inner] [[120]] [] [].
Definition bar : Message := mkMessage [98] [] [] [] [false] [].
Definition example_file : File := mkFile [[116]] [outer; bar] [].

Lemma newFileInfo_flattened_witness :
  exists fi, newFileInfo pw_whole example_file = Some (inr fi) /\
    map miMessage (allMessages fi) = [outer; bar; inner] /\
    map eiEnum (allEnums fi) = [[116]; [69]].
Proof.
  destruct (newFileInfo pw_whole example_file) as [[e|fi]|] eqn:Hf;
    try (vm_compute in Hf; discriminate).
  exists fi. split; [reflexivity|].
  destruct (newFileInfo_flattened pw_whole _ _ Hf) as (-> & -> & _). split; reflexivity.
Defined.

Lemma newFileInfo_byPtr_witness :
  exists fi mi mp, newFileInfo pw_whole example_file = Some (inr fi) /\
    allMessages fi !! 1%nat = Some mi /\ allMessagesByPtr fi = Some mp /\
    mp !! miPtr mi = Some 1%nat.
Proof.
  destruct (newFileInfo pw_whole example_file) as [[e|fi]|] eqn:Hf;
    try (vm_compute in Hf; discriminate).
  destruct (allMessages fi !! 1%nat) as [mi|] eqn:Hi.
  - destruct (proj1 (newFileInfo_byPtr pw_whole _ _ Hf) 1%nat mi Hi) as (mp & Hmp & Hl).
    exists fi, mi, mp. split; [reflexivity|]. split; [exact Hi|]. split; assumption.
  - exfalso. pose proof (proj1 (proj2 (newFileInfo_flattened pw_whole _ _ Hf))) as Hm.
    apply (f_equal (fun l => l !! 1%nat)) in Hm. rewrite list_lookup_fmap, Hi in Hm.
    discriminate.
Defined.

Lemma newFileInfo_returns_witness :
  (forall b, b <> [] -> (ConsumeTag pw_whole b).2 <> 0) /\
  newFileInfo pw_whole example_file <> None.
Proof.
  assert (Hc : forall b, b <> [] -> (ConsumeTag pw_whole b).2 <> 0).
  { intros [|c b] Hb; [contradiction|]. cbn. unfold len. cbn. lia. }
  split; [exact Hc|]. exact (proj2 (newFileInfo_returns pw_whole Hc example_file)).
Defined.

End FileInfo.
