(* ===== verification/Generate.v ===== *)
(** * Generate: the driver [GenerateProtocGenGo] (src/generator/gen.go,
    lines 82-97)

    The driver sets [FILENAME], builds the file info, prints the package
    clause and the top-level guards, every enum of [f.allEnums]
    ([genEnum], which sets [f.needRawDesc] when it prints an
    [EnumDescriptor] method), every top-level message ([genMsgStruct],
    followed by [genProtoMessageFunctions], which is outside src/ and a
    parameter here, and a blank line), and last the file descriptor code
    ([genReflectFileDescriptor]), which reads [f.needRawDesc].  What the
    driver reads of the file is [GenFile]: each part in the terms of the
    emitter that reads it (GoEnum.v, GoMsgText.v, GoFileDesc.v).

    The theorem: the [EnumDescriptor] methods the enums print call
    [<rawDesc>GZIP()], and the driver always prints the definition of that
    function when an enum prints such a method and the descriptor
    marshals; [newEnumInfo] (FileInfo.v) sets [genRawDescMethod] for
    every enum, so every file with an enum defines it. *)

From stdpp Require Import base list.
From Stdlib Require Import String ZArith.
From S2P Require Import Prelude GoTag GoStruct GoEnum GoMsgText GoFileDesc.
Open Scope go_scope.

Module Generate.
Import GoTag.GoTag GoStruct.GoStruct.
Module E := GoEnum.GoEnum.
Module T := GoMsgText.GoMsgText.
Module D := GoFileDesc.GoFileDesc.

(** What [GenerateProtocGenGo] reads of [file] and of [f := newFileInfo(file)]. *)
Record GenFile := mkGenFile {
  (** [file.GeneratedFilenamePrefix] *)
  gPrefix : bytes;
  (** [file.GoPackageName] *)
  gPackage : bytes;
  (** [f.allEnums], as [genEnum] reads them *)
  gAllEnums : list E.EnumInfo;
  (** [file.Messages], as [genMsgStruct] reads them *)
  gMessages : list GMessage;
  (** [f] as [genReflectFileDescriptor] reads it; its [needRawDesc] is
      the one the enums leave *)
  gDesc : D.FileDesc
}.

(** [f] with [needRawDesc] as [genEnum] left it. *)
Definition with_needRawDesc (d : D.FileDesc) (b : bool) : D.FileDesc :=
  D.mkFileDesc (D.fdGoDescriptorIdent d) (D.fdGoImportPath d) (D.fdAllEnums d)
    (D.fdAllMessages d) (D.fdAllExtensions d) (D.fdServices d) (D.fdImports d) b
    (D.fdMarshal d).

Section Driver.
(** [genProtoMessageFunctions(g, msg)], generated outside src/. *)
Variable genProtoMessageFunctions : GMessage -> list bytes.

(** [for i, msg := range file.Messages { genMsgStruct(g, msg, i); g.P() }]
    (lines 90-93) *)
Fixpoint genMsgStructs (FILENAME : bytes) (i : Z) (ms : list GMessage) : option (list bytes) :=
  match ms with
  | [] => Some []
  | msg :: ms =>
    ls <-? T.genMsgStruct_text FILENAME msg i ;;
    rest <-? genMsgStructs FILENAME (i + 1) ms ;;
    Some (ls ++ genProtoMessageFunctions msg ++ [[]] ++ rest)
  end.

(** [func GenerateProtocGenGo(plugin, g, file) *GeneratedFile]: the lines
    printed and whether [gen.Error] was called. *)
Definition GenerateProtocGenGo (file : GenFile) : option (list bytes * bool) :=
  let FILENAME := T.FILENAME_of (gPrefix file) in
  let fi := E.mkFileInfo (D.fdGoDescriptorIdent (gDesc file)) false in
  let '(enumLines, fi) := E.genEnums fi 0 (gAllEnums file) in
  structs <-? genMsgStructs FILENAME 0 (gMessages file) ;;
  ' (descLines, err) <-? D.genReflectFileDescriptor
                           (with_needRawDesc (gDesc file) (E.fiNeedRawDesc fi)) ;;
  Some (T.genPackage (gPackage file) ++ T.genTopLevelVars (map mGoIdent (gMessages file)) ++
        map E.render enumLines ++ structs ++ descLines, err).

End Driver.

(** ** The [GZIP] function *)

Definition GZIP_def (id : bytes) : bytes :=
  str "func " ++ rawDescVarName id ++ str "GZIP() []byte {".

Lemma genEnum_fileInfo fi idx e :
  snd (E.genEnum fi idx e) =
  if E.eGenRawDescMethod e then E.mkFileInfo (E.fiGoDescriptorIdent fi) true else fi.
Proof. unfold E.genEnum. destruct (E.eGenRawDescMethod e); reflexivity. Qed.

(** After the enum loop the descriptor's name is kept, and [needRawDesc]
    is set exactly when it was or an enum has [genRawDescMethod]. *)
Lemma genEnums_fileInfo fi idx es :
  E.fiGoDescriptorIdent (snd (E.genEnums fi idx es)) = E.fiGoDescriptorIdent fi /\
  E.fiNeedRawDesc (snd (E.genEnums fi idx es)) =
    (E.fiNeedRawDesc fi || existsb E.eGenRawDescMethod es)%bool.
Proof.
  revert fi idx. induction es as [|e es IH]; intros fi idx; cbn.
  { rewrite orb_false_r. split; reflexivity. }
  pose proof (genEnum_fileInfo fi idx e) as He.
  destruct (E.genEnum fi idx e) as [ls fi1]. cbn in He. subst fi1.
  specialize (IH (if E.eGenRawDescMethod e then E.mkFileInfo (E.fiGoDescriptorIdent fi) true else fi)
                 (idx + 1)).
  destruct (E.genEnums _ (idx + 1) es) as [ls' fi2]. cbn in *. destruct IH as [H1 H2].
  rewrite H1, H2. destruct (E.eGenRawDescMethod e); cbn; auto.
  rewrite orb_true_r. split; reflexivity.
Qed.

(** [genFileDescriptor] defines [GZIP] when [needRawDesc] is set and the
    descriptor marshals. *)
Lemma genFileDescriptor_GZIP d :
  D.fdNeedRawDesc d = true -> snd (D.genFileDescriptor d) = false ->
  In (GZIP_def (D.fdGoDescriptorIdent d)) (fst (D.genFileDescriptor d)).
Proof.
  unfold D.genFileDescriptor. intros Hn. destruct (D.fdMarshal d) as [b|]; [|discriminate].
  intros _. cbn [fst]. rewrite Hn. apply in_or_app. right. apply in_or_app. right.
  cbn. do 7 right. left. reflexivity.
Qed.

Lemma in_suffix_Some {A B} (pre l ls : list A) (e e' : B) x :
  Some (pre ++ l, e) = Some (ls, e') -> In x l -> In x ls.
Proof. intros [= <- _] Hx. apply in_or_app. right. exact Hx. Qed.

Lemma genReflectFileDescriptor_fd d ls err :
  D.genReflectFileDescriptor d = Some (ls, err) ->
  err = snd (D.genFileDescriptor d) /\
  forall l, In l (fst (D.genFileDescriptor d)) -> In l ls.
Proof.
  unfold D.genReflectFileDescriptor. destruct (D.genFileDescriptor d) as [fdl e] eqn:Hg.
  destruct (D.type_tables d); [|discriminate]. cbn. intros [= <- <-].
  split; [reflexivity|]. intros l Hl. do 2 right. apply in_or_app. left. exact Hl.
Qed.

(** C40: when an enum of the file prints its [EnumDescriptor] method,
    which returns [<rawDesc>GZIP()], and the descriptor marshals without
    error, the output of [GenerateProtocGenGo] defines that function: the
    [needRawDesc] flag [genEnum] sets reaches [genFileDescriptor]. *)
Theorem GenerateProtocGenGo_GZIP_defined gpmf file ls :
  GenerateProtocGenGo gpmf file = Some (ls, false) ->
  Exists (fun e => E.eGenRawDescMethod e = true) (gAllEnums file) ->
  In (GZIP_def (D.fdGoDescriptorIdent (gDesc file))) ls.
Proof.
  unfold GenerateProtocGenGo. intros Hg Hex.
  pose proof (genEnums_fileInfo (E.mkFileInfo (D.fdGoDescriptorIdent (gDesc file)) false) 0
                (gAllEnums file)) as [Hid Hneed].
  destruct (E.genEnums _ 0 (gAllEnums file)) as [enumLines fi]. cbn in Hid, Hneed.
  destruct (genMsgStructs gpmf _ 0 (gMessages file)) as [structs|]; [|discriminate].
  cbv beta iota in Hg.
  destruct (D.genReflectFileDescriptor (with_needRawDesc (gDesc file) (E.fiNeedRawDesc fi)))
    as [[descLines err]|] eqn:Hd; [|discriminate].
  cbv beta iota in Hg. assert (err = false) as -> by congruence.
  destruct (genReflectFileDescriptor_fd _ _ _ Hd) as [Herr Hin].
  assert (Hn : E.fiNeedRawDesc fi = true).
  { rewrite Hneed. cbn. apply existsb_exists. apply Exists_exists in Hex as (e & He & Hr).
    exists e. split; [apply list_elem_of_In, He|exact Hr]. }
  rewrite !app_assoc in Hg. apply (in_suffix_Some _ _ _ _ _ _ Hg), Hin.
  apply (genFileDescriptor_GZIP (with_needRawDesc (gDesc file) (E.fiNeedRawDesc fi)));
    [exact Hn|symmetry; exact Herr].
Qed.

(** test_import.proto through the driver: [ImportEnum] prints its
    [EnumDescriptor] method and the file has no top-level message body. *)
Definition test_import_gen : GenFile :=
  mkGenFile (str "internal/testprotos/test3/test_import") (str "test3")
    [E.ImportEnum_info] [] D.test_import_file.

Lemma GenerateProtocGenGo_GZIP_defined_witness :
  exists ls, GenerateProtocGenGo (fun _ => []) test_import_gen = Some (ls, false) /\
             In (GZIP_def (D.fdGoDescriptorIdent (gDesc test_import_gen))) ls.
Proof.
  set (ls := match GenerateProtocGenGo (fun _ => []) test_import_gen with
             | Some (ls, _) => ls | None => [] end).
  assert (Hg : GenerateProtocGenGo (fun _ => []) test_import_gen = Some (ls, false))
    by (vm_compute; reflexivity).
  exists ls. split; [exact Hg|].
  apply (GenerateProtocGenGo_GZIP_defined _ _ _ Hg). constructor. vm_compute. reflexivity.
Defined.

End Generate.
